(** * tsuserver3: the AO network protocol engine (server/network/aoprotocol.py)

    A shallow embedding of [AOProtocol]: frame extraction, the command
    dispatcher, the argument validator, and the handshake, IC-message,
    OOC-message and evidence handlers, followed by the properties that the
    protocol specification states about them.

    Conventions.
    - A Python [str] is the list of its Unicode code points ([list N]).
    - A dynamically typed argument is a [pyval]: a string or an integer.
    - The objects a handler reaches through [self.client], [self.client.area]
      and [self.server] live in a [World]: client and area records addressed
      by identifier (Python object identity becomes identifier equality), and
      an external state [Ext] owned by the collaborators that are not part of
      this file (database, area manager, evidence store, testimony).
    - Everything a handler sends out is recorded as an [Event].
    - A handler is a function of the world that yields a control-flow result
      (fall through, [return], or a raised exception), the new world and the
      events emitted, in order. *)

From Stdlib Require Import List NArith ZArith Bool Lia String Ascii.
From Stdlib Require Import DecimalString.
Import ListNotations.

Local Open Scope Z_scope.

Set Implicit Arguments.

(* ===================================================================== *)
(** ** Python strings *)
(* ===================================================================== *)

Module PyStr.

Definition str := list N.

(** An ASCII literal as a Python string. *)
Definition lit (s : string) : str :=
  List.map N_of_ascii (list_ascii_of_string s).

Definition eqb (a b : str) : bool :=
  if list_eq_dec N.eq_dec a b then true else false.

(** [len(s)] *)
Definition len (s : str) : Z := Z.of_nat (List.length s).

(** [s.startswith(p)] *)
Fixpoint startswith (s p : str) : bool :=
  match p, s with
  | [], _ => true
  | c :: p', d :: s' => N.eqb c d && startswith s' p'
  | _ :: _, [] => false
  end.

(** [sub in s] *)
Fixpoint contains (sub s : str) : bool :=
  startswith s sub ||
  match s with
  | [] => false
  | _ :: s' => contains sub s'
  end.

(** [c in s] for a single character. *)
Definition has_char (c : N) (s : str) : bool := existsb (N.eqb c) s.

(** The leftmost occurrence of [sep] in [s]: what is before it and what is
    after it.  [s.split(sep, 1)] is [[a; b]] when this is [Some (a, b)] and
    [[s]] when it is [None]. *)
Fixpoint split_once (sep s : str) : option (str * str) :=
  if startswith s sep then Some ([], skipn (List.length sep) s)
  else match s with
       | [] => None
       | c :: s' =>
           match split_once sep s' with
           | Some (a, b) => Some (c :: a, b)
           | None => None
           end
       end.

(** [s.split(sep, 1)] *)
Definition split1 (sep s : str) : list str :=
  match split_once sep s with
  | Some (a, b) => [a; b]
  | None => [s]
  end.

(** [s.split(c)] for a one-character separator. *)
Fixpoint split (c : N) (s : str) : list str :=
  match s with
  | [] => [[]]
  | x :: s' =>
      if N.eqb x c then [] :: split c s'
      else match split c s' with
           | h :: t => (x :: h) :: t
           | [] => [[x]]
           end
  end.

(** [sep.join(parts)] *)
Fixpoint join (sep : str) (parts : list str) : str :=
  match parts with
  | [] => []
  | [p] => p
  | p :: rest => p ++ sep ++ join sep rest
  end.

(** [s.replace(c, '')] for a single character, and more generally the
    removal of every character of a class ([re.sub('[...]', '', s)]). *)
Definition remove_chars (cls : N -> bool) (s : str) : str :=
  filter (fun c => negb (cls c)) s.

(** Python's notion of white space for [str.strip] on a [str]
    (the code points for which [str.isspace] holds). *)
Definition is_space (c : N) : bool :=
  ((9 <=? c) && (c <=? 13) || (28 <=? c) && (c <=? 32) ||
   (c =? 133) || (c =? 160) || (c =? 5760) ||
   (8192 <=? c) && (c <=? 8202) || (c =? 8232) || (c =? 8233) ||
   (c =? 8239) || (c =? 8287) || (c =? 12288))%N.

(** [s.lstrip()], [s.rstrip()], [s.strip()] *)
Fixpoint lstrip (s : str) : str :=
  match s with
  | c :: s' => if is_space c then lstrip s' else s
  | [] => []
  end.

Definition rstrip (s : str) : str := rev (lstrip (rev s)).

Definition strip (s : str) : str := rstrip (lstrip s).

(** [str(z)] for an integer. *)
Definition of_Z (z : Z) : str := lit (NilZero.string_of_int (Z.to_int z)).

(** ["\r\n"] *)
Definition crlf : str := [13%N; 10%N].

(** [s[:n]] and [s[n:]] for a non-negative [n]. *)
Definition take (n : nat) (s : str) : str := firstn n s.
Definition drop (n : nat) (s : str) : str := skipn n s.

End PyStr.

Import PyStr.

(* ===================================================================== *)
(** ** Dynamically typed arguments *)
(* ===================================================================== *)

(** An element of a handler's [args] list: the dispatcher passes strings,
    and [validate_net_cmd] replaces some of them by integers. *)
Inductive pyval : Type :=
| PStr (s : str)
| PInt (z : Z).

(** [str(v)] *)
Definition py_str (v : pyval) : str :=
  match v with
  | PStr s => s
  | PInt z => of_Z z
  end.

Definition pyval_eqb (a b : pyval) : bool :=
  match a, b with
  | PStr s, PStr t => PyStr.eqb s t
  | PInt x, PInt y => Z.eqb x y
  | _, _ => false
  end.

(** [v in (n1, n2, ...)] for a tuple of integers: a string is never equal
    to an integer. *)
Definition in_ints (v : pyval) (ns : list Z) : bool :=
  match v with
  | PInt z => existsb (Z.eqb z) ns
  | PStr _ => false
  end.

(** [v in (s1, s2, ...)] for a tuple of strings. *)
Definition in_strs (s : str) (ss : list str) : bool :=
  existsb (PyStr.eqb s) ss.

(* ===================================================================== *)
(** ** [AOProtocol.ArgType] *)
(* ===================================================================== *)

(** The value bound to an [Enum] member.  [STR = 1,] binds the one-element
    tuple [(1,)] because of the trailing comma; [INT_OR_STR = 3] binds the
    plain integer [3]. *)
Inductive enum_value : Type :=
| Tuple1 (z : Z)
| Plain (z : Z).

Definition enum_value_eqb (a b : enum_value) : bool :=
  match a, b with
  | Tuple1 x, Tuple1 y => Z.eqb x y
  | Plain x, Plain y => Z.eqb x y
  | _, _ => false
  end.

Inductive ArgType : Type :=
| STR
| STR_OR_EMPTY
| INT
| INT_OR_STR.

Definition ArgType_value (t : ArgType) : enum_value :=
  match t with
  | STR => Tuple1 1
  | STR_OR_EMPTY => Tuple1 2
  | INT => Tuple1 3
  | INT_OR_STR => Plain 3
  end.

(** Two names of an [Enum] denote the same member exactly when their values
    are equal (a later name with an equal value is an alias). *)
Definition ArgType_eqb (a b : ArgType) : bool :=
  enum_value_eqb (ArgType_value a) (ArgType_value b).

(** A shape in which every [INT_OR_STR] slot is declared [STR]. *)
Definition as_STR (t : ArgType) : ArgType :=
  match t with
  | INT_OR_STR => STR
  | t => t
  end.

(* ===================================================================== *)
(** ** Clients, areas, the world *)
(* ===================================================================== *)

(** The attributes of a [Client] object that the protocol reads or assigns. *)
Record Client : Type := mkClient {
  id : Z;
  ipid : Z;
  hdid : str;
  is_checked : bool;
  is_muted : bool;
  is_ooc_muted : bool;
  char_id : Z;
  char_name : str;
  charcurse : list Z;
  showname : str;
  name : str;
  fake_name : str;
  pos : str;
  charid_pair : Z;
  offset_pair : str;
  last_sprite : str;
  flip : Z;
  claimed_folder : str;
  shaken : bool;
  disemvowel : bool;
  area : nat;
  last_pkt_time : Z
}.

Definition set_hdid (v : str) (c : Client) : Client :=
  mkClient (id c) (ipid c) v (is_checked c) (is_muted c) (is_ooc_muted c)
    (char_id c) (char_name c) (charcurse c) (showname c) (name c)
    (fake_name c) (pos c) (charid_pair c) (offset_pair c) (last_sprite c)
    (flip c) (claimed_folder c) (shaken c) (disemvowel c) (area c)
    (last_pkt_time c).

Definition set_is_checked (v : bool) (c : Client) : Client :=
  mkClient (id c) (ipid c) (hdid c) v (is_muted c) (is_ooc_muted c)
    (char_id c) (char_name c) (charcurse c) (showname c) (name c)
    (fake_name c) (pos c) (charid_pair c) (offset_pair c) (last_sprite c)
    (flip c) (claimed_folder c) (shaken c) (disemvowel c) (area c)
    (last_pkt_time c).

Definition set_showname (v : str) (c : Client) : Client :=
  mkClient (id c) (ipid c) (hdid c) (is_checked c) (is_muted c)
    (is_ooc_muted c) (char_id c) (char_name c) (charcurse c) v (name c)
    (fake_name c) (pos c) (charid_pair c) (offset_pair c) (last_sprite c)
    (flip c) (claimed_folder c) (shaken c) (disemvowel c) (area c)
    (last_pkt_time c).

Definition set_name (v : str) (c : Client) : Client :=
  mkClient (id c) (ipid c) (hdid c) (is_checked c) (is_muted c)
    (is_ooc_muted c) (char_id c) (char_name c) (charcurse c) (showname c) v
    (fake_name c) (pos c) (charid_pair c) (offset_pair c) (last_sprite c)
    (flip c) (claimed_folder c) (shaken c) (disemvowel c) (area c)
    (last_pkt_time c).

Definition set_fake_name (v : str) (c : Client) : Client :=
  mkClient (id c) (ipid c) (hdid c) (is_checked c) (is_muted c)
    (is_ooc_muted c) (char_id c) (char_name c) (charcurse c) (showname c)
    (name c) v (pos c) (charid_pair c) (offset_pair c) (last_sprite c)
    (flip c) (claimed_folder c) (shaken c) (disemvowel c) (area c)
    (last_pkt_time c).

(** The five assignments of lines 670-675 of [net_cmd_ms];
    [sprite] is [None] when [last_sprite] is left as it was. *)
Definition set_pairing (cp : Z) (off : str) (sprite : option str) (fl : Z)
    (folder : str) (c : Client) : Client :=
  mkClient (id c) (ipid c) (hdid c) (is_checked c) (is_muted c)
    (is_ooc_muted c) (char_id c) (char_name c) (charcurse c) (showname c)
    (name c) (fake_name c) (pos c) cp off
    (match sprite with Some a => a | None => last_sprite c end)
    fl folder (shaken c) (disemvowel c) (area c) (last_pkt_time c).

Definition set_last_pkt_time (v : Z) (c : Client) : Client :=
  mkClient (id c) (ipid c) (hdid c) (is_checked c) (is_muted c)
    (is_ooc_muted c) (char_id c) (char_name c) (charcurse c) (showname c)
    (name c) (fake_name c) (pos c) (charid_pair c) (offset_pair c)
    (last_sprite c) (flip c) (claimed_folder c) (shaken c) (disemvowel c)
    (area c) v.

(** The attributes of an [Area] object that the protocol reads or assigns
    ([area_id] and [area_name] are the attributes [id] and [name]).
    [clients] lists the identifiers of the members in iteration order;
    [examine_index] is the statement at which an examination stands. *)
Record Area : Type := mkArea {
  area_id : Z;
  area_name : str;
  abbreviation : str;
  clients : list nat;
  showname_changes_allowed : bool;
  blankposting_allowed : bool;
  non_int_pres_only : bool;
  shouts_allowed : bool;
  last_ic_message : option (list pyval);
  examine_index : Z
}.

Definition set_last_ic_message (v : option (list pyval)) (a : Area) : Area :=
  mkArea (area_id a) (area_name a) (abbreviation a) (clients a) (showname_changes_allowed a)
    (blankposting_allowed a) (non_int_pres_only a) (shouts_allowed a) v
    (examine_index a).

(** [area.examine_index = v] (lines 561 and 572 of [net_cmd_ms]). *)
Definition set_examine_index (v : Z) (a : Area) : Area :=
  mkArea (area_id a) (area_name a) (abbreviation a) (clients a) (showname_changes_allowed a)
    (blankposting_allowed a) (non_int_pres_only a) (shouts_allowed a)
    (last_ic_message a) v.

(** What leaves the handler: commands sent to one client, to an area, to
    other areas, to an area's owners; OOC notices; disconnects; the debug
    log; and calls into the OOC command registry. *)
Inductive Event : Type :=
| EvSendCommand (c : nat) (cmd : str) (args : list pyval)
| EvSendOOC (c : nat) (msg : str)
| EvDisconnect (c : nat)
| EvAreaSend (a : nat) (cmd : str) (args : list pyval)
| EvRemoteSend (targets : list Z) (cmd : str) (args : list pyval)
| EvOwnerSend (a : nat) (cmd : str) (args : list pyval)
| EvBroadcastEvidence (a : nat)
| EvDebugLog (msg : str)
| EvLogException (msg : str)
| EvOocCommand (c : nat) (cmd : str) (arg : str).

Inductive Exn : Type :=
| ProtocolError
| KeyError
| ValueError
| AttributeError
| IndexError
| TypeError
| ClientError
| AreaError
| ArgumentError
| ServerError
| OtherError.

Definition Exn_eqb (a b : Exn) : bool :=
  match a, b with
  | ProtocolError, ProtocolError | KeyError, KeyError
  | ValueError, ValueError | AttributeError, AttributeError
  | IndexError, IndexError | TypeError, TypeError
  | ClientError, ClientError | AreaError, AreaError
  | ArgumentError, ArgumentError | ServerError, ServerError
  | OtherError, OtherError => true
  | _, _ => false
  end.

(** A ban record as the database returns it; [unban_date] is [None] for a
    ban without expiry. *)
Record Ban : Type := mkBan {
  reason : str;
  ban_id : Z;
  unban_date : option Z
}.

Record World (Ext : Type) : Type := mkWorld {
  client_of : nat -> Client;
  area_of : nat -> Area;
  ext : Ext
}.

(** Control flow of a block of statements: it falls through with a value,
    executes [return], or raises. *)
Inductive Flow (A : Type) : Type :=
| Next (a : A)
| Return
| Raise (e : Exn).

Arguments Return {A}.
Arguments Raise {A} e.

Record Out (Ext A : Type) : Type := mkOut {
  flow : Flow A;
  world : World Ext;
  emitted : list Event
}.

Definition M (Ext A : Type) : Type := World Ext -> Out Ext A.

Definition upd (T : Type) (k : nat) (v : T) (f : nat -> T) : nat -> T :=
  fun x => if Nat.eqb x k then v else f x.

Section Monad.

Context {Ext : Type}.

Definition ret {A : Type} (a : A) : M Ext A :=
  fun w => mkOut (Next a) w [].

Definition bind {A B : Type} (m : M Ext A) (k : A -> M Ext B) : M Ext B :=
  fun w =>
    let o := m w in
    match flow o with
    | Next a =>
        let o' := k a (world o) in
        mkOut (flow o') (world o') (emitted o ++ emitted o')
    | Return => mkOut Return (world o) (emitted o)
    | Raise e => mkOut (Raise e) (world o) (emitted o)
    end.

(** [return] *)
Definition return_ {A : Type} : M Ext A :=
  fun w => mkOut Return w [].

(** [raise e] *)
Definition raise {A : Type} (e : Exn) : M Ext A :=
  fun w => mkOut (Raise e) w [].

(** [try: m except e: h] *)
Definition try_except {A : Type} (m : M Ext A) (e : Exn) (h : M Ext A)
    : M Ext A :=
  fun w =>
    let o := m w in
    match flow o with
    | Raise e' =>
        if Exn_eqb e' e then
          let o' := h (world o) in
          mkOut (flow o') (world o') (emitted o ++ emitted o')
        else o
    | _ => o
    end.

Definition emit (ev : Event) : M Ext unit :=
  fun w => mkOut (Next tt) w [ev].

(** Reading an attribute. *)
Definition read {A : Type} (f : World Ext -> A) : M Ext A :=
  fun w => mkOut (Next (f w)) w [].

(** Assigning attributes. *)
Definition modify (f : World Ext -> World Ext) : M Ext unit :=
  fun w => mkOut (Next tt) (f w) [].

(** The world with a new external state. *)
Definition with_ext (x : Ext) (w : World Ext) : World Ext :=
  mkWorld (client_of w) (area_of w) x.

(** Calling a collaborator: it sees the world and leaves a new external
    state. *)
Definition call {A : Type} (f : World Ext -> A * Ext) : M Ext A :=
  fun w => mkOut (Next (fst (f w))) (with_ext (snd (f w)) w) [].

Definition call_ (f : World Ext -> Ext) : M Ext unit :=
  fun w => mkOut (Next tt) (with_ext (f w) w) [].

(** A value that may be missing ([None] raises [e]). *)
Definition lookup_or_raise {A : Type} (e : Exn) (o : option A) : M Ext A :=
  match o with
  | Some a => ret a
  | None => raise e
  end.

(** The result of an operation that names the exception it raises. *)
Definition value_or_raise {A : Type} (r : Exn + A) : M Ext A :=
  match r with
  | inr a => ret a
  | inl e => raise e
  end.

Definition set_client (c : nat) (f : Client -> Client) (w : World Ext)
    : World Ext :=
  mkWorld (upd c (f (client_of w c)) (client_of w)) (area_of w) (ext w).

Definition set_area (a : nat) (f : Area -> Area) (w : World Ext)
    : World Ext :=
  mkWorld (client_of w) (upd a (f (area_of w a)) (area_of w)) (ext w).

End Monad.

Declare Scope py_scope.
Delimit Scope py_scope with py.
Notation "x <- m ;; k" := (bind m (fun x => k))
  (at level 61, m at next level, right associativity) : py_scope.
Notation "m ;; k" := (bind m (fun _ => k))
  (at level 61, right associativity) : py_scope.
Local Open Scope py_scope.

(** A method of [AOProtocol] bound to a connection: the identifier of
    [self.client], the argument list, and the effect. *)
Definition Handler (Ext : Type) : Type := nat -> list str -> M Ext unit.

(** The result of invoking an OOC command of the external registry. *)
Inductive OocResult : Type :=
| OocDone
| OocDomainError (e : Exn) (msg : str)
| OocFailure.

(* ===================================================================== *)
(** ** What the protocol is given *)
(* ===================================================================== *)

(** Built-in functions, the server configuration, and the collaborators
    whose code is outside this file.  A collaborator method sees the world
    and leaves a new external state; it does not raise unless its result
    type says so. *)
Record Env (Ext : Type) : Type := mkEnv {
  (* built-ins and libraries *)
  int_of_str : str -> option Z;            (* int(s); None is ValueError *)
  isdigit : str -> bool;                   (* s.isdigit() *)
  is_format_char : N -> bool;              (* unicodedata.category(c) == 'Cf' *)
  lower : str -> str;                      (* s.lower() *)
  decode_utf8_ignore : list Byte.byte -> str;   (* b.decode('utf-8', 'ignore') *)
  humanize : Z -> World Ext -> str;        (* arrow.get(d).humanize() *)
  time : World Ext -> Z;                   (* time() *)
  fanta_decrypt : str -> Exn + str;
  (* self.server *)
  zalgo_tolerance : nat;
  hostname : str;                          (* config['hostname'] *)
  max_chars : option Z;       (* int(config['max_chars']); None when it fails *)
  playerlimit : pyval;                     (* config['playerlimit'] *)
  software : str;
  version : str;
  player_count : World Ext -> Z;
  (* database *)
  add_hdid : Z -> str -> World Ext -> Ext;
  find_ban : Z -> str -> World Ext -> option Ban;
  log_connect : nat -> bool -> World Ext -> Ext;
  log_ic : nat -> nat -> str -> str -> World Ext -> Ext;
  log_room : str -> nat -> nat -> option str -> World Ext -> Ext;
  (* self.client *)
  is_valid_name : nat -> str -> World Ext -> bool * Ext;
  shake_message : nat -> str -> World Ext -> str * Ext;
  disemvowel_message : nat -> str -> World Ext -> str * Ext;
  evi_list_contains : nat -> Z -> World Ext -> bool;  (* e in client.evi_list *)
  evi_list_get : nat -> Z -> World Ext -> Exn + Z;    (* client.evi_list[e] *)
  toggle_afk : nat -> World Ext -> Ext;
  (* self.client.area *)
  can_send_message : nat -> nat -> World Ext -> bool * Ext;
  client_can_additive : nat -> nat -> World Ext -> bool * Ext;
  is_iniswap : nat -> nat -> str -> str -> str -> str -> World Ext -> bool * Ext;
  owners_contains : nat -> nat -> World Ext -> bool;  (* client in area.owners *)
  afkers_contains : nat -> nat -> World Ext -> bool;  (* client in area.afkers *)
  is_testifying : nat -> World Ext -> bool;
  is_examining : nat -> World Ext -> bool;
  is_recording : nat -> World Ext -> bool;
  start_testimony : nat -> nat -> str -> World Ext -> bool * Ext;
  start_examination : nat -> nat -> World Ext -> bool * Ext;
  end_testimony : nat -> nat -> World Ext -> bool * Ext;
  amend_testimony : nat -> nat -> Z -> list pyval -> World Ext -> bool * Ext;
  remove_statement : nat -> nat -> Z -> World Ext -> bool * Ext;
  navigate_testimony : nat -> nat -> str -> option Z -> World Ext -> Ext;
  testimony_title : nat -> World Ext -> str;
  testimony_statements_len : nat -> World Ext -> Z;
  testimony_add_statement : nat -> list pyval -> World Ext -> bool * Ext;
  recorded_messages_append : nat -> list pyval -> World Ext -> Ext;
  set_next_msg_delay : nat -> Z -> World Ext -> Ext;
  (* self.client.area.evi_list *)
  evidence_pos : nat -> Z -> World Ext -> Exn + str;  (* evidences[i].pos *)
  set_evidence_pos : nat -> Z -> str -> World Ext -> Ext;
  add_evidence : nat -> nat -> str -> str -> str -> str -> World Ext -> Ext;
  del_evidence : nat -> nat -> Z -> World Ext -> Ext;
  edit_evidence : nat -> nat -> Z -> str * str * str * str -> World Ext -> Ext;
  (* self.server.area_manager *)
  areas : World Ext -> list nat;
  get_area_by_id : Z -> World Ext -> option nat;      (* None is AreaError *)
  (* the OOC command registry: commands.ooc_cmd_<name> *)
  ooc_cmd : str -> option (nat -> str -> World Ext ->
                           OocResult * World Ext * list Event);
  (* the handlers of the dispatch table that are not embedded here *)
  other_handler : str -> Handler Ext
}.

(** The local variables of [net_cmd_ms]. *)
Module Loc.

Record t : Type := mk {
  args : list pyval;
  target_area : list Z;
  msg_type : str;
  pre : str;
  folder : str;
  anim : str;
  text : str;
  pos : str;
  sfx : str;
  anim_type : Z;
  cid : Z;
  sfx_delay : Z;
  button : pyval;
  evidence : Z;
  flip : Z;
  ding : Z;
  color : Z;
  showname : str;
  charid_pair : Z;
  offset_pair : str;
  nonint_pre : Z;
  sfx_looping : str;
  screenshake : Z;
  frames_shake : str;
  frames_realization : str;
  frames_sfx : str;
  additive : Z;
  effect : str;
  pair_order : pyval;
  msg : str
}.

End Loc.

(** The three argument shapes of the IC message, oldest first. *)
Definition shape_pre26 : list ArgType :=
  [STR; STR_OR_EMPTY; STR; STR; STR_OR_EMPTY; STR; STR; INT; INT; INT;
   INT_OR_STR; INT; INT; INT; INT].

Definition shape_26 : list ArgType :=
  [STR; STR_OR_EMPTY; STR; STR; STR_OR_EMPTY; STR; STR; INT; INT; INT;
   INT_OR_STR; INT; INT; INT; INT; STR_OR_EMPTY; INT; STR; INT].

Definition shape_28 : list ArgType :=
  [STR; STR_OR_EMPTY; STR; STR; STR_OR_EMPTY; STR; STR; INT; INT; INT;
   INT_OR_STR; INT; INT; INT; INT; STR_OR_EMPTY; STR; STR; INT; STR;
   INT; STR; STR; STR; INT; STR].

(** [l[i] = v] for an index inside the list. *)
Fixpoint list_set (A : Type) (i : nat) (v : A) (l : list A) : list A :=
  match l, i with
  | [], _ => []
  | _ :: t, O => v :: t
  | h :: t, S i' => h :: list_set i' v t
  end.

(** What [data_received] is called with. *)
Inductive Data : Type :=
| DNone
| DBytes (b : list Byte.byte)
| DStr (s : str).

(** The attributes [buffer] and [client] of the protocol object. *)
Record Conn : Type := mkConn {
  buffer : str;
  client : nat
}.

Section Protocol.

Context {Ext : Type} (E : Env Ext).

(* ===================================================================== *)
(** ** Small pieces shared by the handlers *)
(* ===================================================================== *)

(** [self.client.send_ooc(msg)] *)
Definition send_ooc (me : nat) (msg : str) : M Ext unit :=
  emit (EvSendOOC me msg).

(** [self.client.send_command(cmd, *args)] *)
Definition send_command (me : nat) (cmd : str) (args : list pyval) : M Ext unit :=
  emit (EvSendCommand me cmd args).

(** [self.client.disconnect()] *)
Definition disconnect (me : nat) : M Ext unit :=
  emit (EvDisconnect me).

(** [self.client] and [self.client.area], as they are now. *)
Definition self_client (me : nat) : M Ext Client :=
  read (fun w => client_of w me).

Definition self_area (me : nat) : M Ext nat :=
  read (fun w => area (client_of w me)).

(** [int(v)]: an integer is left alone, a string is parsed. *)
Definition py_int (v : pyval) : option Z :=
  match v with
  | PInt z => Some z
  | PStr s => int_of_str E s
  end.

(** [int(s)] as a statement that may raise [ValueError]. *)
Definition int_ (s : str) : M Ext Z :=
  lookup_or_raise ValueError (int_of_str E s).

(** [args[i]] *)
Definition item (i : nat) (args : list pyval) : M Ext pyval :=
  lookup_or_raise IndexError (nth_error args i).

(** A value used as a string. *)
Definition as_str (v : pyval) : M Ext str :=
  match v with
  | PStr s => ret s
  | PInt _ => raise TypeError
  end.

(** A function call: the callee's [return] ends the callee only. *)
Definition invoke (m : M Ext unit) : M Ext unit :=
  fun w =>
    let o := m w in
    match flow o with
    | Raise e => mkOut (Raise e) (world o) (emitted o)
    | _ => mkOut (Next tt) (world o) (emitted o)
    end.

(** [int(self.server.config['max_chars'])], 256 when that fails. *)
Definition max_char : Z :=
  match max_chars E with
  | Some n => n
  | None => 256
  end.

(* ===================================================================== *)
(** ** [dezalgo] *)
(* ===================================================================== *)

(** The character class of the regular expression. *)
Definition is_zalgo (c : N) : bool :=
  ((768 <=? c) && (c <=? 879) || (6832 <=? c) && (c <=? 6911) ||
   (7616 <=? c) && (c <=? 7679) || (8400 <=? c) && (c <=? 8447) ||
   (65056 <=? c) && (c <=? 65071) ||
   (c =? 4447) || (c =? 4448) || (c =? 12644))%N.

(** A maximal run of class characters is removed when it is at least
    [zalgo_tolerance] long ([run] is the current run, latest first). *)
Definition flush_run (tol : nat) (run : str) : str :=
  if Nat.leb tol (List.length run) then [] else rev run.

Fixpoint dezalgo_from (tol : nat) (run : str) (input : str) : str :=
  match input with
  | [] => flush_run tol run
  | c :: rest =>
      if is_zalgo c then dezalgo_from tol (c :: run) rest
      else flush_run tol run ++ c :: dezalgo_from tol [] rest
  end.

Definition dezalgo (input : str) : str :=
  dezalgo_from (zalgo_tolerance E) [] input.

(* ===================================================================== *)
(** ** [validate_net_cmd] *)
(* ===================================================================== *)

(** The loop over [enumerate(args)]; integer slots are converted in place,
    so the list is returned with the conversions made so far. *)
Fixpoint validate_args (args : list pyval) (types : list ArgType)
    : bool * list pyval :=
  match args, types with
  | arg :: args', t :: types' =>
      if (len (py_str arg) =? 0) && negb (ArgType_eqb t STR_OR_EMPTY)
      then (false, args)
      else if ArgType_eqb t INT then
        match py_int arg with
        | Some n =>
            let r := validate_args args' types' in
            (fst r, PInt n :: snd r)
        | None => (false, args)
        end
      else
        let r := validate_args args' types' in
        (fst r, arg :: snd r)
  | _, _ => (true, args)
  end.

Definition validate_net_cmd (c : Client) (args : list pyval)
    (types : list ArgType) (needs_auth : bool) : bool * list pyval :=
  if needs_auth && (char_id c =? -1) then (false, args)
  else if negb (Nat.eqb (List.length args) (List.length types))
  then (false, args)
  else validate_args args types.

(* ===================================================================== *)
(** ** [net_cmd_hi] *)
(* ===================================================================== *)

Definition ban_message (ban : Ban) (until : str) : str :=
  reason ban ++ crlf ++ lit "ID: " ++ of_Z (ban_id ban) ++ crlf ++
  lit "Until: " ++ until.

Definition net_cmd_hi : Handler Ext := fun me args0 =>
  c <- self_client me ;;
  if is_checked c then
    disconnect me ;;
    return_
  else
  let v := validate_net_cmd c (map PStr args0) [STR] false in
  if negb (fst v) then return_ else
  a0 <- item 0 (snd v) ;;
  hdid <- as_str a0 ;;
  modify (set_client me (set_hdid hdid)) ;;
  let ipid := ipid c in
  call_ (add_hdid E ipid hdid) ;;
  ban <- read (find_ban E ipid hdid) ;;
  match ban with
  | Some ban =>
      (* unban_date is an Arrow object, or the string 'N/A' *)
      until <- match unban_date ban with
               | Some d => read (humanize E d)
               | None => raise AttributeError   (* 'N/A'.humanize() *)
               end ;;
      let msg := ban_message ban until in
      call_ (log_connect E me true) ;;
      send_command me (lit "BD") [PStr msg] ;;
      disconnect me ;;
      return_
  | None =>
      modify (set_client me (set_is_checked true)) ;;
      call_ (log_connect E me false) ;;
      send_command me (lit "ID")
        [PInt (id c); PStr (software E); PStr (version E)] ;;
      n <- read (player_count E) ;;
      send_command me (lit "PN") [PInt n; playerlimit E]
  end.

(* ===================================================================== *)
(** ** [net_cmd_ct] *)
(* ===================================================================== *)

(** Lines 745-750: the name the client gave becomes the client's name when
    it is new and valid, and only the fake name otherwise. *)
Definition ct_resolve_name (me : nat) (given : str) : M Ext unit :=
  c <- self_client me ;;
  if negb (PyStr.eqb (name c) given) && negb (PyStr.eqb (fake_name c) given)
  then
    valid <- call (is_valid_name E me given) ;;
    if valid then
      modify (set_client me (set_name given)) ;;
      modify (set_client me (set_fake_name given))
    else
      modify (set_client me (set_fake_name given))
  else ret tt.

(** Lines 751-768: the checks on [self.client.name]. *)
Definition ct_check_name (me : nat) : M Ext unit :=
  c <- self_client me ;;
  let name := name c in
  if PyStr.eqb name [] then
    send_ooc me (lit "You must insert a name with at least one letter") ;;
    return_
  else if 30 <? len name then
    send_ooc me (lit "Your OOC name is too long! Limit it to 30 characters.") ;;
    return_
  else if existsb (is_format_char E) name then
    send_ooc me (lit "You cannot use format characters in your name!") ;;
    return_
  else if startswith name (hostname E) || startswith name (lit "<dollar>G")
          || startswith name (lit "<dollar>M") then
    send_ooc me (lit "That name is reserved!") ;;
    return_
  else ret tt.

(** Lines 799-803 and 646-650: [dezalgo] and the two text manglers. *)
Definition mangle (me : nat) (msg : str) : M Ext str :=
  c <- self_client me ;;
  msg <- (if shaken c then call (shake_message E me msg) else ret msg) ;;
  c <- self_client me ;;
  if disemvowel c then call (disemvowel_message E me msg) else ret msg.

(** Lines 780-797: a message that starts with a slash. *)
Definition ct_command (me : nat) (message : str) : M Ext unit :=
  let spl := split1 [32%N] (drop 1 message) in
  let cmd := lower E (hd [] spl) in
  let arg := match spl with
             | [_; rest] => take 256 rest
             | _ => []
             end in
  match ooc_cmd E cmd with
  | None => send_ooc me (lit "Invalid command.")
  | Some f =>
      emit (EvOocCommand me cmd arg) ;;
      fun w =>
        let '(r, w', evs) := f me arg w in
        match r with
        | OocDone => mkOut (Next tt) w' evs
        | OocDomainError _ ex => mkOut (Next tt) w' (evs ++ [EvSendOOC me ex])
        | OocFailure =>
            mkOut (Next tt) w'
              (evs ++ [EvSendOOC me
                         (lit "An internal error occurred. Please check the server log.");
                       EvLogException (lit "Exception while running a command")])
        end
  end.

(** Lines 798-810: plain chat. *)
Definition ct_chat (me : nat) (message : str) : M Ext unit :=
  message <- mangle me (dezalgo message) ;;
  c <- self_client me ;;
  a <- self_area me ;;
  abbr <- read (fun w => abbreviation (area_of w a)) ;;
  emit (EvAreaSend a (lit "CT") [PStr (name c); PStr message]) ;;
  emit (EvOwnerSend a (lit "CT")
          [PStr (lit "[" ++ abbr ++ lit "]" ++ name c); PStr message]) ;;
  call_ (log_room E (lit "ooc") me a (Some message)).

(** Lines 769-810: the message, once the name is accepted. *)
Definition ct_message (me : nat) (message : str) : M Ext unit :=
  if max_char <? len message then return_ else
  if startswith message (lit " /") then
    send_ooc me
      (lit "Your message was not sent for safety reasons: you left a space before that slash.") ;;
    return_
  else
  if startswith message (lit "/") then ct_command me message
  else ct_chat me message.

Definition net_cmd_ct : Handler Ext := fun me args0 =>
  c <- self_client me ;;
  if negb (is_checked c) then return_ else
  if is_ooc_muted c then
    send_ooc me (lit "You are muted by a moderator.") ;;
    return_
  else
  let v := validate_net_cmd c (map PStr args0) [STR; STR] false in
  if negb (fst v) then return_ else
  a0 <- item 0 (snd v) ;;
  given <- as_str a0 ;;
  a1 <- item 1 (snd v) ;;
  message <- as_str a1 ;;
  ct_resolve_name me given ;;
  ct_check_name me ;;
  ct_message me message.

(* ===================================================================== *)
(** ** [net_cmd_pe], [net_cmd_de], [net_cmd_ee] *)
(* ===================================================================== *)

Definition net_cmd_pe : Handler Ext := fun me args0 =>
  c <- self_client me ;;
  if negb (is_checked c) then return_ else
  let v := validate_net_cmd c (map PStr args0)
             [STR_OR_EMPTY; STR_OR_EMPTY; STR_OR_EMPTY] true in
  if negb (fst v) then return_ else
  let args := snd v in
  if Z.of_nat (List.length args) <? 3 then return_ else
  a0 <- item 0 args ;; n <- as_str a0 ;;
  a1 <- item 1 args ;; d <- as_str a1 ;;
  a2 <- item 2 args ;; i <- as_str a2 ;;
  a <- self_area me ;;
  call_ (add_evidence E a me n d i (lit "all")) ;;
  call_ (log_room E (lit "evidence.add") me a None) ;;
  emit (EvBroadcastEvidence a).


Definition net_cmd_de : Handler Ext := fun me args0 =>
  c <- self_client me ;;
  if negb (is_checked c) then return_ else
  let v := validate_net_cmd c (map PStr args0) [INT] true in
  if negb (fst v) then return_ else
  let args := snd v in
  a0 <- item 0 args ;;
  n <- lookup_or_raise ValueError (py_int a0) ;;
  r <- read (evi_list_get E me n) ;;
  k <- value_or_raise r ;;
  a <- self_area me ;;
  call_ (del_evidence E a me k) ;;
  call_ (log_room E (lit "evidence.del") me a None) ;;
  emit (EvBroadcastEvidence a).

Definition net_cmd_ee : Handler Ext := fun me args0 =>
  c <- self_client me ;;
  if negb (is_checked c) then return_ else
  let v := validate_net_cmd c (map PStr args0)
             [INT; STR_OR_EMPTY; STR_OR_EMPTY; STR_OR_EMPTY] true in
  if negb (fst v) then return_ else
  let args := snd v in
  if Z.of_nat (List.length args) <? 4 then return_ else
  a1 <- item 1 args ;; n <- as_str a1 ;;
  a2 <- item 2 args ;; d <- as_str a2 ;;
  a3 <- item 3 args ;; i <- as_str a3 ;;
  let evi := (n, d, i, lit "all") in
  a0 <- item 0 args ;;
  e <- lookup_or_raise ValueError (py_int a0) ;;
  r <- read (evi_list_get E me e) ;;
  k <- value_or_raise r ;;
  a <- self_area me ;;
  call_ (edit_evidence E a me k evi) ;;
  call_ (log_room E (lit "evidence.edit") me a None) ;;
  emit (EvBroadcastEvidence a).

(* ===================================================================== *)
(** ** [net_cmd_ms] *)
(* ===================================================================== *)

(** Lines 407-413. *)
Definition ms_preconditions (me : nat) : M Ext unit :=
  c <- self_client me ;;
  if negb (is_checked c) then return_
  else if is_muted c then
    send_ooc me (lit "You are muted by a moderator.") ;;
    return_
  else
    a <- self_area me ;;
    ok <- call (can_send_message E a me) ;;
    if negb ok then return_ else ret tt.

(** The tuple assignment of line 438, with the defaults of lines 415-427
    for the variables the shape does not carry. *)
Definition unpack_pre26 (args : list pyval) : M Ext Loc.t :=
  match args with
  | [PStr msg_type; PStr pre; PStr folder; PStr anim; PStr text; PStr pos;
     PStr sfx; PInt anim_type; PInt cid; PInt sfx_delay; button;
     PInt evidence; PInt flip; PInt ding; PInt color] =>
      ret (Loc.mk args [] msg_type pre folder anim text pos sfx anim_type cid
             sfx_delay button evidence flip ding color
             [] (-1) [] 0 (lit "0") 0 [] [] [] 0 [] (PInt 0) [])
  | _ => raise TypeError
  end.

(** Line 451. *)
Definition unpack_26 (args : list pyval) : M Ext Loc.t :=
  match args with
  | [PStr msg_type; PStr pre; PStr folder; PStr anim; PStr text; PStr pos;
     PStr sfx; PInt anim_type; PInt cid; PInt sfx_delay; button;
     PInt evidence; PInt flip; PInt ding; PInt color;
     PStr showname; PInt charid_pair; PStr offset_pair; PInt nonint_pre] =>
      ret (Loc.mk args [] msg_type pre folder anim text pos sfx anim_type cid
             sfx_delay button evidence flip ding color
             showname charid_pair offset_pair nonint_pre
             (lit "0") 0 [] [] [] 0 [] (PInt 0) [])
  | _ => raise TypeError
  end.

(** Lines 468-472. *)
Definition unpack_28 (args : list pyval) : M Ext Loc.t :=
  match args with
  | [PStr msg_type; PStr pre; PStr folder; PStr anim; PStr text; PStr pos;
     PStr sfx; PInt anim_type; PInt cid; PInt sfx_delay; button;
     PInt evidence; PInt flip; PInt ding; PInt color;
     PStr showname; PStr charid_pair; PStr offset_pair; PInt nonint_pre;
     PStr sfx_looping; PInt screenshake; PStr frames_shake;
     PStr frames_realization; PStr frames_sfx; PInt additive; PStr effect] =>
      let pair_args := split 94%N charid_pair in
      charid_pair <- int_ (hd [] pair_args) ;;
      let pair_order :=
        match pair_args with
        | _ :: order :: _ => PStr order
        | _ => PInt 0
        end in
      ret (Loc.mk args [] msg_type pre folder anim text pos sfx anim_type cid
             sfx_delay button evidence flip ding color
             showname charid_pair offset_pair nonint_pre
             sfx_looping screenshake frames_shake frames_realization
             frames_sfx additive effect pair_order [])
  | _ => raise TypeError
  end.

(** Lines 428-474: the first shape that validates is taken. *)
Definition ms_dialect (me : nat) (args : list pyval) : M Ext Loc.t :=
  c <- self_client me ;;
  let v1 := validate_net_cmd c args shape_pre26 true in
  if fst v1 then unpack_pre26 (snd v1) else
  let v2 := validate_net_cmd c (snd v1) shape_26 true in
  if fst v2 then unpack_26 (snd v2) else
  let v3 := validate_net_cmd c (snd v2) shape_28 true in
  if fst v3 then unpack_28 (snd v3) else
  return_.

(** Lines 476-479. *)
Definition ms_additive (me : nat) (additive : Z) : M Ext Z :=
  if additive =? 1 then
    a <- self_area me ;;
    ok <- call (client_can_additive E a me) ;;
    ret (if ok then 1 else 0)
  else ret 0.

(** Lines 481-486. *)
Definition ms_showname (me : nat) (showname : str) : M Ext unit :=
  a <- self_area me ;;
  allowed <- read (fun w => showname_changes_allowed (area_of w a)) ;;
  if (0 <? len showname) && negb allowed then
    send_ooc me (lit "Showname changes are forbidden in this area!") ;;
    return_
  else
    modify (set_client me (set_showname showname)).

(** Lines 487-496. *)
Definition ms_iniswap (me : nat) (pre anim folder sfx : str) : M Ext unit :=
  a <- self_area me ;;
  swapped <- call (is_iniswap E a me pre anim folder sfx) ;;
  if swapped then
    send_ooc me (lit "Iniswap/custom emotes are blocked in this area") ;;
    return_
  else
    c <- self_client me ;;
    if (0 <? Z.of_nat (List.length (charcurse c)))
       && negb (PyStr.eqb folder (char_name c)) then
      send_ooc me (lit "You may not iniswap while you are charcursed!") ;;
      return_
    else ret tt.

(** The class of [re.sub(r'[{}\\`|(~~)]', '', text)]. *)
Definition is_markup (c : N) : bool :=
  ((c =? 123) || (c =? 125) || (c =? 92) || (c =? 96) || (c =? 124) ||
   (c =? 40) || (c =? 126) || (c =? 41))%N.

(** Lines 497-507. *)
Definition ms_blankpost (me : nat) (text : str) : M Ext unit :=
  a <- self_area me ;;
  allowed <- read (fun w => blankposting_allowed (area_of w a)) ;;
  if negb allowed then
    if PyStr.eqb (strip text) [] then
      send_ooc me (lit "Blankposting is forbidden in this area!") ;;
      return_
    else if (len (remove_chars (N.eqb 32) (remove_chars is_markup text)) <? 3)
            && negb (startswith text (lit "<"))
            && negb (startswith text (lit ">")) then
      send_ooc me
        (lit "While that is not a blankpost, it is still pretty spammy. Try forming sentences.") ;;
      return_
    else ret tt
  else ret tt.

(** Lines 508-543: the prefixes that choose the target areas or start a
    testimony.  The result is [text], [color] and [target_area]. *)
Definition ms_commands (me : nat) (text : str) (color : Z)
    : M Ext (str * Z * list Z) :=
  if startswith text (lit "/a ") then
    let part := split 32%N text in
    try_except
      (p1 <- lookup_or_raise IndexError (nth_error part 1) ;;
       aid <- int_ p1 ;;
       found <- read (get_area_by_id E aid) ;;
       area <- lookup_or_raise AreaError found ;;
       owns <- read (owners_contains E area me) ;;
       let target_area := if owns then [aid] else [] in
       match target_area with
       | [] =>
           nm <- read (fun w => area_name (area_of w area)) ;;
           send_ooc me (lit "You don't own " ++ nm ++ lit "!") ;;
           return_
       | _ => ret (join [32%N] (skipn 2 part), color, target_area)
       end)
      ValueError
      (send_ooc me (lit "That does not look like a valid area ID!") ;;
       return_)
  else if startswith text (lit "/s ") then
    let part := split 32%N text in
    target_area <- read (fun w =>
      map (fun a => area_id (area_of w a))
          (filter (fun a => owners_contains E a me w) (areas E w))) ;;
    match target_area with
    | [] =>
        send_ooc me (lit "You don't any areas!") ;;
        return_
    | _ => ret (join [32%N] (skipn 1 part), color, target_area)
    end
  else if startswith text (lit "/testify ") then
    let part := split 32%N text in
    let text := join [32%N] (skipn 1 part) in
    a <- self_area me ;;
    ok <- call (start_testimony E a me text) ;;
    if negb ok then return_
    else ret (lit "~~-- " ++ text ++ lit " --", 3, [])
  else if startswith text (lit "/examine") then
    a <- self_area me ;;
    ok <- call (start_examination E a me) ;;
    if negb ok then return_
    else
      title <- read (testimony_title E a) ;;
      ret (lit "~~-- " ++ title ++ lit " --", 3, [])
  else ret (text, color, []).

(** Lines 545-583: the sub-commands of a running testimony or examination.
    The result is [text], [color] and [args]. *)
Definition ms_statement_commands (me a : nat) (text : str) (color : Z)
    (args : list pyval) : M Ext (str * Z * list pyval) :=
  if startswith text (lit "/end") then
    ok <- call (end_testimony E a me) ;;
    if negb ok then return_ else ret ([], color, args)
  else if startswith text (lit "/amend ") then
    let part := split 32%N text in
    let text := join [32%N] (skipn 2 part) in
    let args := list_set 4 (PStr text) args in
    let color := 1 in
    try_except
      (p1 <- lookup_or_raise IndexError (nth_error part 1) ;;
       index <- int_ p1 ;;
       ok <- call (amend_testimony E a me index args) ;;
       if negb ok then return_ else
       testifying <- read (is_testifying E a) ;;
       if testifying then return_ else
       examining <- read (is_examining E a) ;;
       (if examining then modify (set_area a (set_examine_index index))
        else ret tt) ;;
       ret (text, color, args))
      ValueError
      (send_ooc me (lit "That does not look like a valid statement number!") ;;
       return_)
  else
    examining <- read (is_examining E a) ;;
    if startswith text (lit "/add ") && examining then
      let part := split 32%N text in
      let text := join [32%N] (skipn 1 part) in
      let args := list_set 4 (PStr text) args in
      _ <- call (testimony_add_statement E a args) ;;
      let color := 1 in
      n <- read (testimony_statements_len E a) ;;
      modify (set_area a (set_examine_index (n - 1))) ;;
      ret (text, color, args)
    else if startswith text (lit "/remove ") then
      let part := split 32%N text in
      try_except
        (p1 <- lookup_or_raise IndexError (nth_error part 1) ;;
         index <- int_ p1 ;;
         ok <- call (remove_statement E a me index) ;;
         if negb ok then return_ else ret ([], color, args))
        ValueError
        (send_ooc me
           (lit "That does not look like a valid statement number!") ;;
         return_)
    else ret (text, color, args).

(** Lines 544-589. *)
Definition ms_testimony (me : nat) (text : str) (color : Z)
    (args : list pyval) : M Ext (str * Z * list pyval) :=
  a <- self_area me ;;
  testifying <- read (is_testifying E a) ;;
  examining <- read (is_examining E a) ;;
  if testifying || examining then
    r <- ms_statement_commands me a text color args ;;
    let text := fst (fst r) in
    examining <- read (is_examining E a) ;;
    match text with
    | c :: rest =>
        if examining && in_strs [c] [lit ">"; lit "<"; lit "="] then
          try_except
            (n <- int_ rest ;;
             call_ (navigate_testimony E a me [c] (Some n)))
            ValueError
            (call_ (navigate_testimony E a me [c] None)) ;;
          return_
        else ret r
    | [] => ret r
    end
  else ret (text, color, args).

(** Lines 590-611. *)
Definition ms_field_checks (me : nat) (msg_type : str) (anim_type cid
    sfx_delay : Z) (button : pyval) (evidence ding color : Z)
    (showname : str) : M Ext Z :=
  if negb (in_strs msg_type [lit "chat"; lit "0"; lit "1"; lit "2"; lit "3";
                             lit "4"; lit "5"]) then return_ else
  let anim_type := if anim_type =? 4 then 6 else anim_type in
  if negb (existsb (Z.eqb anim_type) [0; 1; 2; 5; 6]) then return_ else
  c <- self_client me ;;
  if negb (cid =? char_id c) then return_ else
  if sfx_delay <? 0 then return_ else
  (if contains (lit "4") (py_str button)
      && negb (contains (lit "<and>") (py_str button)) then
     match button with
     | PStr b => if negb (isdigit E b) then return_ else ret tt
     | PInt _ => raise AttributeError
     end
   else ret tt) ;;
  if evidence <? 0 then return_ else
  if negb (existsb (Z.eqb ding) [0; 1]) then return_ else
  if negb (existsb (Z.eqb color) [0; 1; 2; 3; 4; 5; 6; 7; 8]) then return_ else
  if 15 <? len showname then
    send_ooc me (lit "Your IC showname is way too long!") ;;
    return_
  else ret anim_type.

(** Lines 612-617: the downgrade asked for by the sender. *)
Definition ms_nonint_pre (nonint_pre : Z) (button : pyval) (anim_type : Z)
    : Z :=
  if nonint_pre =? 1 then
    if in_ints button [1; 2; 3; 4; 23] then
      if (anim_type =? 1) || (anim_type =? 2) then 0
      else if anim_type =? 6 then 5
      else anim_type
    else anim_type
  else anim_type.

(** Lines 618-624: the downgrade forced by the area; the result is
    [anim_type] and [nonint_pre]. *)
Definition ms_non_int_pres_only (forced : bool) (anim_type nonint_pre : Z)
    : Z * Z :=
  if forced then
    if (anim_type =? 1) || (anim_type =? 2) then (0, 1)
    else if anim_type =? 6 then (5, 1)
    else (anim_type, nonint_pre)
  else (anim_type, nonint_pre).

(** Lines 625-634: no shouts; the result is [anim_type], [button], [ding]. *)
Definition ms_shouts (allowed : bool) (anim_type : Z) (button : pyval)
    (ding : Z) : Z * pyval * Z :=
  if negb allowed then
    ((if anim_type =? 2 then 1 else if anim_type =? 6 then 5 else anim_type),
     PInt 0, 0)
  else (anim_type, button, ding).

(** Lines 636-650. *)
Definition ms_transform (me : nat) (text : str) : M Ext str :=
  if max_char <? len text then return_ else
  mangle me (take 256 (dezalgo text)).

(** The condition of line 653, operand by operand. *)
Definition ms_is_repeat (msg : str) (cid : Z) (last : option (list pyval))
    : M Ext bool :=
  if PyStr.eqb (strip msg) [] then ret false else
  match last with
  | None => ret false
  | Some last =>
      l8 <- item 8 last ;;
      if negb (pyval_eqb (PInt cid) l8) then ret false else
      l4 <- item 4 last ;;
      match l4 with
      | PStr t => ret (PyStr.eqb (rstrip msg) (rstrip t))
      | PInt _ => raise AttributeError
      end
  end.

(** Lines 652-656. *)
Definition ms_spam_guard (me : nat) (msg : str) (cid : Z) : M Ext unit :=
  a <- self_area me ;;
  last <- read (fun w => last_ic_message (area_of w a)) ;;
  repeat_ <- ms_is_repeat msg cid last ;;
  if repeat_ then
    send_ooc me (lit "Your message is a repeat of the last one. Don't spam!") ;;
    return_
  else ret tt.

(** Lines 407-650: the checks and transformations that come before the
    repeat guard.  The result is the local variables as they stand at
    line 651. *)
Definition ms_prepare (me : nat) (args0 : list str) : M Ext Loc.t :=
  ms_preconditions me ;;
  p <- ms_dialect me (map PStr args0) ;;
  additive <- ms_additive me (Loc.additive p) ;;
  ms_showname me (Loc.showname p) ;;
  ms_iniswap me (Loc.pre p) (Loc.anim p) (Loc.folder p) (Loc.sfx p) ;;
  ms_blankpost me (Loc.text p) ;;
  r1 <- ms_commands me (Loc.text p) (Loc.color p) ;;
  let '(text, color, target_area) := r1 in
  r2 <- ms_testimony me text color (Loc.args p) ;;
  let '(text, color, args) := r2 in
  anim_type <- ms_field_checks me (Loc.msg_type p) (Loc.anim_type p)
                 (Loc.cid p) (Loc.sfx_delay p) (Loc.button p)
                 (Loc.evidence p) (Loc.ding p) color (Loc.showname p) ;;
  let anim_type := ms_nonint_pre (Loc.nonint_pre p) (Loc.button p) anim_type in
  a <- self_area me ;;
  forced <- read (fun w => non_int_pres_only (area_of w a)) ;;
  let '(anim_type, nonint_pre) :=
    ms_non_int_pres_only forced anim_type (Loc.nonint_pre p) in
  a <- self_area me ;;
  allowed <- read (fun w => shouts_allowed (area_of w a)) ;;
  let '(anim_type, button, ding) :=
    ms_shouts allowed anim_type (Loc.button p) (Loc.ding p) in
  msg <- ms_transform me text ;;
  ret (Loc.mk args target_area (Loc.msg_type p) (Loc.pre p) (Loc.folder p)
         (Loc.anim p) text (Loc.pos p) (Loc.sfx p) anim_type (Loc.cid p)
         (Loc.sfx_delay p) button (Loc.evidence p) (Loc.flip p) ding color
         (Loc.showname p) (Loc.charid_pair p) (Loc.offset_pair p) nonint_pre
         (Loc.sfx_looping p) (Loc.screenshake p) (Loc.frames_shake p)
         (Loc.frames_realization p) (Loc.frames_sfx p) additive
         (Loc.effect p) (Loc.pair_order p) msg).

(** Lines 658-663: the evidence the message shows; hidden evidence is
    revealed to everyone.  The result is [evidence]. *)
Definition ms_evidence (me : nat) (evidence : Z) : M Ext Z :=
  known <- read (evi_list_contains E me evidence) ;;
  if negb known then ret 0
  else if negb (evidence =? 0) then
    a <- self_area me ;;
    r <- read (evi_list_get E me evidence) ;;
    k <- value_or_raise r ;;
    r <- read (evidence_pos E a (k - 1)) ;;
    p <- value_or_raise r ;;
    (if negb (PyStr.eqb p (lit "all")) then
       r <- read (evi_list_get E me evidence) ;;
       k <- value_or_raise r ;;
       call_ (set_evidence_pos E a (k - 1) (lit "all")) ;;
       emit (EvBroadcastEvidence a)
     else ret tt) ;;
    ret evidence
  else ret evidence.

(** The test of line 684 on one member of the area. *)
Definition is_partner (w : World Ext) (me target : nat) : bool :=
  (char_id (client_of w target) =? charid_pair (client_of w me))
  && (charid_pair (client_of w target) =? char_id (client_of w me))
  && negb (Nat.eqb target me)
  && PyStr.eqb (pos (client_of w target)) (pos (client_of w me)).

(** The loop of lines 683-692: the first member that passes the test. *)
Fixpoint pair_scan (w : World Ext) (me : nat) (targets : list nat)
    : option nat :=
  match targets with
  | [] => None
  | target :: rest =>
      if is_partner w me target then Some target else pair_scan w me rest
  end.

(** Lines 681-695: [confirmed], as the partner found. *)
Definition ms_confirmed (w : World Ext) (me : nat) (charid_pair : Z)
    : option nat :=
  if -1 <? charid_pair
  then pair_scan w me (clients (area_of w (area (client_of w me))))
  else None.

(** [pair_order != ""] *)
Definition pair_order_given (pair_order : pyval) : bool :=
  match pair_order with
  | PStr s => negb (PyStr.eqb s [])
  | PInt _ => true
  end.

(** The outgoing [charid_pair] (lines 690-695). *)
Definition ms_charid_pair_out (confirmed : option nat) (charid_pair : Z)
    (pair_order : pyval) : pyval :=
  match confirmed with
  | Some _ =>
      if pair_order_given pair_order
      then PStr (of_Z charid_pair ++ lit "^" ++ py_str pair_order)
      else PInt charid_pair
  | None => PInt (-1)
  end.

(** [send_args] (lines 700-708); [evi] is [self.client.evi_list[evidence]]
    and [partner] the confirmed partner's record. *)
Definition ms_send_args (l : Loc.t) (evi : Z) (charid_pair : pyval)
    (partner : option Client) : list pyval :=
  let other_offset :=
    match partner with Some t => offset_pair t | None => lit "0" end in
  let other_emote :=
    match partner with Some t => last_sprite t | None => [] end in
  let other_flip :=
    match partner with Some t => flip t | None => 0 end in
  let other_folder :=
    match partner with Some t => claimed_folder t | None => [] end in
  [PStr (Loc.msg_type l); PStr (Loc.pre l); PStr (Loc.folder l);
   PStr (Loc.anim l); PStr (Loc.msg l); PStr (Loc.pos l); PStr (Loc.sfx l);
   PInt (Loc.anim_type l); PInt (Loc.cid l); PInt (Loc.sfx_delay l);
   Loc.button l; PInt evi; PInt (Loc.flip l); PInt (Loc.ding l);
   PInt (Loc.color l); PStr (Loc.showname l); charid_pair;
   PStr other_folder; PStr other_emote; PStr (Loc.offset_pair l);
   PStr other_offset; PInt other_flip; PInt (Loc.nonint_pre l);
   PStr (Loc.sfx_looping l); PInt (Loc.screenshake l);
   PStr (Loc.frames_shake l); PStr (Loc.frames_realization l);
   PStr (Loc.frames_sfx l); PInt (Loc.additive l); PStr (Loc.effect l)].

(** Lines 658-729: the message is committed and sent. *)
Definition ms_deliver (me : nat) (l : Loc.t) : M Ext unit :=
  evidence <- ms_evidence me (Loc.evidence l) ;;
  modify (set_client me
            (set_pairing (Loc.charid_pair l) (Loc.offset_pair l)
               (if existsb (Z.eqb (Loc.anim_type l)) [5; 6] then None
                else Some (Loc.anim l))
               (Loc.flip l) (Loc.folder l))) ;;
  confirmed <- read (fun w => ms_confirmed w me (Loc.charid_pair l)) ;;
  partner <- read (fun w => option_map (client_of w) confirmed) ;;
  let charid_pair :=
    ms_charid_pair_out confirmed (Loc.charid_pair l) (Loc.pair_order l) in
  a <- self_area me ;;
  afk <- read (afkers_contains E a me) ;;
  (if afk then call_ (toggle_afk E me) else ret tt) ;;
  r <- read (evi_list_get E me evidence) ;;
  evi <- value_or_raise r ;;
  let send_args := ms_send_args l evi charid_pair partner in
  a <- self_area me ;;
  modify (set_area a (set_last_ic_message (Some send_args))) ;;
  emit (EvAreaSend a (lit "MS") send_args) ;;
  emit (EvRemoteSend (Loc.target_area l) (lit "MS") send_args) ;;
  abbr <- read (fun w => abbreviation (area_of w a)) ;;
  emit (EvOwnerSend a (lit "MS")
          (firstn 4 send_args
           ++ [PStr (lit "[" ++ abbr ++ lit "]" ++ Loc.msg l)]
           ++ skipn 5 send_args)) ;;
  call_ (set_next_msg_delay E a (len (Loc.msg l))) ;;
  call_ (log_ic E me a (Loc.showname l) (Loc.msg l)) ;;
  recording <- read (is_recording E a) ;;
  (if recording then call_ (recorded_messages_append E a (Loc.args l))
   else ret tt) ;;
  testifying <- read (is_testifying E a) ;;
  if testifying then
    ok <- call (testimony_add_statement E a send_args) ;;
    if negb ok then
      send_ooc me
        (lit "That statement was not recorded because you reached the statement limit.")
    else ret tt
  else ret tt.

Definition net_cmd_ms : Handler Ext := fun me args0 =>
  l <- ms_prepare me args0 ;;
  ms_spam_guard me (Loc.msg l) (Loc.cid l) ;;
  ms_deliver me l.

(* ===================================================================== *)
(** ** The dispatch table *)
(* ===================================================================== *)

Definition net_cmd_ae : Handler Ext := fun _ _ => ret tt.

Definition net_cmd_opKICK : Handler Ext := fun me args =>
  a0 <- lookup_or_raise IndexError (nth_error args 0) ;;
  invoke (net_cmd_ct me [lit "opkick"; lit "/kick " ++ a0]).

Definition net_cmd_opBAN : Handler Ext := fun me args =>
  a0 <- lookup_or_raise IndexError (nth_error args 0) ;;
  invoke (net_cmd_ct me [lit "opban"; lit "/ban " ++ a0]).

(** [net_cmd_dispatcher]; the handlers that are not embedded above are
    those of the environment. *)
Definition net_cmd_dispatcher : list (str * Handler Ext) :=
  [ (lit "HI", net_cmd_hi);
    (lit "ID", other_handler E (lit "ID"));
    (lit "CH", other_handler E (lit "CH"));
    (lit "askchaa", other_handler E (lit "askchaa"));
    (lit "askchar2", other_handler E (lit "askchar2"));
    (lit "AN", other_handler E (lit "AN"));
    (lit "AE", net_cmd_ae);
    (lit "AM", other_handler E (lit "AM"));
    (lit "RC", other_handler E (lit "RC"));
    (lit "RM", other_handler E (lit "RM"));
    (lit "RD", other_handler E (lit "RD"));
    (lit "CC", other_handler E (lit "CC"));
    (lit "MS", net_cmd_ms);
    (lit "CT", net_cmd_ct);
    (lit "MC", other_handler E (lit "MC"));
    (lit "RT", other_handler E (lit "RT"));
    (lit "SETCASE", other_handler E (lit "SETCASE"));
    (lit "CASEA", other_handler E (lit "CASEA"));
    (lit "HP", other_handler E (lit "HP"));
    (lit "PE", net_cmd_pe);
    (lit "DE", net_cmd_de);
    (lit "EE", net_cmd_ee);
    (lit "ZZ", other_handler E (lit "ZZ"));
    (lit "opKICK", net_cmd_opKICK);
    (lit "opBAN", net_cmd_opBAN) ].

(** [net_cmd_dispatcher[cmd]]; [None] is [KeyError]. *)
Definition dispatcher_get (cmd : str) : option (Handler Ext) :=
  option_map snd (find (fun e => PyStr.eqb (fst e) cmd) net_cmd_dispatcher).

(* ===================================================================== *)
(** ** [get_messages] and [data_received] *)
(* ===================================================================== *)

(** The test of line 176: a long header without a field delimiter. *)
Definition long_header (buffer : str) : bool :=
  (24 <=? len buffer) && negb (has_char 35%N (take 24 buffer)).

(** One turn of the [while] loop of [get_messages]: the message yielded and
    the buffer that remains, or [None] when the loop ends. *)
Definition next_message (buffer : str) : option (str * str) :=
  split_once (lit "#%") buffer.

(** The generator run to its end: the messages it yields and the buffer it
    leaves ([fuel] bounds the number of turns). *)
Fixpoint drain_messages (fuel : nat) (buffer : str) : list str * str :=
  match fuel with
  | O => ([], buffer)
  | S fuel' =>
      match next_message buffer with
      | None => ([], buffer)
      | Some (msg, rest) =>
          let r := drain_messages fuel' rest in
          (msg :: fst r, snd r)
      end
  end.

Definition get_messages (buffer : str) : Exn + (list str * str) :=
  if long_header buffer then inl ProtocolError
  else inr (drain_messages (S (List.length buffer)) buffer).

(** Lines 113-117: the legacy decoding of a message. *)
Definition decode_message (msg : str) : Exn + str :=
  match msg with
  | c :: _ =>
      if in_strs [c] [lit "#"; lit "3"; lit "4"] then
        let msg := if N.eqb c 35 then drop 1 msg else msg in
        let spl := split1 (lit "#") msg in
        match fanta_decrypt E (hd [] spl) with
        | inr first => inr (join (lit "#") (first :: tl spl))
        | inl e => inl e
        end
      else inr msg
  | [] => inr msg
  end.

(** Lines 110-127, the body of the [for] loop; [continue] is [return_]. *)
Definition handle_message (me : nat) (ipid : Z) (msg : str) : M Ext unit :=
  if len msg <? 2 then return_ else
  msg <- value_or_raise (decode_message msg) ;;
  try_except
    (let spl := split 35%N msg in
     let cmd := hd [] spl in
     let args := tl spl in
     handler <- lookup_or_raise KeyError (dispatcher_get cmd) ;;
     invoke (handler me args) ;;
     if negb (PyStr.eqb cmd (lit "CH")) then
       now <- read (time E) ;;
       modify (set_client me (set_last_pkt_time now))
     else ret tt)
    KeyError
    (emit (EvDebugLog (lit "Unknown incoming message from " ++ of_Z ipid
                       ++ lit ": " ++ msg)) ;;
     c <- self_client me ;;
     if negb (is_checked c) then raise ProtocolError else ret tt).

(** The [for] loop of line 109 over the generator: each message is taken
    from the buffer and handled before the next one is looked for.  The
    result carries the buffer that is left. *)
Fixpoint receive_loop (fuel : nat) (me : nat) (ipid : Z) (buffer : str)
    (w : World Ext) : str * Out Ext unit :=
  match fuel with
  | O => (buffer, mkOut (Next tt) w [])
  | S fuel' =>
      match next_message buffer with
      | None => (buffer, mkOut (Next tt) w [])
      | Some (msg, rest) =>
          let o := handle_message me ipid msg w in
          match flow o with
          | Raise e => (rest, mkOut (Raise e) (world o) (emitted o))
          | _ =>
              let r := receive_loop fuel' me ipid rest (world o) in
              (fst r,
               mkOut (flow (snd r)) (world (snd r))
                     (emitted o ++ emitted (snd r)))
          end
      end
  end.

(** Lines 92-104: the buffer after the data is appended and the null
    characters are removed. *)
Definition received_buffer (data : Data) (conn : Conn) : str :=
  let buffer :=
    match data with
    | DNone => buffer conn ++ decode_utf8_ignore E []
    | DBytes b => buffer conn ++ decode_utf8_ignore E b
    | DStr s => s
    end in
  remove_chars (N.eqb 0) buffer.

Definition data_received (data : Data) (conn : Conn) (w : World Ext)
    : Conn * Out Ext unit :=
  let me := client conn in
  let ipid := ipid (client_of w me) in
  let buffer := received_buffer data conn in
  let oversized :=
    if 8192 <? len buffer then [EvDisconnect me] else [] in
  if long_header buffer then
    (mkConn buffer me, mkOut (Next tt) w (oversized ++ [EvDisconnect me]))
  else
    let r := receive_loop (S (List.length buffer)) me ipid buffer w in
    let o := snd r in
    match flow o with
    | Raise ProtocolError =>
        (mkConn (fst r) me,
         mkOut (Next tt) (world o) (oversized ++ emitted o ++ [EvDisconnect me]))
    | f => (mkConn (fst r) me, mkOut f (world o) (oversized ++ emitted o))
    end.

End Protocol.

(* ===================================================================== *)
(** ** Vocabulary of the properties *)
(* ===================================================================== *)

Section Vocabulary.

Context {Ext : Type}.

(** What the checks of an IC message may have changed: every other client
    is as before, the sender is as before except, possibly, for the
    showname, and every area is as before except, possibly, for its
    [examine_index]. *)
Definition frame (me : nat) (w w' : World Ext) : Prop :=
  (forall c, c <> me -> client_of w' c = client_of w c)
  /\ (exists s, client_of w' me = set_showname s (client_of w me))
  /\ (forall a, exists i, area_of w' a = set_examine_index i (area_of w a)).

(** A block of statements that stays within [frame] and emits nothing,
    unless it ends the handler with one OOC notice to the sender. *)
Definition quiet (me : nat) (A : Type) (m : M Ext A) : Prop :=
  forall w,
    frame me w (world (m w))
    /\ (emitted (m w) = []
        \/ exists s, flow (m w) = Return /\ emitted (m w) = [EvSendOOC me s]).

(** A block that changes nothing but the external state and emits
    nothing. *)
Definition silent (A : Type) (m : M Ext A) : Prop :=
  forall w,
    (exists x, world (m w) = with_ext x w) /\ emitted (m w) = [].

(** [target] is a partner for the pair id [cp] requested by [me]: another
    member of the sender's area whose character is [cp], who requests the
    sender's character, and who stands at the sender's position. *)
Definition partner_of (w : World Ext) (me : nat) (cp : Z) (target : nat)
    : Prop :=
  In target (clients (area_of w (area (client_of w me))))
  /\ target <> me
  /\ char_id (client_of w target) = cp
  /\ charid_pair (client_of w target) = char_id (client_of w me)
  /\ pos (client_of w target) = pos (client_of w me).

(** The notice of the repeat guard. *)
Definition repeat_notice (me : nat) : Event :=
  EvSendOOC me (lit "Your message is a repeat of the last one. Don't spam!").

(** The notice of line 610. *)
Definition showname_notice (me : nat) : Event :=
  EvSendOOC me (lit "Your IC showname is way too long!").

(** The showname that an IC message carries: the sixteenth field, which the
    2.6 and the 2.8 shape have; the oldest shape has none, and the default
    of line 416 is the empty string. *)
Definition ic_showname (args0 : list str) : str :=
  match nth_error args0 15 with
  | Some s => s
  | None => []
  end.

(** Lines 407-486 of [net_cmd_ms]: the part of [ms_prepare] up to the
    assignment [self.client.showname = showname].  The result is the local
    variables of the shape that was accepted and [additive]. *)
Definition ms_through_showname (E : Env Ext) (me : nat) (args0 : list str)
    : M Ext (Loc.t * Z) :=
  ms_preconditions E me ;;
  p <- ms_dialect E me (map PStr args0) ;;
  additive <- ms_additive E me (Loc.additive p) ;;
  ms_showname me (Loc.showname p) ;;
  ret (p, additive).

(** Lines 487-650: the part of [ms_prepare] that follows it. *)
Definition ms_after_showname (E : Env Ext) (me : nat) (p : Loc.t)
    (additive : Z) : M Ext Loc.t :=
  ms_iniswap E me (Loc.pre p) (Loc.anim p) (Loc.folder p) (Loc.sfx p) ;;
  ms_blankpost me (Loc.text p) ;;
  r1 <- ms_commands E me (Loc.text p) (Loc.color p) ;;
  let '(text, color, target_area) := r1 in
  r2 <- ms_testimony E me text color (Loc.args p) ;;
  let '(text, color, args) := r2 in
  anim_type <- ms_field_checks E me (Loc.msg_type p) (Loc.anim_type p)
                 (Loc.cid p) (Loc.sfx_delay p) (Loc.button p)
                 (Loc.evidence p) (Loc.ding p) color (Loc.showname p) ;;
  let anim_type := ms_nonint_pre (Loc.nonint_pre p) (Loc.button p) anim_type in
  a <- self_area me ;;
  forced <- read (fun w => non_int_pres_only (area_of w a)) ;;
  let '(anim_type, nonint_pre) :=
    ms_non_int_pres_only forced anim_type (Loc.nonint_pre p) in
  a <- self_area me ;;
  allowed <- read (fun w => shouts_allowed (area_of w a)) ;;
  let '(anim_type, button, ding) :=
    ms_shouts allowed anim_type (Loc.button p) (Loc.ding p) in
  msg <- ms_transform E me text ;;
  ret (Loc.mk args target_area (Loc.msg_type p) (Loc.pre p) (Loc.folder p)
         (Loc.anim p) text (Loc.pos p) (Loc.sfx p) anim_type (Loc.cid p)
         (Loc.sfx_delay p) button (Loc.evidence p) (Loc.flip p) ding color
         (Loc.showname p) (Loc.charid_pair p) (Loc.offset_pair p) nonint_pre
         (Loc.sfx_looping p) (Loc.screenshake p) (Loc.frames_shake p)
         (Loc.frames_realization p) (Loc.frames_sfx p) additive
         (Loc.effect p) (Loc.pair_order p) msg).

(** A block that assigns no attribute of any client. *)
Definition keeps_clients (A : Type) (m : M Ext A) : Prop :=
  forall w c, client_of (world (m w)) c = client_of w c.

(** A block that never emits the event [ev]. *)
Definition never_emits (ev : Event) (A : Type) (m : M Ext A) : Prop :=
  forall w, ~ In ev (emitted (m w)).

(** The world in which the partner is looked for: the sender's pairing
    fields hold the values of the message. *)
Definition paired (me : nat) (l : Loc.t) (w : World Ext) : World Ext :=
  set_client me
    (set_pairing (Loc.charid_pair l) (Loc.offset_pair l)
       (if existsb (Z.eqb (Loc.anim_type l)) [5; 6] then None
        else Some (Loc.anim l))
       (Loc.flip l) (Loc.folder l)) w.

(** [send_args], given the evidence id that is sent and the world in which
    the partner is looked for. *)
Definition sent_args (me : nat) (l : Loc.t) (evi : Z) (w2 : World Ext)
    : list pyval :=
  ms_send_args l evi
    (ms_charid_pair_out (ms_confirmed w2 me (Loc.charid_pair l))
       (Loc.charid_pair l) (Loc.pair_order l))
    (option_map (client_of w2) (ms_confirmed w2 me (Loc.charid_pair l))).

End Vocabulary.

(* ===================================================================== *)
(** ** A small server *)
(* ===================================================================== *)

(** A concrete environment and world on which the handlers run: ASCII
    versions of the built-ins, collaborators that allow everything and keep
    no state, two paired players, a spectator and two banned newcomers. *)
Module Demo.

Definition digit_value (c : N) : option Z :=
  if ((48 <=? c) && (c <=? 57))%N then Some (Z.of_N (c - 48)) else None.

Fixpoint digits (acc : Z) (s : str) : option Z :=
  match s with
  | [] => Some acc
  | c :: s' =>
      match digit_value c with
      | Some d => digits (10 * acc + d) s'
      | None => None
      end
  end.

(** [int(s)] on plain ASCII decimal numerals. *)
Definition ascii_int (s : str) : option Z :=
  match s with
  | [] => None
  | 45%N :: [] => None
  | 45%N :: rest => option_map Z.opp (digits 0 rest)
  | _ => digits 0 s
  end.

Definition ascii_isdigit (s : str) : bool :=
  match s with
  | [] => false
  | _ => forallb (fun c => (48 <=? c) && (c <=? 57))%N s
  end.

Definition ascii_lower (s : str) : str :=
  map (fun c => if ((65 <=? c) && (c <=? 90))%N then (c + 32)%N else c) s.

Definition ascii_decode (b : list Byte.byte) : str :=
  filter (fun c => (c <? 128)%N) (map Byte.to_N b).

(** Some of the characters of category Cf. *)
Definition format_char (c : N) : bool :=
  ((c =? 173) || (8203 <=? c) && (c <=? 8207) || (8234 <=? c) && (c <=? 8238)
   || (c =? 65279))%N.

Definition permanent_ban : Ban := mkBan (lit "griefing") 7 None.
Definition dated_ban : Ban := mkBan (lit "spam") 8 (Some 1800000000).

Definition env : Env unit :=
  {| int_of_str := ascii_int;
     isdigit := ascii_isdigit;
     is_format_char := format_char;
     lower := ascii_lower;
     decode_utf8_ignore := ascii_decode;
     humanize := fun _ _ => lit "in 3 days";
     time := fun _ => 1000;
     fanta_decrypt := fun s => inr s;
     zalgo_tolerance := 3;
     hostname := lit "<dollar>H";
     max_chars := Some 256;
     playerlimit := PInt 100;
     software := lit "tsuserver";
     version := lit "3.0";
     player_count := fun _ => 3;
     add_hdid := fun _ _ _ => tt;
     find_ban := fun ipid _ _ =>
       if ipid =? 666 then Some permanent_ban
       else if ipid =? 667 then Some dated_ban
       else None;
     log_connect := fun _ _ _ => tt;
     log_ic := fun _ _ _ _ _ => tt;
     log_room := fun _ _ _ _ _ => tt;
     is_valid_name := fun _ _ _ => (true, tt);
     shake_message := fun _ s _ => (s, tt);
     disemvowel_message := fun _ s _ => (s, tt);
     evi_list_contains := fun _ e _ => e =? 0;
     evi_list_get := fun _ e _ => if e =? 0 then inr 0 else inl IndexError;
     toggle_afk := fun _ _ => tt;
     can_send_message := fun _ _ _ => (true, tt);
     client_can_additive := fun _ _ _ => (true, tt);
     is_iniswap := fun _ _ _ _ _ _ _ => (false, tt);
     owners_contains := fun _ _ _ => false;
     afkers_contains := fun _ _ _ => false;
     is_testifying := fun _ _ => false;
     is_examining := fun _ _ => false;
     is_recording := fun _ _ => false;
     start_testimony := fun _ _ _ _ => (false, tt);
     start_examination := fun _ _ _ => (false, tt);
     end_testimony := fun _ _ _ => (false, tt);
     amend_testimony := fun _ _ _ _ _ => (false, tt);
     remove_statement := fun _ _ _ _ => (false, tt);
     navigate_testimony := fun _ _ _ _ _ => tt;
     testimony_title := fun _ _ => [];
     testimony_statements_len := fun _ _ => 0;
     testimony_add_statement := fun _ _ _ => (true, tt);
     recorded_messages_append := fun _ _ _ => tt;
     set_next_msg_delay := fun _ _ _ => tt;
     evidence_pos := fun _ _ _ => inl IndexError;
     set_evidence_pos := fun _ _ _ _ => tt;
     add_evidence := fun _ _ _ _ _ _ _ => tt;
     del_evidence := fun _ _ _ _ => tt;
     edit_evidence := fun _ _ _ _ _ => tt;
     areas := fun _ => [O];
     get_area_by_id := fun aid _ => if aid =? 0 then Some O else None;
     ooc_cmd := fun _ => None;
     other_handler := fun _ _ _ => ret tt |}.

Definition nobody : Client :=
  mkClient 0 0 [] false false false (-1) [] [] [] [] [] [] (-1) [] [] 0 []
    false false 0 0.

Definition phoenix : Client :=
  mkClient 0 100 (lit "hd0") true false false 1 (lit "Phoenix") []
    (lit "Old") (lit "nick") (lit "nick") (lit "def") (-1) [] [] 0 []
    false false 0 0.

Definition edgeworth : Client :=
  mkClient 1 101 (lit "hd1") true false false 2 (lit "Edgeworth") []
    [] (lit "miles") (lit "miles") (lit "def") 1 (lit "25") (lit "smirk") 1
    (lit "Edgeworth") false false 0 0.

Definition spectator : Client :=
  mkClient 2 102 (lit "hd2") true false false (-1) [] [] [] [] [] [] (-1)
    [] [] 0 [] false false 0 0.

Definition banned_for_good : Client :=
  mkClient 3 666 [] false false false (-1) [] [] [] [] [] [] (-1) [] [] 0 []
    false false 0 0.

Definition banned_for_now : Client :=
  mkClient 4 667 [] false false false (-1) [] [] [] [] [] [] (-1) [] [] 0 []
    false false 0 0.

Definition courtroom : Area :=
  mkArea 0 (lit "Courtroom") (lit "CR") [0; 1; 2]%nat true true false true
    None 0.

Definition w0 : World unit :=
  mkWorld
    (fun c =>
       match c with
       | 0 => phoenix
       | 1 => edgeworth
       | 2 => spectator
       | 3 => banned_for_good
       | 4 => banned_for_now
       | _ => nobody
       end%nat)
    (fun _ => courtroom) tt.

(** An IC message of Phoenix in the 2.6 shape, with its text, its showname
    and its message type left open. *)
Definition ic (msg_type text showname : string) : list str :=
  [lit msg_type; lit "-"; lit "Phoenix"; lit "normal"; lit text; lit "def";
   lit "1"; lit "0"; lit "1"; lit "0"; lit "0"; lit "0"; lit "0"; lit "0";
   lit "0"; lit showname; lit "2"; lit "0"; lit "0"].

Definition no_locals : Loc.t :=
  Loc.mk [] [] [] [] [] [] [] [] [] 0 0 0 (PInt 0) 0 0 0 0 [] 0 [] 0
    [] 0 [] [] [] 0 [] (PInt 0) [].

(** The local variables as the dialect resolution leaves them. *)
Definition parsed (args0 : list str) (w : World unit) : Loc.t :=
  match flow (ms_dialect env 0%nat (map PStr args0) w) with
  | Next l => l
  | _ => no_locals
  end.

(** The local variables with which a prepared message reaches line 651. *)
Definition prepared (args0 : list str) (w : World unit) : Loc.t :=
  match flow (ms_prepare env 0%nat args0 w) with
  | Next l => l
  | _ => no_locals
  end.

(** The last IC message recorded in the courtroom. *)
Definition last_sent (w : World unit) : list pyval :=
  match last_ic_message (area_of w 0%nat) with
  | Some sa => sa
  | None => []
  end.

(** The world after Phoenix has said something. *)
Definition after_saying (text : string) : World unit :=
  world (net_cmd_ms env 0%nat (ic "chat" text "New") w0).

End Demo.

(* ===================================================================== *)
(** ** The other handlers of the dispatch table *)
(* ===================================================================== *)

(** [s.replace(old, new)]: the occurrences of [old] are replaced from left
    to right without overlap ([skip] counts the characters of an occurrence
    still to be passed over); with an empty [old], [new] is put before every
    character and at the end. *)
Fixpoint replace_from (old new : str) (skip : nat) (s : str) : str :=
  match s with
  | [] => []
  | c :: s' =>
      match skip with
      | S k => replace_from old new k s'
      | O =>
          if startswith s old
          then new ++ replace_from old new (List.length old - 1) s'
          else c :: replace_from old new 0 s'
      end
  end.

Definition replace (old new s : str) : str :=
  match old with
  | [] => new ++ flat_map (fun c => c :: new) s
  | _ => replace_from old new 0 s
  end.

(** The value of a client attribute that the [Client] record does not
    carry. *)
Inductive attr : Type :=
| AStr (s : str)
| ABool (b : bool).

(** The [pred] argument of [send_all_cmd_pred]. *)
Inductive Pred : Type :=
| pred_default
| pred_is_mod.

(** What the handlers below are given besides [Env]: the character and
    music lists of the server, the timers of the event loop, and the methods
    of the client and of its area that only these handlers call.  A method
    of type [M Ext unit] may change the world, emit and raise. *)
Record Server (Ext : Type) : Type := mkServer {
  (* server.constants.ESCAPE_CHARACTERS, in the order of its keys *)
  ESCAPE_CHARACTERS : list (str * str);
  (* self.server *)
  char_list : World Ext -> list str;
  set_char_list : list str -> World Ext -> Ext;
  char_pages_ao1 : World Ext -> list (list str);
  music_pages_ao1 : World Ext -> list (list str);
  music_list_ao2 : World Ext -> list str;
  get_song_is_category : str -> World Ext -> bool;
  get_song_data : str -> World Ext -> Exn + (str * Z); (* (name, length) *)
  send_all_cmd_pred : str -> list pyval -> Pred -> World Ext -> Ext;
  (* strftime("%H:%M", localtime()) *)
  strftime_HM : World Ext -> str;
  (* self.ping_timeout and the event loop *)
  ping_timeout_cancel : nat -> World Ext -> Exn + Ext;
  call_later_disconnect : nat -> World Ext -> Exn + Ext;
  (* self.client *)
  setattr : nat -> str -> attr -> World Ext -> Ext;
  is_mod : nat -> World Ext -> bool;
  is_dj : nat -> World Ext -> bool;
  can_wtce : nat -> World Ext -> bool;
  ip : nat -> World Ext -> str;
  send_done : nat -> World Ext -> Ext;
  send_area_list : nat -> World Ext -> Ext;
  send_motd : nat -> World Ext -> Ext;
  change_character : nat -> Z -> M Ext unit;
  (* the remaining seconds: whether the number is true, and its int() *)
  change_music_cd : nat -> World Ext -> (bool * Z) * Ext;
  wtce_mute : nat -> World Ext -> (bool * Z) * Ext;
  can_call_case : nat -> World Ext -> bool * Ext;
  set_case_call_delay : nat -> World Ext -> Ext;
  can_call_mod : nat -> World Ext -> bool * Ext;
  set_mod_call_delay : nat -> World Ext -> Ext;
  (* self.client.area *)
  cannot_ic_interact : nat -> nat -> World Ext -> bool * Ext;
  jukebox : nat -> World Ext -> bool;
  add_jukebox_vote : nat -> nat -> str -> Z -> str -> World Ext -> Ext;
  play_music : nat -> str -> Z -> Z -> str -> Z -> World Ext -> Ext;
  add_music_playing : nat -> nat -> str -> str -> World Ext -> Ext;
  change_hp : nat -> Z -> Z -> M Ext unit;
  add_to_judgelog : nat -> nat -> str -> World Ext -> Ext;
  (* database.log_room('case', client, area, message=log_data) *)
  log_room_case : nat -> nat -> list (str * str) -> World Ext -> Ext
}.

Section Handlers.

Context {Ext : Type} (E : Env Ext) (Srv : Server Ext).

(** A collaborator call that may raise. *)
Definition call_or_raise (f : World Ext -> Exn + Ext) : M Ext unit :=
  fun w =>
    match f w with
    | inl e => mkOut (Raise e) w []
    | inr x => mkOut (Next tt) (with_ext x w) []
    end.

(** [args[i]] on the strings the dispatcher passes. *)
Definition arg (i : nat) (args : list str) : M Ext str :=
  lookup_or_raise IndexError (nth_error args i).

(** [self.client.area.send_command(cmd, *args)] *)
Definition area_send_command (a : nat) (cmd : str) (args : list pyval)
    : M Ext unit :=
  emit (EvAreaSend a cmd args).

(* --------------------------------------------------------------------- *)
(** *** [net_cmd_id], [net_cmd_ch] *)

(** The feature list of lines 266-271. *)
Definition features : list pyval :=
  map (fun s => PStr (lit s))
    ["yellowtext"; "customobjections"; "flipping"; "fastloading";
     "noencryption"; "deskmod"; "evidence"; "modcall_reason";
     "cccc_ic_support"; "arup"; "casing_alerts"; "prezoom"; "looping_sfx";
     "additive"; "effects"; "y_offset"; "expanded_desk_mods"]%string.

Definition net_cmd_id : Handler Ext := fun me args =>
  a1 <- arg 1 args ;;
  let version := split 46%N a1 in
  (if Z.of_nat (List.length version) <=? 1 then
     call_ (setattr Srv me (lit "release") (AStr a1))
   else if 2 <=? Z.of_nat (List.length version) then
     v0 <- arg 0 version ;;
     call_ (setattr Srv me (lit "release") (AStr v0)) ;;
     v1 <- arg 1 version ;;
     call_ (setattr Srv me (lit "major_version") (AStr v1))
   else ret tt) ;;
  (if 3 <=? Z.of_nat (List.length version) then
     v2 <- arg 2 version ;;
     call_ (setattr Srv me (lit "minor_version") (AStr v2))
   else ret tt) ;;
  send_command me (lit "FL") features.

Definition net_cmd_ch : Handler Ext := fun me _ =>
  send_command me (lit "CHECK") [] ;;
  call_or_raise (ping_timeout_cancel Srv me) ;;
  call_or_raise (call_later_disconnect Srv me).

(* --------------------------------------------------------------------- *)
(** *** The lists: [askchaa], [askchar2], [AN], [AM], [RC], [RM], [RD] *)

Definition net_cmd_askchaa : Handler Ext := fun me _ =>
  chars <- read (char_list Srv) ;;
  let char_cnt := Z.of_nat (List.length chars) in
  let evi_cnt := 0 in
  pages <- read (music_pages_ao1 Srv) ;;
  let music_cnt := fold_right Z.add 0 (map (fun x => Z.of_nat (List.length x)) pages) in
  send_command me (lit "SI") [PInt char_cnt; PInt evi_cnt; PInt music_cnt].

(** [pages[i]] for an integer [i]: Python counts a negative index from the
    end. *)
Definition page (pages : list (list str)) (i : Z) : M Ext (list str) :=
  let n := Z.of_nat (List.length pages) in
  let k := if i <? 0 then i + n else i in
  if (k <? 0) || (n <=? k) then raise IndexError
  else lookup_or_raise IndexError (nth_error pages (Z.to_nat k)).

Definition net_cmd_askchar2 : Handler Ext := fun me _ =>
  pages <- read (char_pages_ao1 Srv) ;;
  p <- page pages 0 ;;
  send_command me (lit "CI") (map PStr p).

(** [self.client.send_done()], [send_area_list()], [send_motd()] *)
Definition send_done_area_list_motd (me : nat) : M Ext unit :=
  call_ (send_done Srv me) ;;
  call_ (send_area_list Srv me) ;;
  call_ (send_motd Srv me).

Definition net_cmd_an : Handler Ext := fun me args0 =>
  c <- self_client me ;;
  let v := validate_net_cmd E c (map PStr args0) [INT] false in
  if negb (fst v) then return_ else
  a0 <- item 0 (snd v) ;;
  n <- lookup_or_raise TypeError (match a0 with PInt n => Some n | _ => None end) ;;
  pages <- read (char_pages_ao1 Srv) ;;
  if (n <? Z.of_nat (List.length pages)) && (0 <=? n) then
    pages <- read (char_pages_ao1 Srv) ;;
    p <- page pages n ;;
    send_command me (lit "CI") (map PStr p)
  else
    pages <- read (music_pages_ao1 Srv) ;;
    p <- page pages 0 ;;
    send_command me (lit "EM") (map PStr p).

Definition net_cmd_am : Handler Ext := fun me args0 =>
  c <- self_client me ;;
  let v := validate_net_cmd E c (map PStr args0) [INT] false in
  if negb (fst v) then return_ else
  a0 <- item 0 (snd v) ;;
  n <- lookup_or_raise TypeError (match a0 with PInt n => Some n | _ => None end) ;;
  pages <- read (music_pages_ao1 Srv) ;;
  if (n <? Z.of_nat (List.length pages)) && (0 <=? n) then
    pages <- read (music_pages_ao1 Srv) ;;
    p <- page pages n ;;
    send_command me (lit "EM") (map PStr p)
  else send_done_area_list_motd me.

(** The inner loop of [net_cmd_rc] on one name. *)
Definition escape (char : str) : str :=
  fold_left
    (fun char e =>
       if contains (fst e) char then replace (fst e) (snd e) char else char)
    (ESCAPE_CHARACTERS Srv) char.

Definition net_cmd_rc : Handler Ext := fun me _ =>
  chars <- read (char_list Srv) ;;
  call_ (set_char_list Srv (map escape chars)) ;;
  chars <- read (char_list Srv) ;;
  send_command me (lit "SC") (map PStr chars).

Definition net_cmd_rm : Handler Ext := fun me _ =>
  a <- self_area me ;;
  owner <- read (owners_contains E a me) ;;
  allowed <- (if owner then ret true else read (is_mod Srv me)) ;;
  names <- read (fun w => map (fun a => area_name (area_of w a)) (areas E w)) ;;
  songs <- read (music_list_ao2 Srv) ;;
  let song_list := [] ++ names ++ songs in
  send_command me (lit "SM") (map PStr song_list).

Definition net_cmd_rd : Handler Ext := fun me _ =>
  send_done_area_list_motd me.

(* --------------------------------------------------------------------- *)
(** *** [net_cmd_cc] *)

Definition net_cmd_cc : Handler Ext := fun me args0 =>
  c <- self_client me ;;
  let v := validate_net_cmd E c (map PStr args0) [INT; INT; STR] false in
  if negb (fst v) then return_ else
  if negb (is_checked c) then return_ else
  a1 <- item 1 (snd v) ;;
  cid <- lookup_or_raise TypeError (match a1 with PInt n => Some n | _ => None end) ;;
  try_except (invoke (change_character Srv me cid)) ClientError return_.

(* --------------------------------------------------------------------- *)
(** *** [net_cmd_mc] *)

(** Lines 838-842: the four shapes, tried in turn on the same list. *)
Definition mc_validate (c : Client) (args : list pyval) : bool * list pyval :=
  let v2 := validate_net_cmd E c args [STR; INT] true in
  if fst v2 then v2 else
  let v3 := validate_net_cmd E c (snd v2) [STR; INT; STR_OR_EMPTY] true in
  if fst v3 then v3 else
  let v4 := validate_net_cmd E c (snd v3) [STR; INT; STR_OR_EMPTY; INT] true in
  if fst v4 then v4 else
  validate_net_cmd E c (snd v4) [STR; INT; STR_OR_EMPTY; INT; INT] true.

(** Lines 853-857: the song that is played, as [(name, length)]. *)
Definition mc_song (song : str) : M Ext (str * Z) :=
  if PyStr.eqb song (lit "~stop.mp3") then ret (lit "~stop.mp3", 0) else
  category <- read (get_song_is_category Srv song) ;;
  if category then ret (lit "~stop.mp3", 0)
  else
    r <- read (get_song_data Srv song) ;;
    value_or_raise r.

(** Lines 852-889: the [try] block of the music path and its handler. *)
Definition mc_play (me : nat) (args : list pyval) : M Ext unit :=
  try_except
    (a0 <- item 0 args ;;
     song <- as_str a0 ;;
     r <- mc_song song ;;
     let '(name, length) := r in
     showname <-
       (if 2 <? Z.of_nat (List.length args) then
          a2 <- item 2 args ;;
          showname <- as_str a2 ;;
          a <- self_area me ;;
          allowed <- read (fun w => showname_changes_allowed (area_of w a)) ;;
          if (0 <? len showname) && negb allowed then
            send_ooc me (lit "Showname changes are forbidden in this area!") ;;
            return_
          else ret showname
        else ret []) ;;
     effects <-
       (if 3 <? Z.of_nat (List.length args) then
          a3 <- item 3 args ;;
          lookup_or_raise ValueError (py_int E a3)
        else ret 0) ;;
     a <- self_area me ;;
     voting <- read (jukebox Srv a) ;;
     if voting then
       call_ (add_jukebox_vote Srv a me name length showname) ;;
       call_ (log_room E (lit "jukebox.vote") me a (Some name))
     else
       c <- self_client me ;;
       call_ (play_music Srv a name (char_id c) length showname effects) ;;
       call_ (add_music_playing Srv a me name showname) ;;
       call_ (log_room E (lit "music") me a (Some name)))
    ServerError
    (a0 <- item 0 args ;;
     send_ooc me (lit "Error: song " ++ py_str a0
                  ++ lit " isn't recognized by server!")).

(** Lines 824-889: what is done when the area command raised [AreaError]. *)
Definition mc_music (me : nat) (args0 : list str) : M Ext unit :=
  c <- self_client me ;;
  if is_muted c then
    send_ooc me (lit "You are muted by a moderator.") ;;
    return_
  else
  dj <- read (is_dj Srv me) ;;
  if negb dj then
    send_ooc me (lit "You were blockdj'd by a moderator.") ;;
    return_
  else
  a <- self_area me ;;
  barred <- call (cannot_ic_interact Srv a me) ;;
  if barred then
    send_ooc me
      (lit "You are not on the area's invite list, and thus, you cannot change music!") ;;
    return_
  else
  c <- self_client me ;;
  let v := mc_validate c (map PStr args0) in
  if negb (fst v) then return_ else
  let args := snd v in
  a1 <- item 1 args ;;
  if negb (pyval_eqb a1 (PInt (char_id c))) then return_ else
  cd <- call (change_music_cd Srv me) ;;
  (if fst cd then
     a <- self_area me ;;
     members <- read (fun w => clients (area_of w a)) ;;
     if negb (Nat.eqb (List.length members) 1) then
       cd <- call (change_music_cd Srv me) ;;
       send_ooc me
         (lit "You changed the song too many times. Please try again after "
          ++ of_Z (snd cd) ++ lit " seconds.") ;;
       return_
     else ret tt
   else ret tt) ;;
  mc_play me args.

Definition net_cmd_mc : Handler Ext := fun me args0 =>
  c <- self_client me ;;
  if negb (is_checked c) then return_ else
  match ooc_cmd E (lit "area") with
  | None => raise AttributeError
  | Some ooc_cmd_area =>
      a0 <- arg 0 args0 ;;
      emit (EvOocCommand me (lit "area") a0) ;;
      fun w =>
        let '(r, w', evs) := ooc_cmd_area me a0 w in
        match r with
        | OocDone => mkOut (Next tt) w' evs
        | OocDomainError AreaError _ =>
            let o := mc_music me args0 w' in
            mkOut (flow o) (world o) (evs ++ emitted o)
        | OocDomainError ClientError ex =>
            mkOut (Next tt) w' (evs ++ [EvSendOOC me ex])
        | OocDomainError e _ => mkOut (Raise e) w' evs
        | OocFailure => mkOut (Raise OtherError) w' evs
        end
  end.

(* --------------------------------------------------------------------- *)
(** *** [net_cmd_rt] *)

(** Lines 921-928. *)
Definition rt_sign (a0 : str) : option str :=
  if PyStr.eqb a0 (lit "testimony1") then Some (lit "WT")
  else if PyStr.eqb a0 (lit "testimony2") then Some (lit "CE")
  else if PyStr.eqb a0 (lit "judgeruling") then Some (lit "JR")
  else None.

Definition net_cmd_rt : Handler Ext := fun me args0 =>
  c <- self_client me ;;
  if negb (is_checked c) then return_ else
  a <- self_area me ;;
  allowed <- read (fun w => shouts_allowed (area_of w a)) ;;
  if negb allowed then
    send_ooc me (lit "You cannot use the testimony buttons here!") ;;
    return_
  else
  if is_muted c then
    send_ooc me (lit "You are muted by a moderator.") ;;
    return_
  else
  wtce <- read (can_wtce Srv me) ;;
  if negb wtce then
    send_ooc me
      (lit "You were blocked from using judge signs by a moderator.") ;;
    return_
  else
  barred <- call (cannot_ic_interact Srv a me) ;;
  if barred then
    send_ooc me
      (lit "You are not on the area's invite list, and thus, you cannot use the WTCE buttons!") ;;
    return_
  else
  let v1 := validate_net_cmd E c (map PStr args0) [STR] true in
  let v := if fst v1 then v1
           else validate_net_cmd E c (snd v1) [STR; INT] true in
  if negb (fst v) then return_ else
  let args := snd v in
  a0 <- item 0 args ;;
  match rt_sign (py_str a0) with
  | None => return_
  | Some sign =>
      muted <- call (wtce_mute Srv me) ;;
      if fst muted then
        muted <- call (wtce_mute Srv me) ;;
        send_ooc me
          (lit "You used witness testimony/cross examination signs too many times. Please try again after "
           ++ of_Z (snd muted) ++ lit " seconds.") ;;
        return_
      else
      (if Nat.eqb (List.length args) 1 then
         area_send_command a (lit "RT") [a0]
       else if Nat.eqb (List.length args) 2 then
         a1 <- item 1 args ;;
         area_send_command a (lit "RT") [a0; a1]
       else ret tt) ;;
      call_ (add_to_judgelog Srv a me (lit "used " ++ sign)) ;;
      call_ (log_room E (lit "wtce") me a (Some sign))
  end.

(* --------------------------------------------------------------------- *)
(** *** [net_cmd_setcase], [net_cmd_casea] *)

(** [self.client.<name> = args[i] == "1"] *)
Definition set_casing_flag (me : nat) (name : string) (i : nat)
    (args : list str) : M Ext unit :=
  a <- arg i args ;;
  call_ (setattr Srv me (lit name) (ABool (PyStr.eqb a (lit "1")))).

Definition net_cmd_setcase : Handler Ext := fun me args =>
  a0 <- arg 0 args ;;
  call_ (setattr Srv me (lit "casing_cases") (AStr a0)) ;;
  set_casing_flag me "casing_cm" 1 args ;;
  set_casing_flag me "casing_def" 2 args ;;
  set_casing_flag me "casing_pro" 3 args ;;
  set_casing_flag me "casing_jud" 4 args ;;
  set_casing_flag me "casing_jur" 5 args ;;
  set_casing_flag me "casing_steno" 6 args.

(** The condition of lines 973-974: no argument at the given indices is
    ["1"]; the arguments are looked at in turn, up to the first ["1"]. *)
Fixpoint none_is_1 (args : list str) (indices : list nat) : M Ext bool :=
  match indices with
  | [] => ret true
  | i :: rest =>
      a <- arg i args ;;
      if PyStr.eqb a (lit "1") then ret false else none_is_1 args rest
  end.

(** [zip(xs, ys)] *)
Fixpoint zip (A B : Type) (xs : list A) (ys : list B) : list (A * B) :=
  match xs, ys with
  | x :: xs', y :: ys' => (x, y) :: zip xs' ys'
  | _, _ => []
  end.

(** Lines 982-985. *)
Definition lookingfor (args : list str) : list str :=
  map fst
    (filter (fun pq => PyStr.eqb (snd pq) (lit "1"))
       (zip [lit "defense"; lit "prosecutor"; lit "judge"; lit "juror";
             lit "stenographer"] (tl args))).

Definition net_cmd_casea : Handler Ext := fun me args =>
  c <- self_client me ;;
  if negb (is_checked c) then return_ else
  a <- self_area me ;;
  owner <- read (owners_contains E a me) ;;
  if owner then
    can <- call (can_call_case Srv me) ;;
    if negb can then
      send_ooc me (lit "Please wait 60 seconds between case announcements!") ;;
      return_
    else
    none <- none_is_1 args [1; 2; 3; 4; 5]%nat ;;
    if none then
      send_ooc me
        (lit "You should probably announce the case to at least one person.") ;;
      return_
    else
    c <- self_client me ;;
    a0 <- arg 0 args ;;
    let msg :=
      lit "=== Case Announcement ===" ++ crlf ++ char_name c ++ lit " ["
      ++ of_Z (id c) ++ lit "] is hosting " ++ a0 ++ lit ", looking for " in
    let msg :=
      msg ++ join (lit ", ") (lookingfor args) ++ lit "." ++ crlf
      ++ lit "==================" in
    a1 <- arg 1 args ;;
    a2 <- arg 2 args ;;
    a3 <- arg 3 args ;;
    a4 <- arg 4 args ;;
    a5 <- arg 5 args ;;
    call_ (send_all_cmd_pred Srv (lit "CASEA")
             [PStr msg; PStr a1; PStr a2; PStr a3; PStr a4; PStr a5;
              PStr (lit "1")] pred_default) ;;
    call_ (set_case_call_delay Srv me) ;;
    let log_data :=
      zip [lit "message"; lit "def"; lit "pro"; lit "jud"; lit "jur";
           lit "steno"] args in
    a <- self_area me ;;
    call_ (log_room_case Srv me a log_data)
  else
    send_ooc me
      (lit "You cannot announce a case in an area where you are not a CM!").

(* --------------------------------------------------------------------- *)
(** *** [net_cmd_hp] *)

Definition net_cmd_hp : Handler Ext := fun me args0 =>
  c <- self_client me ;;
  if negb (is_checked c) then return_ else
  if is_muted c then
    send_ooc me (lit "You are muted by a moderator.") ;;
    return_
  else
  a <- self_area me ;;
  barred <- call (cannot_ic_interact Srv a me) ;;
  if barred then
    send_ooc me
      (lit "You are not on the area's invite list, and thus, you cannot change the Confidence bars!") ;;
    return_
  else
  c <- self_client me ;;
  let v := validate_net_cmd E c (map PStr args0) [INT; INT] true in
  if negb (fst v) then return_ else
  let args := snd v in
  try_except
    (a0 <- item 0 args ;;
     bar <- lookup_or_raise TypeError (py_int E a0) ;;
     a1 <- item 1 args ;;
     value <- lookup_or_raise TypeError (py_int E a1) ;;
     a <- self_area me ;;
     invoke (change_hp Srv a bar value) ;;
     a <- self_area me ;;
     call_ (add_to_judgelog Srv a me (lit "changed the penalties")) ;;
     a <- self_area me ;;
     call_ (log_room E (lit "hp") me a None))
    AreaError
    return_.

(* --------------------------------------------------------------------- *)
(** *** [net_cmd_zz] *)

(** The alert of lines 1110-1112 and 1120-1123, up to what follows the area
    name. *)
Definition zz_alert (w : World Ext) (me : nat) (current_time : str) : str :=
  let c := client_of w me in
  lit "[" ++ current_time ++ lit "] " ++ char_name c ++ lit " ("
  ++ ip Srv me w ++ lit ") in " ++ area_name (area_of w (area c)).

Definition net_cmd_zz : Handler Ext := fun me args =>
  c <- self_client me ;;
  if negb (is_checked c) then return_ else
  if is_muted c then
    send_ooc me (lit "You are muted by a moderator.") ;;
    return_
  else
  if char_id c =? -1 then
    send_ooc me (lit "You cannot call a moderator while spectating.") ;;
    return_
  else
  can <- call (can_call_mod Srv me) ;;
  if negb can then
    send_ooc me (lit "You must wait 30 seconds between mod calls.") ;;
    return_
  else
  current_time <- read (strftime_HM Srv) ;;
  match args with
  | [] =>
      alert <- read (fun w => zz_alert w me current_time) ;;
      call_ (send_all_cmd_pred Srv (lit "ZZ")
               [PStr (alert ++ lit " without reason (not using 2.6?)")]
               pred_is_mod) ;;
      call_ (set_mod_call_delay Srv me) ;;
      a <- self_area me ;;
      call_ (log_room E (lit "modcall") me a None)
  | a0 :: _ =>
      let reason := dezalgo E a0 in
      alert <- read (fun w => zz_alert w me current_time) ;;
      call_ (send_all_cmd_pred Srv (lit "ZZ")
               [PStr (alert ++ lit " with reason: " ++ take 100 reason)]
               pred_is_mod) ;;
      call_ (set_mod_call_delay Srv me) ;;
      a <- self_area me ;;
      call_ (log_room E (lit "modcall") me a (Some reason))
  end.

(* --------------------------------------------------------------------- *)
(** *** The whole table *)

(** The handlers of this part, by the name under which the dispatch table
    lists them. *)
Definition more_handlers (cmd : str) : Handler Ext :=
  if PyStr.eqb cmd (lit "ID") then net_cmd_id
  else if PyStr.eqb cmd (lit "CH") then net_cmd_ch
  else if PyStr.eqb cmd (lit "askchaa") then net_cmd_askchaa
  else if PyStr.eqb cmd (lit "askchar2") then net_cmd_askchar2
  else if PyStr.eqb cmd (lit "AN") then net_cmd_an
  else if PyStr.eqb cmd (lit "AM") then net_cmd_am
  else if PyStr.eqb cmd (lit "RC") then net_cmd_rc
  else if PyStr.eqb cmd (lit "RM") then net_cmd_rm
  else if PyStr.eqb cmd (lit "RD") then net_cmd_rd
  else if PyStr.eqb cmd (lit "CC") then net_cmd_cc
  else if PyStr.eqb cmd (lit "MC") then net_cmd_mc
  else if PyStr.eqb cmd (lit "RT") then net_cmd_rt
  else if PyStr.eqb cmd (lit "SETCASE") then net_cmd_setcase
  else if PyStr.eqb cmd (lit "CASEA") then net_cmd_casea
  else if PyStr.eqb cmd (lit "HP") then net_cmd_hp
  else if PyStr.eqb cmd (lit "ZZ") then net_cmd_zz
  else other_handler E cmd.

(** The environment in which every entry of [net_cmd_dispatcher] is a
    handler of this file. *)
Definition complete : Env Ext :=
  {| int_of_str := int_of_str E;
     isdigit := isdigit E;
     is_format_char := is_format_char E;
     lower := lower E;
     decode_utf8_ignore := decode_utf8_ignore E;
     humanize := humanize E;
     time := time E;
     fanta_decrypt := fanta_decrypt E;
     zalgo_tolerance := zalgo_tolerance E;
     hostname := hostname E;
     max_chars := max_chars E;
     playerlimit := playerlimit E;
     software := software E;
     version := version E;
     player_count := player_count E;
     add_hdid := add_hdid E;
     find_ban := find_ban E;
     log_connect := log_connect E;
     log_ic := log_ic E;
     log_room := log_room E;
     is_valid_name := is_valid_name E;
     shake_message := shake_message E;
     disemvowel_message := disemvowel_message E;
     evi_list_contains := evi_list_contains E;
     evi_list_get := evi_list_get E;
     toggle_afk := toggle_afk E;
     can_send_message := can_send_message E;
     client_can_additive := client_can_additive E;
     is_iniswap := is_iniswap E;
     owners_contains := owners_contains E;
     afkers_contains := afkers_contains E;
     is_testifying := is_testifying E;
     is_examining := is_examining E;
     is_recording := is_recording E;
     start_testimony := start_testimony E;
     start_examination := start_examination E;
     end_testimony := end_testimony E;
     amend_testimony := amend_testimony E;
     remove_statement := remove_statement E;
     navigate_testimony := navigate_testimony E;
     testimony_title := testimony_title E;
     testimony_statements_len := testimony_statements_len E;
     testimony_add_statement := testimony_add_statement E;
     recorded_messages_append := recorded_messages_append E;
     set_next_msg_delay := set_next_msg_delay E;
     evidence_pos := evidence_pos E;
     set_evidence_pos := set_evidence_pos E;
     add_evidence := add_evidence E;
     del_evidence := del_evidence E;
     edit_evidence := edit_evidence E;
     areas := areas E;
     get_area_by_id := get_area_by_id E;
     ooc_cmd := ooc_cmd E;
     other_handler := more_handlers |}.

End Handlers.

(* ===================================================================== *)
(** ** Vocabulary of the further properties *)
(* ===================================================================== *)

(** Every run of scrubbed characters in [s], counted from a run of [n]
    characters that comes before it, is shorter than [tol]. *)
Fixpoint runs_below (tol n : nat) (s : str) : bool :=
  match s with
  | [] => true
  | c :: s' =>
      if is_zalgo c then Nat.ltb (S n) tol && runs_below tol (S n) s'
      else runs_below tol 0 s'
  end.

(** Messages as they are sent: each followed by the terminator. *)
Definition framed (msgs : list str) : str :=
  flat_map (fun m => m ++ lit "#%") msgs.

Section Vocabulary2.

Context {Ext : Type}.

(** [aid] is the id of an area that the area manager gives, in the world
    [w], as an area of which [me] is an owner: the area with this id, or an
    area of the server's list that has this id. *)
Definition owned_target (E : Env Ext) (me : nat) (w : World Ext) (aid : Z)
    : Prop :=
  exists a,
    owners_contains E a me w = true
    /\ (get_area_by_id E aid w = Some a
        \/ (In a (areas E w) /\ area_id (area_of w a) = aid)).

(** Lines 407-507 of [net_cmd_ms]: the part of [ms_prepare] that comes
    before the prefixes of the text are looked at.  The result is the local
    variables of the shape that was accepted; the world it leaves is the
    one in which lines 508-531 choose the target areas. *)
Definition ms_before_commands (E : Env Ext) (me : nat) (args0 : list str)
    : M Ext Loc.t :=
  ms_preconditions E me ;;
  p <- ms_dialect E me (map PStr args0) ;;
  additive <- ms_additive E me (Loc.additive p) ;;
  ms_showname me (Loc.showname p) ;;
  ms_iniswap E me (Loc.pre p) (Loc.anim p) (Loc.folder p) (Loc.sfx p) ;;
  ms_blankpost me (Loc.text p) ;;
  ret p.

(** An event that reaches nobody but the client [me]. *)
Definition to_sender (me : nat) (ev : Event) : Prop :=
  match ev with
  | EvSendCommand c _ _ | EvSendOOC c _ | EvDisconnect c => c = me
  | _ => False
  end.

(** A block that concerns nobody but the client [me]: the other clients
    and the areas are left as they are, and what is emitted goes to [me]. *)
Definition private (me : nat) (A : Type) (m : M Ext A) : Prop :=
  forall w,
    (forall c, c <> me -> client_of (world (m w)) c = client_of w c)
    /\ (forall a, area_of (world (m w)) a = area_of w a)
    /\ Forall (to_sender me) (emitted (m w)).

(** A block that is dropped: nothing changes but the external state, and
    the sender gets one notice at most. *)
Definition dropped (me : nat) (A : Type) (m : M Ext A) (w : World Ext)
    : Prop :=
  flow (m w) = Return
  /\ (exists x, world (m w) = with_ext x w)
  /\ (emitted (m w) = [] \/ exists s, emitted (m w) = [EvSendOOC me s]).

End Vocabulary2.

(* ===================================================================== *)
(** ** A small town *)
(* ===================================================================== *)

(** The small server again, with every handler of the table, a second area
    and a stricter area manager: Edgeworth is the owner of both areas, a
    name that another member of the area bears is not valid, and the area
    command moves a client to the lobby. *)
Module Town.

Definition lobby : Area :=
  mkArea 1 (lit "Lobby") (lit "LB") [5; 6]%nat true true true false None 0.

Definition maya : Client :=
  mkClient 5 105 (lit "hd5") true false false 3 (lit "Maya") []
    [] (lit "maya") (lit "maya") (lit "wit") (-1) [] [] 0 []
    false false 1 0.

Definition larry : Client :=
  mkClient 6 106 (lit "hd6") true true false 4 (lit "Larry") []
    [] (lit "larry") (lit "larry") (lit "wit") (-1) [] [] 0 []
    false false 1 0.

Definition w0 : World unit :=
  mkWorld
    (fun c =>
       match c with
       | 5 => maya
       | 6 => larry
       | _ => client_of Demo.w0 c
       end%nat)
    (fun a => match a with 1%nat => lobby | _ => Demo.courtroom end) tt.

(** [client.area = area] for the lobby. *)
Definition enter_lobby (c : Client) : Client :=
  mkClient (id c) (ipid c) (hdid c) (is_checked c) (is_muted c)
    (is_ooc_muted c) (char_id c) (char_name c) (charcurse c) (showname c)
    (name c) (fake_name c) (pos c) (charid_pair c) (offset_pair c)
    (last_sprite c) (flip c) (claimed_folder c) (shaken c) (disemvowel c)
    1%nat (last_pkt_time c).

Definition ooc_cmd_area (me : nat) (arg : str) (w : World unit)
    : OocResult * World unit * list Event :=
  if PyStr.eqb arg (lit "1") then
    (OocDone, set_client me enter_lobby w,
     [EvSendOOC me (lit "Changed area to Lobby.")])
  else (OocDomainError AreaError (lit "Area not found."), w, []).

Definition base : Env unit :=
  {| int_of_str := Demo.ascii_int;
     isdigit := Demo.ascii_isdigit;
     is_format_char := Demo.format_char;
     lower := Demo.ascii_lower;
     decode_utf8_ignore := Demo.ascii_decode;
     humanize := fun _ _ => lit "in 3 days";
     time := fun _ => 1000;
     fanta_decrypt := fun s => inr s;
     zalgo_tolerance := 3;
     hostname := lit "<dollar>H";
     max_chars := Some 256;
     playerlimit := PInt 100;
     software := lit "tsuserver";
     version := lit "3.0";
     player_count := fun _ => 5;
     add_hdid := fun _ _ _ => tt;
     find_ban := fun _ _ _ => None;
     log_connect := fun _ _ _ => tt;
     log_ic := fun _ _ _ _ _ => tt;
     log_room := fun _ _ _ _ _ => tt;
     is_valid_name := fun me nm w =>
       (negb (existsb
                (fun c => negb (Nat.eqb c me)
                          && PyStr.eqb (name (client_of w c)) nm)
                (clients (area_of w (area (client_of w me))))), tt);
     shake_message := fun _ s _ => (s, tt);
     disemvowel_message := fun _ s _ => (s, tt);
     evi_list_contains := fun _ e _ => e =? 0;
     evi_list_get := fun _ e _ => if e =? 0 then inr 0 else inl IndexError;
     toggle_afk := fun _ _ => tt;
     can_send_message := fun _ _ _ => (true, tt);
     client_can_additive := fun _ _ _ => (true, tt);
     is_iniswap := fun _ _ _ _ _ _ _ => (false, tt);
     owners_contains := fun _ c _ => Nat.eqb c 1;
     afkers_contains := fun _ _ _ => false;
     is_testifying := fun _ _ => false;
     is_examining := fun _ _ => false;
     is_recording := fun _ _ => false;
     start_testimony := fun _ _ _ _ => (false, tt);
     start_examination := fun _ _ _ => (false, tt);
     end_testimony := fun _ _ _ => (false, tt);
     amend_testimony := fun _ _ _ _ _ => (false, tt);
     remove_statement := fun _ _ _ _ => (false, tt);
     navigate_testimony := fun _ _ _ _ _ => tt;
     testimony_title := fun _ _ => [];
     testimony_statements_len := fun _ _ => 0;
     testimony_add_statement := fun _ _ _ => (true, tt);
     recorded_messages_append := fun _ _ _ => tt;
     set_next_msg_delay := fun _ _ _ => tt;
     evidence_pos := fun _ _ _ => inl IndexError;
     set_evidence_pos := fun _ _ _ _ => tt;
     add_evidence := fun _ _ _ _ _ _ _ => tt;
     del_evidence := fun _ _ _ _ => tt;
     edit_evidence := fun _ _ _ _ _ => tt;
     areas := fun _ => [0; 1]%nat;
     get_area_by_id := fun aid _ =>
       if aid =? 0 then Some 0%nat
       else if aid =? 1 then Some 1%nat else None;
     ooc_cmd := fun cmd =>
       if PyStr.eqb cmd (lit "area") then Some ooc_cmd_area else None;
     other_handler := fun _ _ _ => ret tt |}.

(** The server; [timeout] is [false] for a configuration that lacks the
    timeout, so that arming the timer raises [KeyError]. *)
Definition server (timeout : bool) : Server unit :=
  {| ESCAPE_CHARACTERS :=
       [(lit "%", lit "<percent>"); (lit "#", lit "<num>");
        (lit "$", lit "<dollar>"); (lit "&", lit "<and>")];
     char_list := fun _ => [lit "Phoenix"; lit "Edgeworth"; lit "Maya"];
     set_char_list := fun _ _ => tt;
     char_pages_ao1 := fun _ =>
       [[lit "0&Phoenix&0&&&0&"; lit "1&Edgeworth&0&&&0&"];
        [lit "2&Maya&0&&&0&"]];
     music_pages_ao1 := fun _ => [[lit "0&Trial.mp3"; lit "1&Pursuit.mp3"]];
     music_list_ao2 := fun _ => [lit "Trial.mp3"; lit "Pursuit.mp3"];
     get_song_is_category := fun _ _ => false;
     get_song_data := fun song _ =>
       if PyStr.eqb song (lit "Trial.mp3") then inr (song, 120)
       else inl ServerError;
     send_all_cmd_pred := fun _ _ _ _ => tt;
     strftime_HM := fun _ => lit "12:00";
     ping_timeout_cancel := fun _ _ => inr tt;
     call_later_disconnect := fun _ _ =>
       if timeout then inr tt else inl KeyError;
     setattr := fun _ _ _ _ => tt;
     is_mod := fun _ _ => false;
     is_dj := fun _ _ => true;
     can_wtce := fun _ _ => true;
     ip := fun _ _ => lit "10.0.0.1";
     send_done := fun _ _ => tt;
     send_area_list := fun _ _ => tt;
     send_motd := fun _ _ => tt;
     change_character := fun _ _ => raise ClientError;
     change_music_cd := fun _ _ => ((false, 0), tt);
     wtce_mute := fun _ _ => ((false, 0), tt);
     can_call_case := fun _ _ => (true, tt);
     set_case_call_delay := fun _ _ => tt;
     can_call_mod := fun _ _ => (true, tt);
     set_mod_call_delay := fun _ _ => tt;
     cannot_ic_interact := fun _ _ _ => (false, tt);
     jukebox := fun _ _ => false;
     add_jukebox_vote := fun _ _ _ _ _ _ => tt;
     play_music := fun _ _ _ _ _ _ _ => tt;
     add_music_playing := fun _ _ _ _ _ => tt;
     change_hp := fun _ bar value =>
       if (0 <=? value) && (value <=? 10) then ret tt else raise AreaError;
     add_to_judgelog := fun _ _ _ _ => tt;
     log_room_case := fun _ _ _ _ => tt |}.

Definition env : Env unit := complete base (server true).

(** The same town without a timeout in its configuration. *)
Definition env_without_timeout : Env unit := complete base (server false).

(** An IC message in the 2.6 shape for the character [cid] in the folder
    [folder], with its animation type and its text left open. *)
Definition ic (folder cid anim_type text : string) : list str :=
  [lit "chat"; lit "-"; lit folder; lit "normal"; lit text; lit "wit";
   lit "1"; lit anim_type; lit cid; lit "0"; lit "0"; lit "0"; lit "0";
   lit "1"; lit "0"; []; lit "-1"; lit "0"; lit "0"].

(** What an area was sent last by [net_cmd_ms]. *)
Definition relayed (o : Out unit unit) : list pyval :=
  match emitted o with
  | EvAreaSend _ _ sa :: _ => sa
  | _ => []
  end.

End Town.

(* ===================================================================== *)
(** * Properties *)
(* ===================================================================== *)

Unset Implicit Arguments.

(** ** Strings *)

Module PyStrFacts.

Lemma eqb_eq (a b : str) : PyStr.eqb a b = true <-> a = b.
Proof.
  unfold PyStr.eqb. destruct (list_eq_dec N.eq_dec a b); split; congruence.
Qed.

Lemma eqb_refl (a : str) : PyStr.eqb a a = true.
Proof. now apply eqb_eq. Qed.

Lemma eqb_neq (a b : str) : PyStr.eqb a b = false <-> a <> b.
Proof.
  unfold PyStr.eqb. destruct (list_eq_dec N.eq_dec a b); split; congruence.
Qed.

Lemma len_nonneg (s : str) : 0 <= len s.
Proof. unfold len. lia. Qed.

Lemma len_zero (s : str) : len s = 0 <-> s = [].
Proof.
  unfold len. destruct s; simpl; split; intros H; try reflexivity;
    try discriminate; lia.
Qed.

Lemma has_char_In (c : N) (s : str) : has_char c s = true <-> In c s.
Proof.
  unfold has_char. rewrite existsb_exists. split.
  - intros (x & Hx & Heq). apply N.eqb_eq in Heq. now subst.
  - intros H. exists c. split; [assumption | apply N.eqb_refl].
Qed.

Lemma startswith_length (s p : str) :
  startswith s p = true -> (List.length p <= List.length s)%nat.
Proof.
  revert s. induction p as [|c p IH]; intros [|d s]; simpl; intros H;
    try lia; try discriminate. apply andb_true_iff in H as [_ H]. apply IH in H. lia.
Qed.

Lemma split_once_eq (sep s : str) :
  split_once sep s =
  if startswith s sep then Some ([], skipn (List.length sep) s)
  else match s with
       | [] => None
       | c :: s' =>
           match split_once sep s' with
           | Some (a, b) => Some (c :: a, b)
           | None => None
           end
       end.
Proof. destruct s; reflexivity. Qed.

(** A message taken off the buffer shortens it by at least the two
    characters of the terminator. *)
Lemma split_once_shrinks (sep s a b : str) :
  split_once sep s = Some (a, b) ->
  (List.length b + List.length sep <= List.length s)%nat.
Proof.
  revert a b. induction s as [|c s IH]; intros a b; rewrite split_once_eq.
  - destruct (startswith [] sep) eqn:Hs; [|intros H; discriminate].
    intros H. inversion H; subst. apply startswith_length in Hs.
    rewrite skipn_nil. cbn [List.length] in *. lia.
  - destruct (startswith (c :: s) sep) eqn:Hs.
    + intros H. inversion H; subst. apply startswith_length in Hs.
      rewrite length_skipn. lia.
    + destruct (split_once sep s) as [[a' b']|] eqn:Hso;
        [|intros H; discriminate].
      intros H. inversion H; subst. specialize (IH _ _ eq_refl). simpl.
      lia.
Qed.

End PyStrFacts.

(** ** The monad *)

Section MonadFacts.

Context {Ext : Type}.

Lemma out_eta (A : Type) (o : Out Ext A) :
  mkOut (flow o) (world o) (emitted o) = o.
Proof. now destruct o. Qed.

Lemma bind_ret (A B : Type) (a : A) (k : A -> M Ext B) (w : World Ext) :
  bind (ret a) k w = k a w.
Proof. unfold bind, ret. simpl. apply out_eta. Qed.

Lemma bind_read (A B : Type) (f : World Ext -> A) (k : A -> M Ext B)
    (w : World Ext) :
  bind (read f) k w = k (f w) w.
Proof. unfold bind, read. simpl. apply out_eta. Qed.

Lemma bind_modify (B : Type) (f : World Ext -> World Ext)
    (k : unit -> M Ext B) (w : World Ext) :
  bind (modify f) k w = k tt (f w).
Proof. unfold bind, modify. simpl. apply out_eta. Qed.

Lemma bind_call (A B : Type) (f : World Ext -> A * Ext) (k : A -> M Ext B)
    (w : World Ext) :
  bind (call f) k w = k (fst (f w)) (with_ext (snd (f w)) w).
Proof. unfold bind, call. simpl. apply out_eta. Qed.

Lemma bind_call_ (B : Type) (f : World Ext -> Ext) (k : unit -> M Ext B)
    (w : World Ext) :
  bind (call_ f) k w = k tt (with_ext (f w) w).
Proof. unfold bind, call_. simpl. apply out_eta. Qed.

Lemma bind_return_ (A B : Type) (k : A -> M Ext B) (w : World Ext) :
  bind return_ k w = mkOut Return w [].
Proof. reflexivity. Qed.

Lemma bind_raise (A B : Type) (e : Exn) (k : A -> M Ext B) (w : World Ext) :
  bind (raise e) k w = mkOut (Raise e) w [].
Proof. reflexivity. Qed.

Lemma bind_emit (B : Type) (ev : Event) (k : unit -> M Ext B)
    (w : World Ext) :
  bind (emit ev) k w =
  mkOut (flow (k tt w)) (world (k tt w)) (ev :: emitted (k tt w)).
Proof. reflexivity. Qed.

Lemma bind_bind (A B C : Type) (m : M Ext A) (k : A -> M Ext B)
    (h : B -> M Ext C) (w : World Ext) :
  bind (bind m k) h w = bind m (fun a => bind (k a) h) w.
Proof.
  unfold bind. destruct (m w) as [[a| |e] w1 e1]; simpl; try reflexivity.
  destruct (k a w1) as [[b| |e] w2 e2]; simpl; try reflexivity.
  now rewrite app_assoc.
Qed.

Lemma client_of_with_ext (x : Ext) (w : World Ext) :
  client_of (with_ext x w) = client_of w.
Proof. reflexivity. Qed.

Lemma area_of_with_ext (x : Ext) (w : World Ext) :
  area_of (with_ext x w) = area_of w.
Proof. reflexivity. Qed.

End MonadFacts.

Ltac run :=
  repeat (progress
            (rewrite ?bind_bind, ?bind_ret, ?bind_read, ?bind_modify,
               ?bind_call, ?bind_call_, ?bind_return_, ?bind_raise,
               ?bind_emit;
             unfold item, as_str, self_client, self_area, send_ooc,
               send_command, disconnect;
             cbn [flow world emitted client_of area_of ext fst snd
                  lookup_or_raise value_or_raise py_int negb])).

(** The same, for argument lists that are written out. *)
Ltac run_args :=
  repeat (progress (run; cbn [nth_error])).

(** ** The argument validator *)

Section ValidatorFacts.

Context {Ext : Type} (E : Env Ext).

Lemma as_STR_eqb (t u : ArgType) :
  u = STR_OR_EMPTY \/ u = INT ->
  ArgType_eqb (as_STR t) u = ArgType_eqb t u.
Proof. intros [-> | ->]; destruct t; reflexivity. Qed.

Lemma validate_args_as_STR (args : list pyval) (types : list ArgType) :
  validate_args E args (map as_STR types) = validate_args E args types.
Proof.
  revert types. induction args as [|arg args IH]; intros [|t types];
    try reflexivity.
  cbn [validate_args map].
  rewrite !as_STR_eqb by auto. rewrite IH. reflexivity.
Qed.

(** A slot whose type is not [INT] keeps its argument. *)
Lemma validate_args_slot_kept (args : list pyval) (types : list ArgType)
    (i : nat) :
  (forall t, nth_error types i = Some t -> ArgType_eqb t INT = false) ->
  nth_error (snd (validate_args E args types)) i = nth_error args i.
Proof.
  revert types i. induction args as [|arg args IH]; intros [|t types] i H;
    try reflexivity.
  cbn [validate_args].
  destruct ((len (py_str arg) =? 0) && negb (ArgType_eqb t STR_OR_EMPTY));
    [reflexivity|].
  destruct (ArgType_eqb t INT) eqn:Ht.
  - destruct i as [|i].
    + specialize (H t eq_refl). congruence.
    + destruct (py_int E arg); [|reflexivity].
      cbn [snd nth_error]. apply IH. intros u Hu. apply (H u). exact Hu.
  - destruct i as [|i]; [reflexivity|].
    cbn [snd nth_error]. apply IH. intros u Hu. apply (H u). exact Hu.
Qed.

(** A slot whose type is not [STR_OR_EMPTY] holds a non-empty argument
    whenever the arguments are accepted. *)
Lemma validate_args_slot_nonempty (args : list pyval) (types : list ArgType)
    (i : nat) (t : ArgType) (v : pyval) :
  fst (validate_args E args types) = true ->
  nth_error types i = Some t ->
  ArgType_eqb t STR_OR_EMPTY = false ->
  nth_error args i = Some v ->
  len (py_str v) <> 0.
Proof.
  revert types i. induction args as [|arg args IH]; intros [|u types] i;
    try (destruct i; discriminate).
  cbn [validate_args].
  destruct (len (py_str arg) =? 0) eqn:Hlen;
    destruct (ArgType_eqb u STR_OR_EMPTY) eqn:Hu; cbn [andb negb];
    try (intros; discriminate).
  - destruct i as [|i]; cbn [nth_error].
    + intros _ Ht; inversion Ht; subst. congruence.
    + destruct (ArgType_eqb u INT); [destruct (py_int E arg)|];
        cbn [fst]; try (intros; discriminate); apply IH.
  - destruct i as [|i]; cbn [nth_error].
    + intros _ _ _ Hv; inversion Hv; subst. now apply Z.eqb_neq.
    + destruct (ArgType_eqb u INT); [destruct (py_int E arg)|];
        cbn [fst]; try (intros; discriminate); apply IH.
  - destruct i as [|i]; cbn [nth_error].
    + intros _ _ _ Hv; inversion Hv; subst. now apply Z.eqb_neq.
    + destruct (ArgType_eqb u INT); [destruct (py_int E arg)|];
        cbn [fst]; try (intros; discriminate); apply IH.
Qed.

Lemma validate_net_cmd_slot_kept (c : Client) (args : list pyval)
    (types : list ArgType) (needs_auth : bool) (i : nat) :
  (forall t, nth_error types i = Some t -> ArgType_eqb t INT = false) ->
  nth_error (snd (validate_net_cmd E c args types needs_auth)) i
  = nth_error args i.
Proof.
  intros H. unfold validate_net_cmd.
  destruct (needs_auth && (char_id c =? -1)); [reflexivity|].
  destruct (negb (Nat.eqb (List.length args) (List.length types)));
    [reflexivity|].
  now apply validate_args_slot_kept.
Qed.

Lemma validate_net_cmd_slot_nonempty (c : Client) (args : list pyval)
    (types : list ArgType) (needs_auth : bool) (i : nat) (t : ArgType)
    (v : pyval) :
  fst (validate_net_cmd E c args types needs_auth) = true ->
  nth_error types i = Some t ->
  ArgType_eqb t STR_OR_EMPTY = false ->
  nth_error args i = Some v ->
  len (py_str v) <> 0.
Proof.
  unfold validate_net_cmd.
  destruct (needs_auth && (char_id c =? -1)); [intros; discriminate|].
  destruct (negb (Nat.eqb (List.length args) (List.length types)));
    [intros; discriminate|].
  apply validate_args_slot_nonempty.
Qed.

Lemma validate_net_cmd_as_STR (c : Client) (args : list pyval)
    (types : list ArgType) (needs_auth : bool) :
  validate_net_cmd E c args (map as_STR types) needs_auth
  = validate_net_cmd E c args types needs_auth.
Proof.
  unfold validate_net_cmd. rewrite length_map, validate_args_as_STR.
  reflexivity.
Qed.

(** The button of an unpacked message is the eleventh argument. *)
Lemma unpack_pre26_button (args : list pyval) (w : World Ext) (l : Loc.t) :
  flow (unpack_pre26 args w) = Next l ->
  nth_error args 10 = Some (Loc.button l).
Proof.
  unfold unpack_pre26.
  repeat (destruct args as [|[?|?] args]; cbn; try (intros; discriminate)).
  all: intros H; inversion H; reflexivity.
Qed.

Lemma unpack_26_button (args : list pyval) (w : World Ext) (l : Loc.t) :
  flow (unpack_26 args w) = Next l ->
  nth_error args 10 = Some (Loc.button l).
Proof.
  unfold unpack_26.
  repeat (destruct args as [|[?|?] args]; cbn; try (intros; discriminate)).
  all: intros H; inversion H; reflexivity.
Qed.

Lemma unpack_28_button (args : list pyval) (w : World Ext) (l : Loc.t) :
  flow (unpack_28 E args w) = Next l ->
  nth_error args 10 = Some (Loc.button l).
Proof.
  unfold unpack_28.
  repeat (destruct args as [|[?|?] args]; cbn; try (intros; discriminate)).
  all: unfold int_, lookup_or_raise;
    match goal with |- context [int_of_str E ?s] =>
      destruct (int_of_str E s) end;
    cbn; intros H; inversion H; reflexivity.
Qed.

Lemma shape_slot_10 (shape : list ArgType) :
  shape = shape_pre26 \/ shape = shape_26 \/ shape = shape_28 ->
  nth_error shape 10 = Some INT_OR_STR.
Proof. intros [-> | [-> | ->]]; reflexivity. Qed.

(** Whatever shape accepts an IC message, its button is the string the
    client sent, and that string is not empty. *)
Lemma ms_dialect_button (me : nat) (args0 : list str) (w : World Ext)
    (l : Loc.t) :
  flow (ms_dialect E me (map PStr args0) w) = Next l ->
  exists b, Loc.button l = PStr b /\ b <> [] /\ nth_error args0 10 = Some b.
Proof.
  unfold ms_dialect, self_client. rewrite bind_read.
  set (c := client_of w me).
  set (v1 := validate_net_cmd E c (map PStr args0) shape_pre26 true).
  set (v2 := validate_net_cmd E c (snd v1) shape_26 true).
  set (v3 := validate_net_cmd E c (snd v2) shape_28 true).
  assert (K1 : nth_error (snd v1) 10 = nth_error (map PStr args0) 10).
  { apply validate_net_cmd_slot_kept. intros t Ht. inversion Ht. reflexivity. }
  assert (K2 : nth_error (snd v2) 10 = nth_error (map PStr args0) 10).
  { rewrite <- K1. apply validate_net_cmd_slot_kept.
    intros t Ht. inversion Ht. reflexivity. }
  assert (K3 : nth_error (snd v3) 10 = nth_error (map PStr args0) 10).
  { rewrite <- K2. apply validate_net_cmd_slot_kept.
    intros t Ht. inversion Ht. reflexivity. }
  rewrite nth_error_map in K1, K2, K3.
  assert (finish : forall (ok : bool) (input output : list pyval)
            (shape : list ArgType),
            ok = fst (validate_net_cmd E c input shape true) ->
            ok = true ->
            nth_error shape 10 = Some INT_OR_STR ->
            nth_error input 10 = option_map PStr (nth_error args0 10) ->
            nth_error output 10 = option_map PStr (nth_error args0 10) ->
            nth_error output 10 = Some (Loc.button l) ->
            exists b, Loc.button l = PStr b /\ b <> []
                      /\ nth_error args0 10 = Some b).
  { intros ok input output shape -> Hok Hshape Hin Hout Hb.
    rewrite Hb in Hout. destruct (nth_error args0 10) as [b|] eqn:Hb0;
      [|discriminate].
    cbn in Hout. exists b.
    split; [congruence|]. split; [|reflexivity].
    intros ->.
    apply (validate_net_cmd_slot_nonempty c input shape true 10
             INT_OR_STR (PStr [])); auto. }
  destruct (fst v1) eqn:H1.
  { intros H. apply unpack_pre26_button in H.
    apply (finish true (map PStr args0) (snd v1) shape_pre26); auto.
    now rewrite nth_error_map. }
  destruct (fst v2) eqn:H2.
  { intros H. apply unpack_26_button in H.
    apply (finish true (snd v1) (snd v2) shape_26); auto. }
  destruct (fst v3) eqn:H3.
  { intros H. apply unpack_28_button in H.
    apply (finish true (snd v2) (snd v3) shape_28); auto. }
  intros H. discriminate.
Qed.

End ValidatorFacts.

(** ** Frames and the dispatcher *)

Section ReceiveFacts.

Context {Ext : Type} (E : Env Ext).

(** The generator never stops for lack of fuel: what it leaves in the
    buffer holds no terminator. *)
Lemma drain_messages_complete (fuel : nat) (buffer : str) :
  (List.length buffer < fuel)%nat ->
  next_message (snd (drain_messages fuel buffer)) = None.
Proof.
  revert buffer. induction fuel as [|fuel IH]; intros buffer Hlt; [lia|].
  cbn [drain_messages].
  destruct (next_message buffer) as [[msg rest]|] eqn:Hnext;
    [|exact Hnext].
  cbn [snd]. apply IH.
  apply PyStrFacts.split_once_shrinks in Hnext. cbn in Hnext. lia.
Qed.

(** Nor does the receive loop: it ends on an exception or on a buffer
    without terminator. *)
Lemma receive_loop_complete (fuel : nat) (me : nat) (ipid : Z)
    (buffer : str) (w : World Ext) :
  (List.length buffer < fuel)%nat ->
  (exists e, flow (snd (receive_loop E fuel me ipid buffer w)) = Raise e)
  \/ next_message (fst (receive_loop E fuel me ipid buffer w)) = None.
Proof.
  revert buffer w. induction fuel as [|fuel IH]; intros buffer w Hlt; [lia|].
  cbn [receive_loop].
  destruct (next_message buffer) as [[msg rest]|] eqn:Hnext;
    [|right; exact Hnext].
  assert (Hrest : (List.length rest < fuel)%nat).
  { apply PyStrFacts.split_once_shrinks in Hnext. cbn in Hnext. lia. }
  destruct (flow (handle_message E me ipid msg w)) as [[]| |e] eqn:Hflow;
    cbn [fst snd flow].
  - apply IH. exact Hrest.
  - apply IH. exact Hrest.
  - left. now exists e.
Qed.

Lemma long_header_spec (buffer : str) :
  long_header buffer = true <->
  24 <= len buffer /\ has_char 35%N (take 24 buffer) = false.
Proof.
  unfold long_header. rewrite andb_true_iff, negb_true_iff, Z.leb_le.
  reflexivity.
Qed.

Lemma get_messages_violation (buffer : str) :
  get_messages buffer = inl ProtocolError <->
  24 <= len buffer /\ has_char 35%N (take 24 buffer) = false.
Proof.
  rewrite <- long_header_spec. unfold get_messages.
  destruct (long_header buffer); split; intros H; try reflexivity;
    discriminate.
Qed.

(** An unknown command: what the loop body does with it. *)
(** The loop does not depend on the fuel, once there is enough of it. *)
Lemma receive_loop_fuel (f1 f2 : nat) (me : nat) (ipid : Z) (buffer : str)
    (w : World Ext) :
  (List.length buffer < f1)%nat ->
  (List.length buffer < f2)%nat ->
  receive_loop E f1 me ipid buffer w = receive_loop E f2 me ipid buffer w.
Proof.
  revert f2 buffer w. induction f1 as [|f1 IH]; intros f2 buffer w H1 H2;
    [lia|].
  destruct f2 as [|f2]; [lia|]. cbn [receive_loop].
  destruct (next_message buffer) as [[msg rest]|] eqn:Hnext; [|reflexivity].
  pose proof (PyStrFacts.split_once_shrinks _ _ _ _ Hnext) as Hlen.
  cbn in Hlen.
  destruct (flow (handle_message E me ipid msg w)); try reflexivity;
    rewrite (IH f2) by lia; reflexivity.
Qed.

(** A frame of fewer than two characters is passed over: nothing is decoded
    or looked up, whatever the frame holds. *)
Lemma handle_message_short (me : nat) (ipid : Z) (msg : str) (w : World Ext) :
  len msg < 2 -> handle_message E me ipid msg w = mkOut Return w [].
Proof.
  intros Hlen. unfold handle_message.
  apply Z.ltb_lt in Hlen. now rewrite Hlen.
Qed.

(** The loop goes on with what follows such a frame as if the frame had not
    been there. *)
Lemma receive_loop_skips (me : nat) (ipid : Z) (buffer msg rest : str)
    (w : World Ext) :
  len msg < 2 ->
  next_message buffer = Some (msg, rest) ->
  receive_loop E (S (List.length buffer)) me ipid buffer w
  = receive_loop E (S (List.length rest)) me ipid rest w.
Proof.
  intros Hlen Hnext.
  assert (Hrest : (List.length rest < List.length buffer)%nat).
  { apply PyStrFacts.split_once_shrinks in Hnext. cbn in Hnext. lia. }
  rewrite <- (receive_loop_fuel (List.length buffer) (S (List.length rest)))
    by lia.
  cbn [receive_loop]. rewrite Hnext.
  rewrite (handle_message_short me ipid msg w Hlen).
  cbn [flow world emitted app].
  destruct (receive_loop E (List.length buffer) me ipid rest w)
    as [left [f w' evs]].
  reflexivity.
Qed.

Lemma handle_message_unknown (me : nat) (ipid : Z) (msg decoded : str)
    (w : World Ext) :
  2 <= len msg ->
  decode_message E msg = inr decoded ->
  dispatcher_get E (hd [] (split 35%N decoded)) = None ->
  handle_message E me ipid msg w =
  mkOut (if is_checked (client_of w me) then Next tt else Raise ProtocolError)
        w
        [EvDebugLog (lit "Unknown incoming message from " ++ of_Z ipid
                     ++ lit ": " ++ decoded)].
Proof.
  intros Hlen Hdec Hget. unfold handle_message.
  destruct (len msg <? 2) eqn:Hlt; [apply Z.ltb_lt in Hlt; lia|].
  rewrite Hdec. cbn [value_or_raise]. rewrite bind_ret.
  unfold try_except. rewrite Hget. cbn [lookup_or_raise].
  rewrite bind_raise. cbn [flow world emitted Exn_eqb].
  unfold self_client. rewrite bind_emit, bind_read.
  destruct (is_checked (client_of w me)); reflexivity.
Qed.

End ReceiveFacts.

(** C10: in [validate_net_cmd] a slot declared [INT_OR_STR] is validated
    exactly like a [STR] slot.  [INT_OR_STR] is a member of its own, not an
    alias of [INT]; replacing it by [STR] in any shape changes neither the
    verdict nor the arguments; the slot accepts precisely the non-empty
    strings and leaves them strings; and so, whatever dialect accepts an IC
    message, its button is still a string, the membership test
    [button in (1, 2, 3, 4, 23)] is false, and the downgrade of lines
    612-617 leaves the animation type as it is. *)
Theorem C10_int_or_str_is_validated_as_str :
  forall (Ext : Type) (E : Env Ext),
    (ArgType_eqb INT_OR_STR INT = false
     /\ ArgType_value INT_OR_STR <> ArgType_value INT)
    /\ (forall c args types needs_auth,
          validate_net_cmd E c args (map as_STR types) needs_auth
          = validate_net_cmd E c args types needs_auth)
    /\ (forall c s,
          validate_net_cmd E c [PStr s] [INT_OR_STR] false
          = (negb (PyStr.eqb s []), [PStr s]))
    /\ (forall me args0 w l,
          flow (ms_dialect E me (map PStr args0) w) = Next l ->
          exists b,
            Loc.button l = PStr b /\ b <> []
            /\ in_ints (Loc.button l) [1; 2; 3; 4; 23] = false
            /\ forall nonint_pre anim_type,
                 ms_nonint_pre nonint_pre (Loc.button l) anim_type
                 = anim_type).
Proof.
  intros Ext E. split; [|split; [|split]].
  - split; [reflexivity | discriminate].
  - intros. apply validate_net_cmd_as_STR.
  - intros c s. unfold validate_net_cmd. cbn.
    destruct s as [|x s]; reflexivity.
  - intros me args0 w l H.
    destruct (ms_dialect_button E me args0 w l H) as (b & Hb & Hne & _).
    exists b. rewrite Hb. repeat split; try assumption.
    intros nonint_pre anim_type. unfold ms_nonint_pre. cbn [in_ints].
    now destruct (nonint_pre =? 1).
Qed.

(** The button of Phoenix's message stays the string the client sent. *)
Lemma C10_int_or_str_is_validated_as_str_witness :
  flow (ms_dialect Demo.env 0%nat
          (map PStr (Demo.ic "chat" "Hi" "New")) Demo.w0)
  = Next (Demo.parsed (Demo.ic "chat" "Hi" "New") Demo.w0)
  /\ exists b,
       Loc.button (Demo.parsed (Demo.ic "chat" "Hi" "New") Demo.w0)
       = PStr b
       /\ b <> []
       /\ in_ints
            (Loc.button (Demo.parsed (Demo.ic "chat" "Hi" "New") Demo.w0))
            [1; 2; 3; 4; 23] = false.
Proof.
  assert (H : flow (ms_dialect Demo.env 0%nat
                      (map PStr (Demo.ic "chat" "Hi" "New")) Demo.w0)
              = Next (Demo.parsed (Demo.ic "chat" "Hi" "New") Demo.w0))
    by (vm_compute; reflexivity).
  split; [exact H|].
  destruct (C10_int_or_str_is_validated_as_str unit Demo.env)
    as (_ & _ & _ & Hms).
  destruct (Hms 0%nat (Demo.ic "chat" "Hi" "New") Demo.w0 _ H)
    as (b & Hb & Hne & Hin & _).
  exists b. repeat split; assumption.
Defined.

(** C7: a buffer of at least 24 characters without ['#'] among its first 24
    makes frame extraction raise the framing violation, and only such a
    buffer does; [data_received] then disconnects at once: no message is
    handled, the world and the buffer are left as they are, and the
    disconnect is the last thing emitted. *)
Theorem C7_long_header_is_a_violation :
  forall (Ext : Type) (E : Env Ext),
    (forall buffer,
       get_messages buffer = inl ProtocolError <->
       24 <= len buffer /\ has_char 35%N (take 24 buffer) = false)
    /\ (forall buffer,
          has_char 35%N (take 24 buffer) = true ->
          exists r, get_messages buffer = inr r)
    /\ (forall data conn (w : World Ext),
          24 <= len (received_buffer E data conn) ->
          has_char 35%N (take 24 (received_buffer E data conn)) = false ->
          exists before,
            data_received E data conn w =
            (mkConn (received_buffer E data conn) (client conn),
             mkOut (Next tt) w (before ++ [EvDisconnect (client conn)]))).
Proof.
  intros Ext E. split; [|split].
  - apply get_messages_violation.
  - intros buffer H. unfold get_messages, long_header. rewrite H.
    rewrite andb_false_r. eexists. reflexivity.
  - intros data conn w Hlen Hno. unfold data_received.
    assert (Hlong : long_header (received_buffer E data conn) = true)
      by now apply long_header_spec.
    rewrite Hlong. eexists. reflexivity.
Qed.

(** Twenty-four letters and no delimiter: the connection is dropped. *)
Lemma C7_long_header_is_a_violation_witness :
  (24 <= len (received_buffer Demo.env
                (DStr (lit "abcdefghijklmnopqrstuvwx")) (mkConn [] 0%nat))
   /\ has_char 35%N
        (take 24 (received_buffer Demo.env
                    (DStr (lit "abcdefghijklmnopqrstuvwx"))
                    (mkConn [] 0%nat))) = false)
  /\ exists before,
       data_received Demo.env (DStr (lit "abcdefghijklmnopqrstuvwx"))
         (mkConn [] 0%nat) Demo.w0
       = (mkConn (lit "abcdefghijklmnopqrstuvwx") 0%nat,
          mkOut (Next tt) Demo.w0 (before ++ [EvDisconnect 0%nat])).
Proof.
  assert (H1 : 24 <= len (received_buffer Demo.env
                            (DStr (lit "abcdefghijklmnopqrstuvwx"))
                            (mkConn [] 0%nat)))
    by (vm_compute; discriminate).
  assert (H2 : has_char 35%N
                 (take 24 (received_buffer Demo.env
                             (DStr (lit "abcdefghijklmnopqrstuvwx"))
                             (mkConn [] 0%nat))) = false)
    by reflexivity.
  split; [split; assumption|].
  destruct (C7_long_header_is_a_violation unit Demo.env) as (_ & _ & Hrecv).
  exact (Hrecv (DStr (lit "abcdefghijklmnopqrstuvwx")) (mkConn [] 0%nat)
           Demo.w0 H1 H2).
Defined.

(** C8: whenever the buffer is longer than 8192 characters after the data
    is appended and the null characters are removed, [data_received]
    disconnects the client, before anything else and whatever the buffer
    holds. *)
Theorem C8_oversized_buffer_disconnects :
  forall (Ext : Type) (E : Env Ext) data conn (w : World Ext),
    8192 < len (received_buffer E data conn) ->
    exists rest,
      emitted (snd (data_received E data conn w))
      = EvDisconnect (client conn) :: rest.
Proof.
  intros Ext E data conn w Hlen. unfold data_received.
  apply Z.ltb_lt in Hlen. rewrite Hlen.
  destruct (long_header (received_buffer E data conn)).
  - eexists. reflexivity.
  - cbv zeta.
    destruct (flow (snd (receive_loop E _ _ _ _ w))) as [[]| |[]];
      cbn [snd emitted app]; eexists; reflexivity.
Qed.

(** 8193 letters: the client is disconnected. *)
Lemma C8_oversized_buffer_disconnects_witness :
  8192 < len (received_buffer Demo.env (DStr (List.repeat 97%N (Z.to_nat 8193)))
                (mkConn [] 0%nat))
  /\ exists rest,
       emitted (snd (data_received Demo.env (DStr (List.repeat 97%N (Z.to_nat 8193)))
                       (mkConn [] 0%nat) Demo.w0))
       = EvDisconnect 0%nat :: rest.
Proof.
  assert (H : 8192 < len (received_buffer Demo.env
                            (DStr (List.repeat 97%N (Z.to_nat 8193)))
                            (mkConn [] 0%nat)))
    by (vm_compute; reflexivity).
  split; [exact H|].
  exact (C8_oversized_buffer_disconnects unit Demo.env
           (DStr (List.repeat 97%N (Z.to_nat 8193))) (mkConn [] 0%nat) Demo.w0 H).
Defined.

(** ** The handshake, the evidence handlers and the OOC name *)

Section HandlerFacts.

Context {Ext : Type} (E : Env Ext).

Lemma nonempty_len (s : str) : s <> [] -> (len s =? 0) = false.
Proof.
  intros H. apply Z.eqb_neq. intros Hz. apply H.
  now apply PyStrFacts.len_zero.
Qed.

Lemma validate_one_str (c : Client) (s : str) :
  s <> [] ->
  validate_net_cmd E c [PStr s] [STR] false = (true, [PStr s]).
Proof.
  intros H. unfold validate_net_cmd. cbn.
  rewrite (nonempty_len _ H). reflexivity.
Qed.

Lemma validate_two_str (c : Client) (s t : str) :
  s <> [] -> t <> [] ->
  validate_net_cmd E c [PStr s; PStr t] [STR; STR] false
  = (true, [PStr s; PStr t]).
Proof.
  intros Hs Ht. unfold validate_net_cmd. cbn.
  rewrite (nonempty_len _ Hs), (nonempty_len _ Ht). reflexivity.
Qed.

Lemma validate_needs_character (c : Client) (args : list pyval)
    (types : list ArgType) :
  char_id c = -1 ->
  validate_net_cmd E c args types true = (false, args).
Proof. intros H. unfold validate_net_cmd. rewrite H. reflexivity. Qed.

Lemma has_character (c : Client) :
  char_id c <> -1 -> (true && (char_id c =? -1)) = false.
Proof. intros H. cbn. now apply Z.eqb_neq. Qed.

Lemma validate_pe (c : Client) (n d i : str) :
  char_id c <> -1 ->
  validate_net_cmd E c [PStr n; PStr d; PStr i]
    [STR_OR_EMPTY; STR_OR_EMPTY; STR_OR_EMPTY] true
  = (true, [PStr n; PStr d; PStr i]).
Proof.
  intros H. unfold validate_net_cmd. rewrite (@has_character c H).
  cbn. rewrite !andb_false_r. reflexivity.
Qed.

Lemma validate_de (c : Client) (s : str) (e : Z) :
  char_id c <> -1 -> s <> [] -> int_of_str E s = Some e ->
  validate_net_cmd E c [PStr s] [INT] true = (true, [PInt e]).
Proof.
  intros H Hs He. unfold validate_net_cmd. rewrite (@has_character c H).
  cbn. rewrite (nonempty_len _ Hs), He. reflexivity.
Qed.

Lemma validate_ee (c : Client) (s n d i : str) (e : Z) :
  char_id c <> -1 -> s <> [] -> int_of_str E s = Some e ->
  validate_net_cmd E c [PStr s; PStr n; PStr d; PStr i]
    [INT; STR_OR_EMPTY; STR_OR_EMPTY; STR_OR_EMPTY] true
  = (true, [PInt e; PStr n; PStr d; PStr i]).
Proof.
  intros H Hs He. unfold validate_net_cmd. rewrite (@has_character c H).
  cbn. rewrite (nonempty_len _ Hs), He, !andb_false_r. reflexivity.
Qed.

(** Resolving the name emits nothing and falls through. *)
Lemma ct_resolve_name_quiet (me : nat) (given : str) (w : World Ext) :
  flow (ct_resolve_name E me given w) = Next tt
  /\ emitted (ct_resolve_name E me given w) = [].
Proof.
  unfold ct_resolve_name, self_client. rewrite bind_read.
  destruct (negb (PyStr.eqb (name (client_of w me)) given)
            && negb (PyStr.eqb (fake_name (client_of w me)) given));
    [|split; reflexivity].
  rewrite bind_call. destruct (fst (is_valid_name E me given w));
    split; reflexivity.
Qed.

Lemma bind_quiet (A B : Type) (m : M Ext A) (k : A -> M Ext B)
    (w : World Ext) (a : A) :
  flow (m w) = Next a -> emitted (m w) = [] ->
  bind m k w = k a (world (m w)).
Proof.
  intros Hf He. unfold bind. rewrite Hf, He. cbn. apply out_eta.
Qed.

End HandlerFacts.

(** C4 (amended): a received frame of at least two characters whose command
    name, after the legacy decoding, is absent from the dispatch table is
    logged and otherwise ignored when the connection is authenticated (the
    world is unchanged and nothing is sent or disconnected); when the
    connection is not authenticated it raises the framing violation, and
    [data_received] logs it, disconnects without any reply and leaves the
    rest of the buffer unhandled.  A frame of fewer than two characters,
    whatever it holds, is skipped before anything is decoded or looked up:
    nothing changes, nothing is emitted, and the loop goes on with what
    follows it in the buffer as if the frame had not been there. *)
Theorem C4_unknown_command :
  forall (Ext : Type) (E : Env Ext) data conn (w : World Ext)
         (msg rest decoded : str),
    let me := client conn in
    let ipid := ipid (client_of w me) in
    let log := EvDebugLog (lit "Unknown incoming message from " ++ of_Z ipid
                           ++ lit ": " ++ decoded) in
    (2 <= len msg ->
     decode_message E msg = inr decoded ->
     dispatcher_get E (hd [] (split 35%N decoded)) = None ->
     (is_checked (client_of w me) = true ->
      handle_message E me ipid msg w = mkOut (Next tt) w [log])
     /\ (is_checked (client_of w me) = false ->
         handle_message E me ipid msg w = mkOut (Raise ProtocolError) w [log]
         /\ (long_header (received_buffer E data conn) = false ->
             next_message (received_buffer E data conn) = Some (msg, rest) ->
             data_received E data conn w =
             (mkConn rest me,
              mkOut (Next tt) w
                ((if 8192 <? len (received_buffer E data conn)
                  then [EvDisconnect me] else [])
                 ++ [log; EvDisconnect me])))))
    /\ (len msg < 2 ->
        handle_message E me ipid msg w = mkOut Return w []
        /\ (next_message (received_buffer E data conn) = Some (msg, rest) ->
            receive_loop E (S (List.length (received_buffer E data conn))) me
              ipid (received_buffer E data conn) w
            = receive_loop E (S (List.length rest)) me ipid rest w)).
Proof.
  intros Ext E data conn w msg rest decoded me ipid log. split.
  - intros Hlen Hdec Hget.
    pose proof (handle_message_unknown E me ipid msg decoded w Hlen Hdec Hget)
      as Hm.
    split; intros Hc; rewrite Hc in Hm; [exact Hm|].
    split; [exact Hm|]. intros Hlong Hnext.
    unfold data_received. fold me. fold ipid. rewrite Hlong.
    cbn [receive_loop]. rewrite Hnext, Hm. reflexivity.
  - intros Hlen. split; [now apply handle_message_short|].
    intros Hnext. now apply (receive_loop_skips E me ipid _ msg rest).
Qed.

(** An unknown two-character command of a newcomer drops the connection; an
    empty frame and a frame of one character before a keepalive are passed
    over. *)
Lemma C4_unknown_command_witness :
  (2 <= len (lit "XX")
   /\ decode_message Demo.env (lit "XX") = inr (lit "XX")
   /\ dispatcher_get Demo.env (hd [] (split 35%N (lit "XX"))) = None
   /\ is_checked (client_of Demo.w0 3%nat) = false)
  /\ emitted (snd (data_received Demo.env (DStr (lit "XX#%"))
                     (mkConn [] 3%nat) Demo.w0))
     = [EvDebugLog (lit "Unknown incoming message from 666: XX");
        EvDisconnect 3%nat]
  /\ handle_message Demo.env 3%nat 666 [] Demo.w0 = mkOut Return Demo.w0 []
  /\ receive_loop Demo.env 8 3%nat 666 (lit "Z#%CH#%") Demo.w0
     = receive_loop Demo.env 5 3%nat 666 (lit "CH#%") Demo.w0.
Proof.
  assert (H1 : 2 <= len (lit "XX")) by (vm_compute; discriminate).
  assert (H2 : decode_message Demo.env (lit "XX") = inr (lit "XX"))
    by reflexivity.
  assert (H3 : dispatcher_get Demo.env (hd [] (split 35%N (lit "XX"))) = None)
    by reflexivity.
  split; [repeat split; assumption|].
  split; [|split].
  - destruct (C4_unknown_command unit Demo.env (DStr (lit "XX#%"))
                (mkConn [] 3%nat) Demo.w0 (lit "XX") [] (lit "XX"))
      as [Hlong _].
    destruct (Hlong H1 H2 H3) as [_ Hnew].
    destruct (Hnew eq_refl) as [_ Hrecv].
    rewrite (Hrecv eq_refl eq_refl). reflexivity.
  - destruct (C4_unknown_command unit Demo.env (DStr [])
                (mkConn [] 3%nat) Demo.w0 [] [] []) as [_ Hshort].
    exact (proj1 (Hshort ltac:(vm_compute; reflexivity))).
  - destruct (C4_unknown_command unit Demo.env (DStr (lit "Z#%CH#%"))
                (mkConn [] 3%nat) Demo.w0 (lit "Z") (lit "CH#%") [])
      as [_ Hshort].
    exact (proj2 (Hshort ltac:(vm_compute; reflexivity)) eq_refl).
Defined.

(** The claim fails on a frame of one character: the loop skips it before
    the dispatch table is consulted, so a newcomer that sends the unknown
    command [Z] is not disconnected. *)
Lemma C4_counterexample :
  dispatcher_get Demo.env (lit "Z") = None
  /\ is_checked (client_of Demo.w0 3%nat) = false
  /\ next_message (received_buffer Demo.env (DStr (lit "Z#%"))
                     (mkConn [] 3%nat)) = Some (lit "Z", [])
  /\ snd (data_received Demo.env (DStr (lit "Z#%")) (mkConn [] 3%nat) Demo.w0)
     = mkOut (Next tt) Demo.w0 [].
Proof. repeat split. Qed.

(** C2 (amended): the evidence handlers need an authenticated client that
    has selected a character.  Without a character ([char_id = -1]) each of
    them returns with nothing changed and nothing sent.  With a character,
    PE with three fields adds the evidence, and DE and EE, when the id is a
    non-empty integer that resolves in the client's evidence mapping, delete
    and edit it; each then logs and ends with the rebroadcast of the
    evidence list. *)
Theorem C2_evidence_needs_a_character :
  forall (Ext : Type) (E : Env Ext) (me : nat) (w : World Ext),
    is_checked (client_of w me) = true ->
    let a := area (client_of w me) in
    let logged kind w' := with_ext (log_room E kind me a None w') w' in
    (char_id (client_of w me) = -1 ->
     forall args,
       net_cmd_pe E me args w = mkOut Return w []
       /\ net_cmd_de E me args w = mkOut Return w []
       /\ net_cmd_ee E me args w = mkOut Return w [])
    /\ (char_id (client_of w me) <> -1 ->
        (forall n d i,
           net_cmd_pe E me [n; d; i] w =
           mkOut (Next tt)
             (logged (lit "evidence.add")
                (with_ext (add_evidence E a me n d i (lit "all") w) w))
             [EvBroadcastEvidence a])
        /\ (forall s e k,
              s <> [] -> int_of_str E s = Some e ->
              evi_list_get E me e w = inr k ->
              net_cmd_de E me [s] w =
              mkOut (Next tt)
                (logged (lit "evidence.del") (with_ext (del_evidence E a me k w) w))
                [EvBroadcastEvidence a])
        /\ (forall s n d i e k,
              s <> [] -> int_of_str E s = Some e ->
              evi_list_get E me e w = inr k ->
              net_cmd_ee E me [s; n; d; i] w =
              mkOut (Next tt)
                (logged (lit "evidence.edit")
                   (with_ext
                      (edit_evidence E a me k (n, d, i, lit "all") w) w))
                [EvBroadcastEvidence a])).
Proof.
  intros Ext E me w Hc a logged. split.
  - intros Hchar args.
    unfold net_cmd_pe, net_cmd_de, net_cmd_ee, self_client.
    rewrite !bind_read, Hc, !(validate_needs_character E _ _ _ Hchar).
    repeat split.
  - intros Hchar. split; [|split].
    + intros n d i. unfold net_cmd_pe, self_client, self_area.
      rewrite bind_read, Hc. cbn [negb map].
      rewrite (validate_pe E _ n d i Hchar). cbn [fst snd negb].
      cbn [List.length Z.of_nat Z.ltb Z.compare Pos.of_succ_nat Pos.succ
             Pos.compare Pos.compare_cont].
      unfold item, as_str. cbn [nth_error lookup_or_raise].
      run_args. reflexivity.
    + intros s e k Hs He Hk. unfold net_cmd_de, self_client, self_area.
      rewrite bind_read, Hc. cbn [negb map].
      rewrite (validate_de E _ s e Hchar Hs He). cbn [fst snd negb].
      unfold item. cbn [nth_error lookup_or_raise py_int].
      run_args. rewrite Hk. cbn [value_or_raise]. run_args. reflexivity.
    + intros s n d i e k Hs He Hk.
      unfold net_cmd_ee, self_client, self_area.
      rewrite bind_read, Hc. cbn [negb map].
      rewrite (validate_ee E _ s n d i e Hchar Hs He). cbn [fst snd negb].
      cbn [List.length Z.of_nat Z.ltb Z.compare Pos.of_succ_nat Pos.succ
             Pos.compare Pos.compare_cont].
      unfold item, as_str. cbn [nth_error lookup_or_raise py_int].
      run_args. rewrite Hk. cbn [value_or_raise]. run_args. reflexivity.
Qed.

(** Phoenix, who has a character, adds a piece of evidence. *)
Lemma C2_evidence_needs_a_character_witness :
  (is_checked (client_of Demo.w0 0%nat) = true
   /\ char_id (client_of Demo.w0 0%nat) <> -1)
  /\ emitted (net_cmd_pe Demo.env 0%nat [lit "knife"; lit "bloody"; lit "k.png"]
                Demo.w0)
     = [EvBroadcastEvidence 0%nat].
Proof.
  assert (H1 : is_checked (client_of Demo.w0 0%nat) = true) by reflexivity.
  assert (H2 : char_id (client_of Demo.w0 0%nat) <> -1)
    by (vm_compute; discriminate).
  split; [split; assumption|].
  destruct (C2_evidence_needs_a_character unit Demo.env 0%nat Demo.w0 H1)
    as [_ Hwith].
  destruct (Hwith H2) as [Hpe _].
  rewrite (Hpe (lit "knife") (lit "bloody") (lit "k.png")). reflexivity.
Defined.

(** The claim fails for the spectator: authenticated, no character, three
    fields, and yet no evidence is added and nothing is broadcast. *)
Lemma C2_counterexample :
  is_checked (client_of Demo.w0 2%nat) = true
  /\ char_id (client_of Demo.w0 2%nat) = -1
  /\ net_cmd_pe Demo.env 2%nat [lit "knife"; lit "bloody"; lit "k.png"]
       Demo.w0
     = mkOut Return Demo.w0 [].
Proof. repeat split. Qed.

(** C3 (what the code does): a handshake from a banned identity never sets
    the authenticated flag, but only a ban with an expiry date is answered:
    it gets the notice with reason, ban id and humanized expiry, and the
    disconnect.  For a ban without expiry the handler raises
    [AttributeError] (it calls [humanize] on the string ['N/A']) before the
    notice is sent and before [disconnect] is called. *)
Theorem C3_handshake_of_a_banned_identity :
  forall (Ext : Type) (E : Env Ext) (me : nat) (h : str) (w : World Ext)
         (ban : Ban),
    is_checked (client_of w me) = false ->
    h <> [] ->
    let w1 := set_client me (set_hdid h) w in
    let w2 := with_ext (add_hdid E (ipid (client_of w me)) h w1) w1 in
    find_ban E (ipid (client_of w me)) h w2 = Some ban ->
    is_checked (client_of (world (net_cmd_hi E me [h] w)) me) = false
    /\ (unban_date ban = None ->
        net_cmd_hi E me [h] w = mkOut (Raise AttributeError) w2 [])
    /\ (forall d,
          unban_date ban = Some d ->
          net_cmd_hi E me [h] w =
          mkOut Return (with_ext (log_connect E me true w2) w2)
            [EvSendCommand me (lit "BD")
               [PStr (ban_message ban (humanize E d w2))];
             EvDisconnect me]).
Proof.
  intros Ext E me h w ban Hc Hh w1 w2 Hban.
  assert (Hrun : net_cmd_hi E me [h] w =
                 match unban_date ban with
                 | None => mkOut (Raise AttributeError) w2 []
                 | Some d =>
                     mkOut Return (with_ext (log_connect E me true w2) w2)
                       [EvSendCommand me (lit "BD")
                          [PStr (ban_message ban (humanize E d w2))];
                        EvDisconnect me]
                 end).
  { unfold net_cmd_hi, self_client. rewrite bind_read, Hc. cbn [map].
    rewrite (validate_one_str E _ h Hh). cbn [fst snd negb].
    run_args. fold w1. fold w2. rewrite Hban.
    destruct (unban_date ban) as [d|]; run_args; reflexivity. }
  assert (Hflag : is_checked (client_of w2 me) = false).
  { unfold w2, w1, with_ext, set_client, upd. cbn.
    rewrite Nat.eqb_refl. exact Hc. }
  rewrite Hrun. split; [|split].
  - destruct (unban_date ban); exact Hflag.
  - intros Hnone. now rewrite Hnone.
  - intros d Hd. now rewrite Hd.
Qed.

(** The newcomer with the permanent ban: no notice, no disconnect. *)
Lemma C3_handshake_of_a_banned_identity_witness :
  (is_checked (client_of Demo.w0 3%nat) = false
   /\ lit "abc" <> []
   /\ unban_date Demo.permanent_ban = None)
  /\ flow (net_cmd_hi Demo.env 3%nat [lit "abc"] Demo.w0)
     = Raise AttributeError
  /\ emitted (net_cmd_hi Demo.env 3%nat [lit "abc"] Demo.w0) = [].
Proof.
  assert (H1 : is_checked (client_of Demo.w0 3%nat) = false) by reflexivity.
  assert (H2 : lit "abc" <> []) by discriminate.
  split; [repeat split; assumption|].
  destruct (C3_handshake_of_a_banned_identity unit Demo.env 3%nat (lit "abc")
              Demo.w0 Demo.permanent_ban H1 H2 eq_refl) as (_ & Hnone & _).
  rewrite (Hnone eq_refl). split; reflexivity.
Defined.

(** C9 (amended): the effective OOC name must be non-empty, at most 30
    characters long, free of format characters, and must not begin with the
    hostname or with [<dollar>G] or [<dollar>M].  The first requirement that
    fails sends its own notice to the sender and ends the handler: nothing
    else is emitted, so nothing is broadcast and no command is delegated.
    A name that meets all four goes on to the message. *)
Theorem C9_ooc_name_checks :
  forall (Ext : Type) (E : Env Ext) (me : nat) (given message : str)
         (w : World Ext),
    is_checked (client_of w me) = true ->
    is_ooc_muted (client_of w me) = false ->
    given <> [] ->
    message <> [] ->
    let w1 := world (ct_resolve_name E me given w) in
    let nm := name (client_of w1 me) in
    let reserved :=
      startswith nm (hostname E) || startswith nm (lit "<dollar>G")
      || startswith nm (lit "<dollar>M") in
    let rejected notice :=
      net_cmd_ct E me [given; message] w
      = mkOut Return w1 [EvSendOOC me notice] in
    (nm = [] ->
     rejected (lit "You must insert a name with at least one letter"))
    /\ (30 < len nm ->
        rejected
          (lit "Your OOC name is too long! Limit it to 30 characters."))
    /\ (nm <> [] -> len nm <= 30 ->
        existsb (is_format_char E) nm = true ->
        rejected (lit "You cannot use format characters in your name!"))
    /\ (nm <> [] -> len nm <= 30 ->
        existsb (is_format_char E) nm = false ->
        reserved = true ->
        rejected (lit "That name is reserved!"))
    /\ (nm <> [] -> len nm <= 30 ->
        existsb (is_format_char E) nm = false ->
        reserved = false ->
        net_cmd_ct E me [given; message] w = ct_message E me message w1).
Proof.
  intros Ext E me given message w Hc Hm Hg Hmsg w1 nm reserved rejected.
  assert (Hrun : net_cmd_ct E me [given; message] w
                 = bind (ct_check_name E me)
                        (fun _ => ct_message E me message) w1).
  { unfold net_cmd_ct, self_client. rewrite bind_read, Hc, Hm. cbn [negb map].
    rewrite (validate_two_str E _ given message Hg Hmsg). cbn [fst snd negb].
    run_args.
    destruct (ct_resolve_name_quiet E me given w) as [Hf He].
    rewrite (bind_quiet _ _ _ _ _ _ Hf He). reflexivity. }
  unfold rejected. rewrite Hrun. unfold ct_check_name, self_client.
  rewrite bind_bind, bind_read. fold nm. fold reserved.
  repeat split.
  - intros Hnm. rewrite Hnm. reflexivity.
  - intros Hlong.
    assert (Hne : PyStr.eqb nm [] = false).
    { apply PyStrFacts.eqb_neq. intros Hnm. rewrite Hnm in Hlong.
      cbn in Hlong. lia. }
    rewrite Hne. apply Z.ltb_lt in Hlong. rewrite Hlong. reflexivity.
  - intros Hne Hlen Hcf. apply PyStrFacts.eqb_neq in Hne. rewrite Hne.
    apply Z.ltb_ge in Hlen. rewrite Hlen, Hcf. reflexivity.
  - intros Hne Hlen Hcf Hres. apply PyStrFacts.eqb_neq in Hne. rewrite Hne.
    apply Z.ltb_ge in Hlen. rewrite Hlen, Hcf, Hres. reflexivity.
  - intros Hne Hlen Hcf Hres. apply PyStrFacts.eqb_neq in Hne. rewrite Hne.
    apply Z.ltb_ge in Hlen. rewrite Hlen, Hcf, Hres. run_args. reflexivity.
Qed.

(** A name of 31 characters is turned down with the notice about length. *)
Lemma C9_ooc_name_checks_witness :
  (is_checked (client_of Demo.w0 0%nat) = true
   /\ is_ooc_muted (client_of Demo.w0 0%nat) = false
   /\ lit "aaaaaaaaaaaaaaaaaaaaaaaaaaaaaaa" <> []
   /\ lit "hi" <> [])
  /\ emitted (net_cmd_ct Demo.env 0%nat
                [lit "aaaaaaaaaaaaaaaaaaaaaaaaaaaaaaa"; lit "hi"] Demo.w0)
     = [EvSendOOC 0%nat
          (lit "Your OOC name is too long! Limit it to 30 characters.")].
Proof.
  assert (H1 : is_checked (client_of Demo.w0 0%nat) = true) by reflexivity.
  assert (H2 : is_ooc_muted (client_of Demo.w0 0%nat) = false)
    by reflexivity.
  assert (H3 : lit "aaaaaaaaaaaaaaaaaaaaaaaaaaaaaaa" <> []) by discriminate.
  assert (H4 : lit "hi" <> []) by discriminate.
  split; [repeat split; assumption|].
  destruct (C9_ooc_name_checks unit Demo.env 0%nat
              (lit "aaaaaaaaaaaaaaaaaaaaaaaaaaaaaaa") (lit "hi") Demo.w0
              H1 H2 H3 H4) as (_ & Hlong & _).
  rewrite Hlong; [reflexivity|]. vm_compute. reflexivity.
Defined.

(** The claim fails for a name of exactly 30 characters: it is not under 30
    characters, and the message is broadcast under it. *)
Lemma C9_counterexample :
  len (lit "aaaaaaaaaaaaaaaaaaaaaaaaaaaaaa") = 30
  /\ net_cmd_ct Demo.env 0%nat
       [lit "aaaaaaaaaaaaaaaaaaaaaaaaaaaaaa"; lit "hi"] Demo.w0
     = mkOut (Next tt)
         (set_client 0%nat
            (set_fake_name (lit "aaaaaaaaaaaaaaaaaaaaaaaaaaaaaa"))
            (set_client 0%nat
               (set_name (lit "aaaaaaaaaaaaaaaaaaaaaaaaaaaaaa")) Demo.w0))
         [EvAreaSend 0%nat (lit "CT")
            [PStr (lit "aaaaaaaaaaaaaaaaaaaaaaaaaaaaaa"); PStr (lit "hi")];
          EvOwnerSend 0%nat (lit "CT")
            [PStr (lit "[CR]aaaaaaaaaaaaaaaaaaaaaaaaaaaaaa");
             PStr (lit "hi")]].
Proof. split; reflexivity. Qed.

(** ** The IC message: what the checks may change *)

Section QuietFacts.

Context {Ext : Type} (E : Env Ext) (me : nat).

Lemma set_showname_same (c : Client) : set_showname (showname c) c = c.
Proof. now destruct c. Qed.

Lemma world_eta (w : World Ext) : with_ext (ext w) w = w.
Proof. now destruct w. Qed.

Lemma set_examine_index_same (a : Area) :
  set_examine_index (examine_index a) a = a.
Proof. now destruct a. Qed.

Lemma frame_refl (w : World Ext) : frame me w w.
Proof.
  split; [reflexivity|]. split.
  - exists (showname (client_of w me)). symmetry. apply set_showname_same.
  - intros a. exists (examine_index (area_of w a)). symmetry.
    apply set_examine_index_same.
Qed.

Lemma frame_trans (w1 w2 w3 : World Ext) :
  frame me w1 w2 -> frame me w2 w3 -> frame me w1 w3.
Proof.
  intros (Ho1 & (s1 & Hm1) & Ha1) (Ho2 & (s2 & Hm2) & Ha2).
  split; [|split].
  - intros c Hc. rewrite Ho2, Ho1; auto.
  - exists s2. rewrite Hm2, Hm1. reflexivity.
  - intros a. destruct (Ha1 a) as [i1 Hi1]. destruct (Ha2 a) as [i2 Hi2].
    exists i2. rewrite Hi2, Hi1. reflexivity.
Qed.

Lemma frame_with_ext (x : Ext) (w : World Ext) : frame me w (with_ext x w).
Proof. exact (frame_refl w). Qed.

(** The fields of an area that the frame keeps. *)
Lemma frame_area_fields (w w' : World Ext) (a : nat) :
  frame me w w' ->
  area_id (area_of w' a) = area_id (area_of w a)
  /\ area_name (area_of w' a) = area_name (area_of w a)
  /\ abbreviation (area_of w' a) = abbreviation (area_of w a)
  /\ clients (area_of w' a) = clients (area_of w a)
  /\ showname_changes_allowed (area_of w' a)
     = showname_changes_allowed (area_of w a)
  /\ blankposting_allowed (area_of w' a) = blankposting_allowed (area_of w a)
  /\ non_int_pres_only (area_of w' a) = non_int_pres_only (area_of w a)
  /\ shouts_allowed (area_of w' a) = shouts_allowed (area_of w a)
  /\ last_ic_message (area_of w' a) = last_ic_message (area_of w a).
Proof.
  intros (_ & _ & Ha). destruct (Ha a) as [i Hi]. rewrite Hi.
  repeat split.
Qed.

Lemma silent_quiet (A : Type) (m : M Ext A) : silent m -> quiet me m.
Proof.
  intros H w. destruct (H w) as [[x Hx] He]. split.
  - rewrite Hx. apply frame_with_ext.
  - now left.
Qed.

Lemma silent_ret (A : Type) (a : A) : silent (ret (Ext := Ext) a).
Proof. intros w. split; [exists (ext w); symmetry; apply world_eta|reflexivity]. Qed.

Lemma silent_return_ (A : Type) : silent (return_ (Ext := Ext) (A := A)).
Proof. intros w. split; [exists (ext w); symmetry; apply world_eta|reflexivity]. Qed.

Lemma silent_raise (A : Type) (e : Exn) :
  silent (raise (Ext := Ext) (A := A) e).
Proof. intros w. split; [exists (ext w); symmetry; apply world_eta|reflexivity]. Qed.

Lemma silent_read (A : Type) (f : World Ext -> A) : silent (read f).
Proof. intros w. split; [exists (ext w); symmetry; apply world_eta|reflexivity]. Qed.

Lemma silent_call (A : Type) (f : World Ext -> A * Ext) : silent (call f).
Proof. intros w. split; [now exists (snd (f w))|reflexivity]. Qed.

Lemma silent_call_ (f : World Ext -> Ext) : silent (call_ f).
Proof. intros w. split; [now exists (f w)|reflexivity]. Qed.

Lemma silent_bind (A B : Type) (m : M Ext A) (k : A -> M Ext B) :
  silent m -> (forall a, silent (k a)) -> silent (bind m k).
Proof.
  intros Hm Hk w. unfold bind.
  destruct (Hm w) as [[x Hx] He].
  destruct (flow (m w)) as [a| |e]; cbn [world emitted].
  - destruct (Hk a (world (m w))) as [[y Hy] He'].
    rewrite He, He', Hy, Hx. split; [now exists y|reflexivity].
  - split; [now exists x|exact He].
  - split; [now exists x|exact He].
Qed.

Lemma silent_lookup_or_raise (A : Type) (e : Exn) (o : option A) :
  silent (lookup_or_raise (Ext := Ext) e o).
Proof. destruct o; [apply silent_ret | apply silent_raise]. Qed.

Lemma silent_value_or_raise (A : Type) (r : Exn + A) :
  silent (value_or_raise (Ext := Ext) r).
Proof. destruct r; [apply silent_raise | apply silent_ret]. Qed.

Lemma silent_try_except (A : Type) (m : M Ext A) (e : Exn) (h : M Ext A) :
  silent m -> silent h -> silent (try_except m e h).
Proof.
  intros Hm Hh w. unfold try_except.
  destruct (Hm w) as [[x Hx] He].
  destruct (flow (m w)) as [a| |e']; try (split; [now exists x|exact He]).
  destruct (Exn_eqb e' e); [|split; [now exists x|exact He]].
  cbn [world emitted].
  destruct (Hh (world (m w))) as [[y Hy] He'].
  rewrite He, He', Hy, Hx. split; [now exists y|reflexivity].
Qed.

Lemma quiet_bind (A B : Type) (m : M Ext A) (k : A -> M Ext B) :
  quiet me m -> (forall a, quiet me (k a)) -> quiet me (bind m k).
Proof.
  intros Hm Hk w. unfold bind.
  destruct (Hm w) as [Hf He].
  destruct (flow (m w)) as [a| |e] eqn:Hflow; cbn [world emitted flow].
  - destruct (Hk a (world (m w))) as [Hf' He'].
    split; [eapply frame_trans; eassumption|].
    destruct He as [He | (s & Hret & _)]; [|discriminate].
    rewrite He. exact He'.
  - split; [exact Hf|].
    destruct He as [He | (s & _ & He)]; [now left|].
    right. exists s. now split.
  - split; [exact Hf|].
    destruct He as [He | (s & Hret & _)]; [now left|discriminate].
Qed.

(** A notice followed by [return]. *)
Lemma quiet_reject (A : Type) (s : str) :
  quiet me (bind (send_ooc (Ext := Ext) me s) (fun _ => return_ (A := A))).
Proof.
  intros w. split; [apply frame_refl|]. right. exists s. now split.
Qed.

Lemma quiet_set_showname (s : str) :
  quiet me (modify (Ext := Ext) (set_client me (set_showname s))).
Proof.
  intros w. split; [|now left].
  unfold frame, modify, set_client, upd. cbn [world client_of area_of].
  split; [|split].
  - intros c Hc. apply Nat.eqb_neq in Hc. now rewrite Hc.
  - exists s. now rewrite Nat.eqb_refl.
  - intros a. exists (examine_index (area_of w a)). symmetry.
    apply set_examine_index_same.
Qed.

Lemma quiet_set_examine_index (a : nat) (i : Z) :
  quiet me (modify (Ext := Ext) (set_area a (set_examine_index i))).
Proof.
  intros w. split; [|now left].
  unfold frame, modify, set_area, upd. cbn [world client_of area_of].
  split; [reflexivity|]. split.
  - exists (showname (client_of w me)). symmetry. apply set_showname_same.
  - intros b. destruct (Nat.eqb b a) eqn:Hb.
    + apply Nat.eqb_eq in Hb. subst b. now exists i.
    + exists (examine_index (area_of w b)). symmetry.
      apply set_examine_index_same.
Qed.

Lemma quiet_try_except (A : Type) (m : M Ext A) (e : Exn) (h : M Ext A) :
  quiet me m -> quiet me h -> quiet me (try_except m e h).
Proof.
  intros Hm Hh w. unfold try_except. cbv zeta.
  case_eq (flow (m w)); [intros a Hflow| intros Hflow | intros e' Hflow];
    try exact (Hm w).
  destruct (Exn_eqb e' e); [|exact (Hm w)].
  cbn [world emitted flow].
  destruct (Hm w) as [Hf He].
  destruct (Hh (world (m w))) as [Hf' He'].
  split; [eapply frame_trans; eassumption|].
  destruct He as [He | (s & Hret & _)]; [|congruence].
  rewrite He. exact He'.
Qed.

End QuietFacts.

(** Blocks built from the operations above are [quiet]. *)
Ltac quiet_tac :=
  repeat first
    [ apply quiet_reject
    | apply quiet_set_showname
    | apply quiet_set_examine_index
    | apply silent_quiet;
      first [ apply silent_ret | apply silent_return_ | apply silent_raise
            | apply silent_read | apply silent_call | apply silent_call_
            | apply silent_lookup_or_raise | apply silent_value_or_raise ]
    | apply quiet_try_except
    | apply quiet_bind; [|intros]
    | match goal with
      | |- quiet _ (if ?b then _ else _) => destruct b
      | |- quiet _ (match ?x with _ => _ end) => destruct x
      end ].

Ltac silent_tac :=
  repeat first
    [ apply silent_ret | apply silent_return_ | apply silent_raise
    | apply silent_read | apply silent_call | apply silent_call_
    | apply silent_lookup_or_raise | apply silent_value_or_raise
    | apply silent_try_except
    | apply silent_bind; [|intros]
    | match goal with
      | |- silent (if ?b then _ else _) => destruct b
      | |- silent (match ?x with _ => _ end) => destruct x
      end ].

Section MsChecks.

Context {Ext : Type} (E : Env Ext) (me : nat).

Lemma silent_unpack_pre26 (args : list pyval) :
  silent (unpack_pre26 (Ext := Ext) args).
Proof.
  unfold unpack_pre26.
  repeat (destruct args as [|[?|?] args]; try apply silent_raise).
  all: apply silent_ret.
Qed.

Lemma silent_unpack_26 (args : list pyval) :
  silent (unpack_26 (Ext := Ext) args).
Proof.
  unfold unpack_26.
  repeat (destruct args as [|[?|?] args]; try apply silent_raise).
  all: apply silent_ret.
Qed.

Lemma silent_unpack_28 (args : list pyval) : silent (unpack_28 E args).
Proof.
  unfold unpack_28.
  repeat (destruct args as [|[?|?] args]; try apply silent_raise).
  all: unfold int_; silent_tac.
Qed.

Lemma quiet_ms_preconditions : quiet me (ms_preconditions E me).
Proof. unfold ms_preconditions, self_client, self_area. quiet_tac. Qed.

Lemma quiet_ms_dialect (args : list pyval) : quiet me (ms_dialect E me args).
Proof.
  unfold ms_dialect, self_client. apply quiet_bind; [quiet_tac|intros c].
  destruct (fst _); [apply silent_quiet, silent_unpack_pre26|].
  destruct (fst _); [apply silent_quiet, silent_unpack_26|].
  destruct (fst _); [apply silent_quiet, silent_unpack_28|].
  quiet_tac.
Qed.

Lemma quiet_ms_additive (additive : Z) : quiet me (ms_additive E me additive).
Proof. unfold ms_additive, self_area. quiet_tac. Qed.

Lemma quiet_ms_showname (showname : str) :
  quiet me (ms_showname (Ext := Ext) me showname).
Proof. unfold ms_showname, self_area. quiet_tac. Qed.

Lemma quiet_ms_iniswap (pre anim folder sfx : str) :
  quiet me (ms_iniswap E me pre anim folder sfx).
Proof. unfold ms_iniswap, self_area, self_client. quiet_tac. Qed.

Lemma quiet_ms_blankpost (text : str) :
  quiet me (ms_blankpost (Ext := Ext) me text).
Proof. unfold ms_blankpost, self_area. quiet_tac. Qed.

Lemma quiet_ms_commands (text : str) (color : Z) :
  quiet me (ms_commands E me text color).
Proof. unfold ms_commands, self_area, int_. quiet_tac. Qed.

Lemma quiet_ms_statement_commands (a : nat) (text : str) (color : Z)
    (args : list pyval) :
  quiet me (ms_statement_commands E me a text color args).
Proof. unfold ms_statement_commands, int_. quiet_tac. Qed.

Lemma quiet_ms_testimony (text : str) (color : Z) (args : list pyval) :
  quiet me (ms_testimony E me text color args).
Proof.
  unfold ms_testimony, self_area, int_.
  repeat (apply quiet_bind; [solve [quiet_tac]|intros]).
  destruct (_ || _); [|quiet_tac].
  apply quiet_bind; [apply quiet_ms_statement_commands|intros r].
  quiet_tac.
Qed.

Lemma quiet_ms_field_checks (msg_type : str) (anim_type cid sfx_delay : Z)
    (button : pyval) (evidence ding color : Z) (showname : str) :
  quiet me (ms_field_checks E me msg_type anim_type cid sfx_delay button
              evidence ding color showname).
Proof. unfold ms_field_checks, self_client. quiet_tac. Qed.

Lemma silent_mangle (msg : str) : silent (mangle E me msg).
Proof. unfold mangle, self_client. silent_tac. Qed.

Lemma quiet_ms_transform (text : str) : quiet me (ms_transform E me text).
Proof.
  unfold ms_transform. destruct (max_char E <? len text); [quiet_tac|].
  apply silent_quiet, silent_mangle.
Qed.

Lemma silent_ms_is_repeat (msg : str) (cid : Z) (last : option (list pyval)) :
  silent (ms_is_repeat (Ext := Ext) msg cid last).
Proof. unfold ms_is_repeat, item. silent_tac. Qed.

Lemma quiet_ms_spam_guard (msg : str) (cid : Z) :
  quiet me (ms_spam_guard (Ext := Ext) me msg cid).
Proof.
  unfold ms_spam_guard, self_area.
  repeat (apply quiet_bind; [solve [quiet_tac]|intros]).
  apply quiet_bind; [apply silent_quiet, silent_ms_is_repeat|intros].
  quiet_tac.
Qed.

Lemma quiet_ms_prepare (args0 : list str) : quiet me (ms_prepare E me args0).
Proof.
  unfold ms_prepare.
  apply quiet_bind; [apply quiet_ms_preconditions|intros _].
  apply quiet_bind; [apply quiet_ms_dialect|intros p].
  apply quiet_bind; [apply quiet_ms_additive|intros additive].
  apply quiet_bind; [apply quiet_ms_showname|intros _].
  apply quiet_bind; [apply quiet_ms_iniswap|intros _].
  apply quiet_bind; [apply quiet_ms_blankpost|intros _].
  apply quiet_bind; [apply quiet_ms_commands|intros [[text color] target]].
  apply quiet_bind; [apply quiet_ms_testimony|intros [[text' color'] args]].
  apply quiet_bind; [apply quiet_ms_field_checks|intros anim_type].
  unfold self_area.
  repeat (apply quiet_bind; [solve [quiet_tac]|intros]).
  destruct (ms_non_int_pres_only _ _ _) as [anim_type' nonint_pre].
  repeat (apply quiet_bind; [solve [quiet_tac]|intros]).
  destruct (ms_shouts _ _ _ _) as [[anim_type'' button] ding].
  apply quiet_bind; [apply quiet_ms_transform|intros msg].
  quiet_tac.
Qed.

End MsChecks.

(** ** The IC message: the repeat guard and the delivery *)

Section MsDelivery.

Context {Ext : Type} (E : Env Ext) (me : nat).

Lemma ms_spam_guard_rejects (msg : str) (cid : Z) (w : World Ext)
    (sa : list pyval) (t : str) :
  strip msg <> [] ->
  last_ic_message (area_of w (area (client_of w me))) = Some sa ->
  nth_error sa 8 = Some (PInt cid) ->
  nth_error sa 4 = Some (PStr t) ->
  rstrip msg = rstrip t ->
  ms_spam_guard me msg cid w = mkOut Return w [repeat_notice me].
Proof.
  intros Hblank Hlast H8 H4 Heq.
  unfold ms_spam_guard, ms_is_repeat. run. rewrite Hlast.
  apply PyStrFacts.eqb_neq in Hblank. rewrite Hblank.
  run. rewrite H8. run. cbn [pyval_eqb]. rewrite Z.eqb_refl. run.
  rewrite H4. run. rewrite Heq, PyStrFacts.eqb_refl. reflexivity.
Qed.

Lemma ms_spam_guard_passes (msg : str) (cid : Z) (w : World Ext) :
  let last := last_ic_message (area_of w (area (client_of w me))) in
  (strip msg = []
   \/ last = None
   \/ (exists sa c, last = Some sa /\ nth_error sa 8 = Some (PInt c)
                    /\ c <> cid)
   \/ (exists sa t, last = Some sa /\ nth_error sa 8 = Some (PInt cid)
                    /\ nth_error sa 4 = Some (PStr t)
                    /\ rstrip msg <> rstrip t)) ->
  ms_spam_guard me msg cid w = mkOut (Next tt) w [].
Proof.
  intros last H. unfold ms_spam_guard, ms_is_repeat. run. fold last.
  destruct (PyStr.eqb (strip msg) []) eqn:Hblank; [run; reflexivity|].
  destruct H as [H | [H | [(sa & c & Hl & H8 & Hc) | (sa & t & Hl & H8 & H4 & Hne)]]].
  - apply PyStrFacts.eqb_neq in Hblank. contradiction.
  - rewrite H. run. reflexivity.
  - rewrite Hl. run. rewrite H8. run. cbn [pyval_eqb].
    assert (Hcc : (cid =? c) = false) by (apply Z.eqb_neq; congruence).
    rewrite Hcc. run. reflexivity.
  - rewrite Hl. run. rewrite H8. run. cbn [pyval_eqb]. rewrite Z.eqb_refl.
    run. rewrite H4. run.
    apply PyStrFacts.eqb_neq in Hne. rewrite Hne. reflexivity.
Qed.

(** The evidence step raises or goes on; it touches the external state
    only. *)
Lemma ms_evidence_spec (evidence : Z) (w : World Ext) :
  (exists e, flow (ms_evidence E me evidence w) = Raise e)
  \/ (exists ev x evs,
        ms_evidence E me evidence w = mkOut (Next ev) (with_ext x w) evs).
Proof.
  unfold ms_evidence. run.
  destruct (evi_list_contains E me evidence w); cbn [negb];
    [|right; exists 0, (ext w), []; run; now rewrite world_eta].
  destruct (evidence =? 0); cbn [negb];
    [right; exists evidence, (ext w), []; run; now rewrite world_eta|].
  run. destruct (evi_list_get E me evidence w) as [e|k] eqn:Hget; run;
    [left; now exists e|].
  destruct (evidence_pos E _ (k - 1) w) as [e|p]; run; [left; now exists e|].
  destruct (PyStr.eqb p (lit "all")); cbn [negb]; run.
  - right. exists evidence, (ext w), []. now rewrite world_eta.
  - rewrite Hget. run. right. eexists evidence, _, _. reflexivity.
Qed.

Lemma area_of_paired (l : Loc.t) (w : World Ext) :
  area (client_of (paired me l w) me) = area (client_of w me).
Proof.
  unfold paired, set_client, upd. cbn [client_of].
  now rewrite Nat.eqb_refl.
Qed.

(** Delivery raises, or else it sends [send_args] to the area and records
    it as the area's last IC message. *)
Lemma ms_deliver_spec (l : Loc.t) (w : World Ext) :
  (exists e, flow (ms_deliver E me l w) = Raise e)
  \/ (exists evi x,
        let sa := sent_args me l evi (paired me l (with_ext x w)) in
        let a := area (client_of w me) in
        flow (ms_deliver E me l w) = Next tt
        /\ In (EvAreaSend a (lit "MS") sa) (emitted (ms_deliver E me l w))
        /\ last_ic_message (area_of (world (ms_deliver E me l w)) a)
           = Some sa).
Proof.
  pattern (ms_deliver E me l w).
  match goal with |- ?P _ => set (Spec := P) end.
  unfold ms_deliver.
  destruct (ms_evidence_spec (Loc.evidence l) w)
    as [[e He] | (ev & x & evs & He)].
  { unfold bind at 1. destruct (ms_evidence E me (Loc.evidence l) w)
      as [f w' evs]. cbn [flow] in He. subst f.
    subst Spec. left. now exists e. }
  unfold bind at 1. rewrite He. cbn [flow world emitted].
  set (w2 := paired me l (with_ext x w)).
  assert (Ha : area (client_of w2 me) = area (client_of w me))
    by exact (area_of_paired l (with_ext x w)).
  run. fold (paired me l (with_ext x w)). fold w2. rewrite Ha.
  match goal with
  | |- context [afkers_contains E ?a ?c ?w'] =>
      destruct (afkers_contains E a c w')
  end; run.
  all: match goal with
       | |- context [value_or_raise ?r] => destruct r as [e|evi]
       end; run; [subst Spec; left; now exists e|].
  all: rewrite ?client_of_with_ext, ?area_of_with_ext, ?Ha.
  all: fold (sent_args me l evi w2);
    match goal with
    | |- context [is_recording E ?a ?w'] => destruct (is_recording E a w')
    end; run.
  all: match goal with
       | |- context [is_testifying E ?a ?w'] =>
           destruct (is_testifying E a w')
       end; run.
  all: try match goal with
       | |- context [testimony_add_statement E ?a ?sa ?w'] =>
           destruct (fst (testimony_add_statement E a sa w'))
       end; run.
  all: subst Spec; right; exists evi, x; cbv zeta; fold w2;
    cbn [flow world emitted];
    rewrite ?client_of_with_ext, ?area_of_with_ext, ?Ha.
  all: split; [reflexivity|]; split;
    [apply in_or_app; right; left; reflexivity|].
  all: unfold ret, emit, set_area, upd, with_ext;
    cbn [area_of world client_of];
    rewrite Nat.eqb_refl; reflexivity.
Qed.

End MsDelivery.

(** ** The IC message: pairing *)

Section PairingFacts.

Context {Ext : Type} (E : Env Ext) (me : nat).

Lemma pair_scan_Some (w : World Ext) (targets : list nat) (t : nat) :
  pair_scan w me targets = Some t ->
  In t targets /\ is_partner w me t = true.
Proof.
  induction targets as [|u targets IH]; cbn [pair_scan]; [discriminate|].
  destruct (is_partner w me u) eqn:Hu.
  - intros H. inversion H; subst. split; [now left|exact Hu].
  - intros H. destruct (IH H) as [Hin Hp]. split; [now right|exact Hp].
Qed.

Lemma pair_scan_None (w : World Ext) (targets : list nat) :
  pair_scan w me targets = None ->
  forall t, In t targets -> is_partner w me t = false.
Proof.
  induction targets as [|u targets IH]; cbn [pair_scan]; [intros _ t []|].
  destruct (is_partner w me u) eqn:Hu; [discriminate|].
  intros H t [-> | Hin]; [exact Hu|now apply IH].
Qed.

(** The guard reads; it never changes the world. *)
Lemma ms_spam_guard_world (msg : str) (cid : Z) (w : World Ext) :
  world (ms_spam_guard me msg cid w) = w.
Proof.
  unfold ms_spam_guard, ms_is_repeat. run.
  destruct (PyStr.eqb (strip msg) []); run; [reflexivity|].
  destruct (last_ic_message _) as [last|]; run; [|reflexivity].
  destruct (nth_error last 8) as [l8|]; run; [|reflexivity].
  destruct (pyval_eqb (PInt cid) l8); run; [|reflexivity].
  destruct (nth_error last 4) as [[t|z]|]; run; try reflexivity.
  destruct (PyStr.eqb (rstrip msg) (rstrip t)); run; reflexivity.
Qed.

(** A message that passes the checks and the guard is delivered. *)
Lemma net_cmd_ms_delivers (args0 : list str) (w0 w : World Ext) (l : Loc.t) :
  ms_prepare E me args0 w0 = mkOut (Next l) w [] ->
  flow (ms_spam_guard me (Loc.msg l) (Loc.cid l) w) = Next tt ->
  net_cmd_ms E me args0 w0 = ms_deliver E me l w.
Proof.
  intros Hprep Hguard. unfold net_cmd_ms.
  rewrite (bind_quiet _ _ (ms_prepare E me args0) _ w0 l)
    by (now rewrite Hprep).
  rewrite Hprep. cbn [world].
  destruct (quiet_ms_spam_guard me (Loc.msg l) (Loc.cid l) w) as [_ He].
  destruct He as [He | (s & Hret & _)]; [|congruence].
  rewrite (bind_quiet _ _ _ _ w tt Hguard He).
  now rewrite ms_spam_guard_world.
Qed.

(** What the checks leave of the world in which the partner is sought. *)
Lemma is_partner_paired (w0 w : World Ext) (l : Loc.t) (x : Ext) (t : nat) :
  frame me w0 w ->
  is_partner (paired me l (with_ext x w)) me t = true <->
  (t <> me
   /\ char_id (client_of w0 t) = Loc.charid_pair l
   /\ charid_pair (client_of w0 t) = char_id (client_of w0 me)
   /\ pos (client_of w0 t) = pos (client_of w0 me)).
Proof.
  intros (Hother & (s & Hme) & _).
  unfold is_partner, paired, set_client, upd, with_ext. cbn [client_of].
  rewrite Nat.eqb_refl. destruct (Nat.eqb t me) eqn:Ht.
  - apply Nat.eqb_eq in Ht. rewrite andb_false_r. cbn [negb andb].
    split; [discriminate | intros [Hne _]; contradiction].
  - apply Nat.eqb_neq in Ht. rewrite (Hother t Ht), Hme.
    cbn [negb char_id charid_pair pos set_pairing set_showname].
    rewrite andb_true_r, !andb_true_iff, !Z.eqb_eq, PyStrFacts.eqb_eq.
    tauto.
Qed.

Lemma members_paired (w0 w : World Ext) (l : Loc.t) (x : Ext) :
  frame me w0 w ->
  clients (area_of (paired me l (with_ext x w))
             (area (client_of (paired me l (with_ext x w)) me)))
  = clients (area_of w0 (area (client_of w0 me))).
Proof.
  intros Hframe. pose proof Hframe as (_ & (s & Hme) & _).
  rewrite (area_of_paired me l (with_ext x w)).
  unfold paired, set_client, with_ext. cbn [area_of client_of].
  rewrite Hme. cbn [area set_showname].
  apply (frame_area_fields me w0 w _ Hframe).
Qed.

Lemma client_of_paired (w0 w : World Ext) (l : Loc.t) (x : Ext) (t : nat) :
  frame me w0 w -> t <> me ->
  client_of (paired me l (with_ext x w)) t = client_of w0 t.
Proof.
  intros (Hother & _ & _) Ht.
  unfold paired, set_client, upd, with_ext. cbn [client_of].
  apply Nat.eqb_neq in Ht. rewrite Ht. now apply Hother, Nat.eqb_neq.
Qed.

Lemma sent_args_16 (l : Loc.t) (evi : Z) (w2 : World Ext) :
  nth_error (sent_args me l evi w2) 16
  = Some (ms_charid_pair_out (ms_confirmed w2 me (Loc.charid_pair l))
            (Loc.charid_pair l) (Loc.pair_order l)).
Proof. reflexivity. Qed.

Lemma sent_args_partner (l : Loc.t) (evi : Z) (w2 : World Ext) (t : nat) :
  ms_confirmed w2 me (Loc.charid_pair l) = Some t ->
  nth_error (sent_args me l evi w2) 17
  = Some (PStr (claimed_folder (client_of w2 t)))
  /\ nth_error (sent_args me l evi w2) 18
     = Some (PStr (last_sprite (client_of w2 t)))
  /\ nth_error (sent_args me l evi w2) 20
     = Some (PStr (offset_pair (client_of w2 t)))
  /\ nth_error (sent_args me l evi w2) 21
     = Some (PInt (flip (client_of w2 t))).
Proof. intros H. unfold sent_args. rewrite H. repeat split. Qed.

Lemma sent_args_text (l : Loc.t) (evi : Z) (w2 : World Ext) :
  nth_error (sent_args me l evi w2) 4 = Some (PStr (Loc.msg l))
  /\ nth_error (sent_args me l evi w2) 8 = Some (PInt (Loc.cid l)).
Proof. split; reflexivity. Qed.

Lemma charid_pair_out_confirmed (t : nat) (cp : Z) (order : pyval) :
  -1 < cp -> ms_charid_pair_out (Some t) cp order <> PInt (-1).
Proof.
  intros Hcp. unfold ms_charid_pair_out.
  destruct (pair_order_given order); intros H; inversion H. lia.
Qed.

(** The heart of C5: the partner found is a partner in the world before
    the message, and none is found only when there is none. *)
Lemma ms_confirmed_paired (w0 w : World Ext) (l : Loc.t) (x : Ext) :
  frame me w0 w ->
  -1 < Loc.charid_pair l ->
  match ms_confirmed (paired me l (with_ext x w)) me (Loc.charid_pair l) with
  | Some t =>
      partner_of w0 me (Loc.charid_pair l) t
      /\ client_of (paired me l (with_ext x w)) t = client_of w0 t
  | None => forall t, ~ partner_of w0 me (Loc.charid_pair l) t
  end.
Proof.
  intros Hframe Hcp. unfold ms_confirmed.
  apply Z.ltb_lt in Hcp. rewrite Hcp.
  rewrite (members_paired w0 w l x Hframe).
  destruct (pair_scan _ me _) as [t|] eqn:Hscan.
  - apply pair_scan_Some in Hscan as [Hin Hp].
    apply (is_partner_paired w0 w l x t Hframe) in Hp
      as (Hne & Hc & Hcp' & Hpos).
    split; [repeat split; assumption|].
    now apply client_of_paired.
  - intros t (Hin & Hne & Hc & Hcp' & Hpos).
    pose proof (pair_scan_None _ _ Hscan t Hin) as Hno.
    assert (Hyes : is_partner (paired me l (with_ext x w)) me t = true)
      by (apply (is_partner_paired w0 w l x t Hframe); repeat split;
          assumption).
    congruence.
Qed.

End PairingFacts.

(** C5: for an IC message that passes the checks and carries a requested
    pair id (an id above [-1], the marker of no pairing), pairing is
    confirmed, that is the outgoing paired-character-id field is not [-1],
    if and only if some other client of the sender's area has the requested
    character, requests the sender's character, and stands at the sender's
    position.  Without such a partner the field is [-1]; with one, the
    offset, last sprite, flip flag and claimed folder of a partner are the
    outgoing fields 20, 18, 21 and 17. *)
Theorem C5_pairing_is_confirmed_iff_reciprocal :
  forall (Ext : Type) (E : Env Ext) (me : nat) (args0 : list str)
         (w0 w : World Ext) (l : Loc.t),
    ms_prepare E me args0 w0 = mkOut (Next l) w [] ->
    flow (ms_spam_guard me (Loc.msg l) (Loc.cid l) w) = Next tt ->
    -1 < Loc.charid_pair l ->
    (forall e, flow (net_cmd_ms E me args0 w0) <> Raise e) ->
    exists sa,
      In (EvAreaSend (area (client_of w0 me)) (lit "MS") sa)
         (emitted (net_cmd_ms E me args0 w0))
      /\ ((exists t, partner_of w0 me (Loc.charid_pair l) t)
          <-> nth_error sa 16 <> Some (PInt (-1)))
      /\ ((~ exists t, partner_of w0 me (Loc.charid_pair l) t)
          -> nth_error sa 16 = Some (PInt (-1)))
      /\ ((exists t, partner_of w0 me (Loc.charid_pair l) t)
          -> exists t,
               partner_of w0 me (Loc.charid_pair l) t
               /\ nth_error sa 17
                  = Some (PStr (claimed_folder (client_of w0 t)))
               /\ nth_error sa 18
                  = Some (PStr (last_sprite (client_of w0 t)))
               /\ nth_error sa 20
                  = Some (PStr (offset_pair (client_of w0 t)))
               /\ nth_error sa 21 = Some (PInt (flip (client_of w0 t)))).
Proof.
  intros Ext E me args0 w0 w l Hprep Hguard Hcp Hnoraise.
  rewrite (net_cmd_ms_delivers E me args0 w0 w l Hprep Hguard) in *.
  assert (Hframe : frame me w0 w).
  { pose proof (quiet_ms_prepare E me args0 w0) as [Hf _].
    now rewrite Hprep in Hf. }
  assert (Harea : area (client_of w me) = area (client_of w0 me)).
  { destruct Hframe as (_ & (s & Hme) & _). now rewrite Hme. }
  destruct (ms_deliver_spec E me l w)
    as [[e He] | (evi & x & _ & Hin & _)];
    [now apply Hnoraise in He|].
  rewrite Harea in Hin.
  exists (sent_args me l evi (paired me l (with_ext x w))).
  split; [exact Hin|].
  pose proof (ms_confirmed_paired me w0 w l x Hframe Hcp) as Hconf.
  pose proof (sent_args_partner me l evi (paired me l (with_ext x w)))
    as Hfields.
  rewrite sent_args_16.
  destruct (ms_confirmed (paired me l (with_ext x w)) me (Loc.charid_pair l))
    as [t|].
  - destruct Hconf as [Hpartner Hsame].
    destruct (Hfields t eq_refl) as (H17 & H18 & H20 & H21).
    rewrite Hsame in H17, H18, H20, H21.
    split; [|split].
    + split; [|intros _; now exists t].
      intros _ H. inversion H as [Hout].
      now apply (charid_pair_out_confirmed t _ _ Hcp) in Hout.
    + intros Hnone. exfalso. apply Hnone. now exists t.
    + intros _. exists t. repeat split; try assumption; apply Hpartner.
  - split; [|split].
    + split; [intros [t Ht]; now apply Hconf in Ht|].
      intros H. now contradiction H.
    + reflexivity.
    + intros [t Ht]. now apply Hconf in Ht.
Qed.

(** Phoenix asks for Edgeworth, who asks for Phoenix from the same
    position: the pairing is confirmed and Edgeworth's fields are sent. *)
Lemma C5_pairing_is_confirmed_iff_reciprocal_witness :
  (ms_prepare Demo.env 0%nat (Demo.ic "chat" "Hi" "New") Demo.w0
   = mkOut (Next (Demo.prepared (Demo.ic "chat" "Hi" "New") Demo.w0))
       (world (ms_prepare Demo.env 0%nat (Demo.ic "chat" "Hi" "New") Demo.w0))
       []
   /\ -1 < Loc.charid_pair (Demo.prepared (Demo.ic "chat" "Hi" "New") Demo.w0))
  /\ exists sa,
       In (EvAreaSend 0%nat (lit "MS") sa)
          (emitted (net_cmd_ms Demo.env 0%nat (Demo.ic "chat" "Hi" "New")
                      Demo.w0))
       /\ nth_error sa 16 <> Some (PInt (-1))
       /\ nth_error sa 17 = Some (PStr (lit "Edgeworth"))
       /\ nth_error sa 18 = Some (PStr (lit "smirk"))
       /\ nth_error sa 20 = Some (PStr (lit "25"))
       /\ nth_error sa 21 = Some (PInt 1).
Proof.
  assert (H1 : ms_prepare Demo.env 0%nat (Demo.ic "chat" "Hi" "New") Demo.w0
               = mkOut
                   (Next (Demo.prepared (Demo.ic "chat" "Hi" "New") Demo.w0))
                   (world (ms_prepare Demo.env 0%nat
                             (Demo.ic "chat" "Hi" "New") Demo.w0)) [])
    by (vm_compute; reflexivity).
  assert (H2 : flow (ms_spam_guard 0%nat
                       (Loc.msg (Demo.prepared (Demo.ic "chat" "Hi" "New")
                                   Demo.w0))
                       (Loc.cid (Demo.prepared (Demo.ic "chat" "Hi" "New")
                                   Demo.w0))
                       (world (ms_prepare Demo.env 0%nat
                                 (Demo.ic "chat" "Hi" "New") Demo.w0)))
               = Next tt)
    by (vm_compute; reflexivity).
  assert (H3 : -1 < Loc.charid_pair
                      (Demo.prepared (Demo.ic "chat" "Hi" "New") Demo.w0))
    by (vm_compute; reflexivity).
  assert (H4 : forall e,
             flow (net_cmd_ms Demo.env 0%nat (Demo.ic "chat" "Hi" "New")
                     Demo.w0) <> Raise e)
    by (intros e H; vm_compute in H; discriminate).
  split; [split; assumption|].
  destruct (C5_pairing_is_confirmed_iff_reciprocal unit Demo.env 0%nat
              (Demo.ic "chat" "Hi" "New") Demo.w0 _ _ H1 H2 H3 H4)
    as (sa & Hin & Hiff & _ & Hfields).
  assert (Hpartner : exists t,
             partner_of Demo.w0 0%nat
               (Loc.charid_pair
                  (Demo.prepared (Demo.ic "chat" "Hi" "New") Demo.w0)) t).
  { exists 1%nat. unfold partner_of.
    split; [vm_compute; right; left; reflexivity|].
    split; [discriminate|].
    split; [vm_compute; reflexivity|].
    split; vm_compute; reflexivity. }
  exists sa. split; [exact Hin|]. split; [apply Hiff; exact Hpartner|].
  destruct (Hfields Hpartner)
    as (t & (Hmember & _ & Hchar & _) & H17 & H18 & H20 & H21).
  assert (Ht : t = 1%nat).
  { destruct Hmember as [<- | [<- | [<- | []]]];
      try reflexivity; vm_compute in Hchar; discriminate. }
  subst t. repeat split; assumption.
Defined.

(** C6 (amended): an IC message whose transformed text is not blank (not
    empty once white space is trimmed) is rejected with the private notice,
    and nothing else is sent or changed, when the area's last recorded IC
    message exists, comes from the same character id and has the same text
    up to trailing white space.  A blank text, an area without a last
    message, a last message of another character id, or a last message with
    another text are not rejected by the guard: the message is delivered.
    A delivered message becomes the area's last message with its own text
    and character id, which is what resets the guard. *)
Theorem C6_repeat_guard :
  forall (Ext : Type) (E : Env Ext) (me : nat) (args0 : list str)
         (w0 w : World Ext) (l : Loc.t),
    ms_prepare E me args0 w0 = mkOut (Next l) w [] ->
    let last := last_ic_message (area_of w0 (area (client_of w0 me))) in
    (forall sa t,
       strip (Loc.msg l) <> [] ->
       last = Some sa ->
       nth_error sa 8 = Some (PInt (Loc.cid l)) ->
       nth_error sa 4 = Some (PStr t) ->
       rstrip (Loc.msg l) = rstrip t ->
       net_cmd_ms E me args0 w0 = mkOut Return w [repeat_notice me])
    /\ ((strip (Loc.msg l) = []
         \/ last = None
         \/ (exists sa c, last = Some sa /\ nth_error sa 8 = Some (PInt c)
                          /\ c <> Loc.cid l)
         \/ (exists sa t, last = Some sa
                          /\ nth_error sa 8 = Some (PInt (Loc.cid l))
                          /\ nth_error sa 4 = Some (PStr t)
                          /\ rstrip (Loc.msg l) <> rstrip t)) ->
        net_cmd_ms E me args0 w0 = ms_deliver E me l w)
    /\ ((forall e, flow (ms_deliver E me l w) <> Raise e) ->
        exists sa,
          last_ic_message
            (area_of (world (ms_deliver E me l w)) (area (client_of w0 me)))
          = Some sa
          /\ nth_error sa 4 = Some (PStr (Loc.msg l))
          /\ nth_error sa 8 = Some (PInt (Loc.cid l))).
Proof.
  intros Ext E me args0 w0 w l Hprep last.
  assert (Hframe : frame me w0 w).
  { pose proof (quiet_ms_prepare E me args0 w0) as [Hf _].
    now rewrite Hprep in Hf. }
  assert (Harea : area (client_of w me) = area (client_of w0 me)).
  { destruct Hframe as (_ & (s & Hme) & _). now rewrite Hme. }
  assert (Hlast : last_ic_message (area_of w (area (client_of w me))) = last).
  { rewrite Harea. apply (frame_area_fields me w0 w _ Hframe). }
  split; [|split].
  - intros sa t Hblank Hsome H8 H4 Heq. unfold net_cmd_ms.
    rewrite (bind_quiet _ _ (ms_prepare E me args0) _ w0 l)
      by (now rewrite Hprep).
    rewrite Hprep. cbn [world]. unfold bind.
    rewrite (ms_spam_guard_rejects me (Loc.msg l) (Loc.cid l) w sa t);
      try assumption; [reflexivity | congruence].
  - intros H. apply net_cmd_ms_delivers; [exact Hprep|].
    rewrite (ms_spam_guard_passes me (Loc.msg l) (Loc.cid l) w);
      [reflexivity|].
    cbv zeta. rewrite Hlast. exact H.
  - intros Hnoraise.
    destruct (ms_deliver_spec E me l w)
      as [[e He] | (evi & x & _ & _ & Hrec)];
      [now apply Hnoraise in He|].
    rewrite Harea in Hrec. eexists. split; [exact Hrec|].
    apply sent_args_text.
Qed.

(** Phoenix says "Hi" twice: the second message is turned down. *)
Lemma C6_repeat_guard_witness :
  (ms_prepare Demo.env 0%nat (Demo.ic "chat" "Hi" "New")
     (Demo.after_saying "Hi")
   = mkOut
       (Next (Demo.prepared (Demo.ic "chat" "Hi" "New")
                (Demo.after_saying "Hi")))
       (world (ms_prepare Demo.env 0%nat (Demo.ic "chat" "Hi" "New")
                 (Demo.after_saying "Hi"))) []
   /\ strip (Loc.msg (Demo.prepared (Demo.ic "chat" "Hi" "New")
                        (Demo.after_saying "Hi"))) <> [])
  /\ emitted (net_cmd_ms Demo.env 0%nat (Demo.ic "chat" "Hi" "New")
                (Demo.after_saying "Hi"))
     = [repeat_notice 0%nat].
Proof.
  assert (H1 : ms_prepare Demo.env 0%nat (Demo.ic "chat" "Hi" "New")
                 (Demo.after_saying "Hi")
               = mkOut
                   (Next (Demo.prepared (Demo.ic "chat" "Hi" "New")
                            (Demo.after_saying "Hi")))
                   (world (ms_prepare Demo.env 0%nat
                             (Demo.ic "chat" "Hi" "New")
                             (Demo.after_saying "Hi"))) [])
    by (vm_compute; reflexivity).
  assert (H2 : strip (Loc.msg (Demo.prepared (Demo.ic "chat" "Hi" "New")
                                 (Demo.after_saying "Hi"))) <> [])
    by (vm_compute; discriminate).
  split; [split; assumption|].
  destruct (C6_repeat_guard unit Demo.env 0%nat (Demo.ic "chat" "Hi" "New")
              (Demo.after_saying "Hi") _ _ H1) as [Hreject _].
  rewrite (Hreject (Demo.last_sent (Demo.after_saying "Hi")) (lit "Hi") H2);
    [reflexivity | vm_compute; reflexivity | vm_compute; reflexivity
    | vm_compute; reflexivity | vm_compute; reflexivity].
Defined.

(** The claim fails on a text that is not empty but blank: Phoenix sends a
    single space twice from the same character, and the second message,
    equal to the last one recorded, is broadcast all the same. *)
Lemma C6_counterexample :
  lit " " <> []
  /\ Loc.msg (Demo.prepared (Demo.ic "chat" " " "New")
                (Demo.after_saying " ")) = lit " "
  /\ last_ic_message (area_of (Demo.after_saying " ") 0%nat)
     = Some (Demo.last_sent (Demo.after_saying " "))
  /\ nth_error (Demo.last_sent (Demo.after_saying " ")) 4
     = Some (PStr (lit " "))
  /\ nth_error (Demo.last_sent (Demo.after_saying " ")) 8
     = Some (PInt (Loc.cid (Demo.prepared (Demo.ic "chat" " " "New")
                              (Demo.after_saying " "))))
  /\ In (EvAreaSend 0%nat (lit "MS") (Demo.last_sent (Demo.after_saying " ")))
        (emitted (net_cmd_ms Demo.env 0%nat (Demo.ic "chat" " " "New")
                    (Demo.after_saying " "))).
Proof.
  split; [discriminate|].
  split; [vm_compute; reflexivity|].
  split; [vm_compute; reflexivity|].
  split; [vm_compute; reflexivity|].
  split; [vm_compute; reflexivity|].
  vm_compute. left. reflexivity.
Qed.

(** ** Commands turned down at the entry of a handler *)

Section EntryFacts.

Context {Ext : Type} (E : Env Ext) (me : nat).

(** The evidence handlers: no authentication or no valid arguments, no
    change and nothing sent. *)
Lemma evidence_entry_drop (args0 : list str) (w : World Ext) :
  (is_checked (client_of w me) = false
   \/ fst (validate_net_cmd E (client_of w me) (map PStr args0)
             [STR_OR_EMPTY; STR_OR_EMPTY; STR_OR_EMPTY] true) = false ->
   net_cmd_pe E me args0 w = mkOut Return w [])
  /\ (is_checked (client_of w me) = false
      \/ fst (validate_net_cmd E (client_of w me) (map PStr args0) [INT] true)
         = false ->
      net_cmd_de E me args0 w = mkOut Return w [])
  /\ (is_checked (client_of w me) = false
      \/ fst (validate_net_cmd E (client_of w me) (map PStr args0)
                [INT; STR_OR_EMPTY; STR_OR_EMPTY; STR_OR_EMPTY] true) = false ->
      net_cmd_ee E me args0 w = mkOut Return w []).
Proof.
  unfold net_cmd_pe, net_cmd_de, net_cmd_ee. run.
  destruct (is_checked (client_of w me)); cbn [negb];
    [|repeat split; reflexivity].
  repeat split; intros [H | H]; try discriminate; rewrite H; reflexivity.
Qed.

(** The OOC handler: no authentication or no valid arguments, no change and
    nothing sent; a muted client gets the notice and nothing else. *)
Lemma ct_entry_drop (args0 : list str) (w : World Ext) :
  (is_checked (client_of w me) = false
   \/ (is_ooc_muted (client_of w me) = false
       /\ fst (validate_net_cmd E (client_of w me) (map PStr args0)
                 [STR; STR] false) = false) ->
   net_cmd_ct E me args0 w = mkOut Return w [])
  /\ (is_checked (client_of w me) = true ->
      is_ooc_muted (client_of w me) = true ->
      net_cmd_ct E me args0 w
      = mkOut Return w [EvSendOOC me (lit "You are muted by a moderator.")]).
Proof.
  unfold net_cmd_ct. run.
  destruct (is_checked (client_of w me)); cbn [negb].
  - split.
    + intros [H | [Hm Hv]]; [discriminate|]. rewrite Hm, Hv. reflexivity.
    + intros _ Hm. rewrite Hm. reflexivity.
  - split; [reflexivity | discriminate].
Qed.

(** The handshake of a newcomer with invalid arguments changes nothing. *)
Lemma hi_entry_drop (args0 : list str) (w : World Ext) :
  is_checked (client_of w me) = false ->
  fst (validate_net_cmd E (client_of w me) (map PStr args0) [STR] false)
  = false ->
  net_cmd_hi E me args0 w = mkOut Return w [].
Proof.
  intros Hc Hv. unfold net_cmd_hi. run. rewrite Hc, Hv. reflexivity.
Qed.

End EntryFacts.

(** ** Reading a sequence backwards *)

Section Inversion.

Context {Ext : Type}.

Lemma bind_Next (A B : Type) (m : M Ext A) (k : A -> M Ext B)
    (w : World Ext) (b : B) :
  flow (bind m k w) = Next b ->
  exists a, flow (m w) = Next a /\ flow (k a (world (m w))) = Next b.
Proof.
  unfold bind. destruct (flow (m w)) as [a| |e]; cbn [flow];
    try discriminate.
  intros H. now exists a.
Qed.

Lemma bind_emitted (A B : Type) (m : M Ext A) (k : A -> M Ext B)
    (w : World Ext) (ev : Event) :
  In ev (emitted (bind m k w)) ->
  In ev (emitted (m w))
  \/ exists a, flow (m w) = Next a /\ In ev (emitted (k a (world (m w)))).
Proof.
  unfold bind. destruct (flow (m w)) as [a| |e]; cbn [emitted];
    try (now left).
  intros H. apply in_app_or in H as [H | H]; [now left|].
  right. now exists a.
Qed.

Lemma ret_Next (A : Type) (a b : A) (w : World Ext) :
  flow (ret a w) = Next b -> a = b.
Proof. cbn. intros H. now inversion H. Qed.

(** A first part that falls through hands over to what follows. *)
Lemma bind_flow (A B : Type) (m : M Ext A) (k : A -> M Ext B)
    (w : World Ext) (a : A) :
  flow (m w) = Next a -> flow (bind m k w) = flow (k a (world (m w))).
Proof. intros H. unfold bind. now rewrite H. Qed.

Lemma bind_world (A B : Type) (m : M Ext A) (k : A -> M Ext B)
    (w : World Ext) (a : A) :
  flow (m w) = Next a -> world (bind m k w) = world (k a (world (m w))).
Proof. intros H. unfold bind. now rewrite H. Qed.

Lemma bind_emitted_Next (A B : Type) (m : M Ext A) (k : A -> M Ext B)
    (w : World Ext) (a : A) :
  flow (m w) = Next a ->
  emitted (bind m k w) = emitted (m w) ++ emitted (k a (world (m w))).
Proof. intros H. unfold bind. now rewrite H. Qed.

End Inversion.

(** ** The IC message: what a drop leaves behind *)

Section KeepsFacts.

Context {Ext : Type}.

Lemma bind_cong (A B : Type) (m m' : M Ext A) (k : A -> M Ext B)
    (w : World Ext) :
  m w = m' w -> bind m k w = bind m' k w.
Proof. intros H. unfold bind. now rewrite H. Qed.

Lemma bind_ext (A B : Type) (m : M Ext A) (k k' : A -> M Ext B)
    (w : World Ext) :
  (forall a w', k a w' = k' a w') -> bind m k w = bind m k' w.
Proof.
  intros H. unfold bind. destruct (flow (m w)); try reflexivity.
  now rewrite H.
Qed.

(** A first part that returns ends the whole. *)
Lemma bind_Return (A B : Type) (m : M Ext A) (k : A -> M Ext B)
    (w : World Ext) :
  flow (m w) = Return ->
  bind m k w = mkOut Return (world (m w)) (emitted (m w)).
Proof. intros H. unfold bind. now rewrite H. Qed.

Lemma bind_Return_inv (A B : Type) (m : M Ext A) (k : A -> M Ext B)
    (w : World Ext) :
  flow (bind m k w) = Return ->
  flow (m w) = Return
  \/ exists a, flow (m w) = Next a /\ flow (k a (world (m w))) = Return.
Proof.
  unfold bind. destruct (flow (m w)) as [a| |e]; cbn [flow];
    [|now left|discriminate].
  intros H. right. now exists a.
Qed.

Lemma silent_keeps (A : Type) (m : M Ext A) : silent m -> keeps_clients m.
Proof. intros H w c. destruct (H w) as [[x Hx] _]. now rewrite Hx. Qed.

Lemma keeps_emit (ev : Event) : keeps_clients (emit (Ext := Ext) ev).
Proof. intros w c. reflexivity. Qed.

Lemma keeps_set_area (a : nat) (f : Area -> Area) :
  keeps_clients (modify (Ext := Ext) (set_area a f)).
Proof. intros w c. reflexivity. Qed.

Lemma keeps_bind (A B : Type) (m : M Ext A) (k : A -> M Ext B) :
  keeps_clients m -> (forall a, keeps_clients (k a)) ->
  keeps_clients (bind m k).
Proof.
  intros Hm Hk w c. unfold bind.
  destruct (flow (m w)) as [a| |e]; cbn [world]; [rewrite Hk|..]; apply Hm.
Qed.

Lemma keeps_try_except (A : Type) (m : M Ext A) (e : Exn) (h : M Ext A) :
  keeps_clients m -> keeps_clients h -> keeps_clients (try_except m e h).
Proof.
  intros Hm Hh w c. unfold try_except. cbv zeta.
  destruct (flow (m w)) as [a| |e']; try apply Hm.
  destruct (Exn_eqb e' e); [|apply Hm]. cbn [world]. rewrite Hh. apply Hm.
Qed.

Lemma silent_never (ev : Event) (A : Type) (m : M Ext A) :
  silent m -> never_emits ev m.
Proof. intros H w Hin. destruct (H w) as [_ He]. now rewrite He in Hin. Qed.

Lemma never_emit (ev ev' : Event) :
  ev' <> ev -> never_emits (Ext := Ext) ev (emit ev').
Proof. intros Hne w [H | []]. contradiction. Qed.

Lemma never_modify (ev : Event) (f : World Ext -> World Ext) :
  never_emits ev (modify f).
Proof. intros w []. Qed.

Lemma never_bind (ev : Event) (A B : Type) (m : M Ext A)
    (k : A -> M Ext B) :
  never_emits ev m -> (forall a, never_emits ev (k a)) ->
  never_emits ev (bind m k).
Proof.
  intros Hm Hk w Hin.
  apply bind_emitted in Hin as [H | (a & _ & H)];
    [exact (Hm w H)|exact (Hk a _ H)].
Qed.

Lemma never_try_except (ev : Event) (A : Type) (m : M Ext A) (e : Exn)
    (h : M Ext A) :
  never_emits ev m -> never_emits ev h -> never_emits ev (try_except m e h).
Proof.
  intros Hm Hh w. unfold try_except. cbv zeta.
  destruct (flow (m w)) as [a| |e']; try apply Hm.
  destruct (Exn_eqb e' e); [|apply Hm]. cbn [emitted]. intros Hin.
  apply in_app_or in Hin as [H | H]; [exact (Hm w H)|exact (Hh _ H)].
Qed.

End KeepsFacts.

Ltac keeps_tac :=
  repeat first
    [ apply keeps_emit
    | apply keeps_set_area
    | apply silent_keeps;
      first [ apply silent_ret | apply silent_return_ | apply silent_raise
            | apply silent_read | apply silent_call | apply silent_call_
            | apply silent_lookup_or_raise | apply silent_value_or_raise ]
    | apply keeps_try_except
    | apply keeps_bind; [|intros]
    | match goal with
      | |- keeps_clients (if ?b then _ else _) => destruct b
      | |- keeps_clients (match ?x with _ => _ end) => destruct x
      end ].

(** Two events that differ. *)
Ltac differs :=
  let H := fresh in
  intros H; unfold showname_notice in H;
  first [ discriminate H | vm_compute in H; discriminate H ].

Ltac never_tac :=
  repeat first
    [ apply never_modify
    | apply never_emit; differs
    | apply silent_never;
      first [ apply silent_ret | apply silent_return_ | apply silent_raise
            | apply silent_read | apply silent_call | apply silent_call_
            | apply silent_lookup_or_raise | apply silent_value_or_raise ]
    | apply never_try_except
    | apply never_bind; [|intros]
    | match goal with
      | |- never_emits _ (if ?b then _ else _) => destruct b
      | |- never_emits _ (match ?x with _ => _ end) => destruct x
      end ].

Section DropFacts.

Context {Ext : Type} (E : Env Ext) (me : nat).

(** *** No stage but the showname stage assigns an attribute of a client *)

Lemma keeps_ms_preconditions : keeps_clients (ms_preconditions E me).
Proof. unfold ms_preconditions, self_client, self_area, send_ooc. keeps_tac. Qed.

Lemma keeps_ms_dialect (args : list pyval) :
  keeps_clients (ms_dialect E me args).
Proof.
  unfold ms_dialect, self_client. apply keeps_bind; [keeps_tac|intros c].
  destruct (fst _); [apply silent_keeps, silent_unpack_pre26|].
  destruct (fst _); [apply silent_keeps, silent_unpack_26|].
  destruct (fst _); [apply silent_keeps, silent_unpack_28|].
  keeps_tac.
Qed.

Lemma keeps_ms_additive (additive : Z) :
  keeps_clients (ms_additive E me additive).
Proof. unfold ms_additive, self_area. keeps_tac. Qed.

Lemma keeps_ms_testimony (text : str) (color : Z) (args : list pyval) :
  keeps_clients (ms_testimony E me text color args).
Proof.
  unfold ms_testimony, ms_statement_commands, self_area, int_, send_ooc.
  keeps_tac.
Qed.

Lemma keeps_ms_after_showname (p : Loc.t) (additive : Z) :
  keeps_clients (ms_after_showname E me p additive).
Proof.
  unfold ms_after_showname.
  apply keeps_bind;
    [unfold ms_iniswap, self_area, self_client, send_ooc; keeps_tac
    |intros _].
  apply keeps_bind;
    [unfold ms_blankpost, self_area, send_ooc; keeps_tac|intros _].
  apply keeps_bind;
    [unfold ms_commands, self_area, int_, send_ooc; keeps_tac
    |intros [[text color] target]].
  apply keeps_bind;
    [apply keeps_ms_testimony|intros [[text' color'] args]].
  apply keeps_bind;
    [unfold ms_field_checks, self_client, send_ooc; keeps_tac
    |intros anim_type].
  unfold self_area.
  repeat (apply keeps_bind; [solve [keeps_tac]|intros]).
  destruct (ms_non_int_pres_only _ _ _) as [anim_type' nonint_pre].
  repeat (apply keeps_bind; [solve [keeps_tac]|intros]).
  destruct (ms_shouts _ _ _ _) as [[anim_type'' button] ding].
  apply keeps_bind; [|intros msg; keeps_tac].
  unfold ms_transform. destruct (max_char E <? len _); [keeps_tac|].
  apply silent_keeps, silent_mangle.
Qed.

(** *** Which stage sends the notice about the showname *)

Lemma never_ms_through_showname (args0 : list str) :
  never_emits (showname_notice me) (ms_through_showname E me args0).
Proof.
  unfold ms_through_showname.
  apply never_bind;
    [unfold ms_preconditions, self_client, self_area, send_ooc; never_tac
    |intros _].
  apply never_bind; [apply silent_never|intros p].
  { unfold ms_dialect, self_client. apply silent_bind; [silent_tac|intros c].
    destruct (fst _); [apply silent_unpack_pre26|].
    destruct (fst _); [apply silent_unpack_26|].
    destruct (fst _); [apply silent_unpack_28|].
    silent_tac. }
  apply never_bind;
    [unfold ms_additive, self_area; never_tac|intros additive].
  apply never_bind;
    [unfold ms_showname, self_area, send_ooc; never_tac|intros _].
  never_tac.
Qed.

Lemma never_ms_testimony (text : str) (color : Z) (args : list pyval) :
  never_emits (showname_notice me) (ms_testimony E me text color args).
Proof.
  unfold ms_testimony, ms_statement_commands, self_area, int_, send_ooc.
  never_tac.
Qed.

Lemma never_after_the_checks (l : Loc.t) :
  never_emits (showname_notice me)
    (bind (ms_spam_guard me (Loc.msg l) (Loc.cid l))
       (fun _ => ms_deliver E me l)).
Proof.
  apply never_bind; [|intros _].
  - unfold ms_spam_guard, self_area, send_ooc.
    repeat (apply never_bind; [solve [never_tac]|intros]).
    apply never_bind; [apply silent_never, silent_ms_is_repeat|intros].
    never_tac.
  - unfold ms_deliver, ms_evidence, self_area, send_ooc. never_tac.
Qed.

Lemma ms_field_checks_notice (msg_type : str) (anim_type cid sfx_delay : Z)
    (button : pyval) (evidence ding color : Z) (showname : str)
    (w : World Ext) :
  In (showname_notice me)
     (emitted (ms_field_checks E me msg_type anim_type cid sfx_delay button
                 evidence ding color showname w)) ->
  15 < len showname.
Proof.
  unfold ms_field_checks.
  destruct (in_strs msg_type _); cbn [negb]; [|intros []].
  destruct (existsb _ [0; 1; 2; 5; 6]); cbn [negb]; [|intros []].
  run.
  destruct (cid =? char_id (client_of w me)); cbn [negb]; [|intros []].
  destruct (sfx_delay <? 0); [intros []|].
  intros H. apply bind_emitted in H as [H | (u & _ & H)].
  { exfalso. revert H.
    destruct (contains _ _ && _); [|intros []].
    destruct button as [b|z]; [|intros []].
    destruct (isdigit E b); intros []. }
  revert H.
  destruct (evidence <? 0); [intros []|].
  destruct (existsb (Z.eqb ding) [0; 1]); cbn [negb]; [|intros []].
  destruct (existsb (Z.eqb color) _); cbn [negb]; [|intros []].
  destruct (15 <? len showname) eqn:Hsn; [|intros []].
  intros _. now apply Z.ltb_lt.
Qed.

Lemma never_ms_iniswap (pre anim folder sfx : str) :
  never_emits (showname_notice me) (ms_iniswap E me pre anim folder sfx).
Proof. unfold ms_iniswap, self_area, self_client, send_ooc. never_tac. Qed.

Lemma never_ms_blankpost (text : str) :
  never_emits (showname_notice me) (ms_blankpost (Ext := Ext) me text).
Proof. unfold ms_blankpost, self_area, send_ooc. never_tac. Qed.

Lemma never_ms_commands (text : str) (color : Z) :
  never_emits (showname_notice me) (ms_commands E me text color).
Proof. unfold ms_commands, self_area, int_, send_ooc. never_tac. Qed.

Lemma never_ms_transform (text : str) :
  never_emits (showname_notice me) (ms_transform E me text).
Proof.
  unfold ms_transform. destruct (max_char E <? len _); [never_tac|].
  apply silent_never, silent_mangle.
Qed.

Lemma ms_after_showname_notice (p : Loc.t) (additive : Z) (w : World Ext) :
  In (showname_notice me) (emitted (ms_after_showname E me p additive w)) ->
  15 < len (Loc.showname p).
Proof.
  unfold ms_after_showname. intros H.
  apply bind_emitted in H as [H | (u1 & _ & H)];
    [now apply never_ms_iniswap in H|].
  apply bind_emitted in H as [H | (u2 & _ & H)];
    [now apply never_ms_blankpost in H|].
  apply bind_emitted in H as [H | ([[text color] targets] & _ & H)];
    [now apply never_ms_commands in H|].
  apply bind_emitted in H as [H | ([[text' color'] args] & _ & H)];
    [now apply never_ms_testimony in H|].
  apply bind_emitted in H as [H | (at1 & _ & H)];
    [exact (ms_field_checks_notice _ _ _ _ _ _ _ _ _ _ H)|].
  exfalso. revert H. unfold self_area. rewrite !bind_read.
  destruct (ms_non_int_pres_only _ _ _) as [at3 nonint_pre].
  rewrite !bind_read.
  destruct (ms_shouts _ _ _ _) as [[at4 button] ding].
  apply never_bind; [apply never_ms_transform|intros; never_tac].
Qed.

End DropFacts.

Section DropMore.

Context {Ext : Type} (E : Env Ext) (me : nat).

(** *** The showname of the message *)

Lemma unpack_pre26_showname (args : list pyval) (w : World Ext) (l : Loc.t) :
  flow (unpack_pre26 args w) = Next l ->
  Loc.showname l = [] /\ nth_error args 15 = None.
Proof.
  unfold unpack_pre26.
  repeat (destruct args as [|[?|?] args]; cbn; try (intros; discriminate)).
  all: intros H; inversion H; split; reflexivity.
Qed.

Lemma unpack_26_showname (args : list pyval) (w : World Ext) (l : Loc.t) :
  flow (unpack_26 args w) = Next l ->
  nth_error args 15 = Some (PStr (Loc.showname l)).
Proof.
  unfold unpack_26.
  repeat (destruct args as [|[?|?] args]; cbn; try (intros; discriminate)).
  all: intros H; inversion H; reflexivity.
Qed.

Lemma unpack_28_showname (args : list pyval) (w : World Ext) (l : Loc.t) :
  flow (unpack_28 E args w) = Next l ->
  nth_error args 15 = Some (PStr (Loc.showname l)).
Proof.
  unfold unpack_28.
  repeat (destruct args as [|[?|?] args]; cbn; try (intros; discriminate)).
  all: unfold int_, lookup_or_raise;
    match goal with |- context [int_of_str E ?s] =>
      destruct (int_of_str E s) end;
    cbn; intros H; inversion H; reflexivity.
Qed.

(** Whatever shape accepts an IC message, its showname is the sixteenth
    field as the client sent it, or empty when there is none. *)
Lemma ms_dialect_showname (args0 : list str) (w : World Ext) (l : Loc.t) :
  flow (ms_dialect E me (map PStr args0) w) = Next l ->
  Loc.showname l = ic_showname args0.
Proof.
  unfold ms_dialect, self_client. rewrite bind_read.
  set (c := client_of w me).
  set (v1 := validate_net_cmd E c (map PStr args0) shape_pre26 true).
  set (v2 := validate_net_cmd E c (snd v1) shape_26 true).
  set (v3 := validate_net_cmd E c (snd v2) shape_28 true).
  assert (K1 : nth_error (snd v1) 15 = nth_error (map PStr args0) 15).
  { apply validate_net_cmd_slot_kept. intros t Ht. inversion Ht. }
  assert (K2 : nth_error (snd v2) 15 = nth_error (map PStr args0) 15).
  { rewrite <- K1. apply validate_net_cmd_slot_kept.
    intros t Ht. inversion Ht. reflexivity. }
  assert (K3 : nth_error (snd v3) 15 = nth_error (map PStr args0) 15).
  { rewrite <- K2. apply validate_net_cmd_slot_kept.
    intros t Ht. inversion Ht. reflexivity. }
  rewrite nth_error_map in K1, K2, K3. unfold ic_showname.
  destruct (fst v1).
  { intros H. apply unpack_pre26_showname in H as [Hs Hn].
    rewrite Hn in K1. destruct (nth_error args0 15); [discriminate|].
    exact Hs. }
  destruct (fst v2).
  { intros H. apply unpack_26_showname in H. rewrite H in K2.
    destruct (nth_error args0 15); inversion K2. reflexivity. }
  destruct (fst v3).
  { intros H. apply unpack_28_showname in H. rewrite H in K3.
    destruct (nth_error args0 15); inversion K3. reflexivity. }
  intros H. discriminate.
Qed.

(** The showname stage refuses with its notice, or assigns. *)
Lemma ms_showname_cases (sn : str) (w : World Ext) :
  ms_showname me sn w
  = mkOut Return w
      [EvSendOOC me (lit "Showname changes are forbidden in this area!")]
  \/ ms_showname me sn w
     = mkOut (Next tt) (set_client me (set_showname sn) w) [].
Proof.
  unfold ms_showname. run.
  destruct ((0 <? len sn) && negb _); [left|right]; reflexivity.
Qed.

(** *** The two parts of the checks *)

Lemma ms_prepare_split (args0 : list str) (w : World Ext) :
  ms_prepare E me args0 w
  = bind (ms_through_showname E me args0)
      (fun pa => ms_after_showname E me (fst pa) (snd pa)) w.
Proof.
  unfold ms_through_showname, ms_prepare. rewrite bind_bind.
  apply bind_ext. intros _ w1. rewrite bind_bind.
  apply bind_ext. intros p w2. rewrite bind_bind.
  apply bind_ext. intros additive w3. rewrite bind_bind.
  apply bind_ext. intros _ w4. rewrite bind_ret. reflexivity.
Qed.

Lemma net_cmd_ms_split (args0 : list str) (w : World Ext) :
  net_cmd_ms E me args0 w
  = bind (ms_through_showname E me args0)
      (fun pa =>
         bind (ms_after_showname E me (fst pa) (snd pa))
           (fun l =>
              bind (ms_spam_guard me (Loc.msg l) (Loc.cid l))
                (fun _ => ms_deliver E me l))) w.
Proof.
  unfold net_cmd_ms.
  rewrite (bind_cong _ _ _ _ _ w (ms_prepare_split args0 w)).
  apply bind_bind.
Qed.

Lemma quiet_ms_through_showname (args0 : list str) :
  quiet me (ms_through_showname E me args0).
Proof.
  unfold ms_through_showname.
  apply quiet_bind; [apply quiet_ms_preconditions|intros _].
  apply quiet_bind; [apply quiet_ms_dialect|intros p].
  apply quiet_bind; [apply quiet_ms_additive|intros additive].
  apply quiet_bind; [apply quiet_ms_showname|intros _].
  quiet_tac.
Qed.

Lemma quiet_ms_after_showname (p : Loc.t) (additive : Z) :
  quiet me (ms_after_showname E me p additive).
Proof.
  unfold ms_after_showname.
  apply quiet_bind; [apply quiet_ms_iniswap|intros _].
  apply quiet_bind; [apply quiet_ms_blankpost|intros _].
  apply quiet_bind; [apply quiet_ms_commands|intros [[text color] target]].
  apply quiet_bind; [apply quiet_ms_testimony|intros [[text' color'] args]].
  apply quiet_bind; [apply quiet_ms_field_checks|intros anim_type].
  unfold self_area.
  repeat (apply quiet_bind; [solve [quiet_tac]|intros]).
  destruct (ms_non_int_pres_only _ _ _) as [anim_type' nonint_pre].
  repeat (apply quiet_bind; [solve [quiet_tac]|intros]).
  destruct (ms_shouts _ _ _ _) as [[anim_type'' button] ding].
  apply quiet_bind; [apply quiet_ms_transform|intros msg].
  quiet_tac.
Qed.

(** A quiet block that falls through has emitted nothing. *)
Lemma quiet_Next (A : Type) (m : M Ext A) (w : World Ext) (a : A) :
  quiet me m -> flow (m w) = Next a -> emitted (m w) = [].
Proof.
  intros Hq Hf. destruct (Hq w) as [_ [He | (s & Hret & _)]];
    [exact He|congruence].
Qed.

(** When the first part falls through, the showname of the message has
    been assigned, and nothing else of any client. *)
Lemma ms_through_showname_Next (args0 : list str) (w : World Ext)
    (pa : Loc.t * Z) :
  flow (ms_through_showname E me args0 w) = Next pa ->
  Loc.showname (fst pa) = ic_showname args0
  /\ forall c,
       client_of (world (ms_through_showname E me args0 w)) c
       = client_of (set_client me (set_showname (ic_showname args0)) w) c.
Proof.
  intros H. unfold ms_through_showname in *.
  apply bind_Next in H as (u1 & F1 & H).
  rewrite (bind_world _ _ _ _ _ _ F1).
  apply bind_Next in H as (p & F2 & H).
  rewrite (bind_world _ _ _ _ _ _ F2).
  apply bind_Next in H as (additive & F3 & H).
  rewrite (bind_world _ _ _ _ _ _ F3).
  apply bind_Next in H as (u4 & F4 & H).
  rewrite (bind_world _ _ _ _ _ _ F4).
  apply ret_Next in H. subst pa. cbn [fst ret world].
  pose proof (ms_dialect_showname args0 _ p F2) as Hsn.
  split; [exact Hsn|]. intros c. rewrite Hsn in *.
  destruct (ms_showname_cases (ic_showname args0)
              (world (ms_additive E me (Loc.additive p)
                        (world (ms_dialect E me (map PStr args0)
                                  (world (ms_preconditions E me w)))))))
    as [Hr | Hn]; [rewrite Hr in F4; discriminate|].
  rewrite Hn. cbn [world]. unfold set_client, upd. cbn [client_of].
  now rewrite !keeps_ms_additive, !keeps_ms_dialect,
    !keeps_ms_preconditions.
Qed.

(** When the first part returns, no attribute of a client has been
    assigned. *)
Lemma ms_through_showname_Return (args0 : list str) (w : World Ext) :
  flow (ms_through_showname E me args0 w) = Return ->
  forall c,
    client_of (world (ms_through_showname E me args0 w)) c = client_of w c.
Proof.
  intros H c. unfold ms_through_showname in *.
  apply bind_Return_inv in H as [R | (u1 & F1 & H)];
    [rewrite (bind_Return _ _ _ _ _ R); apply keeps_ms_preconditions|].
  rewrite (bind_world _ _ _ _ _ _ F1).
  apply bind_Return_inv in H as [R | (p & F2 & H)];
    [rewrite (bind_Return _ _ _ _ _ R); cbn [world];
     now rewrite keeps_ms_dialect, keeps_ms_preconditions|].
  rewrite (bind_world _ _ _ _ _ _ F2).
  apply bind_Return_inv in H as [R | (additive & F3 & H)];
    [rewrite (bind_Return _ _ _ _ _ R); cbn [world];
     now rewrite keeps_ms_additive, keeps_ms_dialect,
       keeps_ms_preconditions|].
  rewrite (bind_world _ _ _ _ _ _ F3).
  apply bind_Return_inv in H as [R | (u4 & F4 & H)]; [|discriminate].
  rewrite (bind_Return _ _ _ _ _ R). cbn [world].
  destruct (ms_showname_cases (Loc.showname p)
              (world (ms_additive E me (Loc.additive p)
                        (world (ms_dialect E me (map PStr args0)
                                  (world (ms_preconditions E me w)))))))
    as [Hr | Hn]; [|rewrite Hn in R; discriminate].
  rewrite Hr. cbn [world].
  now rewrite keeps_ms_additive, keeps_ms_dialect, keeps_ms_preconditions.
Qed.

Lemma ms_deliver_never_returns (l : Loc.t) (w : World Ext) :
  flow (ms_deliver E me l w) <> Return.
Proof.
  destruct (ms_deliver_spec E me l w) as [[e He] | (evi & x & He & _)];
    rewrite He; discriminate.
Qed.

(** What follows the first part, when it returns: no attribute of a client
    has been assigned, and the sender got one notice at most. *)
Lemma after_showname_Return (p : Loc.t) (additive : Z) (w : World Ext) :
  let rest :=
    bind (ms_after_showname E me p additive)
      (fun l =>
         bind (ms_spam_guard me (Loc.msg l) (Loc.cid l))
           (fun _ => ms_deliver E me l)) in
  flow (rest w) = Return ->
  (forall c, client_of (world (rest w)) c = client_of w c)
  /\ (emitted (rest w) = [] \/ exists s, emitted (rest w) = [EvSendOOC me s]).
Proof.
  cbv zeta. intros H.
  apply bind_Return_inv in H as [R | (l & F & H)].
  { rewrite (bind_Return _ _ _ _ _ R). cbn [world emitted]. split.
    - intros c. apply keeps_ms_after_showname.
    - destruct (quiet_ms_after_showname p additive w)
        as [_ [He | (s & _ & He)]]; [now left|right; now exists s]. }
  rewrite (bind_world _ _ _ _ _ _ F), (bind_emitted_Next _ _ _ _ _ _ F).
  rewrite (quiet_Next _ _ _ _ (quiet_ms_after_showname p additive) F).
  cbn [app].
  apply bind_Return_inv in H as [R | (u & G & H)];
    [|now apply ms_deliver_never_returns in H].
  rewrite (bind_Return _ _ _ _ _ R). cbn [world emitted].
  rewrite ms_spam_guard_world. split.
  - intros c. apply keeps_ms_after_showname.
  - destruct (quiet_ms_spam_guard me (Loc.msg l) (Loc.cid l)
                (world (ms_after_showname E me p additive w)))
      as [_ [He | (s & _ & He)]]; [now left|right; now exists s].
Qed.

(** A dropped message: where the drop came, and what it leaves. *)
Lemma net_cmd_ms_Return (args0 : list str) (w : World Ext) :
  flow (net_cmd_ms E me args0 w) = Return ->
  (emitted (net_cmd_ms E me args0 w) = []
   \/ exists s, emitted (net_cmd_ms E me args0 w) = [EvSendOOC me s])
  /\ ((flow (ms_through_showname E me args0 w) = Return
       /\ forall c,
            client_of (world (net_cmd_ms E me args0 w)) c = client_of w c)
      \/ (exists pa,
            flow (ms_through_showname E me args0 w) = Next pa
            /\ forall c,
                 client_of (world (net_cmd_ms E me args0 w)) c
                 = client_of
                     (set_client me (set_showname (ic_showname args0)) w)
                     c)).
Proof.
  rewrite net_cmd_ms_split. intros H.
  apply bind_Return_inv in H as [R | (pa & F & H)].
  - rewrite (bind_Return _ _ _ _ _ R). cbn [world emitted]. split.
    + destruct (quiet_ms_through_showname args0 w)
        as [_ [He | (s & _ & He)]]; [now left|right; now exists s].
    + left. split; [exact R|]. now apply ms_through_showname_Return.
  - rewrite (bind_world _ _ _ _ _ _ F), (bind_emitted_Next _ _ _ _ _ _ F).
    rewrite (quiet_Next _ _ _ _ (quiet_ms_through_showname args0) F).
    cbn [app].
    destruct (after_showname_Return (fst pa) (snd pa) _ H) as [Hk He].
    split; [exact He|]. right. exists pa. split; [exact F|].
    intros c. rewrite Hk.
    now apply (ms_through_showname_Next args0 w pa).
Qed.

(** The notice about the showname comes after the showname was assigned. *)
Lemma net_cmd_ms_showname_notice (args0 : list str) (w : World Ext) :
  In (showname_notice me) (emitted (net_cmd_ms E me args0 w)) ->
  flow (net_cmd_ms E me args0 w) = Return
  /\ emitted (net_cmd_ms E me args0 w) = [showname_notice me]
  /\ 15 < len (ic_showname args0)
  /\ forall c,
       client_of (world (net_cmd_ms E me args0 w)) c
       = client_of (set_client me (set_showname (ic_showname args0)) w) c.
Proof.
  rewrite net_cmd_ms_split. intros H.
  apply bind_emitted in H as [H | (pa & F & H)];
    [now apply never_ms_through_showname in H|].
  destruct (ms_through_showname_Next args0 w pa F) as [Hsn Hclients].
  apply bind_emitted in H as [H | (l & _ & H)];
    [|now apply never_after_the_checks in H].
  pose proof (ms_after_showname_notice E me _ _ _ H) as Hlen.
  rewrite Hsn in Hlen.
  destruct (quiet_ms_after_showname (fst pa) (snd pa)
              (world (ms_through_showname E me args0 w)))
    as [_ [He | (s & R & He)]]; [rewrite He in H; destruct H|].
  rewrite He in H. destruct H as [H | []].
  rewrite (bind_flow _ _ _ _ _ _ F), (bind_world _ _ _ _ _ _ F),
    (bind_emitted_Next _ _ _ _ _ _ F).
  rewrite (quiet_Next _ _ _ _ (quiet_ms_through_showname args0) F).
  rewrite (bind_Return _ _ _ _ _ R). cbn [flow world emitted app].
  rewrite He, H. repeat split; try assumption.
  intros c. rewrite keeps_ms_after_showname. apply Hclients.
Qed.

End DropMore.

(** C1, and where the code departs from it: an IC message is dropped when
    [net_cmd_ms] returns early.  The claim has a dropped message leave the
    sender's showname as it was.  The code assigns the showname of the
    message (its sixteenth field) at line 486 and checks its length at
    line 609 only: when the notice "Your IC showname is way too long!" is
    sent, the handler returns with that one notice, the showname is indeed
    longer than 15 characters, and it is now the showname of the sender.
    More generally a dropped message sends at most one private notice to the
    sender and changes no attribute of another client; a drop that comes
    before the assignment changes no attribute of the sender either, and
    every later drop leaves the sender with the showname of the message and
    otherwise as before.  A message of a client that is not authenticated
    or that is muted is dropped with no change at all. *)
Theorem C1_dropped_ic_message :
  forall (Ext : Type) (E : Env Ext) (me : nat) (args0 : list str)
         (w : World Ext),
    let o := net_cmd_ms E me args0 w in
    let before := client_of w me in
    (In (showname_notice me) (emitted o) ->
     flow o = Return
     /\ emitted o = [showname_notice me]
     /\ 15 < len (ic_showname args0)
     /\ client_of (world o) me = set_showname (ic_showname args0) before
     /\ forall c, c <> me -> client_of (world o) c = client_of w c)
    /\ (flow o = Return ->
        (emitted o = [] \/ exists s, emitted o = [EvSendOOC me s])
        /\ (forall c, c <> me -> client_of (world o) c = client_of w c)
        /\ ((flow (ms_through_showname E me args0 w) = Return
             /\ client_of (world o) me = before)
            \/ ((exists pa,
                   flow (ms_through_showname E me args0 w) = Next pa)
                /\ client_of (world o) me
                   = set_showname (ic_showname args0) before)))
    /\ (is_checked before = false -> o = mkOut Return w [])
    /\ (is_checked before = true ->
        is_muted before = true ->
        o = mkOut Return w [EvSendOOC me (lit "You are muted by a moderator.")]).
Proof.
  intros Ext E me args0 w o before. subst o before.
  assert (Hme : client_of (set_client me (set_showname (ic_showname args0)) w)
                  me
                = set_showname (ic_showname args0) (client_of w me)).
  { unfold set_client, upd. cbn [client_of]. now rewrite Nat.eqb_refl. }
  assert (Hother : forall c, c <> me ->
            client_of (set_client me (set_showname (ic_showname args0)) w) c
            = client_of w c).
  { intros c Hc. unfold set_client, upd. cbn [client_of].
    apply Nat.eqb_neq in Hc. now rewrite Hc. }
  split; [|split; [|split]].
  - intros H.
    destruct (net_cmd_ms_showname_notice E me args0 w H)
      as (Hf & He & Hlen & Hc).
    repeat split; try assumption.
    + now rewrite Hc.
    + intros c Hne. rewrite Hc. now apply Hother.
  - intros H.
    destruct (net_cmd_ms_Return E me args0 w H)
      as [He [[R Hc] | (pa & F & Hc)]].
    + split; [exact He|]. split; [intros c _; apply Hc|].
      left. split; [exact R|apply Hc].
    + split; [exact He|].
      split; [intros c Hne; rewrite Hc; now apply Hother|].
      right. split; [now exists pa|]. now rewrite Hc.
  - intros Hc. unfold net_cmd_ms, ms_prepare, ms_preconditions. run.
    rewrite Hc. reflexivity.
  - intros Hc Hm. unfold net_cmd_ms, ms_prepare, ms_preconditions. run.
    rewrite Hc, Hm. reflexivity.
Qed.

(** Phoenix, whose showname is "Old", sends a message with a showname of 18
    characters: the message is refused for that showname, and the showname
    is his from then on. *)
Lemma C1_dropped_ic_message_witness :
  In (showname_notice 0%nat)
     (emitted (net_cmd_ms Demo.env 0%nat
                 (Demo.ic "chat" "Hello" "Phoenix Wright Esq") Demo.w0))
  /\ showname (client_of Demo.w0 0%nat) = lit "Old"
  /\ flow (net_cmd_ms Demo.env 0%nat
             (Demo.ic "chat" "Hello" "Phoenix Wright Esq") Demo.w0)
     = Return
  /\ showname
       (client_of
          (world (net_cmd_ms Demo.env 0%nat
                    (Demo.ic "chat" "Hello" "Phoenix Wright Esq") Demo.w0))
          0%nat)
     = lit "Phoenix Wright Esq".
Proof.
  assert (H : In (showname_notice 0%nat)
                (emitted (net_cmd_ms Demo.env 0%nat
                            (Demo.ic "chat" "Hello" "Phoenix Wright Esq")
                            Demo.w0)))
    by (vm_compute; left; reflexivity).
  destruct (C1_dropped_ic_message unit Demo.env 0%nat
              (Demo.ic "chat" "Hello" "Phoenix Wright Esq") Demo.w0)
    as [Hlong _].
  destruct (Hlong H) as (Hf & _ & _ & Hme & _).
  split; [exact H|]. split; [reflexivity|]. split; [exact Hf|].
  rewrite Hme. reflexivity.
Defined.

(* ===================================================================== *)
(** * Further properties of the protocol *)
(* ===================================================================== *)

(** ** [dezalgo] *)

Section DezalgoFacts.

Context {Ext : Type} (E : Env Ext).

Lemma forallb_rev (A : Type) (f : A -> bool) (l : list A) :
  forallb f (rev l) = forallb f l.
Proof.
  induction l as [|a l IH]; [reflexivity|].
  cbn [rev forallb]. rewrite forallb_app, IH. cbn [forallb].
  rewrite andb_true_r. apply andb_comm.
Qed.

Lemma flush_run_scrubbed (tol : nat) (run : str) :
  forallb is_zalgo run = true ->
  remove_chars is_zalgo (flush_run tol run) = [].
Proof.
  intros H. unfold flush_run. destruct (Nat.leb tol (List.length run));
    [reflexivity|].
  unfold remove_chars. rewrite <- forallb_rev in H.
  induction (rev run) as [|c r IH]; [reflexivity|].
  cbn [forallb] in H. apply andb_true_iff in H as [Hc Hr].
  cbn [filter]. rewrite Hc. cbn [negb]. now apply IH.
Qed.

Lemma dezalgo_from_keeps (tol : nat) (input run : str) :
  forallb is_zalgo run = true ->
  remove_chars is_zalgo (dezalgo_from tol run input)
  = remove_chars is_zalgo input.
Proof.
  revert run. induction input as [|c rest IH]; intros run Hrun;
    cbn [dezalgo_from].
  - now apply flush_run_scrubbed.
  - destruct (is_zalgo c) eqn:Hc.
    + unfold remove_chars at 2. cbn [filter]. rewrite Hc. cbn [negb].
      apply IH. cbn [forallb]. now rewrite Hc, Hrun.
    + unfold remove_chars. rewrite filter_app.
      fold (remove_chars is_zalgo (flush_run tol run)).
      rewrite (flush_run_scrubbed tol run Hrun). cbn [app filter].
      rewrite Hc. cbn [negb]. f_equal. now apply (IH []).
Qed.

Lemma runs_below_scrubbed (tol n : nat) (z s : str) :
  forallb is_zalgo z = true ->
  (n + List.length z < tol)%nat ->
  runs_below tol n (z ++ s) = runs_below tol (n + List.length z) s.
Proof.
  revert n. induction z as [|c z IH]; intros n Hz Hlt.
  - cbn [app List.length]. now rewrite Nat.add_0_r.
  - cbn [forallb] in Hz. apply andb_true_iff in Hz as [Hc Hz].
    cbn [app runs_below List.length] in *. rewrite Hc.
    assert (Hn : Nat.ltb (S n) tol = true) by (apply Nat.ltb_lt; lia).
    rewrite Hn. cbn [andb]. rewrite IH by (assumption || lia).
    f_equal. lia.
Qed.

Lemma runs_below_flush (tol : nat) (run s : str) (c : N) :
  forallb is_zalgo run = true ->
  is_zalgo c = false ->
  runs_below tol 0 (flush_run tol run ++ c :: s) = runs_below tol 0 s.
Proof.
  intros Hrun Hc. unfold flush_run.
  destruct (Nat.leb tol (List.length run)) eqn:Hle.
  - cbn [app runs_below]. now rewrite Hc.
  - apply Nat.leb_gt in Hle.
    rewrite runs_below_scrubbed
      by (rewrite ?forallb_rev, ?length_rev; assumption || lia).
    cbn [runs_below]. now rewrite Hc.
Qed.

Lemma dezalgo_from_runs_below (tol : nat) (input run : str) :
  forallb is_zalgo run = true ->
  runs_below tol 0 (dezalgo_from tol run input) = true.
Proof.
  revert run. induction input as [|c rest IH]; intros run Hrun;
    cbn [dezalgo_from].
  - unfold flush_run. destruct (Nat.leb tol (List.length run)) eqn:Hle;
      [reflexivity|].
    apply Nat.leb_gt in Hle.
    rewrite <- (app_nil_r (rev run)).
    rewrite runs_below_scrubbed
      by (rewrite ?forallb_rev, ?length_rev; assumption || lia).
    reflexivity.
  - destruct (is_zalgo c) eqn:Hc.
    + apply IH. cbn [forallb]. now rewrite Hc, Hrun.
    + rewrite (runs_below_flush tol run _ c Hrun Hc). now apply (IH []).
Qed.

Lemma dezalgo_from_length (tol : nat) (input run : str) :
  (List.length (dezalgo_from tol run input)
   <= List.length run + List.length input)%nat.
Proof.
  assert (Hflush : forall r : str,
            (List.length (flush_run tol r) <= List.length r)%nat).
  { intros r. unfold flush_run. destruct (Nat.leb tol (List.length r));
      [cbn; lia|rewrite length_rev; lia]. }
  revert run. induction input as [|c rest IH]; intros run;
    cbn [dezalgo_from].
  - specialize (Hflush run). cbn [List.length]. lia.
  - destruct (is_zalgo c).
    + specialize (IH (c :: run)). cbn [List.length] in *. lia.
    + rewrite length_app. specialize (IH []). specialize (Hflush run).
      cbn [List.length] in *. lia.
Qed.

(** What [runs_below] says of a run inside the text. *)
Lemma runs_below_skip (tol n : nat) (pre s : str) :
  runs_below tol n (pre ++ s) = true ->
  exists m, runs_below tol m s = true.
Proof.
  revert n. induction pre as [|c pre IH]; intros n H.
  - now exists n.
  - cbn [app runs_below] in H. destruct (is_zalgo c).
    + apply andb_true_iff in H as [_ H]. now apply (IH (S n)).
    + now apply (IH O).
Qed.

Lemma runs_below_run (tol n : nat) (r s : str) :
  runs_below tol n (r ++ s) = true ->
  forallb is_zalgo r = true ->
  r <> [] ->
  (n + List.length r < tol)%nat.
Proof.
  revert n. induction r as [|c r IH]; intros n H Hr Hne; [congruence|].
  cbn [forallb] in Hr. apply andb_true_iff in Hr as [Hc Hr].
  cbn [app runs_below] in H. rewrite Hc in H.
  apply andb_true_iff in H as [Hn H]. apply Nat.ltb_lt in Hn.
  destruct r as [|d r].
  - cbn [List.length]. lia.
  - specialize (IH (S n) H Hr ltac:(discriminate)).
    cbn [List.length] in *. lia.
Qed.

(** A text whose runs are all short is left as it is. *)
Lemma dezalgo_from_fixed (tol : nat) (s run : str) :
  forallb is_zalgo run = true ->
  ((List.length run < tol)%nat \/ run = []) ->
  runs_below tol (List.length run) s = true ->
  dezalgo_from tol run s = rev run ++ s.
Proof.
  revert run. induction s as [|c s IH]; intros run Hrun Hlen H;
    cbn [dezalgo_from].
  - rewrite app_nil_r. unfold flush_run.
    destruct Hlen as [Hlt | ->].
    + apply Nat.leb_gt in Hlt. now rewrite Hlt.
    + now destruct (Nat.leb tol (List.length [])).
  - cbn [runs_below] in H. destruct (is_zalgo c) eqn:Hc.
    + apply andb_true_iff in H as [Hn H]. apply Nat.ltb_lt in Hn.
      rewrite IH.
      * cbn [rev]. now rewrite <- app_assoc.
      * cbn [forallb]. now rewrite Hc, Hrun.
      * left. cbn [List.length]. lia.
      * exact H.
    + rewrite (IH [] eq_refl (or_intror eq_refl) H). cbn [rev app].
      f_equal. unfold flush_run. destruct Hlen as [Hlt | ->].
      * apply Nat.leb_gt in Hlt. now rewrite Hlt.
      * now destruct (Nat.leb tol (List.length [])).
Qed.

End DezalgoFacts.

(** X1: [dezalgo] removes scrubbed characters only: the characters outside
    the scrubbed blocks come out all, and in their order, and the result is
    never longer than the text. *)
Theorem X1_dezalgo_keeps_the_other_characters :
  forall (Ext : Type) (E : Env Ext) (s : str),
    remove_chars is_zalgo (dezalgo E s) = remove_chars is_zalgo s
    /\ len (dezalgo E s) <= len s.
Proof.
  intros Ext E s. unfold dezalgo. split; [now apply dezalgo_from_keeps|].
  pose proof (dezalgo_from_length (zalgo_tolerance E) s []) as H.
  unfold len. cbn [List.length] in H. lia.
Qed.

(** X2: after [dezalgo], every run of consecutive scrubbed characters is
    shorter than the tolerance of the server. *)
Theorem X2_dezalgo_leaves_short_runs :
  forall (Ext : Type) (E : Env Ext) (s before run after : str),
    dezalgo E s = before ++ run ++ after ->
    forallb is_zalgo run = true ->
    run <> [] ->
    (List.length run < zalgo_tolerance E)%nat.
Proof.
  intros Ext E s before run after Heq Hrun Hne.
  pose proof (dezalgo_from_runs_below (zalgo_tolerance E) s [] eq_refl) as H.
  fold (dezalgo E s) in H. rewrite Heq in H.
  apply runs_below_skip in H as [m H].
  pose proof (runs_below_run _ _ _ _ H Hrun Hne). lia.
Qed.

(** Three combining marks in a row are removed under a tolerance of 3; the
    two that are left form the only run. *)
Lemma X2_dezalgo_leaves_short_runs_witness :
  dezalgo Demo.env [97; 768; 769; 770; 98; 771; 772; 99]%N
  = [97; 98]%N ++ [771; 772]%N ++ [99]%N
  /\ (List.length [771; 772]%N < zalgo_tolerance Demo.env)%nat.
Proof.
  split; [reflexivity|].
  apply (X2_dezalgo_leaves_short_runs unit Demo.env
           [97; 768; 769; 770; 98; 771; 772; 99]%N [97; 98]%N [771; 772]%N
           [99]%N); [reflexivity | reflexivity | discriminate].
Defined.

(** X3: [dezalgo] is idempotent. *)
Theorem X3_dezalgo_is_idempotent :
  forall (Ext : Type) (E : Env Ext) (s : str),
    dezalgo E (dezalgo E s) = dezalgo E s.
Proof.
  intros Ext E s. unfold dezalgo at 1.
  apply (dezalgo_from_fixed (zalgo_tolerance E) (dezalgo E s) [] eq_refl
           (or_intror eq_refl)).
  apply (dezalgo_from_runs_below (zalgo_tolerance E) s [] eq_refl).
Qed.

(** ** Frames: [get_messages] *)

Module FrameFacts.

Lemma startswith_app (s t p : str) :
  startswith s p = true -> startswith (s ++ t) p = true.
Proof.
  revert s. induction p as [|c p IH]; intros s H.
  - now destruct (s ++ t).
  - destruct s as [|d s]; [discriminate|]. cbn in *.
    apply andb_true_iff in H as [H1 H2]. rewrite H1. now apply IH.
Qed.

Lemma startswith_prefix (p t : str) : startswith (p ++ t) p = true.
Proof.
  induction p as [|c p IH]; [now destruct t|]. cbn. now rewrite N.eqb_refl.
Qed.

Lemma startswith_nil (s : str) : startswith s [] = true.
Proof. now destruct s. Qed.

Lemma startswith_skipn (s p : str) :
  startswith s p = true -> s = p ++ skipn (List.length p) s.
Proof.
  revert s. induction p as [|c p IH]; intros s H; [reflexivity|].
  destruct s as [|d s]; [discriminate|]. cbn in *.
  apply andb_true_iff in H as [H1 H2]. apply N.eqb_eq in H1. subst.
  f_equal. now apply IH.
Qed.

Lemma contains_eq (sub s : str) :
  contains sub s =
  startswith s sub || match s with [] => false | _ :: s' => contains sub s' end.
Proof. destruct s; reflexivity. Qed.

(** The text is found exactly when it can be split at. *)
Lemma contains_split_once (sep s : str) :
  contains sep s = false <-> split_once sep s = None.
Proof.
  induction s as [|c s IH]; rewrite contains_eq, PyStrFacts.split_once_eq.
  - destruct (startswith [] sep); cbn; split; intros H; congruence.
  - destruct (startswith (c :: s) sep); cbn [orb].
    + split; intros H; discriminate.
    + rewrite IH. destruct (split_once sep s) as [[a b]|]; split; intros H;
        congruence.
Qed.

(** What is split off: the text before the leftmost separator. *)
Lemma split_once_spec (sep s a b : str) :
  sep <> [] ->
  split_once sep s = Some (a, b) ->
  s = a ++ sep ++ b /\ contains sep a = false.
Proof.
  intros Hsep. revert a b.
  induction s as [|c s IH]; intros a b; rewrite PyStrFacts.split_once_eq.
  - destruct sep as [|x sep]; [congruence|]. cbn. discriminate.
  - destruct (startswith (c :: s) sep) eqn:Hs.
    + intros H. inversion H; subst. split.
      * now apply startswith_skipn.
      * destruct sep; [congruence|reflexivity].
    + destruct (split_once sep s) as [[a' b']|] eqn:Hso;
        [|intros H; discriminate].
      intros H. inversion H; subst.
      destruct (IH _ _ eq_refl) as [Heq Hno]. split.
      * cbn. now rewrite <- Heq.
      * rewrite contains_eq, Hno, orb_false_r.
        destruct (startswith (c :: a') sep) eqn:Hp; [|reflexivity].
        apply (startswith_app _ (sep ++ b)) in Hp.
        cbn [app] in Hp. rewrite <- Heq in Hp. congruence.
Qed.

(** A message without terminator, followed by the terminator, is what is
    split off. *)
Lemma split_once_framed (m rest : str) :
  contains (lit "#%") m = false ->
  split_once (lit "#%") (m ++ lit "#%" ++ rest) = Some (m, rest).
Proof.
  induction m as [|c m IH]; intros Hm.
  - rewrite PyStrFacts.split_once_eq. cbn [app].
    change (35%N :: 37%N :: rest) with (lit "#%" ++ rest).
    now rewrite startswith_prefix.
  - rewrite contains_eq in Hm. apply orb_false_iff in Hm as [Hs Hm].
    rewrite PyStrFacts.split_once_eq.
    assert (Hs' : startswith ((c :: m) ++ lit "#%" ++ rest) (lit "#%")
                  = false).
    { cbn [app startswith lit map list_ascii_of_string N_of_ascii
           N_of_digits] in Hs |- *.
      destruct (N.eqb _ c); [cbn [andb] in *|reflexivity].
      destruct m as [|d m]; [reflexivity|].
      cbn [app startswith] in *. rewrite startswith_nil in Hs.
      destruct (N.eqb _ d); [discriminate|reflexivity]. }
    rewrite Hs'. cbn [app]. cbn [app] in IH. now rewrite (IH Hm).
Qed.

Lemma drain_messages_spec (fuel : nat) (buffer : str) :
  (List.length buffer < fuel)%nat ->
  let r := drain_messages fuel buffer in
  buffer = framed (fst r) ++ snd r
  /\ Forall (fun m => contains (lit "#%") m = false) (fst r)
  /\ contains (lit "#%") (snd r) = false.
Proof.
  revert buffer. induction fuel as [|fuel IH]; intros buffer Hlt; [lia|].
  cbn [drain_messages]. unfold next_message.
  destruct (split_once (lit "#%") buffer) as [[msg rest]|] eqn:Hnext.
  - pose proof (PyStrFacts.split_once_shrinks _ _ _ _ Hnext) as Hlen.
    cbn in Hlen.
    apply split_once_spec in Hnext as [Heq Hno]; [|discriminate].
    destruct (IH rest ltac:(lia)) as (H1 & H2 & H3).
    cbn [fst snd framed flat_map]. repeat split.
    + rewrite Heq at 1. rewrite <- !app_assoc. f_equal. f_equal. exact H1.
    + constructor; assumption.
    + exact H3.
  - cbn [fst snd framed flat_map app]. repeat split.
    + constructor.
    + now apply contains_split_once.
Qed.

Lemma framed_length (msgs : list str) :
  (List.length msgs <= List.length (framed msgs))%nat.
Proof.
  induction msgs as [|m msgs IH]; [cbn; lia|].
  cbn [framed flat_map]. rewrite !length_app. cbn [List.length lit].
  fold (framed msgs). cbn. lia.
Qed.

Lemma drain_messages_framed (fuel : nat) (msgs : list str) (rest : str) :
  (List.length msgs < fuel)%nat ->
  Forall (fun m => contains (lit "#%") m = false) msgs ->
  contains (lit "#%") rest = false ->
  drain_messages fuel (framed msgs ++ rest) = (msgs, rest).
Proof.
  revert fuel. induction msgs as [|m msgs IH]; intros fuel Hlt Hall Hrest.
  - destruct fuel as [|fuel]; [lia|]. cbn [framed flat_map app].
    cbn [drain_messages]. unfold next_message.
    apply contains_split_once in Hrest. now rewrite Hrest.
  - destruct fuel as [|fuel]; [cbn in Hlt; lia|].
    inversion Hall as [|? ? Hm Hms]; subst.
    cbn [framed flat_map]. fold (framed msgs).
    cbn [drain_messages]. unfold next_message.
    rewrite <- !app_assoc. rewrite (split_once_framed m _ Hm).
    rewrite (IH fuel); [reflexivity| cbn in Hlt; lia | assumption
                       | assumption].
Qed.

End FrameFacts.

(** X4: [get_messages] loses nothing.  The messages it yields, each with
    the terminator put back, followed by what it leaves in the buffer, are
    the buffer it started from; no message yielded holds a terminator, and
    the buffer it leaves holds none. *)
Theorem X4_get_messages_is_lossless :
  forall (buffer : str) (msgs : list str) (rest : str),
    get_messages buffer = inr (msgs, rest) ->
    buffer = framed msgs ++ rest
    /\ Forall (fun m => contains (lit "#%") m = false) msgs
    /\ contains (lit "#%") rest = false.
Proof.
  intros buffer msgs rest. unfold get_messages.
  destruct (long_header buffer); [discriminate|].
  intros H.
  assert (Hr : drain_messages (S (List.length buffer)) buffer = (msgs, rest))
    by congruence.
  pose proof (FrameFacts.drain_messages_spec (S (List.length buffer)) buffer
                ltac:(lia)) as Hspec.
  cbv zeta in Hspec. rewrite Hr in Hspec. exact Hspec.
Qed.

Lemma X4_get_messages_is_lossless_witness :
  lit "HI#abc#%CH#%ID#x" = framed [lit "HI#abc"; lit "CH"] ++ lit "ID#x".
Proof.
  exact (proj1 (X4_get_messages_is_lossless (lit "HI#abc#%CH#%ID#x")
                  [lit "HI#abc"; lit "CH"] (lit "ID#x") eq_refl)).
Defined.

(** X5: framing is undone by [get_messages].  Messages that hold no
    terminator, sent one after the other with their terminators and
    followed by an incomplete message, are yielded as they were sent, and
    the incomplete message is left in the buffer; this needs the buffer not
    to be a long header. *)
Theorem X5_get_messages_yields_what_was_framed :
  forall (msgs : list str) (rest : str),
    Forall (fun m => contains (lit "#%") m = false) msgs ->
    contains (lit "#%") rest = false ->
    long_header (framed msgs ++ rest) = false ->
    get_messages (framed msgs ++ rest)
    = inr (msgs, rest).
Proof.
  intros msgs rest Hall Hrest Hlong. unfold get_messages. rewrite Hlong.
  f_equal. apply FrameFacts.drain_messages_framed; try assumption.
  pose proof (FrameFacts.framed_length msgs) as Hlen.
  rewrite length_app. lia.
Qed.

Lemma X5_get_messages_yields_what_was_framed_witness :
  get_messages (lit "HI#abc#%CH#%ID#x")
  = inr ([lit "HI#abc"; lit "CH"], lit "ID#x").
Proof.
  apply (X5_get_messages_yields_what_was_framed
           [lit "HI#abc"; lit "CH"] (lit "ID#x")).
  - repeat constructor.
  - reflexivity.
  - reflexivity.
Defined.

(** ** More on [validate_net_cmd] *)

Section ValidatorMore.

Context {Ext : Type} (E : Env Ext).

Lemma of_Z_nonempty (z : Z) : (len (of_Z z) =? 0) = false.
Proof.
  apply Z.eqb_neq. unfold len, of_Z, lit.
  rewrite length_map.
  destruct (Z.to_int z) as [d|d]; cbn; destruct d; cbn; lia.
Qed.

Lemma validate_args_length (args : list pyval) (types : list ArgType) :
  List.length (snd (validate_args E args types)) = List.length args.
Proof.
  revert types. induction args as [|arg args IH]; intros [|t types];
    try reflexivity.
  cbn [validate_args].
  destruct ((len (py_str arg) =? 0) && negb (ArgType_eqb t STR_OR_EMPTY));
    [reflexivity|].
  destruct (ArgType_eqb t INT); [destruct (py_int E arg)|];
    cbn [snd List.length]; try rewrite IH; reflexivity.
Qed.

(** An [INT] slot of accepted arguments holds the integer its argument
    stands for. *)
Lemma validate_args_slot_int (args : list pyval) (types : list ArgType)
    (i : nat) (v : pyval) :
  fst (validate_args E args types) = true ->
  nth_error types i = Some INT ->
  nth_error args i = Some v ->
  exists n, py_int E v = Some n
            /\ nth_error (snd (validate_args E args types)) i = Some (PInt n).
Proof.
  revert types i. induction args as [|arg args IH]; intros [|t types] i;
    try (destruct i; discriminate).
  cbn [validate_args].
  destruct ((len (py_str arg) =? 0) && negb (ArgType_eqb t STR_OR_EMPTY));
    [intros; discriminate|].
  destruct i as [|i]; cbn [nth_error].
  - intros Hok Ht Hv. inversion Ht; subst. inversion Hv; subst.
    cbn [ArgType_eqb ArgType_value enum_value_eqb] in *.
    rewrite Z.eqb_refl in *.
    destruct (py_int E v) as [n|]; [|discriminate].
    exists n. split; reflexivity.
  - destruct (ArgType_eqb t INT); [destruct (py_int E arg)|];
      cbn [fst snd nth_error]; try (intros; discriminate); apply IH.
Qed.

(** Accepted arguments are accepted again, and are left as they are. *)
Lemma validate_args_again (args : list pyval) (types : list ArgType) :
  fst (validate_args E args types) = true ->
  validate_args E (snd (validate_args E args types)) types
  = (true, snd (validate_args E args types)).
Proof.
  revert types. induction args as [|arg args IH]; intros [|t types];
    try reflexivity.
  cbn [validate_args].
  destruct ((len (py_str arg) =? 0) && negb (ArgType_eqb t STR_OR_EMPTY))
    eqn:Hempty; [intros; discriminate|].
  destruct (ArgType_eqb t INT) eqn:Hint.
  - destruct (py_int E arg) as [n|]; [|intros; discriminate].
    cbn [fst snd]. intros Hok. cbn [validate_args py_str py_int].
    rewrite of_Z_nonempty, Hint. cbn [andb]. now rewrite (IH _ Hok).
  - cbn [fst snd]. intros Hok. cbn [validate_args].
    rewrite Hempty, Hint. now rewrite (IH _ Hok).
Qed.

End ValidatorMore.

(** X6: what acceptance by [validate_net_cmd] guarantees.  There are as
    many arguments as declared types; with [needs_auth] the client has a
    character; every argument whose type is not [STR_OR_EMPTY] is not
    empty; a slot declared [INT] holds the integer that its argument
    denotes, and every other slot holds the argument as it came. *)
Theorem X6_validate_net_cmd_accepts_conforming_arguments :
  forall (Ext : Type) (E : Env Ext) (c : Client) (args : list pyval)
         (types : list ArgType) (needs_auth : bool),
    fst (validate_net_cmd E c args types needs_auth) = true ->
    let out := snd (validate_net_cmd E c args types needs_auth) in
    List.length args = List.length types
    /\ List.length out = List.length types
    /\ (needs_auth = true -> char_id c <> -1)
    /\ forall (i : nat) (t : ArgType) (v : pyval),
         nth_error types i = Some t ->
         nth_error args i = Some v ->
         (ArgType_eqb t STR_OR_EMPTY = false -> py_str v <> [])
         /\ (t = INT ->
             exists n, py_int E v = Some n /\ nth_error out i = Some (PInt n))
         /\ (t <> INT -> nth_error out i = Some v).
Proof.
  intros Ext E c args types needs_auth. unfold validate_net_cmd.
  destruct (needs_auth && (char_id c =? -1)) eqn:Hauth;
    [intros; discriminate|].
  destruct (Nat.eqb (List.length args) (List.length types)) eqn:Hlen;
    cbn [negb]; [|intros; discriminate].
  apply Nat.eqb_eq in Hlen. intros Hok. cbv zeta.
  split; [exact Hlen|]. split; [now rewrite validate_args_length|].
  split.
  { intros ->. cbn [andb] in Hauth. now apply Z.eqb_neq. }
  intros i t v Ht Hv. split; [|split].
  - intros Hne Hempty.
    apply (validate_args_slot_nonempty E args types i t v Hok Ht Hne Hv).
    now rewrite Hempty.
  - intros ->. now apply validate_args_slot_int.
  - intros Hni. rewrite validate_args_slot_kept; [exact Hv|].
    intros u Hu. rewrite Ht in Hu. inversion Hu; subst.
    destruct u; try reflexivity. congruence.
Qed.

(** The penalty command of a player: two numerals become two integers. *)
Lemma X6_validate_net_cmd_accepts_conforming_arguments_witness :
  snd (validate_net_cmd Demo.env Demo.phoenix [PStr (lit "1"); PStr (lit "7")]
         [INT; INT] true)
  = [PInt 1; PInt 7]
  /\ char_id Demo.phoenix <> -1.
Proof.
  destruct (X6_validate_net_cmd_accepts_conforming_arguments unit Demo.env
              Demo.phoenix [PStr (lit "1"); PStr (lit "7")] [INT; INT] true
              eq_refl) as (_ & _ & Hchar & _).
  split; [reflexivity | exact (Hchar eq_refl)].
Defined.

(** X7: validation is idempotent on what it accepts.  The list that an
    accepted validation leaves, with its integer slots converted in place,
    is accepted again against the same types and is left unchanged. *)
Theorem X7_validate_net_cmd_is_idempotent :
  forall (Ext : Type) (E : Env Ext) (c : Client) (args : list pyval)
         (types : list ArgType) (needs_auth : bool),
    fst (validate_net_cmd E c args types needs_auth) = true ->
    validate_net_cmd E c (snd (validate_net_cmd E c args types needs_auth))
      types needs_auth
    = (true, snd (validate_net_cmd E c args types needs_auth)).
Proof.
  intros Ext E c args types needs_auth. unfold validate_net_cmd.
  destruct (needs_auth && (char_id c =? -1)) eqn:Hauth;
    [intros; discriminate|].
  destruct (Nat.eqb (List.length args) (List.length types)) eqn:Hlen;
    cbn [negb]; [|intros; discriminate].
  intros Hok. rewrite validate_args_length, Hlen. cbn [negb].
  now apply validate_args_again.
Qed.

Lemma X7_validate_net_cmd_is_idempotent_witness :
  validate_net_cmd Demo.env Demo.phoenix [PInt 1; PInt 7] [INT; INT] true
  = (true, [PInt 1; PInt 7]).
Proof.
  exact (X7_validate_net_cmd_is_idempotent unit Demo.env Demo.phoenix
           [PStr (lit "1"); PStr (lit "7")] [INT; INT] true eq_refl).
Defined.

(** ** More on [data_received] *)

Section ReceiveMore.

Context {Ext : Type} (E : Env Ext).

(** What the loop leaves in the buffer is the end of what it was given. *)
Lemma receive_loop_suffix (fuel : nat) (me : nat) (ipid : Z) (buffer : str)
    (w : World Ext) :
  exists before,
    buffer = before ++ fst (receive_loop E fuel me ipid buffer w).
Proof.
  revert buffer w. induction fuel as [|fuel IH]; intros buffer w;
    [now exists []|].
  cbn [receive_loop].
  destruct (next_message buffer) as [[msg rest]|] eqn:Hnext;
    [|now exists []].
  apply FrameFacts.split_once_spec in Hnext as [Heq _]; [|discriminate].
  destruct (flow (handle_message E me ipid msg w)); cbn [fst].
  - destruct (IH rest (world (handle_message E me ipid msg w)))
      as [before Hb].
    exists (msg ++ lit "#%" ++ before). rewrite Heq at 1.
    rewrite <- !app_assoc. now rewrite Hb at 1.
  - destruct (IH rest (world (handle_message E me ipid msg w)))
      as [before Hb].
    exists (msg ++ lit "#%" ++ before). rewrite Heq at 1.
    rewrite <- !app_assoc. now rewrite Hb at 1.
  - exists (msg ++ lit "#%"). now rewrite <- app_assoc.
Qed.

(** One turn of the loop on a buffer that starts with a whole message. *)
Lemma receive_loop_step (me : nat) (ipid : Z) (msg rest : str)
    (w : World Ext) :
  contains (lit "#%") msg = false ->
  receive_loop E (S (List.length (msg ++ lit "#%" ++ rest))) me ipid
    (msg ++ lit "#%" ++ rest) w
  = let h := handle_message E me ipid msg w in
    match flow h with
    | Raise e => (rest, mkOut (Raise e) (world h) (emitted h))
    | _ =>
        let r := receive_loop E (S (List.length rest)) me ipid rest
                   (world h) in
        (fst r,
         mkOut (flow (snd r)) (world (snd r)) (emitted h ++ emitted (snd r)))
    end.
Proof.
  intros Hmsg. cbn [receive_loop]. unfold next_message.
  rewrite (FrameFacts.split_once_framed msg rest Hmsg). cbv zeta.
  assert (Hlen : (List.length rest
                  < List.length (msg ++ lit "#%" ++ rest))%nat).
  { rewrite !length_app. cbn. lia. }
  destruct (flow (handle_message E me ipid msg w)); try reflexivity;
    rewrite (receive_loop_fuel E _ (S (List.length rest))) by lia;
    reflexivity.
Qed.

Lemma remove_chars_free (cls : N -> bool) (s : str) :
  existsb cls (remove_chars cls s) = false.
Proof.
  unfold remove_chars. induction s as [|c s IH]; [reflexivity|].
  cbn [filter]. destruct (cls c) eqn:Hc; cbn [negb]; [exact IH|].
  cbn [existsb]. now rewrite Hc, IH.
Qed.

Lemma existsb_suffix (cls : N -> bool) (a b : str) :
  existsb cls (a ++ b) = false -> existsb cls b = false.
Proof.
  rewrite existsb_app. intros H. now apply orb_false_iff in H.
Qed.

Lemma long_header_extends (msg rest : str) :
  long_header (msg ++ lit "#%") = false ->
  long_header (msg ++ lit "#%" ++ rest) = false.
Proof.
  unfold long_header, take, has_char. intros H.
  apply andb_false_iff. right. apply negb_false_iff.
  apply andb_false_iff in H as [H | H].
  - apply Z.leb_gt in H. unfold len in H. rewrite length_app in H.
    cbn [List.length lit map list_ascii_of_string] in H.
    rewrite firstn_app.
    replace (24 - List.length msg)%nat
      with (S (23 - List.length msg))%nat by lia.
    rewrite existsb_app. cbn [lit map list_ascii_of_string app firstn
                               existsb N_of_ascii N_of_digits].
    cbn. now rewrite orb_true_r.
  - apply negb_false_iff in H. rewrite app_assoc, firstn_app, existsb_app.
    now rewrite H.
Qed.

End ReceiveMore.

(** X8: data without a whole message waits.  When the buffer, after the
    data is added and the null characters are removed, holds no terminator
    and is not a long header, nothing is handled and nothing changes: the
    text is kept for the next call.  Only a buffer of more than 8192
    characters brings a disconnect. *)
Theorem X8_incomplete_data_waits :
  forall (Ext : Type) (E : Env Ext) (data : Data) (conn : Conn)
         (w : World Ext),
    contains (lit "#%") (received_buffer E data conn) = false ->
    long_header (received_buffer E data conn) = false ->
    data_received E data conn w
    = (mkConn (received_buffer E data conn) (client conn),
       mkOut (Next tt) w
         (if 8192 <? len (received_buffer E data conn)
          then [EvDisconnect (client conn)] else [])).
Proof.
  intros Ext E data conn w Hno Hlong. unfold data_received.
  rewrite Hlong. cbn [receive_loop]. unfold next_message.
  apply FrameFacts.contains_split_once in Hno. rewrite Hno.
  cbn [fst snd flow world emitted]. now rewrite app_nil_r.
Qed.

(** The first half of a handshake waits for the second. *)
Lemma X8_incomplete_data_waits_witness :
  data_received Demo.env (DStr (lit "HI#ab")) (mkConn [] 5%nat) Demo.w0
  = (mkConn (lit "HI#ab") 5%nat, mkOut (Next tt) Demo.w0 []).
Proof.
  exact (X8_incomplete_data_waits unit Demo.env (DStr (lit "HI#ab"))
           (mkConn [] 5%nat) Demo.w0 eq_refl eq_refl).
Defined.

(** X9: the buffer that [data_received] leaves is an end of the text it
    received (the buffer with the data added and the null characters
    removed); it never holds a null character, and the connection keeps its
    client. *)
Theorem X9_the_buffer_left_is_an_end_of_the_text :
  forall (Ext : Type) (E : Env Ext) (data : Data) (conn : Conn)
         (w : World Ext),
    let left := fst (data_received E data conn w) in
    (exists before, received_buffer E data conn = before ++ buffer left)
    /\ has_char 0%N (buffer left) = false
    /\ client left = client conn.
Proof.
  intros Ext E data conn w. cbv zeta.
  assert (Hfree : forall before s,
            received_buffer E data conn = before ++ s ->
            has_char 0%N s = false).
  { intros before s Heq. unfold has_char.
    apply (existsb_suffix _ before).
    rewrite <- Heq. unfold received_buffer.
    assert (Hext : forall l : str,
              existsb (N.eqb 0) l = existsb (fun c => N.eqb c 0) l).
    { intros l. induction l as [|c l IH]; [reflexivity|].
      cbn [existsb]. now rewrite N.eqb_sym, IH. }
    rewrite Hext.
    apply (remove_chars_free (fun c => N.eqb c 0)). }
  unfold data_received.
  destruct (long_header (received_buffer E data conn)).
  - cbn [fst buffer client]. split; [now exists []|].
    split; [now apply (Hfree [])|reflexivity].
  - destruct (receive_loop_suffix E
                (S (List.length (received_buffer E data conn)))
                (client conn) (ipid (client_of w (client conn)))
                (received_buffer E data conn) w) as [before Hb].
    destruct (receive_loop E _ _ _ _ w) as [left [f w' evs]].
    cbn [fst snd flow] in *.
    destruct f as [[]| |[]]; cbn [fst buffer client];
      (split; [now exists before|]);
      (split; [now apply (Hfree before)|reflexivity]).
Qed.

(** X10: when [data_received] returns, every whole message has been taken
    off the buffer, unless the call ended on a protocol violation, in
    which case the last thing it did was to disconnect the client. *)
Theorem X10_returning_leaves_no_whole_message :
  forall (Ext : Type) (E : Env Ext) (data : Data) (conn : Conn)
         (w : World Ext),
    let r := data_received E data conn w in
    flow (snd r) = Next tt ->
    contains (lit "#%") (buffer (fst r)) = false
    \/ exists evs, emitted (snd r) = evs ++ [EvDisconnect (client conn)].
Proof.
  intros Ext E data conn w. cbv zeta. unfold data_received.
  destruct (long_header (received_buffer E data conn)).
  - intros _. right. eexists. cbn [snd emitted]. reflexivity.
  - destruct (receive_loop_complete E
                (S (List.length (received_buffer E data conn)))
                (client conn) (ipid (client_of w (client conn)))
                (received_buffer E data conn) w ltac:(lia))
      as [[e He] | Hnone].
    + destruct (receive_loop E _ _ _ _ w) as [left [f w' evs]].
      cbn [fst snd flow] in *. subst f.
      destruct e; cbn [fst snd flow emitted buffer]; try discriminate.
      intros _. right. eexists. rewrite app_assoc. reflexivity.
    + destruct (receive_loop E _ _ _ _ w) as [left [f w' evs]].
      cbn [fst snd flow] in *.
      apply FrameFacts.contains_split_once in Hnone.
      destruct f as [[]| |[]]; cbn [fst snd flow emitted buffer];
        intros H; try discriminate; now left.
Qed.

(** Two keepalives in one packet: both are taken, nothing is left. *)
Lemma X10_returning_leaves_no_whole_message_witness :
  buffer (fst (data_received Demo.env (DStr (lit "CH#%CH#%"))
                 (mkConn [] 0%nat) Demo.w0)) = []
  /\ (contains (lit "#%")
        (buffer (fst (data_received Demo.env (DStr (lit "CH#%CH#%"))
                        (mkConn [] 0%nat) Demo.w0))) = false
      \/ exists evs,
           emitted (snd (data_received Demo.env (DStr (lit "CH#%CH#%"))
                           (mkConn [] 0%nat) Demo.w0))
           = evs ++ [EvDisconnect 0%nat]).
Proof.
  split; [reflexivity|].
  exact (X10_returning_leaves_no_whole_message unit Demo.env
           (DStr (lit "CH#%CH#%")) (mkConn [] 0%nat) Demo.w0 eq_refl).
Defined.

(** X11: an exception that the handling of a message raises, other than
    [ProtocolError], leaves [data_received] as it is.  The message that
    raised has been taken off the buffer, the messages that came after it
    stay in the buffer unhandled, and no disconnect is added for it. *)
Theorem X11_an_exception_stops_the_packet :
  forall (Ext : Type) (E : Env Ext) (data : Data) (conn : Conn)
         (w : World Ext) (msg rest : str) (e : Exn),
    received_buffer E data conn = msg ++ lit "#%" ++ rest ->
    contains (lit "#%") msg = false ->
    long_header (received_buffer E data conn) = false ->
    let h := handle_message E (client conn)
               (ipid (client_of w (client conn))) msg w in
    flow h = Raise e ->
    e <> ProtocolError ->
    data_received E data conn w
    = (mkConn rest (client conn),
       mkOut (Raise e) (world h)
         ((if 8192 <? len (received_buffer E data conn)
           then [EvDisconnect (client conn)] else []) ++ emitted h)).
Proof.
  intros Ext E data conn w msg rest e Hbuf Hmsg Hlong h Hflow Hne.
  unfold data_received. rewrite Hlong, Hbuf.
  rewrite (receive_loop_step E _ _ msg rest w Hmsg). cbv zeta.
  fold h. rewrite Hflow. cbn [fst snd flow world emitted].
  destruct e; try reflexivity. congruence.
Qed.

(** [opKICK] without an argument raises [IndexError]; the handshake that
    follows it in the packet is not handled. *)
Lemma X11_an_exception_stops_the_packet_witness :
  data_received Demo.env (DStr (lit "opKICK#%HI#abc#%")) (mkConn [] 5%nat)
    Demo.w0
  = (mkConn (lit "HI#abc#%") 5%nat, mkOut (Raise IndexError) Demo.w0 []).
Proof.
  exact (X11_an_exception_stops_the_packet unit Demo.env
           (DStr (lit "opKICK#%HI#abc#%")) (mkConn [] 5%nat) Demo.w0
           (lit "opKICK") (lit "HI#abc#%") IndexError eq_refl eq_refl eq_refl
           eq_refl ltac:(discriminate)).
Defined.

(** X12: messages that arrive together are handled as if they had arrived
    one packet after the other.  When the first message of a text is
    handled without an exception (and leaves the client's [ipid] alone),
    receiving the whole text at once does what receiving the first message
    and then the remainder does: the same buffer, the same world, the same
    events in the same order. *)
Theorem X12_messages_in_one_packet_are_handled_in_turn :
  forall (Ext : Type) (E : Env Ext) (conn : Conn) (w : World Ext)
         (msg rest : str),
    has_char 0%N (msg ++ rest) = false ->
    contains (lit "#%") msg = false ->
    long_header (msg ++ lit "#%") = false ->
    long_header rest = false ->
    len (msg ++ lit "#%" ++ rest) <= 8192 ->
    let h := handle_message E (client conn)
               (ipid (client_of w (client conn))) msg w in
    (forall e, flow h <> Raise e) ->
    ipid (client_of (world h) (client conn))
    = ipid (client_of w (client conn)) ->
    let r1 := data_received E (DStr (msg ++ lit "#%")) conn w in
    let r2 := data_received E (DStr rest) (fst r1) (world (snd r1)) in
    data_received E (DStr (msg ++ lit "#%" ++ rest)) conn w
    = (fst r2,
       mkOut (flow (snd r2)) (world (snd r2))
         (emitted (snd r1) ++ emitted (snd r2))).
Proof.
  intros Ext E conn w msg rest Hnul Hmsg Hl1 Hl2 Hlen h Hok Hipid.
  assert (Hfree : forall s : str,
            has_char 0%N s = false -> remove_chars (N.eqb 0) s = s).
  { intros s. unfold has_char, remove_chars.
    induction s as [|c s IH]; [reflexivity|]. cbn [existsb filter].
    intros H. apply orb_false_iff in H as [Hc Hs]. rewrite Hc. cbn [negb].
    now rewrite (IH Hs). }
  assert (Hn1 : has_char 0%N msg = false /\ has_char 0%N rest = false).
  { unfold has_char in *. rewrite existsb_app in Hnul.
    now apply orb_false_iff in Hnul. }
  destruct Hn1 as [Hnm Hnr].
  assert (Hn2 : has_char 0%N (msg ++ lit "#%") = false).
  { unfold has_char in *. rewrite existsb_app, Hnm. reflexivity. }
  assert (Hn3 : has_char 0%N (msg ++ lit "#%" ++ rest) = false).
  { unfold has_char in *. rewrite !existsb_app, Hnm, Hnr. reflexivity. }
  assert (Hs1 : (8192 <? len (msg ++ lit "#%")) = false).
  { apply Z.ltb_ge. unfold len in *. rewrite !length_app in *. lia. }
  assert (Hs2 : (8192 <? len rest) = false).
  { apply Z.ltb_ge. unfold len in *. rewrite !length_app in *. lia. }
  assert (Hs3 : (8192 <? len (msg ++ lit "#%" ++ rest)) = false)
    by now apply Z.ltb_ge.
  assert (Hflow : flow h = Next tt \/ flow h = Return).
  { destruct (flow h) as [[]| |e] eqn:Hf; [now left | now right|].
    now destruct (Hok e). }
  (* the first message alone *)
  assert (H1 : data_received E (DStr (msg ++ lit "#%")) conn w
               = (mkConn [] (client conn),
                  mkOut (Next tt) (world h) (emitted h))).
  { unfold data_received, received_buffer. rewrite (Hfree _ Hn2), Hl1, Hs1.
    pose proof (receive_loop_step E (client conn)
                  (ipid (client_of w (client conn))) msg [] w Hmsg) as Hstep.
    rewrite app_nil_r in Hstep. rewrite Hstep. cbv zeta. fold h.
    destruct Hflow as [Hf | Hf]; rewrite Hf;
      cbn [receive_loop next_message split_once startswith lit map
           list_ascii_of_string fst snd flow world emitted app];
      now rewrite app_nil_r. }
  cbv zeta. rewrite H1. cbn [fst snd world emitted client].
  unfold data_received at 2. unfold data_received, received_buffer.
  cbn [client]. rewrite (Hfree _ Hnr), (Hfree _ Hn3), Hl2, Hs2, Hs3.
  rewrite (long_header_extends msg rest Hl1).
  rewrite (receive_loop_step E _ _ msg rest w Hmsg). cbv zeta. fold h.
  rewrite Hipid. cbn [app].
  destruct (receive_loop E (S (List.length rest)) (client conn)
              (ipid (client_of w (client conn))) rest (world h))
    as [left [f w' evs]].
  destruct Hflow as [Hf | Hf]; rewrite Hf; cbn [fst snd flow world emitted];
    destruct f as [[]| |[]]; cbn [fst snd flow world emitted];
    rewrite ?app_assoc; reflexivity.
Qed.

(** A keepalive and the first half of a handshake. *)
Lemma X12_messages_in_one_packet_are_handled_in_turn_witness :
  data_received Demo.env (DStr (lit "CH#%HI#ab")) (mkConn [] 0%nat) Demo.w0
  = (mkConn (lit "HI#ab") 0%nat, mkOut (Next tt) Demo.w0 []).
Proof.
  exact (X12_messages_in_one_packet_are_handled_in_turn unit Demo.env
           (mkConn [] 0%nat) Demo.w0 (lit "CH") (lit "HI#ab") eq_refl eq_refl
           eq_refl eq_refl ltac:(vm_compute; discriminate)
           ltac:(intros e; vm_compute; discriminate) eq_refl).
Defined.

Section DispatchMore.

Context {Ext : Type} (E : Env Ext).

(** The loop body on a command of the table, whatever its handler does. *)
Lemma handle_message_known (me : nat) (ipid : Z) (msg decoded : str)
    (h : Handler Ext) (w : World Ext) :
  2 <= len msg ->
  decode_message E msg = inr decoded ->
  dispatcher_get E (hd [] (split 35%N decoded)) = Some h ->
  handle_message E me ipid msg w
  = let o := h me (tl (split 35%N decoded)) w in
    match flow o with
    | Raise KeyError =>
        mkOut (if is_checked (client_of (world o) me)
               then Next tt else Raise ProtocolError)
          (world o)
          (emitted o
           ++ [EvDebugLog (lit "Unknown incoming message from " ++ of_Z ipid
                           ++ lit ": " ++ decoded)])
    | Raise e => mkOut (Raise e) (world o) (emitted o)
    | _ =>
        mkOut (Next tt)
          (if PyStr.eqb (hd [] (split 35%N decoded)) (lit "CH")
           then world o
           else set_client me (set_last_pkt_time (time E (world o)))
                  (world o))
          (emitted o)
    end.
Proof.
  intros Hlen Hdec Hget. unfold handle_message.
  destruct (len msg <? 2) eqn:Hlt; [apply Z.ltb_lt in Hlt; lia|].
  rewrite Hdec. cbn [value_or_raise]. rewrite bind_ret.
  unfold try_except. rewrite Hget. cbn [lookup_or_raise]. rewrite bind_ret.
  unfold bind, invoke, self_client, read, modify, emit, ret, raise.
  cbv beta zeta.
  destruct (h me (tl (split 35%N decoded)) w) as [f w1 evs].
  cbn [flow world emitted].
  destruct f as [[]| |e]; cbn [flow world emitted].
  - destruct (PyStr.eqb _ (lit "CH")); cbn [negb flow world emitted];
      rewrite ?app_nil_r; reflexivity.
  - destruct (PyStr.eqb _ (lit "CH")); cbn [negb flow world emitted];
      rewrite ?app_nil_r; reflexivity.
  - destruct e; cbn [Exn_eqb flow world emitted]; try reflexivity.
    destruct (is_checked (client_of w1 me)); reflexivity.
Qed.

End DispatchMore.

(** X13: a [KeyError] raised inside a handler is taken for an unknown
    command.  The message is logged as unknown, the time of the last packet
    is not renewed, and a client that is not authenticated (after the
    handler ran) gets the [ProtocolError] that disconnects it. *)
Theorem X13_a_KeyError_of_a_handler_counts_as_an_unknown_command :
  forall (Ext : Type) (E : Env Ext) (me : nat) (ipid : Z)
         (msg decoded : str) (h : Handler Ext) (w w1 : World Ext)
         (evs : list Event),
    2 <= len msg ->
    decode_message E msg = inr decoded ->
    dispatcher_get E (hd [] (split 35%N decoded)) = Some h ->
    h me (tl (split 35%N decoded)) w = mkOut (Raise KeyError) w1 evs ->
    handle_message E me ipid msg w
    = mkOut (if is_checked (client_of w1 me)
             then Next tt else Raise ProtocolError)
        w1
        (evs ++ [EvDebugLog (lit "Unknown incoming message from "
                             ++ of_Z ipid ++ lit ": " ++ decoded)]).
Proof.
  intros Ext E me ipid msg decoded h w w1 evs Hlen Hdec Hget Hrun.
  rewrite (handle_message_known E me ipid msg decoded h w Hlen Hdec Hget).
  cbv zeta. rewrite Hrun. reflexivity.
Qed.

(** In the town without a timeout the keepalive raises [KeyError] when it
    arms the timer: Phoenix stays, the newcomer is disconnected. *)
Lemma X13_a_KeyError_of_a_handler_counts_as_an_unknown_command_witness :
  flow (handle_message Town.env_without_timeout 0%nat 100 (lit "CH#1")
          Town.w0)
  = Next tt
  /\ handle_message Town.env_without_timeout 3%nat 103 (lit "CH#1") Town.w0
     = mkOut (Raise ProtocolError) Town.w0
         [EvSendCommand 3%nat (lit "CHECK") [];
          EvDebugLog (lit "Unknown incoming message from 103: CH#1")].
Proof.
  split.
  - rewrite (X13_a_KeyError_of_a_handler_counts_as_an_unknown_command unit
               Town.env_without_timeout 0%nat 100 (lit "CH#1") (lit "CH#1")
               (net_cmd_ch (Town.server false)) Town.w0 Town.w0
               [EvSendCommand 0%nat (lit "CHECK") []]
               ltac:(vm_compute; discriminate) eq_refl eq_refl eq_refl).
    reflexivity.
  - exact (X13_a_KeyError_of_a_handler_counts_as_an_unknown_command unit
             Town.env_without_timeout 3%nat 103 (lit "CH#1") (lit "CH#1")
             (net_cmd_ch (Town.server false)) Town.w0 Town.w0
             [EvSendCommand 3%nat (lit "CHECK") []]
             ltac:(vm_compute; discriminate) eq_refl eq_refl eq_refl).
Defined.

(** X14: every command of the table that its handler ends without an
    exception renews the client's [last_pkt_time], also when the handler
    dropped the command by a [return]; only the keepalive [CH] leaves the
    time as it is.  The events are those of the handler. *)
Theorem X14_a_handled_command_renews_last_pkt_time :
  forall (Ext : Type) (E : Env Ext) (me : nat) (ipid : Z)
         (msg decoded : str) (h : Handler Ext) (w : World Ext),
    2 <= len msg ->
    decode_message E msg = inr decoded ->
    dispatcher_get E (hd [] (split 35%N decoded)) = Some h ->
    let o := h me (tl (split 35%N decoded)) w in
    (forall e, flow o <> Raise e) ->
    handle_message E me ipid msg w
    = mkOut (Next tt)
        (if PyStr.eqb (hd [] (split 35%N decoded)) (lit "CH")
         then world o
         else set_client me (set_last_pkt_time (time E (world o))) (world o))
        (emitted o).
Proof.
  intros Ext E me ipid msg decoded h w Hlen Hdec Hget o Hok.
  rewrite (handle_message_known E me ipid msg decoded h w Hlen Hdec Hget).
  cbv zeta. fold o. destruct (flow o) as [[]| |e] eqn:Hf; try reflexivity.
  now destruct (Hok e).
Qed.

(** The evidence command of a spectator is dropped by its handler, and the
    time of the last packet is renewed all the same. *)
Lemma X14_a_handled_command_renews_last_pkt_time_witness :
  handle_message Demo.env 2%nat 102 (lit "DE#0") Demo.w0
  = mkOut (Next tt)
      (set_client 2%nat (set_last_pkt_time 1000) Demo.w0) [].
Proof.
  exact (X14_a_handled_command_renews_last_pkt_time unit Demo.env 2%nat 102
           (lit "DE#0") (lit "DE#0") (net_cmd_de Demo.env) Demo.w0
           ltac:(vm_compute; discriminate) eq_refl eq_refl
           ltac:(intros e; vm_compute; discriminate)).
Defined.

(** ** The IC message: what is relayed *)

Section MsStages.

Context {Ext : Type} (E : Env Ext) (me : nat).

(** What a quiet block emits is, at most, a notice to the sender. *)
Lemma quiet_emitted (A : Type) (m : M Ext A) (w : World Ext) (ev : Event) :
  quiet me m -> In ev (emitted (m w)) -> exists s, ev = EvSendOOC me s.
Proof.
  intros Hq Hin. destruct (Hq w) as [_ [He | (s & _ & He)]];
    rewrite He in Hin; [destruct Hin|].
  destruct Hin as [<- | []]. now exists s.
Qed.

(** The frame keeps what the checks read of the sender and of the area. *)
Lemma frame_client (w0 w : World Ext) :
  frame me w0 w ->
  char_id (client_of w me) = char_id (client_of w0 me)
  /\ area (client_of w me) = area (client_of w0 me)
  /\ shaken (client_of w me) = shaken (client_of w0 me)
  /\ disemvowel (client_of w me) = disemvowel (client_of w0 me).
Proof.
  intros (_ & (s & Hme) & _). rewrite Hme. repeat split.
Qed.

Lemma frame_area (w0 w : World Ext) :
  frame me w0 w ->
  non_int_pres_only (area_of w (area (client_of w me)))
  = non_int_pres_only (area_of w0 (area (client_of w0 me)))
  /\ shouts_allowed (area_of w (area (client_of w me)))
     = shouts_allowed (area_of w0 (area (client_of w0 me))).
Proof.
  intros Hf. destruct (frame_client w0 w Hf) as (_ & Ha & _).
  rewrite Ha. split; apply (frame_area_fields me w0 w _ Hf).
Qed.

(** An accepted dialect belongs to a client that has a character. *)
Lemma ms_dialect_character (args : list pyval) (w : World Ext) (l : Loc.t) :
  flow (ms_dialect E me args w) = Next l ->
  char_id (client_of w me) <> -1.
Proof.
  unfold ms_dialect, self_client. rewrite bind_read.
  intros H Hc.
  repeat (rewrite (validate_needs_character E _ _ _ Hc) in H;
          cbn [fst snd] in H).
  discriminate.
Qed.

Lemma ms_field_checks_passed (msg_type : str) (anim_type cid sfx_delay : Z)
    (button : pyval) (evidence ding color : Z) (showname : str)
    (w : World Ext) (at' : Z) :
  flow (ms_field_checks E me msg_type anim_type cid sfx_delay button
          evidence ding color showname w) = Next at' ->
  in_strs msg_type [lit "chat"; lit "0"; lit "1"; lit "2"; lit "3"; lit "4";
                    lit "5"] = true
  /\ In at' [0; 1; 2; 5; 6]
  /\ cid = char_id (client_of w me)
  /\ 0 <= sfx_delay
  /\ 0 <= evidence
  /\ In ding [0; 1]
  /\ In color [0; 1; 2; 3; 4; 5; 6; 7; 8]
  /\ len showname <= 15.
Proof.
  unfold ms_field_checks.
  destruct (in_strs msg_type _) eqn:Hmt; cbn [negb]; [|discriminate].
  destruct (existsb _ [0; 1; 2; 5; 6]) eqn:Hat; cbn [negb]; [|discriminate].
  run.
  destruct (cid =? char_id (client_of w me)) eqn:Hcid; cbn [negb];
    [|discriminate].
  destruct (sfx_delay <? 0) eqn:Hsfx; [discriminate|].
  intros H. apply bind_Next in H as (u & _ & H). revert H.
  destruct (evidence <? 0) eqn:Hev; [discriminate|].
  destruct (existsb (Z.eqb ding) [0; 1]) eqn:Hding; cbn [negb];
    [|discriminate].
  destruct (existsb (Z.eqb color) _) eqn:Hcol; cbn [negb]; [|discriminate].
  destruct (15 <? len showname) eqn:Hsn; [discriminate|].
  intros H. apply ret_Next in H. subst at'.
  assert (Hin : forall (x : Z) (l : list Z),
            existsb (Z.eqb x) l = true -> In x l).
  { intros x l Hx. apply existsb_exists in Hx as (y & Hy & Hxy).
    apply Z.eqb_eq in Hxy. now subst. }
  repeat split.
  - apply existsb_exists in Hat as (y & Hy & Hxy).
    apply Z.eqb_eq in Hxy. now rewrite Hxy.
  - now apply Z.eqb_eq.
  - now apply Z.ltb_ge.
  - now apply Z.ltb_ge.
  - now apply Hin.
  - now apply Hin.
  - now apply Z.ltb_ge.
Qed.

Lemma ms_transform_passed (text : str) (w : World Ext) (msg : str) :
  flow (ms_transform E me text w) = Next msg ->
  len text <= max_char E
  /\ (shaken (client_of w me) = false ->
      disemvowel (client_of w me) = false ->
      msg = take 256 (dezalgo E text)).
Proof.
  unfold ms_transform.
  destruct (max_char E <? len text) eqn:Hlen; [discriminate|].
  intros H. split; [now apply Z.ltb_ge|].
  intros Hs Hd. revert H. unfold mangle. run. rewrite Hs. run.
  rewrite Hd. intros H. now apply ret_Next in H.
Qed.

Lemma ms_commands_targets (text : str) (color : Z) (w : World Ext)
    (text' : str) (color' : Z) (targets : list Z) :
  flow (ms_commands E me text color w) = Next (text', color', targets) ->
  Forall (owned_target E me w) targets.
Proof.
  unfold ms_commands.
  destruct (startswith text (lit "/a ")).
  { unfold try_except. cbv zeta.
    destruct (nth_error (split 32%N text) 1) as [p1|]; run;
      [|discriminate].
    unfold int_. destruct (int_of_str E p1) as [aid|]; run;
      [|cbn; discriminate].
    destruct (get_area_by_id E aid w) as [a|] eqn:Hget; run;
      [|discriminate].
    destruct (owners_contains E a me w) eqn:Hown; run; [|discriminate].
    cbn. intros H. inversion H; subst.
    constructor; [|constructor]. exists a. split; [exact Hown|now left]. }
  destruct (startswith text (lit "/s ")).
  { run.
    destruct (map _ (filter _ (areas E w))) as [|t ts] eqn:Hmap; run;
      [discriminate|].
    cbn. intros H. inversion H; subst. rewrite <- Hmap.
    apply Forall_forall. intros aid Hin.
    apply in_map_iff in Hin as (a & Haid & Hin).
    apply filter_In in Hin as [Hin Hown].
    exists a. split; [exact Hown|right; now split]. }
  destruct (startswith text (lit "/testify ")).
  { run. destruct (fst (start_testimony E _ me _ w)); cbn [negb];
      [|discriminate].
    cbn. intros H. inversion H; subst. constructor. }
  destruct (startswith text (lit "/examine")).
  { run. destruct (fst (start_examination E _ me w)); cbn [negb];
      [|discriminate].
    run. cbn. intros H. inversion H; subst. constructor. }
  cbn. intros H. inversion H; subst. constructor.
Qed.

End MsStages.

Section MsRelayed.

Context {Ext : Type} (E : Env Ext) (me : nat).

(** What the checks establish of the local variables with which a message
    reaches the repeat guard; [w0] is the world the handler started in. *)
Lemma ms_prepare_fields (args0 : list str) (w0 : World Ext) (l : Loc.t) :
  flow (ms_prepare E me args0 w0) = Next l ->
  let c := client_of w0 me in
  let room := area_of w0 (area c) in
  char_id c <> -1
  /\ in_strs (Loc.msg_type l)
       [lit "chat"; lit "0"; lit "1"; lit "2"; lit "3"; lit "4"; lit "5"]
     = true
  /\ In (Loc.anim_type l) [0; 1; 2; 5; 6]
  /\ Loc.cid l = char_id c
  /\ 0 <= Loc.sfx_delay l
  /\ 0 <= Loc.evidence l
  /\ In (Loc.ding l) [0; 1]
  /\ In (Loc.color l) [0; 1; 2; 3; 4; 5; 6; 7; 8]
  /\ len (Loc.showname l) <= 15
  /\ (shouts_allowed room = false ->
      Loc.button l = PInt 0 /\ Loc.ding l = 0
      /\ In (Loc.anim_type l) [0; 1; 5])
  /\ (non_int_pres_only room = true -> In (Loc.anim_type l) [0; 5])
  /\ len (Loc.text l) <= max_char E
  /\ (shaken c = false -> disemvowel c = false ->
      Loc.msg l = take 256 (dezalgo E (Loc.text l)))
  /\ (exists w1, frame me w0 w1
                 /\ Forall (owned_target E me w1) (Loc.target_area l)).
Proof.
  intros H. cbv zeta. unfold ms_prepare in H.
  apply bind_Next in H as (u1 & H1 & H).
  pose proof (proj1 (quiet_ms_preconditions E me w0)) as F1.
  set (w1 := world (ms_preconditions E me w0)) in *.
  apply bind_Next in H as (p & H2 & H).
  pose proof (frame_trans me _ _ _ F1
                (proj1 (quiet_ms_dialect E me (map PStr args0) w1))) as F2.
  pose proof (ms_dialect_character E me _ _ _ H2) as Hchar.
  rewrite (proj1 (frame_client me w0 w1 F1)) in Hchar.
  set (w2 := world (ms_dialect E me (map PStr args0) w1)) in *.
  apply bind_Next in H as (additive & H3 & H).
  pose proof (frame_trans me _ _ _ F2
                (proj1 (quiet_ms_additive E me (Loc.additive p) w2))) as F3.
  set (w3 := world (ms_additive E me (Loc.additive p) w2)) in *.
  apply bind_Next in H as (u4 & H4 & H).
  pose proof (frame_trans me _ _ _ F3
                (proj1 (quiet_ms_showname me (Loc.showname p) w3))) as F4.
  set (w4 := world (ms_showname me (Loc.showname p) w3)) in *.
  apply bind_Next in H as (u5 & H5 & H).
  pose proof (frame_trans me _ _ _ F4
                (proj1 (quiet_ms_iniswap E me (Loc.pre p) (Loc.anim p)
                          (Loc.folder p) (Loc.sfx p) w4))) as F5.
  set (w5 := world (ms_iniswap E me (Loc.pre p) (Loc.anim p) (Loc.folder p)
                      (Loc.sfx p) w4)) in *.
  apply bind_Next in H as (u6 & H6 & H).
  pose proof (frame_trans me _ _ _ F5
                (proj1 (quiet_ms_blankpost me (Loc.text p) w5))) as F6.
  set (w6 := world (ms_blankpost me (Loc.text p) w5)) in *.
  apply bind_Next in H as ([[text color] targets] & H7 & H).
  pose proof (frame_trans me _ _ _ F6
                (proj1 (quiet_ms_commands E me (Loc.text p) (Loc.color p)
                          w6))) as F7.
  pose proof (ms_commands_targets E me _ _ _ _ _ _ H7) as Htargets.
  set (w7 := world (ms_commands E me (Loc.text p) (Loc.color p) w6)) in *.
  apply bind_Next in H as ([[text' color'] args] & H8 & H).
  pose proof (frame_trans me _ _ _ F7
                (proj1 (quiet_ms_testimony E me text color (Loc.args p)
                          w7))) as F8.
  set (w8 := world (ms_testimony E me text color (Loc.args p) w7)) in *.
  apply bind_Next in H as (at1 & H9 & H).
  pose proof (frame_trans me _ _ _ F8
                (proj1 (quiet_ms_field_checks E me (Loc.msg_type p)
                          (Loc.anim_type p) (Loc.cid p) (Loc.sfx_delay p)
                          (Loc.button p) (Loc.evidence p) (Loc.ding p)
                          color' (Loc.showname p) w8))) as F9.
  apply ms_field_checks_passed in H9
    as (Kmt & Kat & Kcid & Ksfx & Kev & Kding & Kcol & Ksn).
  rewrite (proj1 (frame_client me w0 w8 F8)) in Kcid.
  set (w9 := world (ms_field_checks E me (Loc.msg_type p) (Loc.anim_type p)
                      (Loc.cid p) (Loc.sfx_delay p) (Loc.button p)
                      (Loc.evidence p) (Loc.ding p) color' (Loc.showname p)
                      w8)) in *.
  revert H. unfold self_area. rewrite !bind_read.
  rewrite (proj1 (frame_area me w0 w9 F9)).
  set (room := area_of w0 (area (client_of w0 me))).
  set (at2 := ms_nonint_pre (Loc.nonint_pre p) (Loc.button p) at1).
  assert (Kat2 : In at2 [0; 1; 2; 5; 6]).
  { unfold at2, ms_nonint_pre.
    destruct (Loc.nonint_pre p =? 1); [|exact Kat].
    destruct (in_ints (Loc.button p) _); [|exact Kat].
    cbn in Kat. destruct Kat as [<- | [<- | [<- | [<- | [<- | []]]]]];
      cbn; tauto. }
  destruct (ms_non_int_pres_only (non_int_pres_only room) at2
              (Loc.nonint_pre p)) as [at3 nonint_pre] eqn:Hforced.
  assert (Kat3 : In at3 [0; 1; 2; 5; 6]
                 /\ (non_int_pres_only room = true -> In at3 [0; 5])).
  { unfold ms_non_int_pres_only in Hforced.
    destruct (non_int_pres_only room).
    - cbn in Kat2.
      destruct Kat2 as [<- | [<- | [<- | [<- | [<- | []]]]]];
        cbn in Hforced; inversion Hforced; subst; cbn; tauto.
    - inversion Hforced; subst. split; [exact Kat2|discriminate]. }
  destruct Kat3 as [Kat3 Kforced].
  rewrite !bind_read. rewrite (proj2 (frame_area me w0 w9 F9)). fold room.
  destruct (ms_shouts (shouts_allowed room) at3 (Loc.button p) (Loc.ding p))
    as [[at4 button] ding] eqn:Hshouts.
  assert (Kat4 : In at4 [0; 1; 2; 5; 6]
                 /\ (non_int_pres_only room = true -> In at4 [0; 5])
                 /\ In ding [0; 1]
                 /\ (shouts_allowed room = false ->
                     button = PInt 0 /\ ding = 0 /\ In at4 [0; 1; 5])).
  { unfold ms_shouts in Hshouts. destruct (shouts_allowed room);
      cbn [negb] in Hshouts.
    - inversion Hshouts; subst. repeat split; try assumption; discriminate.
    - assert (Hforced' : non_int_pres_only room = true ->
                         at3 = 0 \/ at3 = 5).
      { intros Hf. destruct (Kforced Hf) as [<- | [<- | []]]; auto. }
      cbn in Kat3.
      destruct Kat3 as [<- | [<- | [<- | [<- | [<- | []]]]]];
        cbn in Hshouts; inversion Hshouts; subst; cbn;
        repeat split; try tauto;
        intros Hf; destruct (Hforced' Hf); try discriminate; tauto. }
  destruct Kat4 as (Kat4 & Kforced4 & Kding4 & Kshouts).
  intros H. apply bind_Next in H as (msg & H10 & H).
  apply ms_transform_passed in H10 as [Klen Kmsg].
  destruct (frame_client me w0 w9 F9) as (_ & _ & Ks & Kd).
  rewrite Ks, Kd in Kmsg.
  apply ret_Next in H. subst l. cbn [Loc.msg_type Loc.anim_type Loc.cid
    Loc.sfx_delay Loc.evidence Loc.ding Loc.color Loc.showname Loc.button
    Loc.text Loc.msg Loc.target_area].
  repeat split; try assumption; try (now apply Kshouts).
  exists w6. split; [exact F6|exact Htargets].
Qed.

(** A message that reaches the repeat guard has passed the first part of
    the checks, and its target areas are those that the prefixes of the
    text gave in the world that this part left. *)
Lemma ms_prepare_commands (args0 : list str) (w0 : World Ext) (l : Loc.t) :
  flow (ms_prepare E me args0 w0) = Next l ->
  exists p text color,
    flow (ms_before_commands E me args0 w0) = Next p
    /\ flow (ms_commands E me (Loc.text p) (Loc.color p)
               (world (ms_before_commands E me args0 w0)))
       = Next (text, color, Loc.target_area l).
Proof.
  intros H. unfold ms_prepare in H. unfold ms_before_commands.
  apply bind_Next in H as (u1 & H1 & H).
  rewrite (bind_flow _ _ _ _ _ _ H1), (bind_world _ _ _ _ _ _ H1).
  apply bind_Next in H as (p & H2 & H).
  rewrite (bind_flow _ _ _ _ _ _ H2), (bind_world _ _ _ _ _ _ H2).
  apply bind_Next in H as (additive & H3 & H).
  rewrite (bind_flow _ _ _ _ _ _ H3), (bind_world _ _ _ _ _ _ H3).
  apply bind_Next in H as (u4 & H4 & H).
  rewrite (bind_flow _ _ _ _ _ _ H4), (bind_world _ _ _ _ _ _ H4).
  apply bind_Next in H as (u5 & H5 & H).
  rewrite (bind_flow _ _ _ _ _ _ H5), (bind_world _ _ _ _ _ _ H5).
  apply bind_Next in H as (u6 & H6 & H).
  rewrite (bind_flow _ _ _ _ _ _ H6), (bind_world _ _ _ _ _ _ H6).
  cbn [ret flow world].
  apply bind_Next in H as ([[text color] targets] & H7 & H).
  exists p, text, color. split; [reflexivity|]. rewrite H7.
  apply bind_Next in H as ([[text' color'] args] & _ & H).
  apply bind_Next in H as (at1 & _ & H).
  revert H. unfold self_area. rewrite !bind_read.
  destruct (ms_non_int_pres_only _ _ _) as [at3 nonint_pre].
  rewrite !bind_read.
  destruct (ms_shouts _ _ _ _) as [[at4 button] ding].
  intros H. apply bind_Next in H as (msg & _ & H).
  apply ret_Next in H. now subst l.
Qed.

(** The evidence step emits, at most, the evidence list to the area. *)
Lemma ms_evidence_emitted (evidence : Z) (w : World Ext) (ev : Event) :
  In ev (emitted (ms_evidence E me evidence w)) ->
  exists a, ev = EvBroadcastEvidence a.
Proof.
  unfold ms_evidence. run.
  destruct (evi_list_contains E me evidence w); cbn [negb];
    [|intros []].
  destruct (evidence =? 0); cbn [negb]; [intros []|].
  run. destruct (evi_list_get E me evidence w) as [e|k] eqn:Hget; run;
    [intros []|].
  destruct (evidence_pos E _ (k - 1) w) as [e|p]; run; [intros []|].
  destruct (PyStr.eqb p (lit "all")); cbn [negb]; run; [intros []|].
  rewrite Hget. run. cbn. intros [<- | []]. eexists. reflexivity.
Qed.

(** Everything that delivery sends to an area, to other areas or to the
    owners is the [send_args] of the message. *)
Lemma ms_deliver_emitted (l : Loc.t) (w : World Ext) (ev : Event) :
  In ev (emitted (ms_deliver E me l w)) ->
  (exists a, ev = EvBroadcastEvidence a)
  \/ (exists s, ev = EvSendOOC me s)
  \/ (exists a s, ev = EvOwnerSend a (lit "MS") s)
  \/ (exists evi cp partner,
        ev = EvRemoteSend (Loc.target_area l) (lit "MS")
               (ms_send_args l evi cp partner))
  \/ (exists evi cp partner,
        ev = EvAreaSend (area (client_of w me)) (lit "MS")
               (ms_send_args l evi cp partner)).
Proof.
  unfold ms_deliver. intros H.
  apply bind_emitted in H as [H | (evidence & Hev & H)].
  { left. exact (ms_evidence_emitted (Loc.evidence l) w ev H). }
  destruct (ms_evidence_spec E me (Loc.evidence l) w)
    as [[e He] | (ev' & x & evs & He)]; [congruence|].
  rewrite He in H, Hev. cbn [world flow] in H, Hev.
  revert H. run. fold (paired me l (with_ext x w)).
  rewrite (area_of_paired me l (with_ext x w)).
  cbn [with_ext client_of].
  match goal with
  | |- context [afkers_contains E ?a ?c ?w'] =>
      destruct (afkers_contains E a c w')
  end; run.
  all: match goal with
       | |- context [value_or_raise ?r] => destruct r as [e|evi]
       end; run; [intros []|].
  all: rewrite ?client_of_with_ext, ?area_of_with_ext.
  all: match goal with
       | |- context [is_recording E ?a ?w'] => destruct (is_recording E a w')
       end; run.
  all: match goal with
       | |- context [is_testifying E ?a ?w'] =>
           destruct (is_testifying E a w')
       end; run.
  all: try match goal with
       | |- context [testimony_add_statement E ?a ?sa ?w'] =>
           destruct (fst (testimony_add_statement E a sa w'))
       end; run.
  all: cbn [emitted ret negb]; run; cbn [emitted ret In].
  all: intros H; repeat destruct H as [H | H]; destruct H.
  all: rewrite ?(area_of_paired me l (with_ext x w));
    cbn [with_ext client_of].
  all: try (right; right; right; right; eexists _, _, _; reflexivity).
  all: try (right; right; right; left; eexists _, _, _; reflexivity).
  all: try (right; right; left; eexists _, _; reflexivity).
  all: try (right; left; eexists; reflexivity).
Qed.

(** What the handler sends to an area is the [send_args] of a message that
    passed the checks. *)
Lemma net_cmd_ms_relays (args0 : list str) (w : World Ext) (ev : Event) :
  In ev (emitted (net_cmd_ms E me args0 w)) ->
  (exists s, ev = EvSendOOC me s)
  \/ exists l w1,
       flow (ms_prepare E me args0 w) = Next l
       /\ frame me w w1
       /\ In ev (emitted (ms_deliver E me l w1)).
Proof.
  unfold net_cmd_ms. intros H.
  apply bind_emitted in H as [H | (l & Hl & H)].
  { left. exact (quiet_emitted me _ _ w ev (quiet_ms_prepare E me args0) H). }
  apply bind_emitted in H as [H | (u & Hu & H)].
  { left. exact (quiet_emitted me _ _ _ ev
                   (quiet_ms_spam_guard me (Loc.msg l) (Loc.cid l)) H). }
  right. exists l. eexists. split; [exact Hl|]. split; [|exact H].
  eapply frame_trans.
  - exact (proj1 (quiet_ms_prepare E me args0 w)).
  - exact (proj1 (quiet_ms_spam_guard me (Loc.msg l) (Loc.cid l) _)).
Qed.

End MsRelayed.

(** X15: every IC message that the handler relays to an area is well
    formed.  It goes to the sender's own area as an [MS] command of thirty
    fields; the sender has a character, and the character id of the message
    is the sender's own; the message type is [chat] or [0] to [5], the
    animation type one of 0, 1, 2, 5, 6, the sound delay is not negative,
    the ding 0 or 1, the colour 0 to 8, and the showname has at most 15
    characters. *)
Theorem X15_a_relayed_ic_message_is_well_formed :
  forall (Ext : Type) (E : Env Ext) (me : nat) (args0 : list str)
         (w : World Ext) (a : nat) (cmd : str) (sa : list pyval),
    In (EvAreaSend a cmd sa) (emitted (net_cmd_ms E me args0 w)) ->
    let c := client_of w me in
    a = area c /\ cmd = lit "MS" /\ List.length sa = 30%nat
    /\ char_id c <> -1
    /\ nth_error sa 8 = Some (PInt (char_id c))
    /\ (exists msg_type,
          nth_error sa 0 = Some (PStr msg_type)
          /\ In msg_type [lit "chat"; lit "0"; lit "1"; lit "2"; lit "3";
                          lit "4"; lit "5"])
    /\ (exists anim_type,
          nth_error sa 7 = Some (PInt anim_type)
          /\ In anim_type [0; 1; 2; 5; 6])
    /\ (exists sfx_delay,
          nth_error sa 9 = Some (PInt sfx_delay) /\ 0 <= sfx_delay)
    /\ (exists ding, nth_error sa 13 = Some (PInt ding) /\ In ding [0; 1])
    /\ (exists color,
          nth_error sa 14 = Some (PInt color)
          /\ In color [0; 1; 2; 3; 4; 5; 6; 7; 8])
    /\ (exists showname,
          nth_error sa 15 = Some (PStr showname) /\ len showname <= 15).
Proof.
  intros Ext E me args0 w a cmd sa Hin. cbv zeta.
  apply net_cmd_ms_relays in Hin as [[s Hs] | (l & w1 & Hl & Hf & Hin)];
    [discriminate|].
  apply ms_deliver_emitted in Hin
    as [[? H] | [[? H] | [(? & ? & H) | [(? & ? & ? & H)
                                        | (evi & cp & partner & H)]]]];
    try discriminate.
  inversion H; subst.
  destruct (frame_client me w w1 Hf) as (_ & Ha & _).
  destruct (ms_prepare_fields E me args0 w l Hl)
    as (Kchar & Kmt & Kat & Kcid & Ksfx & _ & Kding & Kcol & Ksn & _).
  split; [exact Ha|]. split; [reflexivity|]. split; [reflexivity|].
  split; [exact Kchar|]. rewrite <- Kcid. split; [reflexivity|].
  split.
  { eexists. split; [reflexivity|].
    unfold in_strs in Kmt. apply existsb_exists in Kmt as (y & Hy & Heq).
    apply PyStrFacts.eqb_eq in Heq. now subst. }
  repeat split; eexists; (split; [reflexivity|assumption]).
Qed.

(** What Phoenix says in the courtroom goes out under his character. *)
Lemma X15_a_relayed_ic_message_is_well_formed_witness :
  nth_error (Demo.last_sent (Demo.after_saying "Hello")) 8
  = Some (PInt (char_id Demo.phoenix))
  /\ List.length (Demo.last_sent (Demo.after_saying "Hello")) = 30%nat.
Proof.
  assert (Hin : In (EvAreaSend 0%nat (lit "MS")
                      (Demo.last_sent (Demo.after_saying "Hello")))
                  (emitted (net_cmd_ms Demo.env 0%nat
                              (Demo.ic "chat" "Hello" "New") Demo.w0))).
  { vm_compute. left. reflexivity. }
  destruct (X15_a_relayed_ic_message_is_well_formed unit Demo.env 0%nat
              (Demo.ic "chat" "Hello" "New") Demo.w0 0%nat (lit "MS")
              (Demo.last_sent (Demo.after_saying "Hello")) Hin)
    as (_ & _ & Hlen & _ & Hcid & _).
  split; [exact Hcid | exact Hlen].
Defined.

(** X16: the restrictions of the area are applied to what is relayed.  In
    an area that does not allow shouts the relayed message has button 0
    and ding 0 and its animation type is none of the objection types; in an
    area that allows non-interrupting preanimations only, its animation
    type is 0 or 5. *)
Theorem X16_a_relayed_ic_message_obeys_the_area :
  forall (Ext : Type) (E : Env Ext) (me : nat) (args0 : list str)
         (w : World Ext) (a : nat) (cmd : str) (sa : list pyval),
    In (EvAreaSend a cmd sa) (emitted (net_cmd_ms E me args0 w)) ->
    let room := area_of w (area (client_of w me)) in
    (shouts_allowed room = false ->
     nth_error sa 10 = Some (PInt 0)
     /\ nth_error sa 13 = Some (PInt 0)
     /\ exists anim_type,
          nth_error sa 7 = Some (PInt anim_type) /\ In anim_type [0; 1; 5])
    /\ (non_int_pres_only room = true ->
        exists anim_type,
          nth_error sa 7 = Some (PInt anim_type) /\ In anim_type [0; 5]).
Proof.
  intros Ext E me args0 w a cmd sa Hin. cbv zeta.
  apply net_cmd_ms_relays in Hin as [[s Hs] | (l & w1 & Hl & Hf & Hin)];
    [discriminate|].
  apply ms_deliver_emitted in Hin
    as [[? H] | [[? H] | [(? & ? & H) | [(? & ? & ? & H)
                                        | (evi & cp & partner & H)]]]];
    try discriminate.
  inversion H; subst.
  destruct (ms_prepare_fields E me args0 w l Hl)
    as (_ & _ & _ & _ & _ & _ & _ & _ & _ & Kshouts & Kforced & _).
  split.
  - intros Hs. destruct (Kshouts Hs) as (Hb & Hd & Hat).
    cbn [ms_send_args nth_error]. rewrite Hb, Hd.
    repeat split. now eexists.
  - intros Hf'. eexists. split; [reflexivity|]. now apply Kforced.
Qed.

(** Maya, in the lobby, sends an objection with a ding and an interrupting
    preanimation: the lobby allows neither. *)
Lemma X16_a_relayed_ic_message_obeys_the_area_witness :
  let o := net_cmd_ms Town.env 5%nat (Town.ic "Maya" "3" "2" "Hello there")
             Town.w0 in
  nth_error (Town.relayed o) 10 = Some (PInt 0)
  /\ nth_error (Town.relayed o) 13 = Some (PInt 0)
  /\ exists anim_type,
       nth_error (Town.relayed o) 7 = Some (PInt anim_type)
       /\ In anim_type [0; 5].
Proof.
  intros o.
  assert (Hin : In (EvAreaSend 1%nat (lit "MS") (Town.relayed o))
                  (emitted o)).
  { vm_compute. left. reflexivity. }
  destruct (X16_a_relayed_ic_message_obeys_the_area unit Town.env 5%nat
              (Town.ic "Maya" "3" "2" "Hello there") Town.w0 1%nat (lit "MS")
              (Town.relayed o) Hin) as [Hshouts Hpres].
  destruct (Hshouts eq_refl) as (H10 & H13 & _).
  split; [exact H10|]. split; [exact H13|]. exact (Hpres eq_refl).
Defined.

(** X17: the text that is relayed.  For a sender who is neither shaken nor
    disemvowelled, the text of a relayed IC message is the first 256
    characters of the dezalgoed text of a message that is not longer than
    the server's [max_chars]; so it has at most 256 characters. *)
Theorem X17_the_relayed_text_is_cleaned_and_cut :
  forall (Ext : Type) (E : Env Ext) (me : nat) (args0 : list str)
         (w : World Ext) (a : nat) (cmd : str) (sa : list pyval),
    In (EvAreaSend a cmd sa) (emitted (net_cmd_ms E me args0 w)) ->
    shaken (client_of w me) = false ->
    disemvowel (client_of w me) = false ->
    exists text msg,
      nth_error sa 4 = Some (PStr msg)
      /\ msg = take 256 (dezalgo E text)
      /\ len text <= max_char E
      /\ len msg <= 256.
Proof.
  intros Ext E me args0 w a cmd sa Hin Hs Hd.
  apply net_cmd_ms_relays in Hin as [[s Hs'] | (l & w1 & Hl & Hf & Hin)];
    [discriminate|].
  apply ms_deliver_emitted in Hin
    as [[? H] | [[? H] | [(? & ? & H) | [(? & ? & ? & H)
                                        | (evi & cp & partner & H)]]]];
    try discriminate.
  inversion H; subst.
  destruct (ms_prepare_fields E me args0 w l Hl)
    as (_ & _ & _ & _ & _ & _ & _ & _ & _ & _ & _ & Klen & Kmsg & _).
  exists (Loc.text l), (Loc.msg l). repeat split.
  - now apply Kmsg.
  - exact Klen.
  - rewrite (Kmsg Hs Hd). unfold len, take.
    pose proof (firstn_le_length 256 (dezalgo E (Loc.text l))). lia.
Qed.

Lemma X17_the_relayed_text_is_cleaned_and_cut_witness :
  exists text msg,
    nth_error (Demo.last_sent (Demo.after_saying "Hello")) 4
    = Some (PStr msg)
    /\ msg = take 256 (dezalgo Demo.env text)
    /\ len text <= max_char Demo.env
    /\ len msg <= 256.
Proof.
  assert (Hin : In (EvAreaSend 0%nat (lit "MS")
                      (Demo.last_sent (Demo.after_saying "Hello")))
                  (emitted (net_cmd_ms Demo.env 0%nat
                              (Demo.ic "chat" "Hello" "New") Demo.w0))).
  { vm_compute. left. reflexivity. }
  exact (X17_the_relayed_text_is_cleaned_and_cut unit Demo.env 0%nat
           (Demo.ic "chat" "Hello" "New") Demo.w0 0%nat (lit "MS")
           (Demo.last_sent (Demo.after_saying "Hello")) Hin eq_refl eq_refl).
Defined.

(** X18: an IC message goes to other areas only if the sender owns them.
    When the handler relays a message to other areas, the message has
    passed the checks of lines 407-507; the target areas are the list that
    the prefix of its text ([/a] or [/s], lines 508-531) gave in the world
    that those checks left, and in that very world every one of them is an
    area that the area manager gives as owned by the sender. *)
Theorem X18_remote_areas_are_owned_by_the_sender :
  forall (Ext : Type) (E : Env Ext) (me : nat) (args0 : list str)
         (w : World Ext) (targets : list Z) (cmd : str) (sa : list pyval),
    In (EvRemoteSend targets cmd sa) (emitted (net_cmd_ms E me args0 w)) ->
    let w1 := world (ms_before_commands E me args0 w) in
    exists p text color,
      flow (ms_before_commands E me args0 w) = Next p
      /\ flow (ms_commands E me (Loc.text p) (Loc.color p) w1)
         = Next (text, color, targets)
      /\ Forall (owned_target E me w1) targets.
Proof.
  intros Ext E me args0 w targets cmd sa Hin. cbv zeta.
  apply net_cmd_ms_relays in Hin as [[s Hs'] | (l & w1 & Hl & Hf & Hin)];
    [discriminate|].
  apply ms_deliver_emitted in Hin
    as [[? H] | [[? H] | [(? & ? & H) | [(evi & cp & partner & H)
                                        | (? & ? & ? & H)]]]];
    try discriminate.
  inversion H; subst.
  destruct (ms_prepare_commands E me args0 w l Hl)
    as (p & text & color & Hp & Hcmd).
  exists p, text, color. split; [exact Hp|]. split; [exact Hcmd|].
  exact (ms_commands_targets E me _ _ _ _ _ _ Hcmd).
Qed.

(** Edgeworth, owner of the courtroom and of the lobby, speaks to both. *)
Lemma X18_remote_areas_are_owned_by_the_sender_witness :
  flow (ms_commands Town.env 1%nat (lit "/s Court is adjourned") 0
          (world (ms_before_commands Town.env 1%nat
                    (Town.ic "Edgeworth" "2" "0" "/s Court is adjourned")
                    Town.w0)))
  = Next (lit "Court is adjourned", 0, [0; 1])
  /\ Forall (owned_target Town.env 1%nat
               (world (ms_before_commands Town.env 1%nat
                         (Town.ic "Edgeworth" "2" "0" "/s Court is adjourned")
                         Town.w0)))
       [0; 1].
Proof.
  assert (Hin : exists sa,
            In (EvRemoteSend [0; 1] (lit "MS") sa)
              (emitted (net_cmd_ms Town.env 1%nat
                          (Town.ic "Edgeworth" "2" "0" "/s Court is adjourned")
                          Town.w0))).
  { vm_compute. eexists. right. left. reflexivity. }
  destruct Hin as [sa Hin].
  destruct (X18_remote_areas_are_owned_by_the_sender unit Town.env 1%nat
              (Town.ic "Edgeworth" "2" "0" "/s Court is adjourned") Town.w0
              [0; 1] (lit "MS") sa Hin)
    as (p & text & color & _ & _ & Hown).
  split; [reflexivity|exact Hown].
Defined.

(** ** The handshake and the OOC message, once more *)

(** X19: the handshake authenticates exactly the identities for which no
    ban is found.  A client that is not yet authenticated and sends one
    non-empty hdid has the hdid stored, banned or not; it is authenticated
    afterwards exactly when the database finds no ban, and then the
    connect is logged and it is sent [ID] with its id, the software and the
    version, followed by [PN] with the player count and the limit. *)
Theorem X19_the_handshake_authenticates_unless_banned :
  forall (Ext : Type) (E : Env Ext) (me : nat) (h : str) (w : World Ext),
    is_checked (client_of w me) = false ->
    h <> [] ->
    let c := client_of w me in
    let w1 := set_client me (set_hdid h) w in
    let w2 := with_ext (add_hdid E (ipid c) h w1) w1 in
    let w3 := set_client me (set_is_checked true) w2 in
    let o := net_cmd_hi E me [h] w in
    hdid (client_of (world o) me) = h
    /\ (is_checked (client_of (world o) me) = true
        <-> find_ban E (ipid c) h w2 = None)
    /\ (find_ban E (ipid c) h w2 = None ->
        o = mkOut (Next tt) (with_ext (log_connect E me false w3) w3)
              [EvSendCommand me (lit "ID")
                 [PInt (id c); PStr (software E); PStr (version E)];
               EvSendCommand me (lit "PN")
                 [PInt (player_count E
                          (with_ext (log_connect E me false w3) w3));
                  playerlimit E]]).
Proof.
  intros Ext E me h w Hc Hh c w1 w2 w3 o.
  assert (Hrun : o =
            match find_ban E (ipid c) h w2 with
            | Some ban =>
                match unban_date ban with
                | None => mkOut (Raise AttributeError) w2 []
                | Some d =>
                    mkOut Return (with_ext (log_connect E me true w2) w2)
                      [EvSendCommand me (lit "BD")
                         [PStr (ban_message ban (humanize E d w2))];
                       EvDisconnect me]
                end
            | None =>
                mkOut (Next tt) (with_ext (log_connect E me false w3) w3)
                  [EvSendCommand me (lit "ID")
                     [PInt (id c); PStr (software E); PStr (version E)];
                   EvSendCommand me (lit "PN")
                     [PInt (player_count E
                              (with_ext (log_connect E me false w3) w3));
                      playerlimit E]]
            end).
  { unfold o, net_cmd_hi, self_client. rewrite bind_read.
    rewrite Hc. cbn [map].
    rewrite (validate_one_str E _ h Hh). cbn [fst snd negb].
    run_args. fold w1. fold c. fold w2.
    destruct (find_ban E (ipid c) h w2) as [ban|].
    - destruct (unban_date ban) as [d|]; run_args; reflexivity.
    - run_args. fold w3. reflexivity. }
  assert (H2 : hdid (client_of w2 me) = h
               /\ is_checked (client_of w2 me) = false).
  { unfold w2, w1, with_ext, set_client, upd. cbn.
    rewrite Nat.eqb_refl. cbn. split; [reflexivity|exact Hc]. }
  assert (H3 : hdid (client_of w3 me) = h
               /\ is_checked (client_of w3 me) = true).
  { unfold w3, set_client, upd. cbn [client_of].
    rewrite Nat.eqb_refl. cbn. split; [apply H2|reflexivity]. }
  rewrite Hrun.
  destruct (find_ban E (ipid c) h w2) as [ban|].
  - destruct (unban_date ban); cbn [world with_ext client_of];
      (split; [apply H2|]);
      (split; [|discriminate]);
      (split; [intros H; destruct H2 as [_ H2]; congruence|discriminate]).
  - cbn [world with_ext client_of]. split; [apply H3|].
    split; [|reflexivity]. split; [reflexivity|]. intros _. apply H3.
Qed.

(** A newcomer that no ban matches is let in. *)
Lemma X19_the_handshake_authenticates_unless_banned_witness :
  is_checked (client_of (world (net_cmd_hi Demo.env 5%nat [lit "abc"]
                                  Demo.w0)) 5%nat) = true
  /\ emitted (net_cmd_hi Demo.env 5%nat [lit "abc"] Demo.w0)
     = [EvSendCommand 5%nat (lit "ID")
          [PInt 0; PStr (lit "tsuserver"); PStr (lit "3.0")];
        EvSendCommand 5%nat (lit "PN") [PInt 3; PInt 100]].
Proof.
  destruct (X19_the_handshake_authenticates_unless_banned unit Demo.env
              5%nat (lit "abc") Demo.w0 eq_refl ltac:(discriminate))
    as (_ & Hiff & Hrun).
  split; [now apply Hiff|]. now rewrite (Hrun eq_refl).
Defined.

(** X20: a new OOC name that is not valid is kept as the fake name only,
    and the chat goes out under the name the client had.  For an
    authenticated client that is not OOC-muted nor shaken nor
    disemvowelled, whose name passes the name checks, and a plain message
    within the length limit: when the given name is new and
    [is_valid_name] refuses it, the area and its owners receive the
    dezalgoed message under the old name, the old name is still the
    client's name, and the given name is its fake name. *)
Theorem X20_an_invalid_ooc_name_is_not_taken :
  forall (Ext : Type) (E : Env Ext) (me : nat) (given message : str)
         (w : World Ext),
    let c := client_of w me in
    is_checked c = true ->
    is_ooc_muted c = false ->
    shaken c = false ->
    disemvowel c = false ->
    given <> [] ->
    message <> [] ->
    name c <> given ->
    fake_name c <> given ->
    fst (is_valid_name E me given w) = false ->
    name c <> [] ->
    len (name c) <= 30 ->
    existsb (is_format_char E) (name c) = false ->
    startswith (name c) (hostname E) || startswith (name c) (lit "<dollar>G")
    || startswith (name c) (lit "<dollar>M") = false ->
    len message <= max_char E ->
    startswith message (lit " /") = false ->
    startswith message (lit "/") = false ->
    let w1 := set_client me (set_fake_name given)
                (with_ext (snd (is_valid_name E me given w)) w) in
    let text := dezalgo E message in
    net_cmd_ct E me [given; message] w
    = mkOut (Next tt)
        (with_ext (log_room E (lit "ooc") me (area c) (Some text) w1) w1)
        [EvAreaSend (area c) (lit "CT") [PStr (name c); PStr text];
         EvOwnerSend (area c) (lit "CT")
           [PStr (lit "[" ++ abbreviation (area_of w (area c)) ++ lit "]"
                  ++ name c);
            PStr text]]
    /\ name (client_of w1 me) = name c
    /\ fake_name (client_of w1 me) = given.
Proof.
  intros Ext E me given message w c Hc Hm Hsh Hdv Hg Hmsg Hn Hfn Hvalid
    Hne Hlen Hcf Hres Hmax Hsp Hsl w1 text.
  assert (Hw1 : client_of w1 me = set_fake_name given c).
  { unfold w1, set_client, upd, with_ext. cbn [client_of].
    now rewrite Nat.eqb_refl. }
  split; [|rewrite Hw1; split; reflexivity].
  unfold c in Hc, Hm.
  unfold net_cmd_ct, self_client. rewrite bind_read.
  rewrite Hc, Hm. cbn [negb map].
  rewrite (validate_two_str E _ given message Hg Hmsg). cbn [fst snd negb].
  run_args. unfold ct_resolve_name. run. fold c.
  apply PyStrFacts.eqb_neq in Hn, Hfn. rewrite Hn, Hfn. cbn [negb andb].
  run. rewrite Hvalid. run. fold w1.
  unfold ct_check_name. run. rewrite Hw1. cbn [name set_fake_name].
  apply PyStrFacts.eqb_neq in Hne. rewrite Hne.
  apply Z.ltb_ge in Hlen. rewrite Hlen, Hcf, Hres. run.
  unfold ct_message. apply Z.ltb_ge in Hmax. rewrite Hmax, Hsp, Hsl.
  unfold ct_chat, mangle. run. rewrite Hw1.
  cbn [shaken disemvowel name area set_fake_name]. rewrite Hsh. run.
  rewrite Hw1. cbn [shaken disemvowel name area set_fake_name].
  rewrite Hdv. run. rewrite Hw1. cbn [name area set_fake_name].
  unfold w1 at 1. cbn [set_client area_of with_ext]. reflexivity.
Qed.

(** Phoenix, known as [nick], gives the name that Edgeworth bears. *)
Lemma X20_an_invalid_ooc_name_is_not_taken_witness :
  let o := net_cmd_ct Town.base 0%nat [lit "miles"; lit "Hello"] Town.w0 in
  emitted o
  = [EvAreaSend 0%nat (lit "CT") [PStr (lit "nick"); PStr (lit "Hello")];
     EvOwnerSend 0%nat (lit "CT") [PStr (lit "[CR]nick"); PStr (lit "Hello")]]
  /\ name (client_of (world o) 0%nat) = lit "nick"
  /\ fake_name (client_of (world o) 0%nat) = lit "miles".
Proof.
  intros o.
  destruct (X20_an_invalid_ooc_name_is_not_taken unit Town.base 0%nat
              (lit "miles") (lit "Hello") Town.w0
              eq_refl eq_refl eq_refl eq_refl
              ltac:(discriminate) ltac:(discriminate)
              ltac:(discriminate) ltac:(discriminate)
              eq_refl ltac:(discriminate) ltac:(vm_compute; discriminate)
              eq_refl eq_refl ltac:(vm_compute; discriminate)
              eq_refl eq_refl)
    as (Hrun & _ & _).
  unfold o. rewrite Hrun. vm_compute. repeat split.
Defined.

(** ** The other handlers *)

Section PrivateFacts.

Context {Ext : Type} (me : nat).

Lemma private_intro (A : Type) (m : M Ext A) :
  (forall w, (exists x, world (m w) = with_ext x w)
             /\ Forall (to_sender me) (emitted (m w))) ->
  private me m.
Proof.
  intros H w. destruct (H w) as [[x Hx] He]. rewrite Hx.
  repeat split; try reflexivity. exact He.
Qed.

Lemma private_silent (A : Type) (m : M Ext A) : silent m -> private me m.
Proof.
  intros H. apply private_intro. intros w. destruct (H w) as [Hx He].
  split; [exact Hx|]. rewrite He. constructor.
Qed.

Lemma private_bind (A B : Type) (m : M Ext A) (k : A -> M Ext B) :
  private me m -> (forall a, private me (k a)) -> private me (bind m k).
Proof.
  intros Hm Hk w. unfold bind. destruct (Hm w) as (Hc & Ha & He).
  destruct (flow (m w)) as [a| |e]; cbn [world emitted];
    try (repeat split; assumption).
  destruct (Hk a (world (m w))) as (Hc' & Ha' & He').
  repeat split.
  - intros c Hne. rewrite Hc', Hc; auto.
  - intros a'. rewrite Ha', Ha. reflexivity.
  - apply Forall_app. now split.
Qed.

Lemma private_emit (ev : Event) :
  to_sender me ev -> private me (emit (Ext := Ext) ev).
Proof.
  intros H w. cbn. repeat split; try reflexivity.
  constructor; [exact H|constructor].
Qed.

Lemma private_modify (f : Client -> Client) :
  private me (modify (Ext := Ext) (set_client me f)).
Proof.
  intros w. unfold modify, set_client, upd. cbn [world client_of area_of
    emitted]. repeat split; [|constructor].
  intros c Hne. apply Nat.eqb_neq in Hne. now rewrite Hne.
Qed.

Lemma private_try_except (A : Type) (m : M Ext A) (e : Exn) (h : M Ext A) :
  private me m -> private me h -> private me (try_except m e h).
Proof.
  intros Hm Hh w. unfold try_except. cbv zeta.
  destruct (Hm w) as (Hc & Ha & He).
  destruct (flow (m w)) as [a| |e']; try (repeat split; assumption).
  destruct (Exn_eqb e' e); [|repeat split; assumption].
  cbn [world emitted].
  destruct (Hh (world (m w))) as (Hc' & Ha' & He').
  repeat split.
  - intros c Hne. rewrite Hc', Hc; auto.
  - intros a'. rewrite Ha', Ha. reflexivity.
  - apply Forall_app. now split.
Qed.

Lemma private_call_or_raise (f : World Ext -> Exn + Ext) :
  private me (call_or_raise f).
Proof.
  apply private_intro. intros w. unfold call_or_raise.
  destruct (f w) as [e|x]; cbn [world emitted].
  - split; [exists (ext w); symmetry; apply world_eta|constructor].
  - split; [now exists x|constructor].
Qed.

End PrivateFacts.

(** Blocks built from operations that concern the sender only. *)
Ltac private_tac :=
  repeat first
    [ apply private_modify
    | apply private_call_or_raise
    | apply private_emit; reflexivity
    | apply private_silent;
      first [ apply silent_ret | apply silent_return_ | apply silent_raise
            | apply silent_read | apply silent_call | apply silent_call_
            | apply silent_lookup_or_raise | apply silent_value_or_raise ]
    | apply private_try_except
    | apply private_bind; [|intros]
    | match goal with
      | |- private _ (if ?b then _ else _) => destruct b
      | |- private _ (match ?x with _ => _ end) => destruct x
      end ].

Section PrivateHandlers.

Context {Ext : Type} (E : Env Ext) (Srv : Server Ext) (me : nat).

Lemma private_net_cmd_hi (args : list str) : private me (net_cmd_hi E me args).
Proof.
  unfold net_cmd_hi, self_client, send_command, disconnect, item, as_str.
  private_tac.
Qed.

Lemma private_net_cmd_id (args : list str) :
  private me (net_cmd_id Srv me args).
Proof. unfold net_cmd_id, arg, send_command. private_tac. Qed.

Lemma private_net_cmd_ch (args : list str) :
  private me (net_cmd_ch Srv me args).
Proof. unfold net_cmd_ch, send_command. private_tac. Qed.

Lemma private_net_cmd_askchaa (args : list str) :
  private me (net_cmd_askchaa Srv me args).
Proof. unfold net_cmd_askchaa, send_command. private_tac. Qed.

Lemma private_page (pages : list (list str)) (i : Z) :
  private me (page (Ext := Ext) pages i).
Proof. unfold page. private_tac. Qed.

Lemma private_net_cmd_askchar2 (args : list str) :
  private me (net_cmd_askchar2 Srv me args).
Proof.
  unfold net_cmd_askchar2, send_command.
  apply private_bind; [private_tac|intros pages].
  apply private_bind; [apply private_page|intros p]. private_tac.
Qed.

Lemma private_send_done_area_list_motd :
  private me (send_done_area_list_motd Srv me).
Proof. unfold send_done_area_list_motd. private_tac. Qed.

Lemma private_net_cmd_an (args : list str) :
  private me (net_cmd_an E Srv me args).
Proof.
  unfold net_cmd_an, self_client, send_command, item.
  apply private_bind; [private_tac|intros c].
  destruct (negb _); [private_tac|].
  apply private_bind; [private_tac|intros a0].
  apply private_bind; [private_tac|intros n].
  apply private_bind; [private_tac|intros pages].
  destruct (_ && _).
  - apply private_bind; [private_tac|intros pages'].
    apply private_bind; [apply private_page|intros p]. private_tac.
  - apply private_bind; [private_tac|intros pages'].
    apply private_bind; [apply private_page|intros p]. private_tac.
Qed.

Lemma private_net_cmd_am (args : list str) :
  private me (net_cmd_am E Srv me args).
Proof.
  unfold net_cmd_am, self_client, send_command, item.
  apply private_bind; [private_tac|intros c].
  destruct (negb _); [private_tac|].
  apply private_bind; [private_tac|intros a0].
  apply private_bind; [private_tac|intros n].
  apply private_bind; [private_tac|intros pages].
  destruct (_ && _).
  - apply private_bind; [private_tac|intros pages'].
    apply private_bind; [apply private_page|intros p]. private_tac.
  - apply private_send_done_area_list_motd.
Qed.

Lemma private_net_cmd_rc (args : list str) :
  private me (net_cmd_rc Srv me args).
Proof. unfold net_cmd_rc, send_command. private_tac. Qed.

Lemma private_net_cmd_rm (args : list str) :
  private me (net_cmd_rm E Srv me args).
Proof. unfold net_cmd_rm, self_area, send_command. private_tac. Qed.

Lemma private_net_cmd_rd (args : list str) :
  private me (net_cmd_rd Srv me args).
Proof. apply private_send_done_area_list_motd. Qed.

Lemma private_set_casing_flag (name : string) (i : nat) (args : list str) :
  private me (set_casing_flag Srv me name i args).
Proof. unfold set_casing_flag, arg. private_tac. Qed.

Lemma private_net_cmd_setcase (args : list str) :
  private me (net_cmd_setcase Srv me args).
Proof.
  unfold net_cmd_setcase, arg.
  apply private_bind; [private_tac|intros a0].
  apply private_bind; [private_tac|intros _].
  repeat (apply private_bind; [apply private_set_casing_flag|intros _]).
  apply private_set_casing_flag.
Qed.

Lemma private_net_cmd_ae (args : list str) :
  private me (net_cmd_ae (Ext := Ext) me args).
Proof. unfold net_cmd_ae. private_tac. Qed.

(** Before the handshake, the handlers that ask for it do nothing. *)
Lemma unchecked_noop (w : World Ext) :
  is_checked (client_of w me) = false ->
  (forall args, net_cmd_ms E me args w = mkOut Return w [])
  /\ (forall args, net_cmd_ct E me args w = mkOut Return w [])
  /\ (forall args, net_cmd_pe E me args w = mkOut Return w [])
  /\ (forall args, net_cmd_de E me args w = mkOut Return w [])
  /\ (forall args, net_cmd_ee E me args w = mkOut Return w [])
  /\ (forall args, net_cmd_mc E Srv me args w = mkOut Return w [])
  /\ (forall args, net_cmd_rt E Srv me args w = mkOut Return w [])
  /\ (forall args, net_cmd_casea E Srv me args w = mkOut Return w [])
  /\ (forall args, net_cmd_hp E Srv me args w = mkOut Return w [])
  /\ (forall args, net_cmd_zz E Srv me args w = mkOut Return w [])
  /\ (forall args, net_cmd_cc E Srv me args w = mkOut Return w []).
Proof.
  intros Hc. repeat split; intros args.
  - unfold net_cmd_ms, ms_prepare, ms_preconditions. run. now rewrite Hc.
  - unfold net_cmd_ct. run. now rewrite Hc.
  - unfold net_cmd_pe. run. now rewrite Hc.
  - unfold net_cmd_de. run. now rewrite Hc.
  - unfold net_cmd_ee. run. now rewrite Hc.
  - unfold net_cmd_mc. run. now rewrite Hc.
  - unfold net_cmd_rt. run. now rewrite Hc.
  - unfold net_cmd_casea. run. now rewrite Hc.
  - unfold net_cmd_hp. run. now rewrite Hc.
  - unfold net_cmd_zz. run. now rewrite Hc.
  - unfold net_cmd_cc. run. rewrite Hc.
    destruct (fst _); reflexivity.
Qed.

End PrivateHandlers.

Section WholeTable.

Context {Ext : Type} (E : Env Ext) (Srv : Server Ext).

(** The table of [complete]: every entry is a handler of this file. *)
Lemma complete_table :
  net_cmd_dispatcher (complete E Srv)
  = [ (lit "HI", net_cmd_hi (complete E Srv));
      (lit "ID", net_cmd_id Srv);
      (lit "CH", net_cmd_ch Srv);
      (lit "askchaa", net_cmd_askchaa Srv);
      (lit "askchar2", net_cmd_askchar2 Srv);
      (lit "AN", net_cmd_an E Srv);
      (lit "AE", net_cmd_ae (Ext := Ext));
      (lit "AM", net_cmd_am E Srv);
      (lit "RC", net_cmd_rc Srv);
      (lit "RM", net_cmd_rm E Srv);
      (lit "RD", net_cmd_rd Srv);
      (lit "CC", net_cmd_cc E Srv);
      (lit "MS", net_cmd_ms (complete E Srv));
      (lit "CT", net_cmd_ct (complete E Srv));
      (lit "MC", net_cmd_mc E Srv);
      (lit "RT", net_cmd_rt E Srv);
      (lit "SETCASE", net_cmd_setcase Srv);
      (lit "CASEA", net_cmd_casea E Srv);
      (lit "HP", net_cmd_hp E Srv);
      (lit "PE", net_cmd_pe (complete E Srv));
      (lit "DE", net_cmd_de (complete E Srv));
      (lit "EE", net_cmd_ee (complete E Srv));
      (lit "ZZ", net_cmd_zz E Srv);
      (lit "opKICK", net_cmd_opKICK (complete E Srv));
      (lit "opBAN", net_cmd_opBAN (complete E Srv)) ].
Proof. reflexivity. Qed.

Lemma private_net_cmd_op (me : nat) (w : World Ext) (fake cmd : str)
    (args : list str) :
  is_checked (client_of w me) = false ->
  let o := bind (lookup_or_raise IndexError (nth_error args 0))
             (fun a0 => invoke (net_cmd_ct (complete E Srv) me
                                  [fake; cmd ++ a0])) w in
  world o = w /\ emitted o = [].
Proof.
  intros Hc. cbv zeta. destruct (nth_error args 0) as [a0|];
    cbn [lookup_or_raise]; [|now rewrite bind_raise].
  rewrite bind_ret. unfold invoke.
  destruct (unchecked_noop (complete E Srv) Srv me w Hc)
    as (_ & Hct & _).
  rewrite Hct. split; reflexivity.
Qed.

End WholeTable.

(** X21: before the handshake no command reaches anybody else.  Whatever
    command of the dispatch table a client that is not authenticated
    sends, and whatever its arguments, the records of the other clients
    and of all areas are left as they are and everything that is emitted is
    addressed to the sender; what may change besides the sender's own
    record is the state of the collaborators, such as the character list
    that [RC] escapes in place.  The commands that ask for authentication
    ([MS], [CT], [MC], [RT], [CASEA], [HP], [PE], [DE], [EE], [ZZ], [CC])
    do nothing at all. *)
Theorem X21_before_the_handshake_a_command_concerns_its_sender_only :
  forall (Ext : Type) (E : Env Ext) (Srv : Server Ext) (me : nat)
         (cmd : str) (h : Handler Ext) (args : list str) (w : World Ext),
    dispatcher_get (complete E Srv) cmd = Some h ->
    is_checked (client_of w me) = false ->
    let o := h me args w in
    (forall c, c <> me -> client_of (world o) c = client_of w c)
    /\ (forall a, area_of (world o) a = area_of w a)
    /\ Forall (to_sender me) (emitted o)
    /\ (In cmd [lit "MS"; lit "CT"; lit "MC"; lit "RT"; lit "CASEA";
                lit "HP"; lit "PE"; lit "DE"; lit "EE"; lit "ZZ"; lit "CC"]
        -> o = mkOut Return w []).
Proof.
  intros Ext E Srv me cmd h args w Hget Hc. cbv zeta.
  destruct (unchecked_noop (complete E Srv) Srv me w Hc)
    as (Hms & Hct & Hpe & Hde & Hee & _).
  destruct (unchecked_noop E Srv me w Hc)
    as (_ & _ & _ & _ & _ & Hmc & Hrt & Hcasea & Hhp & Hzz & Hcc).
  assert (Hnoop : forall o : Out Ext unit,
            o = mkOut Return w [] ->
            (forall c, c <> me -> client_of (world o) c = client_of w c)
            /\ (forall a, area_of (world o) a = area_of w a)
            /\ Forall (to_sender me) (emitted o)
            /\ (In cmd [lit "MS"; lit "CT"; lit "MC"; lit "RT"; lit "CASEA";
                        lit "HP"; lit "PE"; lit "DE"; lit "EE"; lit "ZZ";
                        lit "CC"] -> o = mkOut Return w [])).
  { intros o ->. repeat split. constructor. }
  assert (Hpriv : forall (name : str) (m : M Ext unit),
            cmd = name ->
            ~ In name [lit "MS"; lit "CT"; lit "MC"; lit "RT"; lit "CASEA";
                       lit "HP"; lit "PE"; lit "DE"; lit "EE"; lit "ZZ";
                       lit "CC"] ->
            private me m ->
            (forall c, c <> me -> client_of (world (m w)) c = client_of w c)
            /\ (forall a, area_of (world (m w)) a = area_of w a)
            /\ Forall (to_sender me) (emitted (m w))
            /\ (In cmd [lit "MS"; lit "CT"; lit "MC"; lit "RT"; lit "CASEA";
                        lit "HP"; lit "PE"; lit "DE"; lit "EE"; lit "ZZ";
                        lit "CC"] -> m w = mkOut Return w [])).
  { intros name m -> Hnot Hm. destruct (Hm w) as (H1 & H2 & H3).
    repeat split; try assumption. intros Hin. contradiction. }
  assert (Hnot : forall name : str,
            existsb (PyStr.eqb name)
              [lit "MS"; lit "CT"; lit "MC"; lit "RT"; lit "CASEA";
               lit "HP"; lit "PE"; lit "DE"; lit "EE"; lit "ZZ"; lit "CC"]
            = false ->
            ~ In name [lit "MS"; lit "CT"; lit "MC"; lit "RT"; lit "CASEA";
                       lit "HP"; lit "PE"; lit "DE"; lit "EE"; lit "ZZ";
                       lit "CC"]).
  { intros name Hex Hin.
    assert (Htrue : existsb (PyStr.eqb name)
              [lit "MS"; lit "CT"; lit "MC"; lit "RT"; lit "CASEA";
               lit "HP"; lit "PE"; lit "DE"; lit "EE"; lit "ZZ"; lit "CC"]
            = true).
    { apply existsb_exists. exists name. split; [exact Hin|].
      apply PyStrFacts.eqb_refl. }
    congruence. }
  unfold dispatcher_get in Hget. rewrite complete_table in Hget.
  cbn [find fst snd] in Hget.
  repeat match type of Hget with
  | context [PyStr.eqb ?x cmd] =>
      let Heq := fresh "Heq" in
      destruct (PyStr.eqb x cmd) eqn:Heq;
        [ apply PyStrFacts.eqb_eq in Heq; symmetry in Heq;
          cbn [option_map snd] in Hget; inversion Hget; subst h;
          clear Hget
        | ]
  end; try discriminate.
  (* HI *)
  - apply (Hpriv _ _ Heq); [apply Hnot; reflexivity|].
    apply private_net_cmd_hi.
  - apply (Hpriv _ _ Heq0); [apply Hnot; reflexivity|].
    apply private_net_cmd_id.
  - apply (Hpriv _ _ Heq1); [apply Hnot; reflexivity|].
    apply private_net_cmd_ch.
  - apply (Hpriv _ _ Heq2); [apply Hnot; reflexivity|].
    apply private_net_cmd_askchaa.
  - apply (Hpriv _ _ Heq3); [apply Hnot; reflexivity|].
    apply private_net_cmd_askchar2.
  - apply (Hpriv _ _ Heq4); [apply Hnot; reflexivity|].
    apply private_net_cmd_an.
  - apply (Hpriv _ _ Heq5); [apply Hnot; reflexivity|].
    apply private_net_cmd_ae.
  - apply (Hpriv _ _ Heq6); [apply Hnot; reflexivity|].
    apply private_net_cmd_am.
  - apply (Hpriv _ _ Heq7); [apply Hnot; reflexivity|].
    apply private_net_cmd_rc.
  - apply (Hpriv _ _ Heq8); [apply Hnot; reflexivity|].
    apply private_net_cmd_rm.
  - apply (Hpriv _ _ Heq9); [apply Hnot; reflexivity|].
    apply private_net_cmd_rd.
  - apply Hnoop, Hcc.
  - apply Hnoop, Hms.
  - apply Hnoop, Hct.
  - apply Hnoop, Hmc.
  - apply Hnoop, Hrt.
  - apply (Hpriv _ _ Heq15); [apply Hnot; reflexivity|].
    apply private_net_cmd_setcase.
  - apply Hnoop, Hcasea.
  - apply Hnoop, Hhp.
  - apply Hnoop, Hpe.
  - apply Hnoop, Hde.
  - apply Hnoop, Hee.
  - apply Hnoop, Hzz.
  - destruct (private_net_cmd_op E Srv me w (lit "opkick") (lit "/kick ")
                args Hc) as [Hw He].
    unfold net_cmd_opKICK. cbv zeta in Hw, He. rewrite Hw, He.
    repeat split; [constructor|].
    rewrite Heq22. intros Hin. exfalso. revert Hin. apply Hnot. reflexivity.
  - destruct (private_net_cmd_op E Srv me w (lit "opban") (lit "/ban ")
                args Hc) as [Hw He].
    unfold net_cmd_opBAN. cbv zeta in Hw, He. rewrite Hw, He.
    repeat split; [constructor|].
    rewrite Heq23. intros Hin. exfalso. revert Hin. apply Hnot. reflexivity.
Qed.

(** A newcomer asks for the music list in the town: the answer is for the
    newcomer alone. *)
Lemma X21_before_the_handshake_a_command_concerns_its_sender_only_witness :
  Forall (to_sender 3%nat)
    (emitted (net_cmd_rm Town.base (Town.server true) 3%nat [] Town.w0))
  /\ emitted (net_cmd_rm Town.base (Town.server true) 3%nat [] Town.w0)
     = [EvSendCommand 3%nat (lit "SM")
          [PStr (lit "Courtroom"); PStr (lit "Lobby");
           PStr (lit "Trial.mp3"); PStr (lit "Pursuit.mp3")]].
Proof.
  split; [|reflexivity].
  exact (proj1 (proj2 (proj2
    (X21_before_the_handshake_a_command_concerns_its_sender_only unit
       Town.base (Town.server true) 3%nat (lit "RM")
       (net_cmd_rm Town.base (Town.server true)) [] Town.w0 eq_refl
       eq_refl)))).
Defined.

Section Guards.

Context {Ext : Type} (E : Env Ext) (Srv : Server Ext) (me : nat).

Lemma dropped_return (w : World Ext) :
  dropped me (return_ (Ext := Ext) (A := unit)) w.
Proof.
  repeat split; [exists (ext w); symmetry; apply world_eta|now left].
Qed.

(** A spectator passes no validation that asks for a character. *)
Lemma mc_validate_spectator (c : Client) (args : list pyval) :
  char_id c = -1 -> fst (mc_validate E c args) = false.
Proof.
  intros Hc. unfold mc_validate.
  repeat (rewrite (validate_needs_character E _ _ _ Hc); cbn [fst snd]).
  reflexivity.
Qed.

End Guards.

(** X22: a muted client is turned away with the notice and nothing else.
    For an authenticated client whose IC mute is set, the penalty command
    [HP], the moderator call [ZZ] and the music path of [MC] send the
    notice of the mute to the sender and end with the world unchanged; so
    does the testimony command [RT], unless the area forbids shouts, in
    which case the notice is the one about the testimony buttons. *)
Theorem X22_a_muted_client_is_turned_away :
  forall (Ext : Type) (E : Env Ext) (Srv : Server Ext) (me : nat)
         (args : list str) (w : World Ext),
    is_checked (client_of w me) = true ->
    is_muted (client_of w me) = true ->
    let muted := EvSendOOC me (lit "You are muted by a moderator.") in
    net_cmd_hp E Srv me args w = mkOut Return w [muted]
    /\ net_cmd_zz E Srv me args w = mkOut Return w [muted]
    /\ mc_music E Srv me args w = mkOut Return w [muted]
    /\ net_cmd_rt E Srv me args w
       = mkOut Return w
           [if shouts_allowed (area_of w (area (client_of w me)))
            then muted
            else EvSendOOC me
                   (lit "You cannot use the testimony buttons here!")].
Proof.
  intros Ext E Srv me args w Hc Hm. cbv zeta. repeat split.
  - unfold net_cmd_hp. run. rewrite Hc, Hm. reflexivity.
  - unfold net_cmd_zz. run. rewrite Hc, Hm. reflexivity.
  - unfold mc_music. run. rewrite Hm. reflexivity.
  - unfold net_cmd_rt. run. rewrite Hc. cbn [negb]. run.
    destruct (shouts_allowed _); cbn [negb]; [|reflexivity].
    rewrite Hm. reflexivity.
Qed.

(** Larry, muted in the lobby, calls a moderator. *)
Lemma X22_a_muted_client_is_turned_away_witness :
  net_cmd_zz Town.base (Town.server true) 6%nat [lit "help"] Town.w0
  = mkOut Return Town.w0
      [EvSendOOC 6%nat (lit "You are muted by a moderator.")].
Proof.
  exact (proj1 (proj2
    (X22_a_muted_client_is_turned_away unit Town.base (Town.server true)
       6%nat [lit "help"] Town.w0 eq_refl eq_refl))).
Defined.

(** X23: a spectator is dropped.  The commands of an authenticated client
    without a character ([char_id] -1) to use the testimony buttons, to
    change the penalty bars, to play music or to call a moderator end by
    [return]: nothing changes but the state of the collaborators that were
    asked for permission, and the sender gets one notice at most. *)
Theorem X23_a_spectator_is_dropped :
  forall (Ext : Type) (E : Env Ext) (Srv : Server Ext) (me : nat)
         (args : list str) (w : World Ext),
    is_checked (client_of w me) = true ->
    char_id (client_of w me) = -1 ->
    dropped me (net_cmd_rt E Srv me args) w
    /\ dropped me (net_cmd_hp E Srv me args) w
    /\ dropped me (mc_music E Srv me args) w
    /\ dropped me (net_cmd_zz E Srv me args) w.
Proof.
  intros Ext E Srv me args w Hc Hs.
  assert (Hintro : forall m : M Ext unit,
            (exists x evs,
               m w = mkOut Return (with_ext x w) evs
               /\ (evs = [] \/ exists s, evs = [EvSendOOC me s])) ->
            dropped me m w).
  { intros m (x & evs & Hm & Hevs). unfold dropped. rewrite Hm.
    repeat split; [now exists x|exact Hevs]. }
  assert (Hw : with_ext (ext w) w = w) by apply world_eta.
  split; [|split; [|split]]; apply Hintro.
  - (* RT *)
    unfold net_cmd_rt. run. rewrite Hc. cbn [negb]. run.
    destruct (shouts_allowed _); cbn [negb];
      [|exists (ext w); rewrite Hw; eexists; split;
        [reflexivity|right; now eexists]].
    destruct (is_muted _);
      [exists (ext w); rewrite Hw; eexists; split;
       [reflexivity|right; now eexists]|].
    run. destruct (can_wtce Srv me w); cbn [negb];
      [|exists (ext w); rewrite Hw; eexists; split;
        [reflexivity|right; now eexists]].
    run. destruct (fst (cannot_ic_interact Srv _ me w));
      [eexists _, _; split; [reflexivity|right; now eexists]|].
    repeat (rewrite (validate_needs_character E _ _ _ Hs);
            cbn [fst snd negb]).
    eexists _, _; split; [reflexivity|now left].
  - (* HP *)
    unfold net_cmd_hp. run. rewrite Hc. cbn [negb].
    destruct (is_muted _);
      [exists (ext w); rewrite Hw; eexists; split;
       [reflexivity|right; now eexists]|].
    run. destruct (fst (cannot_ic_interact Srv _ me w));
      [eexists _, _; split; [reflexivity|right; now eexists]|].
    run. rewrite (validate_needs_character E _ _ _ Hs). cbn [fst snd negb].
    eexists _, _; split; [reflexivity|now left].
  - (* MC *)
    unfold mc_music. run.
    destruct (is_muted _);
      [exists (ext w); rewrite Hw; eexists; split;
       [reflexivity|right; now eexists]|].
    run. destruct (is_dj Srv me w); cbn [negb];
      [|exists (ext w); rewrite Hw; eexists; split;
        [reflexivity|right; now eexists]].
    run. destruct (fst (cannot_ic_interact Srv _ me w));
      [eexists _, _; split; [reflexivity|right; now eexists]|].
    run. rewrite (mc_validate_spectator E _ _ Hs). cbn [negb].
    eexists _, _; split; [reflexivity|now left].
  - (* ZZ *)
    unfold net_cmd_zz. run. rewrite Hc. cbn [negb].
    destruct (is_muted _);
      [exists (ext w); rewrite Hw; eexists; split;
       [reflexivity|right; now eexists]|].
    rewrite Hs. cbn [Z.eqb].
    exists (ext w); rewrite Hw; eexists; split;
      [reflexivity|right; now eexists].
Qed.

(** The spectator of the courtroom presses a testimony button. *)
Lemma X23_a_spectator_is_dropped_witness :
  net_cmd_rt Town.base (Town.server true) 2%nat [lit "testimony1"] Town.w0
  = mkOut Return Town.w0 []
  /\ dropped 2%nat
       (net_cmd_rt Town.base (Town.server true) 2%nat [lit "testimony1"])
       Town.w0.
Proof.
  split; [reflexivity|].
  exact (proj1
    (X23_a_spectator_is_dropped unit Town.base (Town.server true) 2%nat
       [lit "testimony1"] Town.w0 eq_refl eq_refl)).
Defined.

(** X24: what the testimony command sends to an area.  Whatever
    [net_cmd_rt] sends to an area is an [RT] command for the sender's own
    area, from an authenticated, unmuted client that has a character and
    may use the judge signs, in an area that allows shouts; it carries one
    of the three known signs, alone or followed by the integer that the
    second argument denotes. *)
Theorem X24_what_the_testimony_command_relays :
  forall (Ext : Type) (E : Env Ext) (Srv : Server Ext) (me : nat)
         (args0 : list str) (w : World Ext) (a : nat) (cmd : str)
         (sa : list pyval),
    In (EvAreaSend a cmd sa) (emitted (net_cmd_rt E Srv me args0 w)) ->
    let c := client_of w me in
    a = area c /\ cmd = lit "RT"
    /\ is_checked c = true /\ is_muted c = false /\ char_id c <> -1
    /\ shouts_allowed (area_of w (area c)) = true
    /\ can_wtce Srv me w = true
    /\ exists sign,
         In sign [lit "testimony1"; lit "testimony2"; lit "judgeruling"]
         /\ ((args0 = [sign] /\ sa = [PStr sign])
             \/ exists n k,
                  args0 = [sign; n] /\ int_of_str E n = Some k
                  /\ sa = [PStr sign; PInt k]).
Proof.
  intros Ext E Srv me args0 w a cmd sa. cbv zeta.
  unfold net_cmd_rt. run.
  destruct (is_checked (client_of w me)) eqn:Hc; cbn [negb]; [|intros []].
  run.
  destruct (shouts_allowed _) eqn:Hsh; cbn [negb];
    [|intros [H | []]; discriminate].
  destruct (is_muted (client_of w me)) eqn:Hm;
    [intros [H | []]; discriminate|].
  run. destruct (can_wtce Srv me w) eqn:Hw; cbn [negb];
    [|intros [H | []]; discriminate].
  run. destruct (fst (cannot_ic_interact Srv _ me w));
    [intros [H | []]; discriminate|].
  assert (Hsign : forall s sign,
            rt_sign s = Some sign ->
            In s [lit "testimony1"; lit "testimony2"; lit "judgeruling"]).
  { intros s sign. unfold rt_sign.
    destruct (PyStr.eqb s (lit "testimony1")) eqn:H1;
      [apply PyStrFacts.eqb_eq in H1; subst; intros _; now left|].
    destruct (PyStr.eqb s (lit "testimony2")) eqn:H2;
      [apply PyStrFacts.eqb_eq in H2; subst; intros _; right; now left|].
    destruct (PyStr.eqb s (lit "judgeruling")) eqn:H3;
      [apply PyStrFacts.eqb_eq in H3; subst; intros _; right; right;
       now left|].
    discriminate. }
  unfold validate_net_cmd.
  destruct (char_id (client_of w me) =? -1) eqn:Hchar;
    cbn [andb fst snd negb]; [intros []|].
  apply Z.eqb_neq in Hchar.
  destruct args0 as [|s [|n [|x rest]]]; cbn [map List.length Nat.eqb negb
    fst snd]; try (intros []).
  - (* one argument *)
    cbn [validate_args ArgType_eqb ArgType_value enum_value_eqb Z.eqb
         Pos.eqb negb andb py_str].
    rewrite andb_true_r.
    destruct (len s =? 0); cbn [fst snd negb List.length Nat.eqb];
      [intros []|].
    run_args. cbn [py_str].
    destruct (rt_sign s) as [sign|] eqn:Hrt; [|intros []].
    run. destruct (fst (fst (wtce_mute Srv me _))); run;
      [intros [H | []]; discriminate|].
    cbn [List.length Nat.eqb]. run. cbn [emitted ret].
    intros [H | []]. inversion H; subst.
    repeat split; try assumption.
    exists s. split; [now apply (Hsign s sign)|]. now left.
  - (* two arguments *)
    cbn [validate_args ArgType_eqb ArgType_value enum_value_eqb Z.eqb
         Pos.eqb negb andb py_str py_int].
    rewrite !andb_true_r.
    destruct (len s =? 0); cbn [fst snd negb List.length Nat.eqb];
      [intros []|].
    destruct (len n =? 0); cbn [fst snd negb List.length Nat.eqb];
      [intros []|].
    destruct (int_of_str E n) as [k|] eqn:Hk;
      cbn [fst snd negb List.length Nat.eqb]; [|intros []].
    run_args. cbn [py_str].
    destruct (rt_sign s) as [sign|] eqn:Hrt; [|intros []].
    run. destruct (fst (fst (wtce_mute Srv me _))); run;
      [intros [H | []]; discriminate|].
    cbn [List.length Nat.eqb]. run_args. cbn [emitted ret].
    intros [H | []]. inversion H; subst.
    repeat split; try assumption.
    exists s. split; [now apply (Hsign s sign)|].
    right. now exists n, k.
Qed.

(** Phoenix opens a cross-examination in the courtroom. *)
Lemma X24_what_the_testimony_command_relays_witness :
  emitted (net_cmd_rt Town.base (Town.server true) 0%nat
             [lit "testimony2"; lit "1"] Town.w0)
  = [EvAreaSend 0%nat (lit "RT") [PStr (lit "testimony2"); PInt 1]]
  /\ can_wtce (Town.server true) 0%nat Town.w0 = true.
Proof.
  split; [reflexivity|].
  exact (proj1 (proj2 (proj2 (proj2 (proj2 (proj2 (proj2
    (X24_what_the_testimony_command_relays unit Town.base (Town.server true)
       0%nat [lit "testimony2"; lit "1"] Town.w0 0%nat (lit "RT")
       [PStr (lit "testimony2"); PInt 1]
       (or_introl eq_refl))))))))).
Defined.

(** ** The case announcement and the pages *)

Section CaseFacts.

Context {Ext : Type} (E : Env Ext) (Srv : Server Ext).

Lemma none_is_1_five (title a1 a2 a3 a4 a5 : str) (rest : list str)
    (w : World Ext) :
  none_is_1 (title :: a1 :: a2 :: a3 :: a4 :: a5 :: rest)
    [1; 2; 3; 4; 5]%nat w
  = mkOut
      (Next (negb (existsb (fun a => PyStr.eqb a (lit "1"))
                     [a1; a2; a3; a4; a5])))
      w [].
Proof.
  cbn [none_is_1 existsb]. unfold arg. cbn [nth_error lookup_or_raise].
  run.
  destruct (PyStr.eqb a1 (lit "1")); [reflexivity|]. run.
  destruct (PyStr.eqb a2 (lit "1")); [reflexivity|]. run.
  destruct (PyStr.eqb a3 (lit "1")); [reflexivity|]. run.
  destruct (PyStr.eqb a4 (lit "1")); [reflexivity|]. run.
  destruct (PyStr.eqb a5 (lit "1")); reflexivity.
Qed.

Lemma flagged_In (l : list str) :
  existsb (fun a => PyStr.eqb a (lit "1")) l = true <-> In (lit "1") l.
Proof.
  rewrite existsb_exists. split.
  - intros (a & Hin & Ha). apply PyStrFacts.eqb_eq in Ha. now subst.
  - intros Hin. exists (lit "1"). split; [exact Hin|].
    now apply PyStrFacts.eqb_eq.
Qed.

End CaseFacts.

(** X25: the case announcement.  For an authenticated client with at
    least six arguments: who is not an owner of the area gets a notice and
    nothing is announced; an owner who may call a case and flags none of
    the five roles gets the notice that asks for one; when a role is
    flagged, the announcement is sent to everybody with the default
    predicate, the delay is set and the case is logged.  The roles named
    are the labels defense, prosecutor, judge, juror, stenographer at the
    places where the arguments 1 to 5 are ["1"], so that at least one is
    named; the arguments after the sixth are not looked at. *)
Theorem X25_the_case_announcement_names_the_flagged_roles :
  forall (Ext : Type) (E : Env Ext) (Srv : Server Ext) (me : nat)
         (title a1 a2 a3 a4 a5 : str) (rest : list str) (w : World Ext),
    let c := client_of w me in
    let args := title :: a1 :: a2 :: a3 :: a4 :: a5 :: rest in
    is_checked c = true ->
    (owners_contains E (area c) me w = false ->
     net_cmd_casea E Srv me args w
     = mkOut (Next tt) w
         [EvSendOOC me
            (lit "You cannot announce a case in an area where you are not a CM!")])
    /\ (owners_contains E (area c) me w = true ->
        fst (can_call_case Srv me w) = true ->
        let w1 := with_ext (snd (can_call_case Srv me w)) w in
        (~ In (lit "1") [a1; a2; a3; a4; a5] ->
         net_cmd_casea E Srv me args w
         = mkOut Return w1
             [EvSendOOC me
                (lit "You should probably announce the case to at least one person.")])
        /\ (In (lit "1") [a1; a2; a3; a4; a5] ->
            let msg :=
              (lit "=== Case Announcement ===" ++ crlf ++ char_name c
               ++ lit " [" ++ of_Z (id c) ++ lit "] is hosting " ++ title
               ++ lit ", looking for ")
              ++ join (lit ", ") (lookingfor args)
              ++ lit "." ++ crlf ++ lit "==================" in
            let w2 :=
              with_ext (send_all_cmd_pred Srv (lit "CASEA")
                          [PStr msg; PStr a1; PStr a2; PStr a3; PStr a4;
                           PStr a5; PStr (lit "1")] pred_default w1) w1 in
            let w3 := with_ext (set_case_call_delay Srv me w2) w2 in
            let log_data :=
              zip [lit "message"; lit "def"; lit "pro"; lit "jud";
                   lit "jur"; lit "steno"] args in
            lookingfor args <> []
            /\ lookingfor args
               = map fst
                   (filter (fun pq => PyStr.eqb (snd pq) (lit "1"))
                      [(lit "defense", a1); (lit "prosecutor", a2);
                       (lit "judge", a3); (lit "juror", a4);
                       (lit "stenographer", a5)])
            /\ net_cmd_casea E Srv me args w
               = mkOut (Next tt)
                   (with_ext (log_room_case Srv me (area c) log_data w3) w3)
                   [])).
Proof.
  intros Ext E Srv me title a1 a2 a3 a4 a5 rest w c args Hc.
  unfold c in Hc. split.
  { intros Hown. unfold net_cmd_casea. run. rewrite Hc. cbn [negb]. run.
    fold c. rewrite Hown. reflexivity. }
  intros Hown Hcan w1.
  split.
  - intros Hnone. unfold net_cmd_casea. run. rewrite Hc. cbn [negb]. run.
    fold c. rewrite Hown. run. rewrite Hcan. cbn [negb]. fold w1.
    unfold bind at 1. unfold args. rewrite none_is_1_five.
    destruct (existsb (fun a => PyStr.eqb a (lit "1")) [a1; a2; a3; a4; a5])
      eqn:Hex; [apply flagged_In in Hex; contradiction|].
    cbn [negb flow world emitted app]. run. reflexivity.
  - intros Hsome msg w2 w3 log_data.
    assert (Hlf : lookingfor args
                  = map fst
                      (filter (fun pq => PyStr.eqb (snd pq) (lit "1"))
                         [(lit "defense", a1); (lit "prosecutor", a2);
                          (lit "judge", a3); (lit "juror", a4);
                          (lit "stenographer", a5)])).
    { unfold lookingfor, args. cbn [tl zip]. now destruct rest. }
    apply flagged_In in Hsome.
    split; [|split; [exact Hlf|]].
    + rewrite Hlf. cbn [existsb] in Hsome. cbn [filter snd].
      destruct (PyStr.eqb a1 (lit "1")); [discriminate|].
      destruct (PyStr.eqb a2 (lit "1")); [discriminate|].
      destruct (PyStr.eqb a3 (lit "1")); [discriminate|].
      destruct (PyStr.eqb a4 (lit "1")); [discriminate|].
      destruct (PyStr.eqb a5 (lit "1")); [discriminate|].
      discriminate.
    + unfold net_cmd_casea. run. rewrite Hc. cbn [negb]. run.
      fold c. rewrite Hown. run. rewrite Hcan. cbn [negb]. fold w1.
      unfold bind at 1. unfold args. rewrite !none_is_1_five, Hsome.
      cbn [negb flow world emitted app].
      unfold arg, args. cbn [nth_error lookup_or_raise]. run.
      reflexivity.
Qed.

(** Edgeworth, owner of the courtroom, looks for a judge. *)
Lemma X25_the_case_announcement_names_the_flagged_roles_witness :
  lookingfor [lit "Turnabout"; lit "0"; lit "0"; lit "1"; lit "0"; lit "0";
              lit "1"]
  = [lit "judge"]
  /\ flow (net_cmd_casea Town.base (Town.server true) 1%nat
             [lit "Turnabout"; lit "0"; lit "0"; lit "1"; lit "0"; lit "0";
              lit "1"] Town.w0)
     = Next tt.
Proof.
  destruct (X25_the_case_announcement_names_the_flagged_roles unit Town.base
              (Town.server true) 1%nat (lit "Turnabout") (lit "0") (lit "0")
              (lit "1") (lit "0") (lit "0") [lit "1"] Town.w0 eq_refl)
    as [_ Hown].
  destruct (Hown eq_refl eq_refl) as [_ Hsome].
  destruct (Hsome ltac:(cbn; tauto)) as (_ & Hlf & Hrun).
  split; [reflexivity|]. now rewrite Hrun.
Defined.

(** X26: the pages of the character and of the music list are given within
    bounds only.  For one numeral as argument: [AN] and [AM] answer with
    the page of that number when it is at least 0 and below the number of
    pages; otherwise, also for a negative number, which Python would count
    from the end of the list, [AN] answers with the first page of the music
    list, or raises [IndexError] when there is none, and [AM] ends the
    loading with [send_done], [send_area_list] and [send_motd]. *)
Theorem X26_pages_are_given_within_bounds :
  forall (Ext : Type) (E : Env Ext) (Srv : Server Ext) (me : nat) (s : str)
         (n : Z) (w : World Ext),
    s <> [] ->
    int_of_str E s = Some n ->
    let chars := char_pages_ao1 Srv w in
    let music := music_pages_ao1 Srv w in
    (forall p,
       0 <= n -> nth_error chars (Z.to_nat n) = Some p ->
       net_cmd_an E Srv me [s] w
       = mkOut (Next tt) w [EvSendCommand me (lit "CI") (map PStr p)])
    /\ (n < 0 \/ Z.of_nat (List.length chars) <= n ->
        net_cmd_an E Srv me [s] w
        = match music with
          | first :: _ =>
              mkOut (Next tt) w [EvSendCommand me (lit "EM") (map PStr first)]
          | [] => mkOut (Raise IndexError) w []
          end)
    /\ (forall p,
          0 <= n -> nth_error music (Z.to_nat n) = Some p ->
          net_cmd_am E Srv me [s] w
          = mkOut (Next tt) w [EvSendCommand me (lit "EM") (map PStr p)])
    /\ (n < 0 \/ Z.of_nat (List.length music) <= n ->
        let w1 := with_ext (send_done Srv me w) w in
        let w2 := with_ext (send_area_list Srv me w1) w1 in
        net_cmd_am E Srv me [s] w
        = mkOut (Next tt) (with_ext (send_motd Srv me w2) w2) []).
Proof.
  intros Ext E Srv me s n w Hs Hn chars music.
  assert (Hv : validate_net_cmd E (client_of w me) [PStr s] [INT] false
               = (true, [PInt n])).
  { unfold validate_net_cmd. cbn. rewrite (nonempty_len _ Hs), Hn.
    reflexivity. }
  assert (Hin : forall (pages : list (list str)) (p : list str),
            0 <= n -> nth_error pages (Z.to_nat n) = Some p ->
            (n <? Z.of_nat (List.length pages)) && (0 <=? n) = true
            /\ page (Ext := Ext) pages n w = mkOut (Next p) w []).
  { intros pages p H0 Hp.
    assert (Hlt : (Z.to_nat n < List.length pages)%nat)
      by (apply nth_error_Some; congruence).
    assert (Hlt' : n < Z.of_nat (List.length pages)) by lia.
    split.
    - apply andb_true_iff. split; [now apply Z.ltb_lt|now apply Z.leb_le].
    - unfold page. cbv zeta.
      destruct (n <? 0) eqn:Hneg; [apply Z.ltb_lt in Hneg; lia|].
      rewrite Hneg. cbn [orb].
      destruct (Z.of_nat (List.length pages) <=? n) eqn:Hge;
        [apply Z.leb_le in Hge; lia|].
      rewrite Hp. reflexivity. }
  assert (Hout : forall pages : list (list str),
            n < 0 \/ Z.of_nat (List.length pages) <= n ->
            (n <? Z.of_nat (List.length pages)) && (0 <=? n) = false).
  { intros pages [H | H]; apply andb_false_iff.
    - right. now apply Z.leb_gt.
    - left. now apply Z.ltb_ge. }
  repeat split.
  - intros p H0 Hp. destruct (Hin chars p H0 Hp) as [Hb Hpage].
    unfold net_cmd_an. run. cbn [map]. rewrite Hv. cbn [fst snd negb].
    run_args. fold chars. rewrite Hb. run. fold chars.
    unfold bind at 1. rewrite Hpage. reflexivity.
  - intros Hr. unfold net_cmd_an. run. cbn [map]. rewrite Hv.
    cbn [fst snd negb]. run_args. fold chars. rewrite (Hout chars Hr). run.
    fold music. unfold page. cbv zeta. cbn [Z.ltb Z.compare orb].
    destruct music as [|first others]; [reflexivity|].
    cbn [List.length]. rewrite Nat2Z.inj_succ.
    destruct (Z.succ (Z.of_nat (List.length others)) <=? 0) eqn:Hz;
      [apply Z.leb_le in Hz; lia|].
    reflexivity.
  - intros p H0 Hp. destruct (Hin music p H0 Hp) as [Hb Hpage].
    unfold net_cmd_am. run. cbn [map]. rewrite Hv. cbn [fst snd negb].
    run_args. fold music. rewrite Hb. run. fold music.
    unfold bind at 1. rewrite Hpage. reflexivity.
  - intros Hr. unfold net_cmd_am. run. cbn [map]. rewrite Hv.
    cbn [fst snd negb]. run_args. fold music. rewrite (Hout music Hr).
    unfold send_done_area_list_motd. run. reflexivity.
Qed.

(** In the town, page 1 of the character list exists, page 2 does not. *)
Lemma X26_pages_are_given_within_bounds_witness :
  net_cmd_an Town.base (Town.server true) 3%nat [lit "1"] Town.w0
  = mkOut (Next tt) Town.w0
      [EvSendCommand 3%nat (lit "CI") [PStr (lit "2&Maya&0&&&0&")]]
  /\ net_cmd_an Town.base (Town.server true) 3%nat [lit "-1"] Town.w0
     = mkOut (Next tt) Town.w0
         [EvSendCommand 3%nat (lit "EM")
            [PStr (lit "0&Trial.mp3"); PStr (lit "1&Pursuit.mp3")]].
Proof.
  split.
  - destruct (X26_pages_are_given_within_bounds unit Town.base
                (Town.server true) 3%nat (lit "1") 1 Town.w0
                ltac:(discriminate) eq_refl) as (Hin & _).
    exact (Hin [lit "2&Maya&0&&&0&"] ltac:(lia) eq_refl).
  - destruct (X26_pages_are_given_within_bounds unit Town.base
                (Town.server true) 3%nat (lit "-1") (-1) Town.w0
                ltac:(discriminate) eq_refl) as (_ & Hout & _).
    exact (Hout ltac:(left; lia)).
Defined.

(** ** Exceptions that are absorbed, and arguments that are missing *)

Section Absorbed.

Context {Ext : Type}.

Lemma Exn_eqb_same (e : Exn) : Exn_eqb e e = true.
Proof. now destruct e. Qed.

(** A handler that does not raise [e] makes the whole [try] free of it. *)
Lemma try_except_absorbs (A : Type) (m : M Ext A) (e : Exn) (h : M Ext A)
    (w : World Ext) :
  (forall w', flow (h w') <> Raise e) ->
  flow (try_except m e h w) <> Raise e.
Proof.
  intros Hh. unfold try_except.
  destruct (flow (m w)) as [a| |e'] eqn:Hm; cbv zeta;
    try (rewrite Hm; discriminate).
  destruct (Exn_eqb e' e) eqn:He; cbn [flow]; [apply Hh|].
  rewrite Hm. intros Heq. inversion Heq; subst.
  now rewrite Exn_eqb_same in He.
Qed.

Lemma short_list_misses (A : Type) (l : list A) (n : nat) :
  (List.length l <= n)%nat -> nth_error l n = None.
Proof. intros H. now apply nth_error_None. Qed.

End Absorbed.

(** X27: a refusal of the server is no error of the handler.  [CC] never
    raises [ClientError], [HP] never raises [AreaError], and the playing of
    a song never raises [ServerError]: each is caught.  A song that the
    server does not know, that is not ["~stop.mp3"] and no category, gives
    its sender the notice that names it, and nothing else happens. *)
Theorem X27_a_refusal_is_no_error_of_the_handler :
  forall (Ext : Type) (E : Env Ext) (Srv : Server Ext) (me : nat)
         (args0 : list str) (pargs : list pyval) (song : str)
         (w : World Ext),
    flow (net_cmd_cc E Srv me args0 w) <> Raise ClientError
    /\ flow (net_cmd_hp E Srv me args0 w) <> Raise AreaError
    /\ flow (mc_play E Srv me pargs w) <> Raise ServerError
    /\ (song <> lit "~stop.mp3" ->
        get_song_is_category Srv song w = false ->
        get_song_data Srv song w = inl ServerError ->
        mc_play E Srv me (PStr song :: pargs) w
        = mkOut (Next tt) w
            [EvSendOOC me
               (lit "Error: song " ++ song
                ++ lit " isn't recognized by server!")]).
Proof.
  intros Ext E Srv me args0 pargs song w.
  split; [|split; [|split]].
  - unfold net_cmd_cc. run.
    destruct (validate_net_cmd E (client_of w me) (map PStr args0)
                [INT; INT; STR] false) as [ok vargs].
    cbn [fst snd]. destruct ok; cbn [negb]; [|now cbn].
    destruct (is_checked (client_of w me)); cbn [negb]; [|now cbn].
    destruct (nth_error vargs 1) as [[s|n]|]; run; try (now cbn).
    apply try_except_absorbs. now cbn.
  - unfold net_cmd_hp. run.
    destruct (is_checked (client_of w me)); cbn [negb]; [|now cbn].
    destruct (is_muted (client_of w me)); run; [now cbn|].
    destruct (fst (cannot_ic_interact Srv (area (client_of w me)) me w));
      run; [now cbn|].
    match goal with
    | |- context [validate_net_cmd ?e ?c ?a ?s ?b] =>
        destruct (validate_net_cmd e c a s b) as [ok vargs]
    end.
    cbn [fst snd]. destruct ok; cbn [negb]; [|now cbn].
    apply try_except_absorbs. now cbn.
  - unfold mc_play. apply try_except_absorbs. intros w'. unfold item.
    destruct (nth_error pargs 0) as [a0|]; run; now cbn.
  - intros Hstop Hcat Hdata.
    assert (Hs : PyStr.eqb song (lit "~stop.mp3") = false)
      by now apply PyStrFacts.eqb_neq.
    unfold mc_play, try_except, mc_song. run_args. rewrite !Hs. run_args.
    rewrite !Hcat. run_args. rewrite !Hdata. run_args. reflexivity.
Qed.

(** In the town, a song that the server does not list. *)
Lemma X27_a_refusal_is_no_error_of_the_handler_witness :
  mc_play Town.base (Town.server true) 0%nat
    [PStr (lit "Lost.mp3"); PInt 0] Town.w0
  = mkOut (Next tt) Town.w0
      [EvSendOOC 0%nat (lit "Error: song Lost.mp3 isn't recognized by server!")].
Proof.
  destruct (X27_a_refusal_is_no_error_of_the_handler unit Town.base
              (Town.server true) 0%nat [] [PInt 0] (lit "Lost.mp3") Town.w0)
    as (_ & _ & _ & Hsong).
  exact (Hsong ltac:(discriminate) eq_refl eq_refl).
Defined.

(** X28: a command that comes with too few arguments raises [IndexError].
    [ID] needs two arguments and raises before anything is set or sent;
    [SETCASE] needs seven, sends nothing and changes no client and no
    area, though the preferences read before the missing one are set;
    [opKICK] and [opBAN] raise on an empty list before anything is
    done. *)
Theorem X28_missing_arguments_raise_IndexError :
  forall (Ext : Type) (E : Env Ext) (Srv : Server Ext) (me : nat)
         (args : list str) (w : World Ext),
    ((List.length args < 2)%nat ->
     net_cmd_id Srv me args w = mkOut (Raise IndexError) w [])
    /\ ((List.length args < 7)%nat ->
        flow (net_cmd_setcase Srv me args w) = Raise IndexError
        /\ emitted (net_cmd_setcase Srv me args w) = []
        /\ exists x, world (net_cmd_setcase Srv me args w) = with_ext x w)
    /\ (args = [] ->
        net_cmd_opKICK E me args w = mkOut (Raise IndexError) w []
        /\ net_cmd_opBAN E me args w = mkOut (Raise IndexError) w []).
Proof.
  intros Ext E Srv me args w. split; [|split].
  - intros Hlen. unfold net_cmd_id, arg.
    rewrite (short_list_misses _ args 1) by lia. reflexivity.
  - intros Hlen.
    assert (Hsilent : silent (net_cmd_setcase Srv me args)).
    { unfold net_cmd_setcase, set_casing_flag, arg. silent_tac. }
    destruct (Hsilent w) as [Hx He].
    split; [|split; [exact He|exact Hx]].
    unfold net_cmd_setcase, set_casing_flag, arg.
    do 7 (destruct args as [|? args]; [reflexivity|]).
    cbn [List.length] in Hlen. lia.
  - intros ->. split; reflexivity.
Qed.

(** In the town: [ID] with the software only, [SETCASE] with four
    arguments, and [opKICK] with none. *)
Lemma X28_missing_arguments_raise_IndexError_witness :
  net_cmd_id (Town.server true) 3%nat [lit "AO2"] Town.w0
  = mkOut (Raise IndexError) Town.w0 []
  /\ flow (net_cmd_setcase (Town.server true) 3%nat
             [lit "any"; lit "1"; lit "0"; lit "0"] Town.w0)
     = Raise IndexError
  /\ net_cmd_opKICK Town.base 0%nat [] Town.w0
     = mkOut (Raise IndexError) Town.w0 [].
Proof.
  split; [|split].
  - destruct (X28_missing_arguments_raise_IndexError unit Town.base
                (Town.server true) 3%nat [lit "AO2"] Town.w0) as [Hid _].
    apply Hid. cbn. lia.
  - destruct (X28_missing_arguments_raise_IndexError unit Town.base
                (Town.server true) 3%nat
                [lit "any"; lit "1"; lit "0"; lit "0"] Town.w0)
      as (_ & Hset & _).
    apply Hset. cbn. lia.
  - destruct (X28_missing_arguments_raise_IndexError unit Town.base
                (Town.server true) 0%nat [] Town.w0) as (_ & _ & Hop).
    exact (proj1 (Hop eq_refl)).
Defined.
